(** * PDF quality checker: analysis pipeline, print-quality checks and
      batch worker, embedded from [pdf_analyzer.py],
      [print_quality_checker.py] and [batch_processor.py].

    Conventions of the embedding.
    - Python [float] and [int] measurements are exact rationals ([Q]) and
      integers ([Z]); page numbers are [nat] (1-based, from [enumerate(_, 1)]).
    - A Python dict whose iteration order is observed is an association list
      in insertion order.
    - An exception is a value of [exn]; code that may raise returns [result].
    - Instance attributes that survive a call ([self.issues], [self.warnings],
      counters, queues) are threaded explicitly as state.
    - [message] and [suggestion] texts of a finding are presentation only and
      are left out of [Issue]; so are [print] and logger statements. *)

From Stdlib Require Import List String Ascii ZArith QArith Bool Lia Arith PeanoNat
  DecimalString Permutation Sorted.
Import ListNotations.
Open Scope string_scope.
Open Scope list_scope.

(** ** Python primitives used by the sources *)

Module Py.

(** [needle in hay] on [str] / [bytes]. *)
Fixpoint contains (needle hay : string) : bool :=
  if String.prefix needle hay then true
  else match hay with
       | EmptyString => false
       | String _ rest => contains needle rest
       end.

Definition lower_ascii (c : ascii) : ascii :=
  let n := nat_of_ascii c in
  if andb (65 <=? n)%nat (n <=? 90)%nat then ascii_of_nat (n + 32) else c.

(** [s.lower()] (cased letters outside ASCII do not occur in the needles
    that the sources look for). *)
Fixpoint lower (s : string) : string :=
  match s with
  | EmptyString => EmptyString
  | String c rest => String (lower_ascii c) (lower rest)
  end.

(** [s.upper()]. *)
Definition upper_ascii (c : ascii) : ascii :=
  let n := nat_of_ascii c in
  if andb (97 <=? n)%nat (n <=? 122)%nat then ascii_of_nat (n - 32) else c.

Fixpoint upper (s : string) : string :=
  match s with
  | EmptyString => EmptyString
  | String c rest => String (upper_ascii c) (upper rest)
  end.

Definition mem_nat (n : nat) (l : list nat) : bool := existsb (Nat.eqb n) l.

Definition mem_str (s : string) (l : list string) : bool :=
  existsb (String.eqb s) l.

Fixpoint insert_sorted (n : nat) (l : list nat) : list nat :=
  match l with
  | [] => [n]
  | m :: rest =>
      if (n <? m)%nat then n :: l
      else if (n =? m)%nat then l
      else m :: insert_sorted n rest
  end.

(** [sorted(list(set(l)))] on page numbers. *)
Definition sorted_set (l : list nat) : list nat :=
  fold_right insert_sorted [] l.

Definition Qltb (x y : Q) : bool := negb (Qle_bool y x).

(** [min(a, b)]: the first of the smallest arguments. *)
Definition min2 (a b : Q) : Q := if Qltb b a then b else a.

(** [min(iterable)] on a non-empty sequence given as head and tail. *)
Definition min_of (a : Q) (rest : list Q) : Q := fold_left min2 rest a.

(** [round(x)] with one argument: nearest integer, ties to even. *)
Definition round (q : Q) : Z :=
  let n := Qnum q in
  let d := Zpos (Qden q) in
  let fl := (n / d)%Z in
  let r2 := (2 * (n - fl * d))%Z in
  if (r2 <? d)%Z then fl
  else if (d <? r2)%Z then (fl + 1)%Z
  else if Z.even fl then fl else (fl + 1)%Z.

(** [d.get(key, default)] on a string-keyed dict. *)
Fixpoint get {A} (d : list (string * A)) (key : string) (default : A) : A :=
  match d with
  | [] => default
  | (k, v) :: rest => if String.eqb k key then v else get rest key default
  end.

(** Exceptions carry the name of their class and [str(e)]. *)
Record exn := { exn_type : string; exn_msg : string }.

Inductive result (A : Type) : Type :=
| Ok (a : A)
| Raise (e : exn).
Arguments Ok {A} a.
Arguments Raise {A} e.

Definition bind {A B} (r : result A) (k : A -> result B) : result B :=
  match r with
  | Ok a => k a
  | Raise e => Raise e
  end.

(** [seq[i]] on a short sequence raises [IndexError]. *)
Definition index {A} (l : list A) (i : nat) : result A :=
  match nth_error l i with
  | Some a => Ok a
  | None => Raise {| exn_type := "IndexError"; exn_msg := "index out of range" |}
  end.

(** [s[key]] on a [str] with a key that is a [str]: string indices must be
    integers. *)
Definition str_getitem (s key : string) : result string :=
  Raise {| exn_type := "TypeError"; exn_msg := "string indices must be integers" |}.

(** [str(n)] on a non-negative integer. *)
Definition str_nat (n : nat) : string := NilZero.string_of_uint (Nat.to_uint n).

(** [sorted(l, key=key)]: ascending by key, equal keys in their original
    order. *)
Fixpoint insert_by {A} (key : A -> nat) (x : A) (l : list A) : list A :=
  match l with
  | [] => [x]
  | y :: rest => if (key x <=? key y)%nat then x :: l else y :: insert_by key x rest
  end.

Definition sorted_by {A} (key : A -> nat) (l : list A) : list A :=
  fold_right (insert_by key) [] l.

(** [sorted(l, key=key, reverse=True)]: descending by key, equal keys in
    their original order. *)
Fixpoint insert_by_desc {A} (key : A -> nat) (x : A) (l : list A) : list A :=
  match l with
  | [] => [x]
  | y :: rest => if (key y <=? key x)%nat then x :: l else y :: insert_by_desc key x rest
  end.

Definition sorted_by_desc {A} (key : A -> nat) (l : list A) : list A :=
  fold_right (insert_by_desc key) [] l.

(** [l[-count:]]: a negative start counts from the end and stops at the
    beginning; [-0] is [0]. *)
Definition last_slice {A} (count : Z) (l : list A) : list A :=
  if (0 <? count)%Z then skipn (List.length l - Z.to_nat count) l
  else skipn (Z.to_nat (- count)) l.

End Py.

Notation "x <- c1 ;; c2" := (Py.bind c1 (fun x => c2))
  (at level 61, c1 at next level, right associativity).

(** ** Regular expressions on bytes, as far as [re.search] is used *)

Module Re.

Inductive re : Type :=
| Void
| Eps
| Sym (p : ascii -> bool)
| Cat (r1 r2 : re)
| Alt (r1 r2 : re)
| Star (r : re).

Fixpoint nullable (r : re) : bool :=
  match r with
  | Void => false
  | Eps => true
  | Sym _ => false
  | Cat a b => nullable a && nullable b
  | Alt a b => nullable a || nullable b
  | Star _ => true
  end.

Definition cat (a b : re) : re :=
  match a, b with
  | Void, _ => Void
  | _, Void => Void
  | Eps, _ => b
  | _, _ => Cat a b
  end.

Definition alt (a b : re) : re :=
  match a, b with
  | Void, _ => b
  | _, Void => a
  | _, _ => Alt a b
  end.

Fixpoint deriv (c : ascii) (r : re) : re :=
  match r with
  | Void => Void
  | Eps => Void
  | Sym p => if p c then Eps else Void
  | Cat a b =>
      if nullable a then alt (cat (deriv c a) b) (deriv c b)
      else cat (deriv c a) b
  | Alt a b => alt (deriv c a) (deriv c b)
  | Star a => cat (deriv c a) (Star a)
  end.

Fixpoint matches (r : re) (s : string) : bool :=
  match s with
  | EmptyString => nullable r
  | String c rest => matches (deriv c r) rest
  end.

Definition chr (c : ascii) : re := Sym (Ascii.eqb c).
Definition anybyte : re := Sym (fun _ => true).

(** [\s] of a bytes pattern: space, \t, \n, \r, \x0b, \x0c. *)
Definition is_space (c : ascii) : bool :=
  let n := nat_of_ascii c in
  orb (n =? 32)%nat (andb (9 <=? n)%nat (n <=? 13)%nat).
Definition space : re := Sym is_space.

(** [.] without DOTALL: any byte but the line feed. *)
Definition dot : re := Sym (fun c => negb (Ascii.eqb c "010"%char)).

Definition plus (r : re) : re := Cat r (Star r).

Fixpoint lit (s : string) : re :=
  match s with
  | EmptyString => Eps
  | String c rest => Cat (chr c) (lit rest)
  end.

(** The strings that a pattern matches as a whole. *)
Inductive Matches : re -> string -> Prop :=
| MEps : Matches Eps EmptyString
| MSym (p : ascii -> bool) (c : ascii) :
    p c = true -> Matches (Sym p) (String c EmptyString)
| MCat (r1 r2 : re) (s1 s2 : string) :
    Matches r1 s1 -> Matches r2 s2 -> Matches (Cat r1 r2) (s1 ++ s2)%string
| MAltL (r1 r2 : re) (s : string) : Matches r1 s -> Matches (Alt r1 r2) s
| MAltR (r1 r2 : re) (s : string) : Matches r2 s -> Matches (Alt r1 r2) s
| MStarNil (r : re) : Matches (Star r) EmptyString
| MStarApp (r : re) (s1 s2 : string) :
    Matches r s1 -> Matches (Star r) s2 -> Matches (Star r) (s1 ++ s2)%string.

(** [re.search(r, s)] is not [None]: some substring of [s] matches. *)
Definition search (r : re) (s : string) : bool :=
  matches (Cat (Star anybyte) (Cat r (Star anybyte))) s.

End Re.

(** ** The document as the decoding libraries expose it *)

Module Pdf.

(** A page box: a PDF array of numbers. *)
Definition Box := list Q.

(** One entry of [page.get_fonts()]:
    [(xref, ext, type, basename, name, encoding, ...)]; it always has the
    five fields that the extractor asks for. *)
Record FontData := {
  fd_xref : Z;
  fd_ext : string;
  fd_type : string;
  fd_basename : string;
  fd_name : string;
  fd_encoding : string
}.

(** One value of [page.Resources.Font]; [rf_descriptor] lists the keys of
    its [/FontDescriptor] when it has one. *)
Record ResFont := {
  rf_BaseFont : option string;
  rf_Subtype : option string;
  rf_descriptor : option (list string)
}.

(** One value of [page.Resources.ColorSpace]: a list of entries (already
    through [safe_str]) or anything else. *)
Inductive CsObj :=
| CsList (items : list string)
| CsOther.

(** One entry of [page.get_images()] together with the pixmap and the
    object of its xref: [im_w], [im_h] are [img[2]], [img[3]];
    [im_object] is the source text of the object, as
    [doc.xref_object(xref)] returns it. *)
Record Img := {
  im_xref : Z;
  im_w : Z;
  im_h : Z;
  pix_width : Z;
  pix_height : Z;
  pix_alpha : bool;
  pix_colorspace : option string;
  pix_samples_len : nat;
  im_object : string;
  im_stream_len : Z
}.

(** A value stored in an ExtGState dictionary. *)
Inductive GsVal :=
| GBool (b : bool)
| GInt (z : Z).

Record ExtGState := {
  gs_OP : option GsVal;
  gs_op : option GsVal;
  gs_OPM : option GsVal
}.

Record Page := {
  MediaBox : option Box;
  CropBox : option Box;
  BleedBox : option Box;
  TrimBox : option Box;
  ArtBox : option Box;
  Rotate : option Z;
  fitz_fonts : list FontData;
  res_fonts : option (list (string * ResFont));
  res_colorspaces : option (list (string * CsObj));
  fitz_images : list Img;
  contents : string;
  res_extgstate : option (list (string * ExtGState));
  span_sizes : list Q
}.

Record Document := {
  doc_pages : list Page;
  is_encrypted : bool
}.

(** A file on disk: [readable] is [None] when [pikepdf.open] /
    [fitz.open] raise on it. *)
Record File := {
  file_name : string;
  readable : option Document
}.

Definition open (f : File) : Py.result Document :=
  match readable f with
  | Some d => Py.Ok d
  | None => Py.Raise {| Py.exn_type := "PdfError";
                        Py.exn_msg := ("cannot open " ++ file_name f)%string |}
  end.

End Pdf.

(** ** Measurement records *)

Inductive Severity := error | warning | info.

Definition Severity_eqb (a b : Severity) : bool :=
  match a, b with
  | error, error | warning, warning | info, info => true
  | _, _ => false
  end.

Record PageDetail := {
  pd_page : nat;
  pd_size : Z * Z;
  pd_paper_size : string;
  pd_rotation : Z
}.

(** Keys of a finding beyond type, severity and pages. *)
Inductive Extra :=
| NoExtra
| PageDetails (base_size : Z * Z) (base_paper : string) (page_details : list PageDetail)
| Fonts (fonts : list string)
| SpotColors (spot_colors : list string) (pantone_count : nat)
| MinDpi (min_dpi : option Q)
| Rule (rule expected found : string)
| SpotNames (spot_colors : list string)
| Count (count : nat)
| MinFound (min_found : Q).

(** A finding. [affected_pages] is the value under ['affected_pages'] (issue engine)
    or ['pages'] (print-quality checks), [None] when the finding has neither. *)
Record Issue := {
  itype : string;
  severity : Severity;
  affected_pages : option (list nat);
  extra : Extra
}.

Record BleedInfo := {
  bleed_left : Q;
  bleed_bottom : Q;
  bleed_right : Q;
  bleed_top : Q
}.

Record PageInfo := {
  page_number : nat;
  width_pt : Q;
  height_pt : Q;
  width_mm : Q;
  height_mm : Q;
  display_width_mm : Q;
  display_height_mm : Q;
  paper_size : string;
  rotation : Z;
  is_rotated : bool;
  mediabox : list Q;
  has_bleed : bool;
  bleed_info : option BleedInfo;
  min_bleed : Q
}.

Record FontInfo := {
  font_page : nat;
  font_name : string;
  font_type : string;
  font_subtype : string;
  embedded : bool;
  subset : bool;
  encoding : string;
  base_font : string;
  is_standard : bool
}.

Record SpotDetail := {
  spot_name : string;
  spot_pages : list nat;
  is_pantone : bool;
  spot_color_space : string
}.

Record ColorInfo := {
  color_spaces : list string;
  has_rgb : bool;
  has_cmyk : bool;
  has_gray : bool;
  has_spot_colors : bool;
  spot_color_names : list string;
  spot_color_details : list (string * SpotDetail);
  icc_profiles : list string
}.

(** ['resolution_category'] of an image; [NoCategory] is the empty string. *)
Inductive Category := NoCategory | critical | cat_warning | acceptable | optimal.

Record ImgData := {
  img_page : nat;
  img_width : Z;
  img_height : Z;
  dpi : Q;
  resolution_category : Category;
  img_colorspace : string;
  size_bytes : nat;
  has_alpha : bool
}.

(** [image_records] is the list under the key ['images']; the four counters
    are the dict ['resolution_categories']. *)
Record ImageInfo := {
  total_count : nat;
  low_resolution_count : nat;
  image_records : list ImgData;
  n_critical : nat;
  n_warning : nat;
  n_acceptable : nat;
  n_optimal : nat
}.

(** The part of the ink calculator's answer that the issue engine reads:
    [summary.problem_pages] as (page, max_coverage), [None] without a
    ['summary'] key. *)
Record InkResult := {
  ink_summary : option (list (nat * Q))
}.

Record RuleResult := {
  rule_name : string;
  rr_expected : string;
  rr_found : string;
  rr_message : string
}.

Record PreflightResult := {
  pf_profile : string;
  pf_passed : list RuleResult;
  pf_failed : list RuleResult;
  pf_warnings : list RuleResult;
  pf_info : list RuleResult;
  pf_auto_fixable : list RuleResult;
  overall_status : string
}.

(** ** Settings ([Config]) *)

(** Modelled from the spec: [config.py] is not among the sources; the
    recognised options (section 6 of the specification) are fields, and
    [Config.get_paper_size_name], the table lookup of section 4.1, is a
    function of the display size. *)
Record Config := {
  MIN_IMAGE_DPI : Q;
  WARNING_IMAGE_DPI : Q;
  OPTIMAL_IMAGE_DPI : Q;
  STANDARD_BLEED_SIZE : Q;
  MAX_INK_COVERAGE : Q;
  CHECK_OPTIONS : list (string * bool);
  get_paper_size_name : Q -> Q -> string;
  is_ink_analysis_enabled : bool;
  DEFAULT_INK_ANALYSIS : bool;
  DEFAULT_PREFLIGHT_PROFILE : string;
  DEFAULT_REPORT_FORMAT : string
}.

(** Modelled from the spec: [utils.points_to_mm] is not among the sources;
    section 4.1 defines it as multiplication by 25.4/72. *)
Definition points_to_mm (points : Q) : Q := points * (254 # 10) / (72 # 1).

(** [enumerate(l, 1)]. *)
Definition enumerate1 {A} (l : list A) : list (nat * A) :=
  combine (seq 1 (List.length l)) l.

(** [d[key] = v] on an insertion-ordered dict. *)
Fixpoint dict_set {K V} (eqb : K -> K -> bool) (d : list (K * V)) (key : K) (v : V)
  : list (K * V) :=
  match d with
  | [] => [(key, v)]
  | (k, x) :: rest =>
      if eqb k key then (k, v) :: rest else (k, x) :: dict_set eqb rest key v
  end.

Fixpoint dict_get {K V} (eqb : K -> K -> bool) (d : list (K * V)) (key : K) : option V :=
  match d with
  | [] => None
  | (k, x) :: rest => if eqb k key then Some x else dict_get eqb rest key
  end.

Definition nonempty (s : string) : bool :=
  match s with EmptyString => false | _ => true end.

(** ** [print_quality_checker.py] *)

Module PrintQualityChecker.

(** The instance: the two lists created by [__init__]. *)
Record self := {
  issues : list Issue;
  warnings : list Issue
}.

Definition __init__ : self := {| issues := []; warnings := [] |}.

Definition append_issue (s : self) (i : Issue) : self :=
  {| issues := issues s ++ [i]; warnings := warnings s |}.

Definition append_warning (s : self) (i : Issue) : self :=
  {| issues := issues s; warnings := warnings s ++ [i] |}.

(** *** check_transparency *)

Record TransparencyInfo := {
  has_transparency : bool;
  transparent_objects : list (nat * string);
  pages_with_transparency : list nat;
  requires_flattening : bool
}.

Definition transparency_operators : list string :=
  ["/CA"; "/ca"; "/BM"; "/SMask"; "gs"].

Definition transparency_page (acc : TransparencyInfo) (np : nat * Pdf.Page)
  : TransparencyInfo :=
  let (page_num, page) := np in
  let alpha_imgs := filter Pdf.pix_alpha (Pdf.fitz_images page) in
  let objs1 := map (fun _ => (page_num, "image_with_alpha")) alpha_imgs in
  let has1 := match alpha_imgs with [] => false | _ => true end in
  let contents := Pdf.contents page in
  let found :=
    if nonempty contents
    then find (fun op => Py.contains op contents) transparency_operators
    else None in
  let objs2 := match found with Some op => [(page_num, op)] | None => [] end in
  let has := orb has1 (match found with Some _ => true | None => false end) in
  {| has_transparency := orb (has_transparency acc) has;
     transparent_objects := transparent_objects acc ++ objs1 ++ objs2;
     pages_with_transparency :=
       if has then pages_with_transparency acc ++ [page_num]
       else pages_with_transparency acc;
     requires_flattening := requires_flattening acc |}.

Definition check_transparency (s : self) (f : Pdf.File) : TransparencyInfo * self :=
  let init := {| has_transparency := false; transparent_objects := [];
                 pages_with_transparency := []; requires_flattening := false |} in
  match Pdf.open f with
  | Py.Raise e =>
      (init, append_warning s
               {| itype := "transparency_check_error"; severity := info;
                  affected_pages := None; extra := NoExtra |})
  | Py.Ok doc =>
      let t := fold_left transparency_page (enumerate1 (Pdf.doc_pages doc)) init in
      if has_transparency t then
        ({| has_transparency := true;
            transparent_objects := transparent_objects t;
            pages_with_transparency := pages_with_transparency t;
            requires_flattening := true |},
         append_warning s
           {| itype := "transparency_detected"; severity := warning;
              affected_pages := Some (pages_with_transparency t); extra := NoExtra |})
      else (t, s)
  end.

(** *** check_overprint *)

Record OverprintInfo := {
  has_overprint : bool;
  has_problematic_overprint : bool;
  overprint_objects : list nat;
  pages_with_overprint : list nat;
  white_overprint_pages : list nat;
  k_only_overprint_pages : list nat;
  light_color_overprint_pages : list nat;
  image_overprint_pages : list nat
}.

Definition seqs (rs : list Re.re) : Re.re := fold_right Re.Cat Re.Eps rs.

(** [rb'\s1\s+OP\s'], [rb'\s1\s+op\s'], [rb'\s1\s+OPM\s']. *)
Definition re_one (operator : string) : Re.re :=
  seqs [Re.space; Re.chr "1"; Re.plus Re.space; Re.lit operator; Re.space].

(** [rb'0\s+0\s+0\s+<last>\s+<op>.*?1\s+OP'] *)
Definition re_fill (last op : string) : Re.re :=
  seqs [Re.chr "0"; Re.plus Re.space; Re.chr "0"; Re.plus Re.space;
        Re.chr "0"; Re.plus Re.space; Re.lit last; Re.plus Re.space;
        Re.lit op; Re.Star Re.dot; Re.chr "1"; Re.plus Re.space; Re.lit "OP"].

Definition content_has_overprint (content : string) : bool :=
  if orb (Re.search (re_one "OP") content) (Re.search (re_one "op") content)
  then true
  else if Re.search (re_one "OPM") content then true
  else false.

Definition content_white (content : string) : bool :=
  orb (Re.search (re_fill "0" "k") content) (Re.search (re_fill "0" "K") content).

Definition content_k_only (content : string) : bool :=
  orb (Re.search (re_fill "1" "k") content) (Re.search (re_fill "1" "K") content).

(** The loop over the pages of the fitz document. *)
Definition overprint_page (acc : OverprintInfo) (np : nat * Pdf.Page) : OverprintInfo :=
  let (page_num, page) := np in
  let content := Pdf.contents page in
  if nonempty content then
    if content_has_overprint content then
      let acc1 :=
        {| has_overprint := true;
           has_problematic_overprint := has_problematic_overprint acc;
           overprint_objects := overprint_objects acc;
           pages_with_overprint := pages_with_overprint acc ++ [page_num];
           white_overprint_pages := white_overprint_pages acc;
           k_only_overprint_pages := k_only_overprint_pages acc;
           light_color_overprint_pages := light_color_overprint_pages acc;
           image_overprint_pages := image_overprint_pages acc |} in
      if content_white content then
        {| has_overprint := true;
           has_problematic_overprint := true;
           overprint_objects := overprint_objects acc1;
           pages_with_overprint := pages_with_overprint acc1;
           white_overprint_pages := white_overprint_pages acc1 ++ [page_num];
           k_only_overprint_pages := k_only_overprint_pages acc1;
           light_color_overprint_pages := light_color_overprint_pages acc1;
           image_overprint_pages := image_overprint_pages acc1 |}
      else if content_k_only content then
        {| has_overprint := true;
           has_problematic_overprint := has_problematic_overprint acc1;
           overprint_objects := overprint_objects acc1;
           pages_with_overprint := pages_with_overprint acc1;
           white_overprint_pages := white_overprint_pages acc1;
           k_only_overprint_pages := k_only_overprint_pages acc1 ++ [page_num];
           light_color_overprint_pages := light_color_overprint_pages acc1;
           image_overprint_pages := image_overprint_pages acc1 |}
      else acc1
    else acc
  else acc.

(** [v == True or v == 1]. *)
Definition is_true_or_1 (v : Pdf.GsVal) : bool :=
  match v with
  | Pdf.GBool b => b
  | Pdf.GInt z => (z =? 1)%Z
  end.

Definition gs_active (gs : Pdf.ExtGState) : bool :=
  let op_value := match Pdf.gs_OP gs with Some v => v | None => Pdf.GBool false end in
  let op_fill_value := match Pdf.gs_op gs with Some v => v | None => Pdf.GBool false end in
  let opm_value := match Pdf.gs_OPM gs with Some v => v | None => Pdf.GInt 0 end in
  andb (orb (is_true_or_1 op_value) (is_true_or_1 op_fill_value))
       (is_true_or_1 opm_value).

Definition overprint_gs (page_num : nat) (acc : OverprintInfo)
           (entry : string * Pdf.ExtGState) : OverprintInfo :=
  if gs_active (snd entry) then
    let listed := Py.mem_nat page_num (pages_with_overprint acc) in
    {| has_overprint := if listed then has_overprint acc else true;
       has_problematic_overprint := has_problematic_overprint acc;
       overprint_objects := overprint_objects acc ++ [page_num];
       pages_with_overprint :=
         if listed then pages_with_overprint acc
         else pages_with_overprint acc ++ [page_num];
       white_overprint_pages := white_overprint_pages acc;
       k_only_overprint_pages := k_only_overprint_pages acc;
       light_color_overprint_pages := light_color_overprint_pages acc;
       image_overprint_pages := image_overprint_pages acc |}
  else acc.

(** The loop over the pages of the pikepdf document. *)
Definition overprint_extgstate (acc : OverprintInfo) (np : nat * Pdf.Page)
  : OverprintInfo :=
  let (page_num, page) := np in
  match Pdf.res_extgstate page with
  | Some gss => fold_left (overprint_gs page_num) gss acc
  | None => acc
  end.

Definition overprint_init : OverprintInfo :=
  {| has_overprint := false; has_problematic_overprint := false;
     overprint_objects := []; pages_with_overprint := [];
     white_overprint_pages := []; k_only_overprint_pages := [];
     light_color_overprint_pages := []; image_overprint_pages := [] |}.

(** Both passes, then the three [sorted(list(set(...)))]. *)
Definition overprint_scan (doc : Pdf.Document) : OverprintInfo :=
  let pgs := enumerate1 (Pdf.doc_pages doc) in
  let o1 := fold_left overprint_page pgs overprint_init in
  let o2 := fold_left overprint_extgstate pgs o1 in
  {| has_overprint := has_overprint o2;
     has_problematic_overprint := has_problematic_overprint o2;
     overprint_objects := overprint_objects o2;
     pages_with_overprint := Py.sorted_set (pages_with_overprint o2);
     white_overprint_pages := Py.sorted_set (white_overprint_pages o2);
     k_only_overprint_pages := Py.sorted_set (k_only_overprint_pages o2);
     light_color_overprint_pages := light_color_overprint_pages o2;
     image_overprint_pages := image_overprint_pages o2 |}.

Definition other_overprint_pages (o : OverprintInfo) : list nat :=
  filter (fun p => andb (negb (Py.mem_nat p (white_overprint_pages o)))
                        (negb (Py.mem_nat p (k_only_overprint_pages o))))
         (pages_with_overprint o).

Definition is_nil {A} (l : list A) : bool :=
  match l with [] => true | _ => false end.

Definition overprint_report (s : self) (o : OverprintInfo) : self :=
  let s1 :=
    if is_nil (white_overprint_pages o) then s
    else append_issue s
           {| itype := "white_overprint_detected"; severity := error;
              affected_pages := Some (white_overprint_pages o); extra := NoExtra |} in
  let s2 :=
    if is_nil (k_only_overprint_pages o) then s1
    else append_warning s1
           {| itype := "k_overprint_detected"; severity := info;
              affected_pages := Some (k_only_overprint_pages o); extra := NoExtra |} in
  if is_nil (other_overprint_pages o) then s2
  else append_warning s2
         {| itype := "overprint_detected"; severity := warning;
            affected_pages := Some (other_overprint_pages o); extra := NoExtra |}.

Definition check_overprint (s : self) (f : Pdf.File) : OverprintInfo * self :=
  match Pdf.open f with
  | Py.Raise e => (overprint_init, s)
  | Py.Ok doc =>
      let o := overprint_scan doc in
      (o, overprint_report s o)
  end.

(** *** process_bleed_info *)

Record MissingBleed := {
  mb_page : nat;
  current_bleed : Q;
  required_bleed : Q
}.

Record BleedResult := {
  has_proper_bleed : bool;
  pages_without_bleed : list MissingBleed;
  bleed_sizes : list (nat * (option BleedInfo * Q));
  min_required_bleed : Q
}.

Definition bleed_page (cfg : Config) (acc : BleedResult) (page_info : PageInfo)
  : BleedResult :=
  let page_num := page_number page_info in
  if has_bleed page_info then
    let min_bleed := min_bleed page_info in
    let sizes := dict_set Nat.eqb (bleed_sizes acc) page_num
                          (bleed_info page_info, min_bleed) in
    if Py.Qltb min_bleed (STANDARD_BLEED_SIZE cfg) then
      {| has_proper_bleed := false;
         pages_without_bleed :=
           pages_without_bleed acc ++
             [{| mb_page := page_num; current_bleed := min_bleed;
                 required_bleed := STANDARD_BLEED_SIZE cfg |}];
         bleed_sizes := sizes;
         min_required_bleed := min_required_bleed acc |}
    else
      {| has_proper_bleed := has_proper_bleed acc;
         pages_without_bleed := pages_without_bleed acc;
         bleed_sizes := sizes;
         min_required_bleed := min_required_bleed acc |}
  else
    {| has_proper_bleed := false;
       pages_without_bleed :=
         pages_without_bleed acc ++
           [{| mb_page := page_num; current_bleed := 0;
               required_bleed := STANDARD_BLEED_SIZE cfg |}];
       bleed_sizes := bleed_sizes acc;
       min_required_bleed := min_required_bleed acc |}.

Definition bleed_init (cfg : Config) : BleedResult :=
  {| has_proper_bleed := true; pages_without_bleed := [];
     bleed_sizes := []; min_required_bleed := STANDARD_BLEED_SIZE cfg |}.

Definition process_bleed_info (cfg : Config) (s : self)
           (pages_info : option (list PageInfo)) : BleedResult * self :=
  match pages_info with
  | None | Some [] => (bleed_init cfg, s)
  | Some pages_info =>
      let b := fold_left (bleed_page cfg) pages_info (bleed_init cfg) in
      if negb (has_proper_bleed b) then
        (b, append_warning s
              {| itype := "insufficient_bleed"; severity := info;
                 affected_pages := Some (map mb_page (pages_without_bleed b));
                 extra := NoExtra |})
      else (b, s)
  end.

(** *** check_spot_color_usage *)

Record SpotUse := {
  su_name : string;
  su_pages : list nat;
  su_is_pantone : bool
}.

Record SpotColorInfo := {
  pq_has_spot_colors : bool;
  spot_colors : list (string * SpotUse);
  total_spot_colors : nat;
  pages_with_spots : list nat
}.

Definition spot_entry (page_num : nat) (acc : SpotColorInfo)
           (entry : string * Pdf.CsObj) : SpotColorInfo :=
  match snd entry with
  | Pdf.CsList (first :: more) =>
      if String.eqb first "/Separation" then
        let spot_name := match more with n :: _ => n | [] => "Unknown" end in
        let known :=
          match dict_get String.eqb (spot_colors acc) spot_name with
          | Some u => u
          | None => {| su_name := spot_name; su_pages := [];
                       su_is_pantone := Py.contains "PANTONE" (Py.upper spot_name) |}
          end in
        {| pq_has_spot_colors := true;
           spot_colors :=
             dict_set String.eqb (spot_colors acc) spot_name
               {| su_name := su_name known;
                  su_pages := su_pages known ++ [page_num];
                  su_is_pantone := su_is_pantone known |};
           total_spot_colors := total_spot_colors acc;
           pages_with_spots :=
             if Py.mem_nat page_num (pages_with_spots acc)
             then pages_with_spots acc
             else pages_with_spots acc ++ [page_num] |}
      else acc
  | _ => acc
  end.

Definition spot_page (acc : SpotColorInfo) (np : nat * Pdf.Page) : SpotColorInfo :=
  let (page_num, page) := np in
  match Pdf.res_colorspaces page with
  | Some css => fold_left (spot_entry page_num) css acc
  | None => acc
  end.

Definition spot_init : SpotColorInfo :=
  {| pq_has_spot_colors := false; spot_colors := [];
     total_spot_colors := 0; pages_with_spots := [] |}.

Definition check_spot_color_usage (s : self) (f : Pdf.File) : SpotColorInfo * self :=
  match Pdf.open f with
  | Py.Raise e => (spot_init, s)
  | Py.Ok doc =>
      let c := fold_left spot_page (enumerate1 (Pdf.doc_pages doc)) spot_init in
      let c' := {| pq_has_spot_colors := pq_has_spot_colors c;
                   spot_colors := spot_colors c;
                   total_spot_colors := List.length (spot_colors c);
                   pages_with_spots := pages_with_spots c |} in
      if pq_has_spot_colors c then
        (c', append_warning s
               {| itype := "spot_colors_used"; severity := info;
                  affected_pages := None;
                  extra := SpotNames (map fst (spot_colors c)) |})
      else (c', s)
  end.

(** *** check_image_compression *)

Record LowQuality := {
  lq_page : nat;
  lq_image_index : nat;
  compression_ratio : Q;
  lq_size : Z * Z
}.

Record CompressionInfo := {
  total_images : nat;
  jpeg_compressed : nat;
  low_quality_images : list LowQuality;
  compression_types : list (string * nat)
}.

(** [s.replace('/', '')]. *)
Fixpoint remove_slash (s : string) : string :=
  match s with
  | EmptyString => EmptyString
  | String c rest =>
      if Ascii.eqb c "/"%char then remove_slash rest
      else String c (remove_slash rest)
  end.

(** One turn of the inner loop. [doc.xref_object(xref)] is the source text
    of the object, a [str]: ['/Filter' in img_dict] looks for the text, and
    [img_dict['/Filter']] raises [TypeError]. The counter is raised before,
    and keeps its value when the exception leaves the loop. *)
Definition compression_image (page_num : nat) (acc : CompressionInfo)
           (ii : nat * Pdf.Img) : Py.result unit * CompressionInfo :=
  let (img_index, img) := ii in
  let acc := {| total_images := S (total_images acc);
                jpeg_compressed := jpeg_compressed acc;
                low_quality_images := low_quality_images acc;
                compression_types := compression_types acc |} in
  let img_dict := Pdf.im_object img in
  if Py.contains "/Filter" img_dict then
    match Py.str_getitem img_dict "/Filter" with
    | Py.Raise e => (Py.Raise e, acc)
    | Py.Ok filter_type =>
        (* [isinstance(filter_type, list)] is false of a [str] *)
        let filter_name := remove_slash filter_type in
        let n := match dict_get String.eqb (compression_types acc) filter_name with
                 | Some n => n | None => 0%nat end in
        let types := dict_set String.eqb (compression_types acc) filter_name (S n) in
        if Py.contains "DCTDecode" filter_name then
          let pixel_count := (Pdf.pix_width img * Pdf.pix_height img)%Z in
          let low :=
            (* a zero [pixel_count] raises ZeroDivisionError, which the
               inner [try] swallows *)
            if (pixel_count =? 0)%Z then []
            else
              let ratio := inject_Z (Pdf.im_stream_len img) / inject_Z pixel_count in
              if Py.Qltb ratio (1 # 2) then
                [{| lq_page := page_num; lq_image_index := img_index;
                    compression_ratio := ratio;
                    lq_size := (Pdf.pix_width img, Pdf.pix_height img) |}]
              else [] in
          (Py.Ok tt,
           {| total_images := total_images acc;
              jpeg_compressed := S (jpeg_compressed acc);
              low_quality_images := low_quality_images acc ++ low;
              compression_types := types |})
        else
          (Py.Ok tt,
           {| total_images := total_images acc;
              jpeg_compressed := jpeg_compressed acc;
              low_quality_images := low_quality_images acc;
              compression_types := types |})
    end
  else (Py.Ok tt, acc).

(** The loop over the images of one page; an exception ends it. *)
Fixpoint compression_images (page_num : nat) (iis : list (nat * Pdf.Img))
         (acc : CompressionInfo) : Py.result unit * CompressionInfo :=
  match iis with
  | [] => (Py.Ok tt, acc)
  | ii :: rest =>
      match compression_image page_num acc ii with
      | (Py.Ok _, acc') => compression_images page_num rest acc'
      | (Py.Raise e, acc') => (Py.Raise e, acc')
      end
  end.

Definition compression_page (acc : CompressionInfo) (np : nat * Pdf.Page)
  : Py.result unit * CompressionInfo :=
  let (page_num, page) := np in
  compression_images page_num
    (combine (seq 0 (List.length (Pdf.fitz_images page))) (Pdf.fitz_images page))
    acc.

(** The loop over the pages; an exception ends it. *)
Fixpoint compression_pages (nps : list (nat * Pdf.Page)) (acc : CompressionInfo)
  : Py.result unit * CompressionInfo :=
  match nps with
  | [] => (Py.Ok tt, acc)
  | np :: rest =>
      match compression_page acc np with
      | (Py.Ok _, acc') => compression_pages rest acc'
      | (Py.Raise e, acc') => (Py.Raise e, acc')
      end
  end.

Definition compression_init : CompressionInfo :=
  {| total_images := 0; jpeg_compressed := 0;
     low_quality_images := []; compression_types := [] |}.

(** The [except] clause prints the error; the dict is returned as the scan
    has left it, and the report of the [try] block is skipped. *)
Definition check_image_compression (s : self) (f : Pdf.File) : CompressionInfo * self :=
  match Pdf.open f with
  | Py.Raise e => (compression_init, s)
  | Py.Ok doc =>
      match compression_pages (enumerate1 (Pdf.doc_pages doc)) compression_init with
      | (Py.Raise e, c) => (c, s)
      | (Py.Ok _, c) =>
          if is_nil (low_quality_images c) then (c, s)
          else (c, append_warning s
                     {| itype := "high_compression_detected"; severity := warning;
                        affected_pages := None;
                        extra := Count (List.length (low_quality_images c)) |})
      end
  end.

(** *** check_minimum_text_size *)

Record TextSizeInfo := {
  min_size_found : Q;
  small_text_pages : list (nat * Q);
  text_sizes : list (nat * Q);
  has_small_text : bool
}.

Definition MIN_TEXT_SIZE : Q := 4.

(** One span: the accumulator is the record and the page's minimum. *)
Definition text_span (page_num : nat) (acc : TextSizeInfo * Q) (font_size : Q)
  : TextSizeInfo * Q :=
  let (t, page_min_size) := acc in
  if Py.Qltb 0 font_size then
    let page_min' := if Py.Qltb font_size page_min_size then font_size
                     else page_min_size in
    let min_found' := if Py.Qltb font_size (min_size_found t) then font_size
                      else min_size_found t in
    if Py.Qltb font_size MIN_TEXT_SIZE then
      ({| min_size_found := min_found';
          small_text_pages :=
            if Py.mem_nat page_num (map fst (small_text_pages t))
            then small_text_pages t
            else small_text_pages t ++ [(page_num, font_size)];
          text_sizes := text_sizes t;
          has_small_text := true |}, page_min')
    else
      ({| min_size_found := min_found';
          small_text_pages := small_text_pages t;
          text_sizes := text_sizes t;
          has_small_text := has_small_text t |}, page_min')
  else acc.

Definition text_page (acc : TextSizeInfo) (np : nat * Pdf.Page) : TextSizeInfo :=
  let (page_num, page) := np in
  let (t, page_min_size) :=
    fold_left (text_span page_num) (Pdf.span_sizes page) (acc, 999) in
  if Py.Qltb page_min_size 999 then
    {| min_size_found := min_size_found t;
       small_text_pages := small_text_pages t;
       text_sizes := dict_set Nat.eqb (text_sizes t) page_num page_min_size;
       has_small_text := has_small_text t |}
  else t.

Definition text_init : TextSizeInfo :=
  {| min_size_found := 999; small_text_pages := [];
     text_sizes := []; has_small_text := false |}.

Definition check_minimum_text_size (s : self) (f : Pdf.File) : TextSizeInfo * self :=
  match Pdf.open f with
  | Py.Raise e => (text_init, s)
  | Py.Ok doc =>
      let t := fold_left text_page (enumerate1 (Pdf.doc_pages doc)) text_init in
      if has_small_text t then
        (t, append_warning s
              {| itype := "small_text_detected"; severity := warning;
                 affected_pages := Some (map fst (small_text_pages t));
                 extra := MinFound (min_size_found t) |})
      else (t, s)
  end.

(** *** check_all *)

(** The six sub-records; [None] stands for the stub dict of a check that is
    switched off. The keys ['issues'] and ['warnings'] of the Python dict
    are references to the instance's own lists: they are read from the
    returned [self]. *)
Record Results := {
  transparency : option TransparencyInfo;
  overprint : option OverprintInfo;
  bleed : option BleedResult;
  pq_spot_colors : option SpotColorInfo;
  image_compression : option CompressionInfo;
  text_size : option TextSizeInfo
}.

Definition guarded {A} (enabled : bool) (check : self -> A * self) (s : self)
  : option A * self :=
  if enabled then let (a, s') := check s in (Some a, s') else (None, s).

Definition check_all (cfg : Config) (s : self) (pdf_path : Pdf.File)
           (pages_info : option (list PageInfo)) : Results * self :=
  let opt := CHECK_OPTIONS cfg in
  let (r1, s1) := guarded (Py.get opt "transparency" false)
                          (fun s => check_transparency s pdf_path) s in
  let (r2, s2) := guarded (Py.get opt "overprint" true)
                          (fun s => check_overprint s pdf_path) s1 in
  let (r3, s3) := guarded (Py.get opt "bleed" true)
                          (fun s => process_bleed_info cfg s pages_info) s2 in
  let (r4, s4) := guarded (Py.get opt "spot_colors" true)
                          (fun s => check_spot_color_usage s pdf_path) s3 in
  let (r5, s5) := guarded (Py.get opt "image_compression" true)
                          (fun s => check_image_compression s pdf_path) s4 in
  let (r6, s6) := guarded (Py.get opt "minimum_text" true)
                          (fun s => check_minimum_text_size s pdf_path) s5 in
  ({| transparency := r1; overprint := r2; bleed := r3; pq_spot_colors := r4;
      image_compression := r5; text_size := r6 |}, s6).

End PrintQualityChecker.

(** ** [pdf_analyzer.py] *)

Module PDFAnalyzer.

Record BasicInfo := {
  page_count : nat;
  bi_is_encrypted : bool
}.

(** The analysis record ([local_analysis_result]); file size, timing and
    thread identifiers are left out. *)
Record AnalysisResult := {
  filename : string;
  preflight_profile : string;
  basic_info : BasicInfo;
  pages : list PageInfo;
  fonts : list ((string * nat) * FontInfo);
  colors : ColorInfo;
  images : ImageInfo;
  issues : list Issue;
  print_quality : option PrintQualityChecker.Results;
  ink_coverage : option InkResult;
  preflight_result : option PreflightResult
}.

(** What [analyze] returns: the record, or [{'error': str(e)}]. *)
Inductive Outcome :=
| Analysis (r : AnalysisResult)
| ErrorDict (err : string).

(** A preflight profile: its name and its [check] method. *)
Record Profile := {
  profile_name : string;
  check : AnalysisResult -> Py.result PreflightResult
}.

(** Modelled from the spec: [preflight_profiles.py] and [ink_calculator.py]
    are not among the sources; the profile source of section 6 is a lookup
    by profile identifier with the offset profile as fallback, and the ink
    calculator maps a file to its coverage summary. Both may raise. *)
Record Collaborators := {
  get_profile_by_name : string -> option Profile;
  get_offset_printing : Profile;
  ink_calculate : Pdf.File -> Py.result InkResult
}.

Definition _analyze_basic_info (pdf_obj : Pdf.Document) : BasicInfo :=
  {| page_count := List.length (Pdf.doc_pages pdf_obj);
     bi_is_encrypted := Pdf.is_encrypted pdf_obj |}.

(** *** _analyze_pages *)

(** Truth value of a box that may be [None]: present and not empty. *)
Definition truthy (b : option Pdf.Box) : bool :=
  match b with
  | Some (_ :: _) => true
  | _ => false
  end.

Fixpoint box_eqb (a b : Pdf.Box) : bool :=
  match a, b with
  | [], [] => true
  | x :: a', y :: b' => andb (Qeq_bool x y) (box_eqb a' b')
  | _, _ => false
  end.

Definition or_else (a b : option Pdf.Box) : option Pdf.Box :=
  match a with Some _ => a | None => b end.

(** The bleed margins of one page from its trim and bleed coordinates. *)
Definition bleed_margins (trim_coords bleed_coords : list Q) : Py.result BleedInfo :=
  t0 <- Py.index trim_coords 0 ;;
  b0 <- Py.index bleed_coords 0 ;;
  t1 <- Py.index trim_coords 1 ;;
  b1 <- Py.index bleed_coords 1 ;;
  b2 <- Py.index bleed_coords 2 ;;
  t2 <- Py.index trim_coords 2 ;;
  b3 <- Py.index bleed_coords 3 ;;
  t3 <- Py.index trim_coords 3 ;;
  Py.Ok {| bleed_left := points_to_mm (t0 - b0);
           bleed_bottom := points_to_mm (t1 - b1);
           bleed_right := points_to_mm (b2 - t2);
           bleed_top := points_to_mm (b3 - t3) |}.

(** The body of the loop for one page: [None] when the page has no usable
    MediaBox and nothing is appended. *)
Definition page_info_of (cfg : Config) (page_num : nat) (page : Pdf.Page)
  : Py.result (option PageInfo) :=
  let mediabox := Pdf.MediaBox page in
  let cropbox := or_else (Pdf.CropBox page) mediabox in
  let bleedbox := or_else (Pdf.BleedBox page) cropbox in
  let trimbox := or_else (Pdf.TrimBox page) cropbox in
  match mediabox with
  | Some ((_ :: _) as mb) =>
      left <- Py.index mb 0 ;;
      bottom <- Py.index mb 1 ;;
      right <- Py.index mb 2 ;;
      top <- Py.index mb 3 ;;
      let width := right - left in
      let height := top - bottom in
      let width_mm := points_to_mm width in
      let height_mm := points_to_mm height in
      let rotation := match Pdf.Rotate page with Some r => r | None => 0%Z end in
      let swap := orb (rotation =? 90)%Z (rotation =? 270)%Z in
      let display_width_mm := if swap then height_mm else width_mm in
      let display_height_mm := if swap then width_mm else height_mm in
      let paper_size := get_paper_size_name cfg display_width_mm display_height_mm in
      bl <- (if andb (andb (truthy trimbox) (truthy bleedbox))
                     (negb (match trimbox, bleedbox with
                            | Some t, Some b => box_eqb t b
                            | _, _ => false
                            end))
             then match trimbox, bleedbox with
                  | Some t, Some b => m <- bleed_margins t b ;; Py.Ok (Some m)
                  | _, _ => Py.Ok None
                  end
             else Py.Ok None) ;;
      Py.Ok (Some
        {| page_number := page_num;
           width_pt := width;
           height_pt := height;
           width_mm := width_mm;
           height_mm := height_mm;
           display_width_mm := display_width_mm;
           display_height_mm := display_height_mm;
           paper_size := paper_size;
           rotation := rotation;
           is_rotated := negb (rotation =? 0)%Z;
           mediabox := [left; bottom; right; top];
           has_bleed := match bl with Some _ => true | None => false end;
           bleed_info := bl;
           min_bleed :=
             match bl with
             | Some m => Py.min_of (bleed_left m)
                                   [bleed_bottom m; bleed_right m; bleed_top m]
             | None => 0
             end |})
  | _ => Py.Ok None
  end.

Fixpoint analyze_pages_loop (cfg : Config) (l : list (nat * Pdf.Page))
  : Py.result (list PageInfo) :=
  match l with
  | [] => Py.Ok []
  | (page_num, page) :: rest =>
      o <- page_info_of cfg page_num page ;;
      r <- analyze_pages_loop cfg rest ;;
      Py.Ok (match o with Some i => i :: r | None => r end)
  end.

Definition _analyze_pages (cfg : Config) (pdf_obj : Pdf.Document)
  : Py.result (list PageInfo) :=
  analyze_pages_loop cfg (enumerate1 (Pdf.doc_pages pdf_obj)).

(** *** _analyze_fonts *)

Definition standard_fonts : list string :=
  ["Times-Roman"; "Times-Bold"; "Times-Italic"; "Times-BoldItalic";
   "Helvetica"; "Helvetica-Bold"; "Helvetica-Oblique"; "Helvetica-BoldOblique";
   "Courier"; "Courier-Bold"; "Courier-Oblique"; "Courier-BoldOblique";
   "Symbol"; "ZapfDingbats"].

Definition font_file_keys : list string := ["/FontFile"; "/FontFile2"; "/FontFile3"].

(** The name carries a mark that the font is included. *)
Definition marked_embedded (fontname : string) : bool :=
  orb (Py.contains "(포함됨)" fontname)
      (Py.contains "(embedded)" (Py.lower fontname)).

(** The name carries a mark that the font is not included. *)
Definition marked_not_embedded (fontname : string) : bool :=
  orb (Py.contains "(포함 안 됨)" fontname)
      (Py.contains "(not embedded)" (Py.lower fontname)).

(** One entry of [page.Resources.Font] seen while [font_info] holds the
    sub-type and embedding flag [st]. *)
Definition supplement (basename : string) (st : string * bool)
           (entry : string * Pdf.ResFont) : string * bool :=
  let (subtype, emb) := st in
  let font_obj := snd entry in
  match Pdf.rf_BaseFont font_obj with
  | Some base_font_pikepdf =>
      if orb (String.eqb base_font_pikepdf basename)
             (Py.contains basename base_font_pikepdf)
      then
        let subtype' := match Pdf.rf_Subtype font_obj with
                        | Some t => t
                        | None => subtype
                        end in
        let emb' :=
          match Pdf.rf_descriptor font_obj with
          | Some descriptor =>
              if negb emb
              then if existsb (fun key => Py.mem_str key descriptor) font_file_keys
                   then true else emb
              else emb
          | None => emb
          end in
        (subtype', emb')
      else st
  | None => st
  end.

Definition font_info_of (page_num : nat) (page : Pdf.Page) (font_data : Pdf.FontData)
  : FontInfo :=
  let ext := Pdf.fd_ext font_data in
  let basename := Pdf.fd_basename font_data in
  let fontname := Pdf.fd_name font_data in
  let embedded0 := negb (String.eqb ext "") in
  let is_subset := Py.contains "+" basename in
  let embedded1 := if is_subset then true else embedded0 in
  let embedded2 :=
    if marked_embedded fontname then true
    else if marked_not_embedded fontname then false
    else embedded1 in
  let std := Py.mem_str basename standard_fonts in
  let embedded3 := if std then true else embedded2 in
  let (subtype, embedded4) :=
    match Pdf.res_fonts page with
    | Some fs => fold_left (supplement basename) fs ("", embedded3)
    | None => ("", embedded3)
    end in
  {| font_page := page_num;
     font_name := fontname;
     font_type := Pdf.fd_type font_data;
     font_subtype := subtype;
     embedded := embedded4;
     subset := is_subset;
     encoding := Pdf.fd_encoding font_data;
     base_font := basename;
     is_standard := std |}.

(** Keys [f"{fontname}_{page_num}"] are kept as pairs: the page number is
    the digits after the last underscore, so distinct pairs give distinct
    keys. *)
Definition font_key_eqb (a b : string * nat) : bool :=
  andb (String.eqb (fst a) (fst b)) (Nat.eqb (snd a) (snd b)).

Definition fonts_page (acc : list ((string * nat) * FontInfo)) (np : nat * Pdf.Page)
  : list ((string * nat) * FontInfo) :=
  let (page_num, page) := np in
  fold_left (fun fonts_info font_data =>
               dict_set font_key_eqb fonts_info
                        (Pdf.fd_name font_data, page_num)
                        (font_info_of page_num page font_data))
            (Pdf.fitz_fonts page) acc.

(** The second argument is the file that [fitz.open] reads again; when it
    cannot be opened the [except] branch returns the empty dict. *)
Definition _analyze_fonts (pdf_obj : Pdf.Document) (pdf_path : Pdf.File)
  : list ((string * nat) * FontInfo) :=
  match Pdf.open pdf_path with
  | Py.Raise _ => []
  | Py.Ok _ => fold_left fonts_page (enumerate1 (Pdf.doc_pages pdf_obj)) []
  end.

(** *** _analyze_colors *)

(** [color_spaces] is a set until the end of the scan; its elements are kept
    in the order of their first occurrence. *)
Definition add_to_set (l : list string) (s : string) : list string :=
  if Py.mem_str s l then l else l ++ [s].

Definition colors_entry (page_num : nat) (acc : ColorInfo) (entry : string * Pdf.CsObj)
  : ColorInfo :=
  let color_space := fst entry in
  let cs_obj := snd entry in
  let up := Py.upper color_space in
  let is_sep := match cs_obj with
                | Pdf.CsList (first :: _) => String.eqb first "/Separation"
                | _ => false
                end in
  let is_icc := match cs_obj with
                | Pdf.CsList (first :: _) => String.eqb first "/ICCBased"
                | _ => false
                end in
  let second := match cs_obj with
                | Pdf.CsList (_ :: n :: _) => Some n
                | _ => None
                end in
  let (names, details) :=
    match is_sep, second with
    | true, Some sname =>
        if negb (Py.mem_str sname (spot_color_names acc)) then
          (spot_color_names acc ++ [sname],
           dict_set String.eqb (spot_color_details acc) sname
             {| spot_name := sname; spot_pages := [page_num];
                is_pantone := Py.contains "PANTONE" (Py.upper sname);
                spot_color_space := color_space |})
        else
          (spot_color_names acc,
           match dict_get String.eqb (spot_color_details acc) sname with
           | Some d =>
               dict_set String.eqb (spot_color_details acc) sname
                 {| spot_name := spot_name d;
                    spot_pages := spot_pages d ++ [page_num];
                    is_pantone := is_pantone d;
                    spot_color_space := spot_color_space d |}
           | None => spot_color_details acc
           end)
    | _, _ => (spot_color_names acc, spot_color_details acc)
    end in
  {| color_spaces := add_to_set (color_spaces acc) color_space;
     has_rgb := orb (has_rgb acc) (Py.contains "RGB" up);
     has_cmyk := orb (has_cmyk acc) (Py.contains "CMYK" up);
     has_gray := orb (has_gray acc) (Py.contains "GRAY" up);
     has_spot_colors := orb (has_spot_colors acc) is_sep;
     spot_color_names := names;
     spot_color_details := details;
     icc_profiles := if is_icc then icc_profiles acc ++ [color_space]
                     else icc_profiles acc |}.

Definition colors_page (acc : ColorInfo) (np : nat * Pdf.Page) : ColorInfo :=
  let (page_num, page) := np in
  match Pdf.res_colorspaces page with
  | Some css => fold_left (colors_entry page_num) css acc
  | None => acc
  end.

Definition colors_init : ColorInfo :=
  {| color_spaces := []; has_rgb := false; has_cmyk := false; has_gray := false;
     has_spot_colors := false; spot_color_names := []; spot_color_details := [];
     icc_profiles := [] |}.

Definition _analyze_colors (pdf_obj : Pdf.Document) : ColorInfo :=
  fold_left colors_page (enumerate1 (Pdf.doc_pages pdf_obj)) colors_init.

(** *** _analyze_images *)

(** The DPI of an image whose [img[2]], [img[3]] are positive. *)
Definition image_dpi (img : Pdf.Img) : Q :=
  let img_width_pt := inject_Z (Pdf.im_w img) in
  let img_height_pt := inject_Z (Pdf.im_h img) in
  let dpi_x := inject_Z (Pdf.pix_width img) / (img_width_pt / 72) in
  let dpi_y := inject_Z (Pdf.pix_height img) / (img_height_pt / 72) in
  Py.min2 dpi_x dpi_y.

(** The [if]/[elif] chain on the three thresholds. *)
Definition categorize (cfg : Config) (d : Q) : Category :=
  if Py.Qltb d (MIN_IMAGE_DPI cfg) then critical
  else if Py.Qltb d (WARNING_IMAGE_DPI cfg) then cat_warning
  else if Py.Qltb d (OPTIMAL_IMAGE_DPI cfg) then acceptable
  else optimal.

Definition img_data_of (cfg : Config) (page_num : nat) (img : Pdf.Img) : ImgData :=
  let placed := andb (0 <? Pdf.im_w img)%Z (0 <? Pdf.im_h img)%Z in
  {| img_page := page_num;
     img_width := Pdf.pix_width img;
     img_height := Pdf.pix_height img;
     dpi := if placed then image_dpi img else 0;
     resolution_category :=
       if placed then categorize cfg (image_dpi img) else NoCategory;
     img_colorspace := match Pdf.pix_colorspace img with
                       | Some n => n
                       | None => "Unknown"
                       end;
     size_bytes := Pdf.pix_samples_len img;
     has_alpha := Pdf.pix_alpha img |}.

Definition bump (c : Category) (this : Category) (n : nat) : nat :=
  match c, this with
  | critical, critical | cat_warning, cat_warning
  | acceptable, acceptable | optimal, optimal => S n
  | _, _ => n
  end.

Definition images_image (cfg : Config) (page_num : nat) (acc : ImageInfo)
           (img : Pdf.Img) : ImageInfo :=
  let d := img_data_of cfg page_num img in
  let c := resolution_category d in
  {| total_count := S (total_count acc);
     low_resolution_count := bump c critical (low_resolution_count acc);
     image_records := image_records acc ++ [d];
     n_critical := bump c critical (n_critical acc);
     n_warning := bump c cat_warning (n_warning acc);
     n_acceptable := bump c acceptable (n_acceptable acc);
     n_optimal := bump c optimal (n_optimal acc) |}.

Definition images_page (cfg : Config) (acc : ImageInfo) (np : nat * Pdf.Page)
  : ImageInfo :=
  let (page_num, page) := np in
  fold_left (images_image cfg page_num) (Pdf.fitz_images page) acc.

Definition images_init : ImageInfo :=
  {| total_count := 0; low_resolution_count := 0; image_records := [];
     n_critical := 0; n_warning := 0; n_acceptable := 0; n_optimal := 0 |}.

Definition _analyze_images (cfg : Config) (pdf_obj : Pdf.Document) (pdf_path : Pdf.File)
  : ImageInfo :=
  match Pdf.open pdf_path with
  | Py.Raise _ => images_init
  | Py.Ok doc => fold_left (images_page cfg) (enumerate1 (Pdf.doc_pages doc)) images_init
  end.

(** *** _check_issues *)

(** One value of [size_count]; ['size_str'] is kept as the two numbers that
    the ['.0f'] format prints. *)
Record SizeGroup := {
  sg_pages : list PageInfo;
  size_str : Z * Z;
  sg_paper_size : string;
  sg_rotation : Z
}.

Definition size_key_eqb (a b : Z * Z) : bool :=
  andb (fst a =? fst b)%Z (snd a =? snd b)%Z.

Definition size_key (page : PageInfo) : Z * Z :=
  (Py.round (display_width_mm page), Py.round (display_height_mm page)).

(** One turn of the grouping loop. *)
Definition size_count_add (size_count : list ((Z * Z) * SizeGroup)) (page : PageInfo)
  : list ((Z * Z) * SizeGroup) :=
  let k := size_key page in
  let g := match dict_get size_key_eqb size_count k with
           | Some g => g
           | None => {| sg_pages := []; size_str := size_key page;
                        sg_paper_size := paper_size page;
                        sg_rotation := rotation page |}
           end in
  dict_set size_key_eqb size_count k
    {| sg_pages := sg_pages g ++ [page]; size_str := size_str g;
       sg_paper_size := sg_paper_size g; sg_rotation := sg_rotation g |}.

Definition group_by_size (pages : list PageInfo) : list ((Z * Z) * SizeGroup) :=
  fold_left size_count_add pages [].

(** [max(items, key=...)] continued from the best item so far: a later item
    replaces it only with a strictly larger key. *)
Fixpoint max_by {A} (key : A -> nat) (best : A) (l : list A) : A :=
  match l with
  | [] => best
  | x :: rest => if (key best <? key x)%nat then max_by key x rest
                 else max_by key best rest
  end.

Definition group_len (item : (Z * Z) * SizeGroup) : nat :=
  List.length (sg_pages (snd item)).

Definition details_of (item : (Z * Z) * SizeGroup) : list PageDetail :=
  map (fun page => {| pd_page := page_number page;
                      pd_size := size_str (snd item);
                      pd_paper_size := sg_paper_size (snd item);
                      pd_rotation := rotation page |})
      (sg_pages (snd item)).

Definition inconsistent_pages_detail (size_count : list ((Z * Z) * SizeGroup))
           (common_size_key : Z * Z) : list PageDetail :=
  flat_map (fun item => if negb (size_key_eqb (fst item) common_size_key)
                        then details_of item else [])
           size_count.

(** Check 1: page size consistency. *)
Definition check_page_sizes (pages : list PageInfo) : list Issue :=
  match group_by_size pages with
  | [] => []
  | first :: rest =>
      let common_size_info := max_by group_len first rest in
      let common_size_key := fst common_size_info in
      let common_size_data := snd common_size_info in
      let detail := inconsistent_pages_detail (first :: rest) common_size_key in
      match detail with
      | [] => []
      | _ => [{| itype := "page_size_inconsistent"; severity := warning;
                 affected_pages := Some (map pd_page detail);
                 extra := PageDetails (size_str common_size_data)
                                      (sg_paper_size common_size_data) detail |}]
      end
  end.

(** Check 2: fonts that are neither embedded nor standard, by base font. *)
Definition font_issues_add (font_issues : list (string * list nat))
           (entry : (string * nat) * FontInfo) : list (string * list nat) :=
  let font_info := snd entry in
  if andb (negb (embedded font_info)) (negb (is_standard font_info)) then
    let font_name := base_font font_info in
    let old := match dict_get String.eqb font_issues font_name with
               | Some l => l
               | None => []
               end in
    dict_set String.eqb font_issues font_name (old ++ [font_page font_info])
  else font_issues.

Definition check_fonts (fonts : list ((string * nat) * FontInfo)) : list Issue :=
  let font_issues := fold_left font_issues_add fonts [] in
  match font_issues with
  | [] => []
  | _ => [{| itype := "font_not_embedded"; severity := error;
             affected_pages := Some (Py.sorted_set (flat_map snd font_issues));
             extra := Fonts (map fst font_issues) |}]
  end.

(** Checks 3 and 4: RGB without CMYK, spot colours. *)
Definition check_colors (colors : ColorInfo) : list Issue :=
  (if andb (has_rgb colors) (negb (has_cmyk colors))
   then [{| itype := "rgb_only"; severity := warning;
            affected_pages := None; extra := NoExtra |}]
   else [])
  ++
  (if andb (has_spot_colors colors)
           (negb (PrintQualityChecker.is_nil (spot_color_names colors)))
   then
     let pantone_colors :=
       filter (fun name => Py.contains "PANTONE" (Py.upper name))
              (spot_color_names colors) in
     [{| itype := "spot_colors";
         severity := if (2 <? List.length (spot_color_names colors))%nat
                     then warning else info;
         affected_pages :=
           Some (Py.sorted_set (flat_map (fun d => spot_pages (snd d))
                                         (spot_color_details colors)));
         extra := SpotColors (spot_color_names colors)
                             (List.length pantone_colors) |}]
   else []).

(** The running minimum that starts at [float('inf')] ([None]). *)
Definition min_dpi_step (acc : option Q) (img : ImgData) : option Q :=
  match acc with
  | None => Some (dpi img)
  | Some m => if Py.Qltb (dpi img) m then Some (dpi img) else Some m
  end.

(** Check 5: low and medium resolution images. *)
Definition check_images (cfg : Config) (images : ImageInfo) : list Issue :=
  (if (0 <? low_resolution_count images)%nat then
     let low_res_images :=
       filter (fun img => andb (Py.Qltb 0 (dpi img))
                               (Py.Qltb (dpi img) (MIN_IMAGE_DPI cfg)))
              (image_records images) in
     [{| itype := "low_resolution_image"; severity := error;
         affected_pages := Some (Py.sorted_set (map img_page low_res_images));
         extra := MinDpi (fold_left min_dpi_step low_res_images None) |}]
   else [])
  ++
  (if (0 <? n_warning images)%nat then
     let warning_images :=
       filter (fun img => match resolution_category img with
                          | cat_warning => true
                          | _ => false
                          end)
              (image_records images) in
     [{| itype := "medium_resolution_image"; severity := info;
         affected_pages := Some (Py.sorted_set (map img_page warning_images));
         extra := NoExtra |}]
   else []).

(** Check 6: ink coverage. *)
Definition check_ink (ink_coverage : option InkResult) : list Issue :=
  match ink_coverage with
  | Some {| ink_summary := Some ((_ :: _) as problem_pages) |} =>
      [{| itype := "high_ink_coverage"; severity := error;
          affected_pages := Some (map fst problem_pages);
          extra := NoExtra |}]
  | _ => []
  end.

(** The findings that [_check_issues] appends to [analysis_result['issues']]. *)
Definition new_issues (cfg : Config) (analysis_result : AnalysisResult) : list Issue :=
  check_page_sizes (pages analysis_result)
  ++ check_fonts (fonts analysis_result)
  ++ check_colors (colors analysis_result)
  ++ check_images cfg (images analysis_result)
  ++ check_ink (ink_coverage analysis_result).

Definition set_issues (r : AnalysisResult) (l : list Issue) : AnalysisResult :=
  {| filename := filename r; preflight_profile := preflight_profile r;
     basic_info := basic_info r; pages := pages r; fonts := fonts r;
     colors := colors r; images := images r; issues := l;
     print_quality := print_quality r; ink_coverage := ink_coverage r;
     preflight_result := preflight_result r |}.

Definition _check_issues (cfg : Config) (analysis_result : AnalysisResult)
  : AnalysisResult :=
  set_issues analysis_result
             (issues analysis_result ++ new_issues cfg analysis_result).

(** *** _add_preflight_issues *)

Definition names_bleed (r : RuleResult) : bool :=
  Py.contains "bleed" (Py.lower (rule_name r)).

Definition rule_issue (t : string) (sev : Severity) (r : RuleResult) : Issue :=
  {| itype := t; severity := sev; affected_pages := None;
     extra := Rule (rule_name r) (rr_expected r) (rr_found r) |}.

Definition preflight_issues (preflight_result : PreflightResult) : list Issue :=
  map (rule_issue "preflight_failed" error)
      (filter (fun r => negb (names_bleed r)) (pf_failed preflight_result))
  ++ map (rule_issue "preflight_warning" warning) (pf_warnings preflight_result)
  ++ map (rule_issue "preflight_info" info)
         (filter (fun r => negb (names_bleed r)) (pf_info preflight_result)).

Definition _add_preflight_issues (analysis_result : AnalysisResult)
           (preflight_result : PreflightResult) : AnalysisResult :=
  set_issues analysis_result
             (issues analysis_result ++ preflight_issues preflight_result).

(** *** analyze *)

(** [any(Config.CHECK_OPTIONS.values())]. *)
Definition any_check (cfg : Config) : bool := existsb snd (CHECK_OPTIONS cfg).

(** The instance is its print-quality checker; the ink calculator keeps
    nothing between calls. The body of the [try] block, with the state of
    the checker as it is when the block is left. *)
(** The profile that [analyze] loads: the named one, or the offset profile
    when the name is unknown. *)
Definition current_profile (col : Collaborators) (profile_id : string) : Profile :=
  match get_profile_by_name col profile_id with
  | Some p => p
  | None => get_offset_printing col
  end.

Definition analyze_body (cfg : Config) (col : Collaborators)
           (self : PrintQualityChecker.self) (pdf_path : Pdf.File)
           (include_ink_analysis : bool) (profile_id : string)
  : Py.result AnalysisResult * PrintQualityChecker.self :=
  let current_profile := current_profile col profile_id in
  match Pdf.open pdf_path with
  | Py.Raise e => (Py.Raise e, self)
  | Py.Ok local_pdf =>
      match _analyze_pages cfg local_pdf with
      | Py.Raise e => (Py.Raise e, self)
      | Py.Ok pages_info =>
          let r0 :=
            {| filename := Pdf.file_name pdf_path;
               preflight_profile := profile_name current_profile;
               basic_info := _analyze_basic_info local_pdf;
               pages := pages_info;
               fonts := _analyze_fonts local_pdf pdf_path;
               colors := _analyze_colors local_pdf;
               images := _analyze_images cfg local_pdf pdf_path;
               issues := [];
               print_quality := None;
               ink_coverage := None;
               preflight_result := None |} in
          let (r1, self1) :=
            if any_check cfg then
              let (pq, s) := PrintQualityChecker.check_all cfg self pdf_path
                               (Some pages_info) in
              ({| filename := filename r0; preflight_profile := preflight_profile r0;
                  basic_info := basic_info r0; pages := pages r0; fonts := fonts r0;
                  colors := colors r0; images := images r0;
                  issues := issues r0 ++ PrintQualityChecker.issues s
                                      ++ PrintQualityChecker.warnings s;
                  print_quality := Some pq; ink_coverage := None;
                  preflight_result := None |}, s)
            else (r0, self) in
          match (if include_ink_analysis
                 then ink <- ink_calculate col pdf_path ;; Py.Ok (Some ink)
                 else Py.Ok None) with
          | Py.Raise e => (Py.Raise e, self1)
          | Py.Ok ink =>
              let r2 :=
                {| filename := filename r1; preflight_profile := preflight_profile r1;
                   basic_info := basic_info r1; pages := pages r1; fonts := fonts r1;
                   colors := colors r1; images := images r1; issues := issues r1;
                   print_quality := print_quality r1; ink_coverage := ink;
                   preflight_result := None |} in
              let r3 := _check_issues cfg r2 in
              match check current_profile r3 with
              | Py.Raise e => (Py.Raise e, self1)
              | Py.Ok pf =>
                  let r4 :=
                    {| filename := filename r3;
                       preflight_profile := preflight_profile r3;
                       basic_info := basic_info r3; pages := pages r3;
                       fonts := fonts r3; colors := colors r3; images := images r3;
                       issues := issues r3; print_quality := print_quality r3;
                       ink_coverage := ink_coverage r3;
                       preflight_result := Some pf |} in
                  (Py.Ok (_add_preflight_issues r4 pf), self1)
              end
          end
      end
  end.

(** [analyze]: the [except] clause turns any exception into the error
    dict. [include_ink_analysis] is [None] when the caller leaves it out;
    [profile_id] is the argument [preflight_profile]. *)
Definition analyze (cfg : Config) (col : Collaborators)
           (self : PrintQualityChecker.self) (pdf_path : Pdf.File)
           (include_ink_analysis : option bool) (profile_id : string)
  : Outcome * PrintQualityChecker.self :=
  let include_ink := match include_ink_analysis with
                     | Some b => b
                     | None => is_ink_analysis_enabled cfg
                     end in
  match analyze_body cfg col self pdf_path include_ink profile_id with
  | (Py.Ok r, s) => (Analysis r, s)
  | (Py.Raise e, s) => (ErrorDict (Py.exn_msg e), s)
  end.

End PDFAnalyzer.

(** ** Statements that may raise and that change an object *)

Module Stmt.

Definition M (S A : Type) : Type := S -> Py.result A * S.

Definition ret {S A} (a : A) : M S A := fun s => (Py.Ok a, s).

Definition bindM {S A B} (m : M S A) (k : A -> M S B) : M S B :=
  fun s => match m s with
           | (Py.Ok a, s') => k a s'
           | (Py.Raise e, s') => (Py.Raise e, s')
           end.

Definition lift {S A} (r : Py.result A) : M S A := fun s => (r, s).

Definition raise {S A} (e : Py.exn) : M S A := fun s => (Py.Raise e, s).

(** [try: body except Exception as e: handler(e)]. *)
Definition try_except {S A} (body : M S A) (handler : Py.exn -> M S A) : M S A :=
  fun s => match body s with
           | (Py.Ok a, s') => (Py.Ok a, s')
           | (Py.Raise e, s') => handler e s'
           end.

End Stmt.

Notation "x <-- c1 ;;; c2" := (Stmt.bindM c1 (fun x => c2))
  (at level 61, c1 at next level, right associativity).
Notation "c1 ;;; c2" := (Stmt.bindM c1 (fun _ => c2))
  (at level 61, right associativity).

(** ** [batch_processor.py] *)

Module BatchProcessor.

(** Modelled from the spec: [error_handler.py] is not among the sources;
    section 7 has it turn an exception into a classification with a short
    user-facing message and the diagnostic detail. *)
Record ErrorInfo := {
  classification : string;
  detail : string
}.

Inductive Payload :=
| Message (m : string)
| PageCount (n : nat).

(** The arguments of one call of the progress callback. *)
Record Progress := {
  pr_file_id : string;
  pr_status : string;
  pr_percent : nat;
  pr_payload : Payload
}.

Record FixResult := {
  fixed : option Pdf.File;
  modifications : list string
}.

Record Snapshot := {
  snap_fonts : list ((string * nat) * FontInfo);
  snap_colors : option ColorInfo;
  snap_issues : list Issue
}.

Record FixComparison := {
  before : Snapshot;
  after : Snapshot;
  fc_modifications : list string
}.

(** The analysis record with the keys that the worker adds to it. *)
Record Processed := {
  result : PDFAnalyzer.AnalysisResult;
  fix_comparison : option FixComparison;
  auto_fix_applied : list string;
  fixed_file_path : option string;
  original_file_path : option string
}.

Record Notifier := {
  notify_success : string -> nat -> nat -> Py.result unit;
  notify_auto_fix : string -> list string -> Py.result unit;
  notify_error : string -> string -> Py.result unit
}.

(** The settings read from [user_settings.json]. *)
Record AutoFixSettings := {
  auto_convert_rgb : bool;
  auto_outline_fonts : bool;
  create_comparison_report : bool;
  enable_notifications : bool
}.

(** What the processor is built from. [fixer] is [None] when [pdf_fixer]
    cannot be imported ([HAS_AUTO_FIX] false); [data_manager] and
    [notification_manager] likewise. *)
Record Env := {
  cfg : Config;
  col : PDFAnalyzer.Collaborators;
  auto_fix_settings : AutoFixSettings;
  handle_error : Py.exn -> string -> ErrorInfo;
  get_user_message : ErrorInfo -> string;
  fixer : option (Pdf.File -> PDFAnalyzer.AnalysisResult -> Py.result FixResult);
  data_manager : option (Processed -> Py.result unit);
  generate_reports : Processed -> string -> Py.result (list (string * string));
  notification_manager : option Notifier;
  progress_callback : option (Progress -> Py.result unit)
}.

(** The records put on the result queue. The keys ['auto_fix_applied'] and
    ['fixed_file'] of a complete record repeat what the analysis record
    already holds, and the processing time is left out. *)
Inductive ResultRecord :=
| Complete (file_id file : string) (res : Processed)
           (reports : list (string * string)) (worker_id : nat) (n_pages : nat)
| Error (file_id file error : string) (error_details : ErrorInfo) (worker_id : nat)
| BatchComplete (total_files processed errors auto_fixed : nat).

Definition record_file_id (r : ResultRecord) : option string :=
  match r with
  | Complete file_id _ _ _ _ _ => Some file_id
  | Error file_id _ _ _ _ => Some file_id
  | BatchComplete _ _ _ _ => None
  end.

(** The attributes of the processor that a worker changes. *)
Record self := {
  result_queue : list ResultRecord;
  processed_count : nat;
  error_count : nat;
  is_running : bool;
  is_paused : bool
}.

Record FileInfo := {
  path : Pdf.File;
  status : string
}.

Definition put (r : ResultRecord) : Stmt.M self unit :=
  fun s => (Py.Ok tt,
            {| result_queue := result_queue s ++ [r];
               processed_count := processed_count s;
               error_count := error_count s;
               is_running := is_running s; is_paused := is_paused s |}).

Definition count_processed : Stmt.M self unit :=
  fun s => (Py.Ok tt,
            {| result_queue := result_queue s;
               processed_count := S (processed_count s);
               error_count := error_count s;
               is_running := is_running s; is_paused := is_paused s |}).

Definition count_error : Stmt.M self unit :=
  fun s => (Py.Ok tt,
            {| result_queue := result_queue s;
               processed_count := processed_count s;
               error_count := S (error_count s);
               is_running := is_running s; is_paused := is_paused s |}).

Definition _needs_auto_fix (env : Env) (analysis_result : PDFAnalyzer.AnalysisResult)
  : bool :=
  match fixer env with
  | None => false
  | Some _ =>
      let colors := PDFAnalyzer.colors analysis_result in
      if andb (auto_convert_rgb (auto_fix_settings env))
              (andb (has_rgb colors) (negb (has_cmyk colors)))
      then true
      else if andb (auto_outline_fonts (auto_fix_settings env))
                   (existsb (fun f => negb (embedded (snd f)))
                            (PDFAnalyzer.fonts analysis_result))
      then true
      else false
  end.

(** [if self.progress_callback: self.progress_callback(...)]. *)
Definition call_progress (env : Env) (p : Progress) : Stmt.M self unit :=
  match progress_callback env with
  | Some cb => Stmt.lift (cb p)
  | None => Stmt.ret tt
  end.

(** The local wrapper [update_progress(step, percent)]. *)
Definition update_progress (env : Env) (file_id : string) (step : string)
           (percent : nat) : Stmt.M self unit :=
  call_progress env {| pr_file_id := file_id; pr_status := "processing";
                       pr_percent := percent; pr_payload := Message step |}.

(** The local variables of [_process_single_file] that the auto-fix block
    assigns. *)
Record Locals := {
  res : Processed;
  fixed_file : option Pdf.File;
  applied : list string;
  analyzer : PrintQualityChecker.self
}.

Definition snapshot_of (o : PDFAnalyzer.Outcome) : Snapshot :=
  match o with
  | PDFAnalyzer.Analysis r =>
      {| snap_fonts := PDFAnalyzer.fonts r;
         snap_colors := Some (PDFAnalyzer.colors r);
         snap_issues := PDFAnalyzer.issues r |}
  | PDFAnalyzer.ErrorDict _ =>
      {| snap_fonts := []; snap_colors := None; snap_issues := [] |}
  end.

Definition with_fix_info (p : Processed) (file_path fx : Pdf.File)
           (mods : list string) : Processed :=
  {| result := result p; fix_comparison := fix_comparison p;
     auto_fix_applied := mods;
     fixed_file_path := Some (Pdf.file_name fx);
     original_file_path := Some (Pdf.file_name file_path) |}.

(** The [try] block of the auto-fix step with its [except] clause: every
    exception inside is logged and dropped, and the assignments made before
    it stay. *)
Definition auto_fix_block (env : Env) (file_id : string) (file_path : Pdf.File)
           (fix_pdf : Pdf.File -> PDFAnalyzer.AnalysisResult -> Py.result FixResult)
           (l : Locals) : Stmt.M self Locals :=
  fun s =>
    match update_progress env file_id "문제 자동 수정 중" 50 s with
    | (Py.Raise _, s1) => (Py.Ok l, s1)
    | (Py.Ok _, s1) =>
        match fix_pdf file_path (result (res l)) with
        | Py.Raise _ => (Py.Ok l, s1)
        | Py.Ok fix_result =>
            match fixed fix_result with
            | None => (Py.Ok l, s1)
            | Some fx =>
                let mods := modifications fix_result in
                let l1 := {| res := res l; fixed_file := Some fx;
                             applied := mods; analyzer := analyzer l |} in
                if create_comparison_report (auto_fix_settings env) then
                  match update_progress env file_id "수정 결과 확인" 55 s1 with
                  | (Py.Raise _, s2) => (Py.Ok l1, s2)
                  | (Py.Ok _, s2) =>
                      let (result_after, an) :=
                        PDFAnalyzer.analyze (cfg env) (col env) (analyzer l) fx
                          (Some false) (DEFAULT_PREFLIGHT_PROFILE (cfg env)) in
                      let cmp :=
                        {| before := snapshot_of (PDFAnalyzer.Analysis (result (res l)));
                           after := snapshot_of result_after;
                           fc_modifications := mods |} in
                      let p := {| result := result (res l);
                                  fix_comparison := Some cmp;
                                  auto_fix_applied := auto_fix_applied (res l);
                                  fixed_file_path := fixed_file_path (res l);
                                  original_file_path := original_file_path (res l) |} in
                      (Py.Ok {| res := with_fix_info p file_path fx mods;
                                fixed_file := Some fx; applied := mods;
                                analyzer := an |}, s2)
                  end
                else
                  (Py.Ok {| res := with_fix_info (res l) file_path fx mods;
                            fixed_file := Some fx; applied := mods;
                            analyzer := analyzer l |}, s1)
            end
        end
    end.

(** The optional save to the data manager, with its own [try]/[except]. *)
Definition save_block (env : Env) (file_id : string) (p : Processed)
  : Stmt.M self unit :=
  match data_manager env with
  | None => Stmt.ret tt
  | Some save =>
      Stmt.try_except
        (update_progress env file_id "데이터 저장" 65 ;;;
         Stmt.lift (save p))
        (fun _ => Stmt.ret tt)
  end.

Definition notifier_on (env : Env) : option Notifier :=
  if enable_notifications (auto_fix_settings env)
  then notification_manager env else None.

(** The body of the [try] block of [_process_single_file]. *)
Definition process_body (env : Env) (file_id : string) (file_info : FileInfo)
           (worker_id : nat) : Stmt.M self unit :=
  let file_path := path file_info in
  call_progress env {| pr_file_id := file_id; pr_status := "processing";
                       pr_percent := 10; pr_payload := Message "분석 시작" |} ;;;
  let analyzer0 := PrintQualityChecker.__init__ in
  update_progress env file_id "기본 정보 분석" 20 ;;;
  let include_ink := DEFAULT_INK_ANALYSIS (cfg env) in
  let (outcome, analyzer1) :=
    PDFAnalyzer.analyze (cfg env) (col env) analyzer0 file_path (Some include_ink)
                        (DEFAULT_PREFLIGHT_PROFILE (cfg env)) in
  match outcome with
  | PDFAnalyzer.ErrorDict err =>
      Stmt.raise {| Py.exn_type := "Exception"; Py.exn_msg := err |}
  | PDFAnalyzer.Analysis r =>
      update_progress env file_id "분석 완료" 40 ;;;
      let l0 := {| res := {| result := r; fix_comparison := None;
                             auto_fix_applied := []; fixed_file_path := None;
                             original_file_path := None |};
                   fixed_file := None; applied := []; analyzer := analyzer1 |} in
      l <-- (if _needs_auto_fix env r then
               update_progress env file_id "자동 수정 확인" 45 ;;;
               match fixer env with
               | Some fix_pdf => auto_fix_block env file_id file_path fix_pdf l0
               | None => Stmt.ret l0
               end
             else Stmt.ret l0) ;;;
      update_progress env file_id "보고서 생성 준비" 60 ;;;
      save_block env file_id (res l) ;;;
      update_progress env file_id "보고서 생성" 75 ;;;
      report_paths <-- Stmt.lift (generate_reports env (res l)
                                    (DEFAULT_REPORT_FORMAT (cfg env))) ;;;
      update_progress env file_id "보고서 저장" 90 ;;;
      update_progress env file_id "완료" 100 ;;;
      let n_pages := PDFAnalyzer.page_count (PDFAnalyzer.basic_info (result (res l))) in
      (match notifier_on env with
       | Some nm =>
           Stmt.lift (notify_success nm (Pdf.file_name file_path)
                        (List.length (PDFAnalyzer.issues (result (res l)))) n_pages) ;;;
           match applied l with
           | [] => Stmt.ret tt
           | _ => Stmt.lift (notify_auto_fix nm (Pdf.file_name file_path) (applied l))
           end
       | None => Stmt.ret tt
       end) ;;;
      put (Complete file_id (Pdf.file_name file_path) (res l) report_paths
                    worker_id n_pages) ;;;
      count_processed ;;;
      call_progress env {| pr_file_id := file_id; pr_status := "complete";
                           pr_percent := 100; pr_payload := PageCount n_pages |}
  end.

(** The context string handed to the error handler. *)
Definition error_context (file_info : FileInfo) : string :=
  ("파일 처리 중: " ++ Pdf.file_name (path file_info))%string.

(** The record that the [except] clause puts on the result queue: the
    message is the user message of the handler's classification. *)
Definition error_record (env : Env) (file_id : string) (file_info : FileInfo)
           (worker_id : nat) (e : Py.exn) : ResultRecord :=
  let error_info := handle_error env e (error_context file_info) in
  let error_message := get_user_message env error_info in
  Error file_id (Pdf.file_name (path file_info)) error_message error_info worker_id.

(** The [except Exception as e] clause of [_process_single_file]. *)
Definition process_handler (env : Env) (file_id : string) (file_info : FileInfo)
           (worker_id : nat) (e : Py.exn) : Stmt.M self unit :=
  let file_name := Pdf.file_name (path file_info) in
  let error_info := handle_error env e (error_context file_info) in
  let error_message := get_user_message env error_info in
  count_error ;;;
  (match notifier_on env with
   | Some nm => Stmt.lift (notify_error nm file_name error_message)
   | None => Stmt.ret tt
   end) ;;;
  put (error_record env file_id file_info worker_id e) ;;;
  call_progress env {| pr_file_id := file_id; pr_status := "error";
                       pr_percent := 100; pr_payload := Message error_message |}.

Definition _process_single_file (env : Env) (file_id : string) (file_info : FileInfo)
           (worker_id : nat) : Stmt.M self unit :=
  Stmt.try_except (process_body env file_id file_info worker_id)
                  (process_handler env file_id file_info worker_id).

(** The loop of [_worker_thread] while the flags stay as they are: each
    turn takes the head of the queue; an exception that leaves
    [_process_single_file] is logged by the loop's own [except] clause; the
    empty queue ends the loop. *)
Fixpoint worker_loop (env : Env) (worker_id : nat)
         (file_queue : list (string * FileInfo)) (s : self) : self :=
  match file_queue with
  | [] => s
  | (file_id, file_info) :: rest =>
      let (_, s') := _process_single_file env file_id file_info worker_id s in
      worker_loop env worker_id rest s'
  end.

(** [_worker_thread] run by one worker with no other thread touching the
    flags: [None] when the processor is paused, since the worker then waits
    for another thread to clear the flag. *)
Definition _worker_thread (env : Env) (worker_id : nat)
           (file_queue : list (string * FileInfo)) (s : self) : option self :=
  if negb (is_running s) then Some s
  else if is_paused s then None
  else Some (worker_loop env worker_id file_queue s).

(** *** _complete_processing, get_statistics *)

(** One value of [file_dict]: the file information that the worker reads,
    and the truth value of the optional key ['auto_fix_applied']. *)
Record FileEntry := {
  entry_info : FileInfo;
  entry_auto_fix_applied : bool
}.

(** [sum(1 for f in file_dict.values() if f['status'] == st)]. *)
Definition count_status (file_dict : list (string * FileEntry)) (st : string) : nat :=
  List.length (filter (fun f => String.eqb (status (entry_info (snd f))) st) file_dict).

Definition count_auto_fixed (file_dict : list (string * FileEntry)) : nat :=
  List.length (filter (fun f => entry_auto_fix_applied (snd f)) file_dict).

(** [_complete_processing]; times are left out. [notify_batch_complete] is
    the method of that name of the notification manager. *)
Definition _complete_processing (env : Env)
           (notify_batch_complete : nat -> nat -> nat -> nat -> Py.result unit)
           (file_dict : list (string * FileEntry)) : Stmt.M self unit :=
  fun s =>
    let auto_fixed_count := count_auto_fixed file_dict in
    ((match notifier_on env with
      | Some _ =>
          Stmt.lift (notify_batch_complete (List.length file_dict) (processed_count s)
                                           (error_count s) auto_fixed_count)
      | None => Stmt.ret tt
      end) ;;;
     put (BatchComplete (List.length file_dict) (processed_count s) (error_count s)
                        auto_fixed_count)) s.

(** The dict of [get_statistics] without ['estimated_time']. *)
Record Statistics := {
  st_total : nat;
  st_completed : nat;
  st_errors : nat;
  st_processing : nat;
  st_waiting : nat;
  st_auto_fixed : nat;
  progress_percent : Q
}.

Definition get_statistics (file_dict : list (string * FileEntry)) : Statistics :=
  let total := List.length file_dict in
  let completed := count_status file_dict "complete" in
  {| st_total := total;
     st_completed := completed;
     st_errors := count_status file_dict "error";
     st_processing := count_status file_dict "processing";
     st_waiting := count_status file_dict "waiting";
     st_auto_fixed := count_auto_fixed file_dict;
     progress_percent :=
       if (0 <? total)%nat
       then inject_Z (Z.of_nat completed) / inject_Z (Z.of_nat total) * 100
       else 0 |}.

(** The files that [process_all] puts on the file queue, in the order of
    [file_dict]. *)
Definition waiting_jobs (file_dict : list (string * FileEntry))
  : list (string * FileInfo) :=
  map (fun f => (fst f, entry_info (snd f)))
      (filter (fun f => String.eqb (status (entry_info (snd f))) "waiting") file_dict).

End BatchProcessor.

(** ** [report_generator.py] *)

Module ReportGenerator.

(** [generate_reports]: [save_text_report] and [save_html_report] render
    the report and write it to disk; they are the two methods of those
    names, and may raise. *)
Definition generate_reports {A} (save_text_report save_html_report : A -> Py.result string)
           (analysis_result : A) (format_type : string)
  : Py.result (list (string * string)) :=
  let report_paths := [] in
  report_paths <- (if Py.mem_str format_type ["text"; "both"] then
                     text_path <- save_text_report analysis_result ;;
                     Py.Ok (dict_set String.eqb report_paths "text" text_path)
                   else Py.Ok report_paths) ;;
  if Py.mem_str format_type ["html"; "both"] then
    html_path <- save_html_report analysis_result ;;
    Py.Ok (dict_set String.eqb report_paths "html" html_path)
  else Py.Ok report_paths.

(** *** get_error_summary *)

Definition is_error (i : Issue) : bool := Severity_eqb (severity i) error.

(** One turn of the counting loop. *)
Definition count_type (error_types : list (string * nat)) (e : Issue)
  : list (string * nat) :=
  let error_type := itype e in
  let n := match dict_get String.eqb error_types error_type with
           | Some n => n
           | None => 0%nat
           end in
  dict_set String.eqb error_types error_type (S n).

Definition type_info_map : list (string * string) :=
  [("font_not_embedded", "폰트 미임베딩");
   ("high_ink_coverage", "잉크량 초과");
   ("low_resolution_image", "저해상도 이미지");
   ("insufficient_bleed", "재단여백 부족");
   ("preflight_failed", "프리플라이트 실패")].

(** The three most frequent error types with their counts. The argument is
    [analysis_result.get('issues', [])]. *)
Definition top_error_types (issues : list Issue) : list (string * nat) :=
  let errors := filter is_error issues in
  let error_types := fold_left count_type errors [] in
  firstn 3 (Py.sorted_by_desc snd error_types).

Definition get_error_summary (issues : list Issue) : list string :=
  map (fun tc => (Py.get type_info_map (fst tc) (fst tc) ++ " ("
                  ++ Py.str_nat (snd tc) ++ "건)")%string)
      (top_error_types issues).

(** *** group_issues_by_type *)

Definition type_priority : list (string * nat) :=
  [("font_not_embedded", 1); ("high_ink_coverage", 2); ("low_resolution_image", 3);
   ("insufficient_bleed", 4); ("page_size_inconsistent", 5); ("spot_colors", 6);
   ("transparency_detected", 7); ("overprint_detected", 8); ("small_text_detected", 9);
   ("high_compression_detected", 10); ("rgb_only", 11); ("medium_resolution_image", 12);
   ("preflight_failed", 13); ("preflight_warning", 14); ("preflight_info", 15)]%nat.

(** [type_groups[issue_type].append(issue)] on the [defaultdict]. *)
Definition group_add (type_groups : list (string * list Issue)) (issue : Issue)
  : list (string * list Issue) :=
  let issue_type := itype issue in
  let old := match dict_get String.eqb type_groups issue_type with
             | Some l => l
             | None => []
             end in
  dict_set String.eqb type_groups issue_type (old ++ [issue]).

Definition group_issues_by_type (issues : list Issue) : list (string * list Issue) :=
  let type_groups := fold_left group_add issues [] in
  Py.sorted_by (fun x => Py.get type_priority (fst x) 999%nat) type_groups.

(** *** format_page_list *)

(** One printed range: a single page or [start-end]. The source keeps the
    printed form in [ranges]; here the pair is kept until it is printed. *)
Definition range_str (r : nat * nat) : string :=
  if (fst r =? snd r)%nat then Py.str_nat (fst r)
  else (Py.str_nat (fst r) ++ "-" ++ Py.str_nat (snd r))%string.

(** One turn of the loop over [pages[1:]] with [ranges], [start], [end]. *)
Definition ranges_step (acc : list (nat * nat) * nat * nat) (p : nat)
  : list (nat * nat) * nat * nat :=
  let '(ranges, start, end_) := acc in
  if (p =? end_ + 1)%nat then (ranges, start, p)
  else (ranges ++ [(start, end_)], p, p).

(** The loop and the last range that is added after it. *)
Definition page_ranges (pages : list nat) : list (nat * nat) :=
  match pages with
  | [] => []
  | first :: rest =>
      let '(ranges, start, end_) := fold_left ranges_step rest ([], first, first) in
      ranges ++ [(start, end_)]
  end.

Definition format_page_list (pages : list nat) (max_display : nat) : string :=
  match pages with
  | [] => ""
  | _ =>
      let pages := Py.sorted_set pages in
      match pages with
      | [p] => (Py.str_nat p ++ "페이지")%string
      | _ =>
          if (List.length pages <=? max_display)%nat then
            (String.concat ", " (map Py.str_nat pages) ++ " 페이지")%string
          else
            let ranges := map range_str (page_ranges pages) in
            if (5 <? List.length ranges)%nat then
              (nth 0 ranges "" ++ ", " ++ nth 1 ranges "" ++ ", ... "
               ++ last ranges "" ++ " (" ++ Py.str_nat (List.length pages)
               ++ "개 페이지)")%string
            else (String.concat ", " ranges ++ " 페이지")%string
      end
  end.

End ReportGenerator.

(** ** [simple_logger.py] *)

Module SimpleLogger.

(** One entry of [stats['errors']] without time stamp and traceback. *)
Record ErrorDetail := {
  ed_file : option string;
  ed_message : string;
  ed_error_type : string;
  ed_error_message : string
}.

(** The counters of [self.stats]; the lines written to the console and to
    the log files are left out. *)
Record self := {
  total_files : nat;
  success_files : nat;
  error_files : nat;
  warnings_count : nat;
  errors : list ErrorDetail
}.

Definition __init__ : self :=
  {| total_files := 0; success_files := 0; error_files := 0; warnings_count := 0;
     errors := [] |}.

Definition success (s : self) : self :=
  {| total_files := total_files s; success_files := S (success_files s);
     error_files := error_files s; warnings_count := warnings_count s;
     errors := errors s |}.

Definition warning (s : self) : self :=
  {| total_files := total_files s; success_files := success_files s;
     error_files := error_files s; warnings_count := S (warnings_count s);
     errors := errors s |}.

(** [str(file_path) if file_path else None]: an empty path counts as no
    path. *)
Definition file_str (file_path : option string) : option string :=
  match file_path with
  | Some EmptyString => None
  | _ => file_path
  end.

(** [error(message, file_path, exception)]. *)
Definition error (s : self) (message : string) (file_path : option string)
           (exception : option Py.exn) : self :=
  {| total_files := total_files s; success_files := success_files s;
     error_files := S (error_files s); warnings_count := warnings_count s;
     errors :=
       match exception with
       | Some e => errors s ++ [{| ed_file := file_str file_path; ed_message := message;
                                   ed_error_type := Py.exn_type e;
                                   ed_error_message := Py.exn_msg e |}]
       | None => errors s
       end |}.

Definition start_file (s : self) : self :=
  {| total_files := S (total_files s); success_files := success_files s;
     error_files := error_files s; warnings_count := warnings_count s;
     errors := errors s |}.

Definition end_file (s : self) (file_path : option string) (ok : bool) : self :=
  if ok then success s else error s "파일 처리 실패" file_path None.

Definition _calculate_success_rate (s : self) : Q :=
  if (total_files s =? 0)%nat then 0
  else inject_Z (Z.of_nat (success_files s)) / inject_Z (Z.of_nat (total_files s)) * 100.

Definition get_recent_errors (s : self) (count : Z) : list ErrorDetail :=
  Py.last_slice count (errors s).

End SimpleLogger.

Module UserFriendlyErrorHandler.

Record ErrorMessage := {
  message : string;
  solution : string;
  log_level : string
}.

Definition ERROR_MESSAGES : list (string * ErrorMessage) :=
  [("FileNotFoundError",
    {| message := "📁 PDF 파일을 찾을 수 없습니다.";
       solution := "파일이 이동되었거나 삭제되었는지 확인해주세요.";
       log_level := "ERROR" |});
   ("PermissionError",
    {| message := "🔒 파일에 접근할 수 없습니다.";
       solution := "다른 프로그램에서 파일을 사용 중인지 확인하고, 폴더 권한을 확인해주세요.";
       log_level := "ERROR" |});
   ("pikepdf._qpdf.PdfError",
    {| message := "📄 PDF 파일을 열 수 없습니다.";
       solution := "파일이 손상되었거나 암호로 보호되어 있을 수 있습니다.";
       log_level := "ERROR" |});
   ("MemoryError",
    {| message := "💾 메모리가 부족합니다.";
       solution := "다른 프로그램을 종료하거나, 더 작은 PDF 파일로 시도해주세요.";
       log_level := "ERROR" |});
   ("KeyError",
    {| message := "📊 PDF 구조 분석 중 문제가 발생했습니다.";
       solution := "PDF 파일이 표준 형식이 아닐 수 있습니다. 다시 저장 후 시도해주세요.";
       log_level := "WARNING" |});
   ("ValueError",
    {| message := "📐 데이터 처리 중 문제가 발생했습니다.";
       solution := "PDF 파일의 일부 정보가 올바르지 않을 수 있습니다.";
       log_level := "WARNING" |})].

Definition default_message : ErrorMessage :=
  {| message := "예상치 못한 오류가 발생했습니다.";
     solution := "프로그램을 다시 시작하거나 개발자에게 문의해주세요.";
     log_level := "ERROR" |}.

Definition lf : string := String "010"%char EmptyString.

(** [handle_error(error, logger, file_path)]: the message and the logger
    after the call. *)
Definition handle_error (e : Py.exn) (logger : SimpleLogger.self)
           (file_path : option string) : string * SimpleLogger.self :=
  let error_type := Py.exn_type e in
  let error_info := Py.get ERROR_MESSAGES error_type default_message in
  let user_message :=
    (message error_info ++ lf ++ "해결 방법: " ++ solution error_info)%string in
  if String.eqb (log_level error_info) "ERROR"
  then (user_message, SimpleLogger.error logger user_message file_path (Some e))
  else (user_message, SimpleLogger.warning logger).

End UserFriendlyErrorHandler.

(** ** Sample settings, collaborators and documents *)

Module Sample.

Definition near (a b tol : Q) : bool :=
  andb (Qle_bool (a - tol) b) (Qle_bool b (a + tol)).

(** A4 in either orientation within 2 mm, otherwise Custom. *)
Definition paper (w h : Q) : string :=
  if orb (andb (near w 210 2) (near h 297 2)) (andb (near w 297 2) (near h 210 2))
  then "A4" else "Custom".

(** The defaults of the settings window. *)
Definition cfg : Config :=
  {| MIN_IMAGE_DPI := 72; WARNING_IMAGE_DPI := 150; OPTIMAL_IMAGE_DPI := 300;
     STANDARD_BLEED_SIZE := 3; MAX_INK_COVERAGE := 300;
     CHECK_OPTIONS := [("ink_coverage", false); ("transparency", false);
                       ("overprint", true); ("bleed", true); ("spot_colors", true)];
     get_paper_size_name := paper;
     is_ink_analysis_enabled := false;
     DEFAULT_INK_ANALYSIS := false;
     DEFAULT_PREFLIGHT_PROFILE := "offset";
     DEFAULT_REPORT_FORMAT := "both" |}.

Definition verdict (failed warnings info : list RuleResult) : PreflightResult :=
  {| pf_profile := "offset"; pf_passed := []; pf_failed := failed;
     pf_warnings := warnings; pf_info := info; pf_auto_fixable := [];
     overall_status := match failed, warnings with
                       | _ :: _, _ => "fail"
                       | [], _ :: _ => "warning"
                       | [], [] => "pass"
                       end |}.

(** A profile whose rules all pass. *)
Definition offset : PDFAnalyzer.Profile :=
  {| PDFAnalyzer.profile_name := "offset";
     PDFAnalyzer.check := fun _ => Py.Ok (verdict [] [] []) |}.

Definition col : PDFAnalyzer.Collaborators :=
  {| PDFAnalyzer.get_profile_by_name :=
       fun n => if String.eqb n "offset" then Some offset else None;
     PDFAnalyzer.get_offset_printing := offset;
     PDFAnalyzer.ink_calculate := fun _ => Py.Ok {| ink_summary := None |} |}.

Definition blank (mb : option Pdf.Box) (rot : option Z) : Pdf.Page :=
  {| Pdf.MediaBox := mb; Pdf.CropBox := None; Pdf.BleedBox := None;
     Pdf.TrimBox := None; Pdf.ArtBox := None; Pdf.Rotate := rot;
     Pdf.fitz_fonts := []; Pdf.res_fonts := None; Pdf.res_colorspaces := None;
     Pdf.fitz_images := []; Pdf.contents := ""; Pdf.res_extgstate := None;
     Pdf.span_sizes := [] |}.

(** 595.276 x 841.89 pt: A4 upright; the same sheet lying on its side. *)
Definition a4_box : Pdf.Box := [0; 0; 595276 # 1000; 841890 # 1000].
Definition a4_landscape_box : Pdf.Box := [0; 0; 841890 # 1000; 595276 # 1000].
Definition a3_box : Pdf.Box := [0; 0; 1190551 # 1000; 841890 # 1000].

Definition a4 : Pdf.Page := blank (Some a4_box) None.

Definition file_of (name : string) (ps : list Pdf.Page) : Pdf.File :=
  {| Pdf.file_name := name;
     Pdf.readable := Some {| Pdf.doc_pages := ps; Pdf.is_encrypted := false |} |}.

(** One A4 page without bleed box. *)
Definition one_page : Pdf.File := file_of "one.pdf" [a4].

(** Two pages of which the second has no MediaBox. *)
Definition no_mediabox : Pdf.File := file_of "nomb.pdf" [a4; blank None None].

(** The four pages of the grouping example of the specification: two A4
    pages, an A4 sheet on its side turned by 90 degrees, and an A3 page. *)
Definition mixed_sizes : Pdf.File :=
  file_of "mixed.pdf"
    [a4; a4; blank (Some a4_landscape_box) (Some 90%Z); blank (Some a3_box) None].

Definition unreadable : Pdf.File :=
  {| Pdf.file_name := "broken.pdf"; Pdf.readable := None |}.

Definition with_content (c : string) : Pdf.Page :=
  {| Pdf.MediaBox := Some a4_box; Pdf.CropBox := None; Pdf.BleedBox := None;
     Pdf.TrimBox := None; Pdf.ArtBox := None; Pdf.Rotate := None;
     Pdf.fitz_fonts := []; Pdf.res_fonts := None; Pdf.res_colorspaces := None;
     Pdf.fitz_images := []; Pdf.contents := c; Pdf.res_extgstate := None;
     Pdf.span_sizes := [] |}.

Definition lf : string := String "010"%char EmptyString.

(** Three pages: white fill with overprint, black fill with overprint, and
    overprint after another colour. *)
Definition overprints : Pdf.File :=
  file_of "op.pdf"
    [with_content ("0 0 0 0 k 1 OP" ++ lf)%string;
     with_content ("0 0 0 1 k 1 OP" ++ lf)%string;
     with_content ("1 0 0 0 k 1 OP" ++ lf)%string].

Definition font (ext basename name : string) : Pdf.FontData :=
  {| Pdf.fd_xref := 7%Z; Pdf.fd_ext := ext; Pdf.fd_type := "Type1";
     Pdf.fd_basename := basename; Pdf.fd_name := name; Pdf.fd_encoding := "" |}.

Definition image (w h pw ph : Z) : Pdf.Img :=
  {| Pdf.im_xref := 9%Z; Pdf.im_w := w; Pdf.im_h := h;
     Pdf.pix_width := pw; Pdf.pix_height := ph; Pdf.pix_alpha := false;
     Pdf.pix_colorspace := Some "DeviceRGB"; Pdf.pix_samples_len := 0%nat;
     Pdf.im_object := "<< /Type /XObject /Subtype /Image >>";
     Pdf.im_stream_len := 0%Z |}.

Definition with_images (imgs : list Pdf.Img) : Pdf.Page :=
  {| Pdf.MediaBox := Some a4_box; Pdf.CropBox := None; Pdf.BleedBox := None;
     Pdf.TrimBox := None; Pdf.ArtBox := None; Pdf.Rotate := None;
     Pdf.fitz_fonts := []; Pdf.res_fonts := None; Pdf.res_colorspaces := None;
     Pdf.fitz_images := imgs; Pdf.contents := ""; Pdf.res_extgstate := None;
     Pdf.span_sizes := [] |}.

Definition with_fonts (fds : list Pdf.FontData) : Pdf.Page :=
  {| Pdf.MediaBox := Some a4_box; Pdf.CropBox := None; Pdf.BleedBox := None;
     Pdf.TrimBox := None; Pdf.ArtBox := None; Pdf.Rotate := None;
     Pdf.fitz_fonts := fds; Pdf.res_fonts := None; Pdf.res_colorspaces := None;
     Pdf.fitz_images := []; Pdf.contents := ""; Pdf.res_extgstate := None;
     Pdf.span_sizes := [] |}.

(** A subset font and a standard font, both reported without font file and
    both named with a not-embedded mark. *)
Definition marked_subset : Pdf.FontData := font "" "ABCDEF+Minion" "F1 (not embedded)".
Definition marked_standard : Pdf.FontData := font "" "Helvetica" "F2 (not embedded)".

Definition marked_fonts_doc : Pdf.Document :=
  {| Pdf.doc_pages := [with_fonts [marked_subset; marked_standard]];
     Pdf.is_encrypted := false |}.

Definition marked_fonts : Pdf.File :=
  {| Pdf.file_name := "fonts.pdf"; Pdf.readable := Some marked_fonts_doc |}.

Definition no_mediabox_doc : Pdf.Document :=
  {| Pdf.doc_pages := [a4; blank None None]; Pdf.is_encrypted := false |}.

Definition rule (name : string) : RuleResult :=
  {| rule_name := name; rr_expected := "3mm"; rr_found := "0mm";
     rr_message := "" |}.

Definition settings : BatchProcessor.AutoFixSettings :=
  {| BatchProcessor.auto_convert_rgb := false;
     BatchProcessor.auto_outline_fonts := false;
     BatchProcessor.create_comparison_report := true;
     BatchProcessor.enable_notifications := false |}.

Definition env : BatchProcessor.Env :=
  {| BatchProcessor.cfg := cfg;
     BatchProcessor.col := col;
     BatchProcessor.auto_fix_settings := settings;
     BatchProcessor.handle_error :=
       fun e _ => {| BatchProcessor.classification := Py.exn_type e;
                     BatchProcessor.detail := Py.exn_msg e |};
     BatchProcessor.get_user_message := BatchProcessor.classification;
     BatchProcessor.fixer := None;
     BatchProcessor.data_manager := None;
     BatchProcessor.generate_reports := fun _ _ => Py.Ok [("text", "report.txt")];
     BatchProcessor.notification_manager := None;
     BatchProcessor.progress_callback := Some (fun _ => Py.Ok tt) |}.

Definition idle : BatchProcessor.self :=
  {| BatchProcessor.result_queue := []; BatchProcessor.processed_count := 0;
     BatchProcessor.error_count := 0; BatchProcessor.is_running := true;
     BatchProcessor.is_paused := false |}.

Definition job (f : Pdf.File) : BatchProcessor.FileInfo :=
  {| BatchProcessor.path := f; BatchProcessor.status := "waiting" |}.

Definition overprints_doc : Pdf.Document :=
  {| Pdf.doc_pages :=
       [with_content ("0 0 0 0 k 1 OP" ++ lf)%string;
        with_content ("0 0 0 1 k 1 OP" ++ lf)%string;
        with_content ("1 0 0 0 k 1 OP" ++ lf)%string];
     Pdf.is_encrypted := false |}.

(** White fill and overprint operator on two lines; white fill before the
    lower-case operator. *)
Definition overprints_apart : Pdf.File :=
  file_of "op2.pdf"
    [with_content ("0 0 0 0 k" ++ lf ++ "1 OP" ++ lf)%string;
     with_content ("0 0 0 0 k 1 op" ++ lf)%string].

(** One page that uses a font without font file. *)
Definition unembedded : Pdf.File :=
  file_of "plain.pdf" [with_fonts [font "" "CustomSans" "F1"]].

(** A processor whose fixer outlines fonts and hands back the file. *)
Definition env_fix : BatchProcessor.Env :=
  {| BatchProcessor.cfg := cfg;
     BatchProcessor.col := col;
     BatchProcessor.auto_fix_settings :=
       {| BatchProcessor.auto_convert_rgb := false;
          BatchProcessor.auto_outline_fonts := true;
          BatchProcessor.create_comparison_report := true;
          BatchProcessor.enable_notifications := false |};
     BatchProcessor.handle_error :=
       fun e _ => {| BatchProcessor.classification := Py.exn_type e;
                     BatchProcessor.detail := Py.exn_msg e |};
     BatchProcessor.get_user_message := BatchProcessor.classification;
     BatchProcessor.fixer :=
       Some (fun f _ => Py.Ok {| BatchProcessor.fixed := Some f;
                                 BatchProcessor.modifications := ["outline"] |});
     BatchProcessor.data_manager := None;
     BatchProcessor.generate_reports := fun _ _ => Py.Ok [("text", "report.txt")];
     BatchProcessor.notification_manager := None;
     BatchProcessor.progress_callback := Some (fun _ => Py.Ok tt) |}.

Definition page_with (mb : Pdf.Box) (rot : option Z) (fds : list Pdf.FontData)
           (css : option (list (string * Pdf.CsObj))) (imgs : list Pdf.Img) : Pdf.Page :=
  {| Pdf.MediaBox := Some mb; Pdf.CropBox := None; Pdf.BleedBox := None;
     Pdf.TrimBox := None; Pdf.ArtBox := None; Pdf.Rotate := rot;
     Pdf.fitz_fonts := fds; Pdf.res_fonts := None; Pdf.res_colorspaces := css;
     Pdf.fitz_images := imgs; Pdf.contents := ""; Pdf.res_extgstate := None;
     Pdf.span_sizes := [] |}.

(** The end-to-end scenario of the specification: five A4 pages, the third
    lying on its side and turned by 90 degrees; a standard font and the font
    CustomSans without font file on page 2; an RGB colour space; one image
    of 50 DPI on page 4. *)
Definition scenario : Pdf.File :=
  file_of "scenario.pdf"
    [page_with a4_box None [font "" "Helvetica" "F1"] (Some [("/DeviceRGB", Pdf.CsOther)]) [];
     page_with a4_box None [font "" "CustomSans" "F2"] None [];
     page_with a4_landscape_box (Some 90%Z) [] None [];
     page_with a4_box None [] None [image 72 72 50 50];
     page_with a4_box None [] None []].

(** A photograph with alpha channel, JPEG-compressed to 1000 bytes for
    600 x 600 pixels, placed at two inches square. *)
Definition photo : Pdf.Img :=
  {| Pdf.im_xref := 11%Z; Pdf.im_w := 144%Z; Pdf.im_h := 144%Z;
     Pdf.pix_width := 600%Z; Pdf.pix_height := 600%Z; Pdf.pix_alpha := true;
     Pdf.pix_colorspace := Some "DeviceRGB"; Pdf.pix_samples_len := 0%nat;
     Pdf.im_object :=
       "<< /Type /XObject /Subtype /Image /Width 600 /Height 600 /Filter /DCTDecode >>";
     Pdf.im_stream_len := 1000%Z |}.

(** An A4 page with 3 mm of bleed on the left and none elsewhere, a spot
    colour, a graphics-state operator, the photograph, and text of 12 and
    of 3 points. *)
Definition artwork : Pdf.Page :=
  {| Pdf.MediaBox := Some a4_box; Pdf.CropBox := None;
     Pdf.BleedBox := Some [0; 0; 595276 # 1000; 841890 # 1000];
     Pdf.TrimBox := Some [8504 # 1000; 0; 595276 # 1000; 841890 # 1000];
     Pdf.ArtBox := None; Pdf.Rotate := None;
     Pdf.fitz_fonts := []; Pdf.res_fonts := None;
     Pdf.res_colorspaces :=
       Some [("/Cs1", Pdf.CsList ["/Separation"; "/PANTONE 185 C"]);
             ("/DefaultRGB", Pdf.CsOther)];
     Pdf.fitz_images := [photo]; Pdf.contents := "/GS1 gs";
     Pdf.res_extgstate := None; Pdf.span_sizes := [12; 3] |}.

Definition print_job_doc : Pdf.Document :=
  {| Pdf.doc_pages := [artwork; a4]; Pdf.is_encrypted := false |}.

Definition print_job : Pdf.File :=
  {| Pdf.file_name := "job.pdf"; Pdf.readable := Some print_job_doc |}.

(** A page with 5 mm of bleed on every side: the A4 sheet as trim box in a
    bleed box that is 14.173 pt larger all around. *)
Definition full_bleed : Pdf.Page :=
  {| Pdf.MediaBox := Some [0; 0; 623622 # 1000; 870236 # 1000]; Pdf.CropBox := None;
     Pdf.BleedBox := Some [0; 0; 623622 # 1000; 870236 # 1000];
     Pdf.TrimBox := Some [14173 # 1000; 14173 # 1000; 609449 # 1000; 856063 # 1000];
     Pdf.ArtBox := None; Pdf.Rotate := None;
     Pdf.fitz_fonts := []; Pdf.res_fonts := None; Pdf.res_colorspaces := None;
     Pdf.fitz_images := []; Pdf.contents := ""; Pdf.res_extgstate := None;
     Pdf.span_sizes := [] |}.

(** The page records of a document of three pages: 5 mm of bleed all
    around, 3 mm on the left only, and no bleed box. *)
Definition bleed_records : list PageInfo :=
  match PDFAnalyzer._analyze_pages
          cfg {| Pdf.doc_pages := [full_bleed; artwork; a4]; Pdf.is_encrypted := false |}
  with
  | Py.Ok records => records
  | Py.Raise _ => []
  end.

(** Black fill before the lower-case overprint operator; black fill and
    overprint operator on two lines; a fill of 10 percent cyan before the
    overprint operator. *)
Definition overprints_misread : Pdf.File :=
  file_of "op3.pdf"
    [with_content ("0 0 0 1 k 1 op" ++ lf)%string;
     with_content ("0 0 0 1 k" ++ lf ++ "1 OP" ++ lf)%string;
     with_content ("0.10 0 0 0 k 1 OP" ++ lf)%string].

(** A processor with notifications switched on whose notification manager
    fails to show the error notification. *)
Definition env_notifier_fails : BatchProcessor.Env :=
  {| BatchProcessor.cfg := cfg;
     BatchProcessor.col := col;
     BatchProcessor.auto_fix_settings :=
       {| BatchProcessor.auto_convert_rgb := false;
          BatchProcessor.auto_outline_fonts := false;
          BatchProcessor.create_comparison_report := true;
          BatchProcessor.enable_notifications := true |};
     BatchProcessor.handle_error :=
       fun e _ => {| BatchProcessor.classification := Py.exn_type e;
                     BatchProcessor.detail := Py.exn_msg e |};
     BatchProcessor.get_user_message := BatchProcessor.classification;
     BatchProcessor.fixer := None;
     BatchProcessor.data_manager := None;
     BatchProcessor.generate_reports := fun _ _ => Py.Ok [("text", "report.txt")];
     BatchProcessor.notification_manager :=
       Some {| BatchProcessor.notify_success := fun _ _ _ => Py.Ok tt;
               BatchProcessor.notify_auto_fix := fun _ _ => Py.Ok tt;
               BatchProcessor.notify_error :=
                 fun _ _ => Py.Raise {| Py.exn_type := "RuntimeError";
                                        Py.exn_msg := "notification failed" |} |};
     BatchProcessor.progress_callback := Some (fun _ => Py.Ok tt) |}.

(** A page whose MediaBox has three numbers. *)
Definition short_box_doc : Pdf.Document :=
  {| Pdf.doc_pages := [a4; blank (Some [0; 0; 595276 # 1000]) None];
     Pdf.is_encrypted := false |}.

Definition short_box : Pdf.File :=
  {| Pdf.file_name := "short.pdf"; Pdf.readable := Some short_box_doc |}.

(** A processor whose fixer and data manager both fail. *)
Definition env_broken : BatchProcessor.Env :=
  {| BatchProcessor.cfg := cfg;
     BatchProcessor.col := col;
     BatchProcessor.auto_fix_settings :=
       {| BatchProcessor.auto_convert_rgb := false;
          BatchProcessor.auto_outline_fonts := true;
          BatchProcessor.create_comparison_report := true;
          BatchProcessor.enable_notifications := false |};
     BatchProcessor.handle_error :=
       fun e _ => {| BatchProcessor.classification := Py.exn_type e;
                     BatchProcessor.detail := Py.exn_msg e |};
     BatchProcessor.get_user_message := BatchProcessor.classification;
     BatchProcessor.fixer :=
       Some (fun _ _ => Py.Raise {| Py.exn_type := "RuntimeError";
                                    Py.exn_msg := "fixer failed" |});
     BatchProcessor.data_manager :=
       Some (fun _ => Py.Raise {| Py.exn_type := "OSError";
                                  Py.exn_msg := "disk full" |});
     BatchProcessor.generate_reports := fun _ _ => Py.Ok [("text", "report.txt")];
     BatchProcessor.notification_manager := None;
     BatchProcessor.progress_callback := Some (fun _ => Py.Ok tt) |}.

Definition entry (f : Pdf.File) (st : string) (fixed : bool) : BatchProcessor.FileEntry :=
  {| BatchProcessor.entry_info := {| BatchProcessor.path := f;
                                     BatchProcessor.status := st |};
     BatchProcessor.entry_auto_fix_applied := fixed |}.

End Sample.

(** ** Vocabulary of the properties *)

(** A box that is present has the four coordinates of a rectangle. *)
Definition box_ok (b : option Pdf.Box) : bool :=
  match b with
  | Some l => (4 <=? List.length l)%nat
  | None => true
  end.

Definition page_boxes_ok (p : Pdf.Page) : bool :=
  box_ok (Pdf.MediaBox p) && box_ok (Pdf.CropBox p)
  && box_ok (Pdf.BleedBox p) && box_ok (Pdf.TrimBox p).

Definition has_mediabox (np : nat * Pdf.Page) : bool :=
  match Pdf.MediaBox (snd np) with
  | Some _ => true
  | None => false
  end.

(** A finding is about bleed when its type or the rule it reports names it. *)
Definition bleed_related (i : Issue) : bool :=
  Py.contains "bleed" (Py.lower (itype i))
  || match extra i with
     | Rule r _ _ => Py.contains "bleed" (Py.lower r)
     | _ => false
     end.

(** The states that an analyzer instance can be in: as created, or after any
    number of calls of [analyze]. *)
Inductive reachable (cfg : Config) (col : PDFAnalyzer.Collaborators)
  : PrintQualityChecker.self -> Prop :=
| reach_init : reachable cfg col PrintQualityChecker.__init__
| reach_analyze (s : PrintQualityChecker.self) (f : Pdf.File)
                (include_ink : option bool) (profile_id : string) :
    reachable cfg col s ->
    reachable cfg col (snd (PDFAnalyzer.analyze cfg col s f include_ink profile_id)).

(** Type and severity of the findings that the print-quality checks
    append. *)
Definition print_quality_kinds : list (string * Severity) :=
  [("transparency_check_error", info); ("transparency_detected", warning);
   ("white_overprint_detected", error); ("k_overprint_detected", info);
   ("overprint_detected", warning); ("insufficient_bleed", info);
   ("spot_colors_used", info); ("high_compression_detected", warning);
   ("small_text_detected", warning)].

(** Type and severity of the findings of the issue engine. *)
Definition engine_kinds : list (string * Severity) :=
  [("page_size_inconsistent", warning); ("font_not_embedded", error);
   ("rgb_only", warning); ("spot_colors", warning); ("spot_colors", info);
   ("low_resolution_image", error); ("medium_resolution_image", info);
   ("high_ink_coverage", error)].

Definition of_kind (kinds : list (string * Severity)) (i : Issue) : bool :=
  existsb (fun ts => String.eqb (itype i) (fst ts) && Severity_eqb (severity i) (snd ts))
          kinds
  && match extra i with
     | Rule _ _ _ => false
     | _ => true
     end.

(** The bleed test of the print-quality component on one page record. *)
Definition bleed_insufficient (cfg : Config) (page_info : PageInfo) : bool :=
  negb (has_bleed page_info) || Py.Qltb (min_bleed page_info) (STANDARD_BLEED_SIZE cfg).

(** Both lists of a checker hold print-quality findings only. *)
Definition holds_print_quality_findings (s : PrintQualityChecker.self) : Prop :=
  Forall (fun i => of_kind print_quality_kinds i = true) (PrintQualityChecker.issues s) /\
  Forall (fun i => of_kind print_quality_kinds i = true) (PrintQualityChecker.warnings s).

(** The finding lists page [p]. *)
Definition lists_page (i : Issue) (p : nat) : Prop :=
  exists ps, affected_pages i = Some ps /\ In p ps.

(** The branch conditions of the overprint scan on one page: an overprint
    operator together with a white fill before [1 OP], respectively with a
    black-only fill before [1 OP] and no white one. *)
Definition page_white_overprint (page : Pdf.Page) : bool :=
  nonempty (Pdf.contents page)
  && PrintQualityChecker.content_has_overprint (Pdf.contents page)
  && PrintQualityChecker.content_white (Pdf.contents page).

Definition page_k_only_overprint (page : Pdf.Page) : bool :=
  nonempty (Pdf.contents page)
  && PrintQualityChecker.content_has_overprint (Pdf.contents page)
  && negb (PrintQualityChecker.content_white (Pdf.contents page))
  && PrintQualityChecker.content_k_only (Pdf.contents page).




Definition is_page_size_finding (i : Issue) : bool :=
  String.eqb (itype i) "page_size_inconsistent".

(** Reporting an error does not itself fail: [notify_error] of a notifier
    that is switched on, and the progress callback called with status
    ['error'], return normally. *)
Definition error_report_returns (env : BatchProcessor.Env) : Prop :=
  (forall nm name msg,
      BatchProcessor.notifier_on env = Some nm ->
      BatchProcessor.notify_error nm name msg = Py.Ok tt) /\
  (forall cb p,
      BatchProcessor.progress_callback env = Some cb ->
      BatchProcessor.pr_status p = "error" ->
      cb p = Py.Ok tt).

(** A statement that leaves the processor as it is. *)
Definition quiet {A} (m : Stmt.M BatchProcessor.self A) : Prop :=
  forall s r s', m s = (r, s') -> s' = s.

(** The record was put by the worker for the file [file_id]. *)
Definition record_of (file_id : string) (r : BatchProcessor.ResultRecord) : Prop :=
  BatchProcessor.record_file_id r = Some file_id.

(** What the body of the per-file [try] block does to the processor: it
    raises before anything is put, or it puts one ['complete'] record of the
    file and counts it (and may still raise in the last progress call). *)
Definition body_effect {A} (file_id : string) (m : Stmt.M BatchProcessor.self A) : Prop :=
  forall s r s',
    m s = (r, s') ->
    (s' = s /\ exists e, r = Py.Raise e) \/
    (exists file res reports worker_id n_pages,
        BatchProcessor.result_queue s'
        = BatchProcessor.result_queue s
          ++ [BatchProcessor.Complete file_id file res reports worker_id n_pages] /\
        BatchProcessor.processed_count s' = S (BatchProcessor.processed_count s) /\
        BatchProcessor.error_count s' = BatchProcessor.error_count s /\
        BatchProcessor.is_running s' = BatchProcessor.is_running s /\
        BatchProcessor.is_paused s' = BatchProcessor.is_paused s).

(** A check that adds findings to the checker's lists, the same ones
    whatever the lists hold, and gives the same result. *)
Definition appends_only {A}
           (check : PrintQualityChecker.self -> A * PrintQualityChecker.self) : Prop :=
  exists a new_issues new_warnings,
    forall s, check s
              = (a, {| PrintQualityChecker.issues :=
                         PrintQualityChecker.issues s ++ new_issues;
                       PrintQualityChecker.warnings :=
                         PrintQualityChecker.warnings s ++ new_warnings |}).

(** The test of the transparency scan on one page: an image with alpha
    channel, or one of the operators in a non-empty content stream. *)
Definition page_transparent (page : Pdf.Page) : bool :=
  existsb Pdf.pix_alpha (Pdf.fitz_images page)
  || (nonempty (Pdf.contents page)
      && existsb (fun op => Py.contains op (Pdf.contents page))
                 PrintQualityChecker.transparency_operators).

(** A span size that the text check reports as too small. *)
Definition small_size (font_size : Q) : bool :=
  Py.Qltb 0 font_size && Py.Qltb font_size PrintQualityChecker.MIN_TEXT_SIZE.

(** The source text of the image object names a [/Filter]. *)
Definition has_filter (img : Pdf.Img) : bool :=
  Py.contains "/Filter" (Pdf.im_object img).

(** The elements of a list up to the first that passes the test, this one
    included. *)
Fixpoint up_to_first {A} (test : A -> bool) (l : list A) : list A :=
  match l with
  | [] => []
  | a :: rest => if test a then [a] else a :: up_to_first test rest
  end.

(** The fields of the compression record that only the code after the
    lookup of the filter changes are as before. *)
Definition filters_untouched (acc c : PrintQualityChecker.CompressionInfo) : Prop :=
  PrintQualityChecker.jpeg_compressed c = PrintQualityChecker.jpeg_compressed acc /\
  PrintQualityChecker.low_quality_images c = PrintQualityChecker.low_quality_images acc /\
  PrintQualityChecker.compression_types c = PrintQualityChecker.compression_types acc.

(** All images of a document, page by page. *)
Definition doc_images (doc : Pdf.Document) : list Pdf.Img :=
  flat_map Pdf.fitz_images (Pdf.doc_pages doc).

(** A colour-space entry [/Separation ...]. *)
Definition is_separation (cs_obj : Pdf.CsObj) : bool :=
  match cs_obj with
  | Pdf.CsList (first :: _) => String.eqb first "/Separation"
  | _ => false
  end.


(** What the spot-colour scan keeps true of its record: every colour is
    stored once and under its own name, with at least one page, each of
    which is among the pages with spot colours; no page is listed twice; and
    the flag is set exactly when a colour is stored. *)
Definition spot_usage_consistent (c : PrintQualityChecker.SpotColorInfo) : Prop :=
  NoDup (map fst (PrintQualityChecker.spot_colors c)) /\
  NoDup (PrintQualityChecker.pages_with_spots c) /\
  (PrintQualityChecker.pq_has_spot_colors c = true <->
   PrintQualityChecker.spot_colors c <> []) /\
  (forall name u,
      In (name, u) (PrintQualityChecker.spot_colors c) ->
      PrintQualityChecker.su_name u = name /\
      PrintQualityChecker.su_pages u <> [] /\
      PrintQualityChecker.su_is_pantone u = Py.contains "PANTONE" (Py.upper name) /\
      forall p, In p (PrintQualityChecker.su_pages u) ->
                In p (PrintQualityChecker.pages_with_spots c)).

(** The exception of an index past the end of a sequence. *)
Definition index_error : Py.exn :=
  {| Py.exn_type := "IndexError"; Py.exn_msg := "index out of range" |}.

(** What the colour scan keeps true of the spot colours it records: the
    details are stored under the names of [spot_color_names], in the same
    order and once each; each detail carries its own name, at least one
    page, and the PANTONE mark of the upper-cased name; and a recorded name
    sets the flag. *)
Definition spot_records_in_step (c : ColorInfo) : Prop :=
  map fst (spot_color_details c) = spot_color_names c /\
  NoDup (spot_color_names c) /\
  (forall name d,
      In (name, d) (spot_color_details c) ->
      spot_name d = name /\ spot_pages d <> [] /\
      is_pantone d = Py.contains "PANTONE" (Py.upper name)) /\
  (spot_color_names c <> [] -> has_spot_colors c = true) /\
  NoDup (color_spaces c).

(** The resource name of a colour-space entry contains the word, in any
    case. *)
Definition name_has (word : string) (e : nat * (string * Pdf.CsObj)) : bool :=
  Py.contains word (Py.upper (fst (snd e))).

Definition Category_eqb (a b : Category) : bool :=
  match a, b with
  | NoCategory, NoCategory | critical, critical | cat_warning, cat_warning
  | acceptable, acceptable | optimal, optimal => true
  | _, _ => false
  end.

(** The number of image records of one resolution category. *)
Definition count_category (c : Category) (records : list ImgData) : nat :=
  List.length (filter (fun d => Category_eqb (resolution_category d) c) records).

(** The counters of the image scan agree with its records. *)
Definition image_counters_agree (im : ImageInfo) : Prop :=
  total_count im = List.length (image_records im) /\
  low_resolution_count im = n_critical im /\
  n_critical im = count_category critical (image_records im) /\
  n_warning im = count_category cat_warning (image_records im) /\
  n_acceptable im = count_category acceptable (image_records im) /\
  n_optimal im = count_category optimal (image_records im).

(** The font test of the issue engine: neither embedded nor standard. *)
Definition font_missing (entry : (string * nat) * FontInfo) : bool :=
  negb (embedded (snd entry)) && negb (is_standard (snd entry)).

Definition is_complete_record (r : BatchProcessor.ResultRecord) : bool :=
  match r with
  | BatchProcessor.Complete _ _ _ _ _ _ => true
  | _ => false
  end.

Definition is_error_record (r : BatchProcessor.ResultRecord) : bool :=
  match r with
  | BatchProcessor.Error _ _ _ _ _ => true
  | _ => false
  end.

(** What work on [n] files does to the processor: it puts ['complete'] and
    ['error'] records only; every ['complete'] record is counted as
    processed, every ['error'] record as an error; each file is counted at
    least once and at most twice; the flags stay. When [exact] holds, the
    errors counted are the ['error'] records. *)
Definition counted (exact : Prop) (n : nat) (s s' : BatchProcessor.self) : Prop :=
  exists recs,
    BatchProcessor.result_queue s' = BatchProcessor.result_queue s ++ recs /\
    Forall (fun r => is_complete_record r || is_error_record r = true) recs /\
    BatchProcessor.processed_count s'
    = (BatchProcessor.processed_count s + List.length (filter is_complete_record recs))%nat /\
    (BatchProcessor.error_count s + List.length (filter is_error_record recs)
     <= BatchProcessor.error_count s')%nat /\
    (exact -> BatchProcessor.error_count s'
              = (BatchProcessor.error_count s
                 + List.length (filter is_error_record recs))%nat) /\
    (BatchProcessor.processed_count s + BatchProcessor.error_count s + n
     <= BatchProcessor.processed_count s' + BatchProcessor.error_count s')%nat /\
    (BatchProcessor.processed_count s' + BatchProcessor.error_count s'
     <= BatchProcessor.processed_count s + BatchProcessor.error_count s + 2 * n)%nat /\
    BatchProcessor.is_running s' = BatchProcessor.is_running s /\
    BatchProcessor.is_paused s' = BatchProcessor.is_paused s.

(** The progress callback, when there is one, returns normally. *)
Definition progress_returns (env : BatchProcessor.Env) : Prop :=
  forall cb p, BatchProcessor.progress_callback env = Some cb -> cb p = Py.Ok tt.

(** The statuses that [get_statistics] counts. *)
Definition known_status (st : string) : bool :=
  Py.mem_str st ["complete"; "error"; "processing"; "waiting"].

(** The display priority of a finding type; 999 for a type that the table
    does not list. *)
Definition priority_of (issue_type : string) : nat :=
  Py.get ReportGenerator.type_priority issue_type 999%nat.

(** The findings of one type, in their order. *)
Definition of_type (issue_type : string) (issues : list Issue) : list Issue :=
  filter (fun i => String.eqb (itype i) issue_type) issues.

(** The pages that a printed range stands for. *)
Definition expand (r : nat * nat) : list nat := seq (fst r) (snd r - fst r + 1).

(** Two ranges with at least one page missing between them. *)
Definition apart (r1 r2 : nat * nat) : Prop := (snd r1 + 1 < fst r2)%nat.

(** The exception types that the error handler logs as warnings. *)
Definition logged_as_warning (error_type : string) : bool :=
  String.eqb error_type "KeyError" || String.eqb error_type "ValueError".

(** * Properties *)

(** ** Facts about the primitives *)

Lemma nullable_spec (r : Re.re) : Re.nullable r = true <-> Re.Matches r "".
Proof.
  induction r; cbn [Re.nullable].
  - split; [discriminate | intro H; inversion H].
  - split; [constructor | reflexivity].
  - split; [discriminate | intro H; inversion H].
  - rewrite andb_true_iff, IHr1, IHr2. split.
    + intros [H1 H2]. exact (Re.MCat _ _ "" "" H1 H2).
    + intro H. inversion H as [| |? ? s1 s2 H1 H2 E| | | |]; subst.
      destruct s1; [|discriminate]. cbn in *. subst. auto.
  - rewrite orb_true_iff, IHr1, IHr2. split.
    + intros [H | H]; [now apply Re.MAltL | now apply Re.MAltR].
    + intro H. inversion H; subst; auto.
  - split; [constructor | reflexivity].
Qed.

Lemma cat_spec (a b : Re.re) (s : string) :
  Re.Matches (Re.cat a b) s <-> Re.Matches (Re.Cat a b) s.
Proof.
  assert (V1 : forall x t, ~ Re.Matches (Re.Cat Re.Void x) t).
  { intros x t H. inversion H as [| |? ? ? ? H1 _ | | | |]; subst. inversion H1. }
  assert (V2 : forall x t, ~ Re.Matches (Re.Cat x Re.Void) t).
  { intros x t H. inversion H as [| |? ? ? ? _ H2 | | | |]; subst. inversion H2. }
  assert (V0 : forall t, ~ Re.Matches Re.Void t) by (intros t H; inversion H).
  assert (E : forall x t, Re.Matches x t <-> Re.Matches (Re.Cat Re.Eps x) t).
  { intros x t. split.
    - intro H. exact (Re.MCat _ _ "" t Re.MEps H).
    - intro H. inversion H as [| |? ? ? ? H1 H2 | | | |]; subst.
      inversion H1; subst. exact H2. }
  destruct a; cbn [Re.cat];
    try (split; [intro H; now apply V0 in H | intro H; now apply V1 in H]);
    destruct b;
    try (split; [intro H; now apply V0 in H | intro H; now apply V2 in H]);
    try apply E; reflexivity.
Qed.

Lemma alt_spec (a b : Re.re) (s : string) :
  Re.Matches (Re.alt a b) s <-> Re.Matches (Re.Alt a b) s.
Proof.
  assert (L : forall x t, Re.Matches x t <-> Re.Matches (Re.Alt Re.Void x) t).
  { intros x t. split; [apply Re.MAltR|].
    intro H. inversion H as [| | |? ? ? H1|? ? ? H1| |]; subst; [inversion H1 | exact H1]. }
  assert (R : forall x t, Re.Matches x t <-> Re.Matches (Re.Alt x Re.Void) t).
  { intros x t. split; [apply Re.MAltL|].
    intro H. inversion H as [| | |? ? ? H1|? ? ? H1| |]; subst; [exact H1 | inversion H1]. }
  destruct a; cbn [Re.alt]; try apply L; destruct b; try apply R; reflexivity.
Qed.

Lemma star_cons_gen (x : Re.re) (t : string) :
  Re.Matches x t ->
  forall r c s,
    x = Re.Star r -> t = String c s ->
    exists s1 s2, s = (s1 ++ s2)%string /\ Re.Matches r (String c s1) /\
                  Re.Matches (Re.Star r) s2.
Proof.
  induction 1 as [| | | | | |r' s1 s2 H1 _ H2 IH2]; intros r0 c0 s0 Ex Et;
    try discriminate.
  inversion Ex; subst r'. destruct s1 as [|c1 s1].
  - cbn in Et. exact (IH2 r0 c0 s0 eq_refl Et).
  - cbn in Et. inversion Et; subst c1 s0. exists s1, s2. auto.
Qed.

Lemma star_cons (r : Re.re) (c : ascii) (s : string) :
  Re.Matches (Re.Star r) (String c s) ->
  exists s1 s2, s = (s1 ++ s2)%string /\ Re.Matches r (String c s1) /\
                Re.Matches (Re.Star r) s2.
Proof. intro H. exact (star_cons_gen _ _ H r c s eq_refl eq_refl). Qed.

Lemma deriv_spec (r : Re.re) :
  forall (c : ascii) (s : string),
    Re.Matches (Re.deriv c r) s <-> Re.Matches r (String c s).
Proof.
  induction r; intros c s; cbn [Re.deriv].
  - split; intro H; inversion H.
  - split; intro H; inversion H.
  - destruct (p c) eqn:E; split; intro H; inversion H; subst.
    + now constructor.
    + constructor.
    + congruence.
  - assert (Hcat : Re.Matches (Re.cat (Re.deriv c r1) r2) s ->
                   Re.Matches (Re.Cat r1 r2) (String c s)).
    { intro H. apply cat_spec in H.
      inversion H as [| |? ? s1 s2 H1 H2 | | | |]; subst.
      apply IHr1 in H1. exact (Re.MCat _ _ (String c s1) s2 H1 H2). }
    assert (Hinv : Re.Matches (Re.Cat r1 r2) (String c s) ->
                   Re.Matches (Re.cat (Re.deriv c r1) r2) s \/
                   (Re.Matches r1 "" /\ Re.Matches (Re.deriv c r2) s)).
    { intro H. inversion H as [| |? ? s1 s2 H1 H2 | | | |]; subst.
      match goal with
      | E : (s1 ++ s2)%string = String c s |- _ =>
          destruct s1 as [|c1 s1]; cbn in E;
          [subst s2 | inversion E; subst c1 s]
      end.
      - right. split; [exact H1 | now apply IHr2].
      - left. apply cat_spec. apply Re.MCat; [now apply IHr1 | exact H2]. }
    destruct (Re.nullable r1) eqn:N.
    + rewrite alt_spec. split.
      * intro H. inversion H as [| | |? ? ? H1|? ? ? H1| |]; subst; [now apply Hcat|].
        apply IHr2 in H1. apply nullable_spec in N.
        exact (Re.MCat _ _ "" (String c s) N H1).
      * intro H. destruct (Hinv H) as [H1 | [_ H1]];
          [now apply Re.MAltL | now apply Re.MAltR].
    + split; [exact Hcat|]. intro H. destruct (Hinv H) as [H1 | [H1 _]]; [exact H1|].
      apply nullable_spec in H1. congruence.
  - rewrite alt_spec. split.
    + intro H. inversion H; subst;
        [apply Re.MAltL; now apply IHr1 | apply Re.MAltR; now apply IHr2].
    + intro H. inversion H; subst;
        [apply Re.MAltL; now apply IHr1 | apply Re.MAltR; now apply IHr2].
  - rewrite cat_spec. split.
    + intro H. inversion H as [| |? ? s1 s2 H1 H2 | | | |]; subst.
      apply IHr in H1. exact (Re.MStarApp _ (String c s1) s2 H1 H2).
    + intro H. apply star_cons in H. destruct H as (s1 & s2 & -> & H1 & H2).
      apply Re.MCat; [now apply IHr | exact H2].
Qed.

(** The matcher decides [Matches]. *)
Lemma matches_spec (s : string) :
  forall r, Re.matches r s = true <-> Re.Matches r s.
Proof.
  induction s as [|c s IH]; intro r; cbn [Re.matches].
  - apply nullable_spec.
  - rewrite IH. apply deriv_spec.
Qed.

Lemma star_any (s : string) : Re.Matches (Re.Star Re.anybyte) s.
Proof.
  induction s as [|c s IH]; [constructor|].
  exact (Re.MStarApp _ (String c "") s (Re.MSym _ c eq_refl) IH).
Qed.

(** [search] finds exactly the strings with a matching substring. *)
Lemma search_spec (r : Re.re) (s : string) :
  Re.search r s = true <->
  exists before middle after,
    s = (before ++ middle ++ after)%string /\ Re.Matches r middle.
Proof.
  unfold Re.search. rewrite matches_spec. split.
  - intro H. inversion H as [| |? ? s1 s23 _ H23 | | | |]; subst.
    inversion H23 as [| |? ? s2 s3 H2 _ | | | |]; subst.
    exists s1, s2, s3. auto.
  - intros (b & m & a & -> & H).
    apply Re.MCat; [apply star_any|]. apply Re.MCat; [exact H | apply star_any].
Qed.

Lemma prefix_spec (n h : string) :
  String.prefix n h = true <-> exists after, h = (n ++ after)%string.
Proof.
  revert h. induction n as [|c n IH]; intro h.
  - split; [intros _; now exists h | intros _; destruct h; reflexivity].
  - destruct h as [|d h]; cbn [String.prefix];
      [split; [discriminate | intros (a & H); discriminate H]|].
    destruct (Ascii.ascii_dec c d) as [<- | N].
    + rewrite IH. split; intros (a & H); exists a; cbn; [now rewrite H | now inversion H].
    + split; [discriminate | intros (a & H); inversion H; congruence].
Qed.

(** [contains] finds exactly the strings with the needle inside. *)
Lemma contains_spec (n h : string) :
  Py.contains n h = true <-> exists before after, h = (before ++ n ++ after)%string.
Proof.
  induction h as [|c h IH]; cbn [Py.contains].
  - destruct (String.prefix n "") eqn:E.
    + apply prefix_spec in E. destruct E as (a & E).
      split; [intros _; now exists "", a | reflexivity].
    + split; [discriminate|]. intros (b & a & H).
      destruct b; [|discriminate H]. cbn in H.
      assert (P : String.prefix n "" = true) by (apply prefix_spec; now exists a).
      congruence.
  - destruct (String.prefix n (String c h)) eqn:E.
    + apply prefix_spec in E. destruct E as (a & E).
      split; [intros _; now exists "", a | reflexivity].
    + rewrite IH. split.
      * intros (b & a & ->). now exists (String c b), a.
      * intros (b & a & H). destruct b as [|c' b]; cbn in H.
        -- assert (P : String.prefix n (String c h) = true)
             by (apply prefix_spec; now exists a).
           congruence.
        -- inversion H; subst. now exists b, a.
Qed.

(** [round] is within one half of its argument, and even on a tie. *)
Lemma round_spec (q : Q) :
  (2 * Z.abs (Qnum q - Py.round q * Zpos (Qden q)) <= Zpos (Qden q))%Z /\
  ((2 * Z.abs (Qnum q - Py.round q * Zpos (Qden q)) = Zpos (Qden q))%Z ->
   Z.even (Py.round q) = true).
Proof.
  unfold Py.round. set (n := Qnum q). set (d := Zpos (Qden q)).
  assert (Hd : (0 < d)%Z) by (subst d; lia).
  pose proof (Z.div_mod n d ltac:(lia)) as Hdm.
  pose proof (Z.mod_pos_bound n d Hd) as Hm.
  set (fl := (n / d)%Z) in *.
  assert (Hr : (n - fl * d = n mod d)%Z) by lia.
  rewrite Hr.
  destruct (2 * (n mod d) <? d)%Z eqn:E1.
  - apply Z.ltb_lt in E1. rewrite Hr. split; [lia|]. intro H. lia.
  - apply Z.ltb_ge in E1. destruct (d <? 2 * (n mod d))%Z eqn:E2.
    + apply Z.ltb_lt in E2.
      replace (n - (fl + 1) * d)%Z with (n mod d - d)%Z by lia. split; lia.
    + apply Z.ltb_ge in E2. destruct (Z.even fl) eqn:E3.
      * rewrite Hr. split; [lia | intros _; exact E3].
      * replace (n - (fl + 1) * d)%Z with (n mod d - d)%Z by lia. split; [lia|].
        intros _. rewrite Z.even_add, E3. reflexivity.
Qed.

(** [sorted_set] gives the numbers in strictly increasing order. *)
Lemma sorted_set_increasing (l : list nat) : StronglySorted Nat.lt (Py.sorted_set l).
Proof.
  assert (Hin : forall n k x, In x (Py.insert_sorted n k) -> x = n \/ In x k).
  { intros n k. induction k as [|m k IH]; intros x; cbn [Py.insert_sorted].
    - intros [<- | []]. now left.
    - destruct (n <? m)%nat; [intros [<- | H]; auto|].
      destruct (n =? m)%nat; [auto|].
      intros [<- | H]; [right; now left|]. destruct (IH x H); [auto | right; now right]. }
  assert (Hins : forall n k, StronglySorted Nat.lt k ->
                             StronglySorted Nat.lt (Py.insert_sorted n k)).
  { intros n k. induction 1 as [|m k Hk IH Hm]; cbn [Py.insert_sorted].
    - repeat constructor.
    - destruct (n <? m)%nat eqn:E1.
      + apply Nat.ltb_lt in E1. constructor; [now constructor|].
        constructor; [exact E1|]. rewrite Forall_forall in *. intros x Hx.
        specialize (Hm x Hx). lia.
      + destruct (n =? m)%nat eqn:E2; [now constructor|].
        apply Nat.ltb_ge in E1. apply Nat.eqb_neq in E2.
        constructor; [exact IH|]. rewrite Forall_forall in *. intros x Hx.
        destruct (Hin n k x Hx) as [-> | Hx']; [lia | now apply Hm]. }
  unfold Py.sorted_set. induction l as [|x l IH]; cbn [fold_right];
    [constructor | now apply Hins].
Qed.

Lemma Qltb_lt (x y : Q) : Py.Qltb x y = true <-> x < y.
Proof.
  unfold Py.Qltb. rewrite negb_true_iff. split; intro H.
  - apply Qnot_le_lt. intro L. apply Qle_bool_iff in L. congruence.
  - destruct (Qle_bool y x) eqn:E; [|reflexivity].
    apply Qle_bool_iff in E. exfalso. exact (Qlt_not_le _ _ H E).
Qed.

Lemma Qltb_ge (x y : Q) : Py.Qltb x y = false <-> y <= x.
Proof.
  unfold Py.Qltb. rewrite negb_false_iff. apply Qle_bool_iff.
Qed.

Lemma min2_spec (a b : Q) :
  Py.min2 a b <= a /\ Py.min2 a b <= b /\ (Py.min2 a b = a \/ Py.min2 a b = b).
Proof.
  unfold Py.min2. destruct (Py.Qltb b a) eqn:E.
  - apply Qltb_lt in E. repeat split; [apply Qlt_le_weak; exact E | apply Qle_refl | now right].
  - apply Qltb_ge in E. repeat split; [apply Qle_refl | exact E | now left].
Qed.

Lemma in_enumerate1 {A} (l : list A) (n : nat) (a : A) :
  In (n, a) (enumerate1 l) -> In a l.
Proof. unfold enumerate1. apply in_combine_r. Qed.

Lemma in_sorted_set (l : list nat) (n : nat) : In n (Py.sorted_set l) <-> In n l.
Proof.
  assert (Hins : forall m k, In n (Py.insert_sorted m k) <-> n = m \/ In n k).
  { intros m k. induction k as [|x k IH]; cbn [Py.insert_sorted].
    - cbn. intuition.
    - destruct (m <? x)%nat eqn:E1; [cbn; intuition|].
      destruct (m =? x)%nat eqn:E2.
      + apply Nat.eqb_eq in E2. subst. cbn. intuition.
      + cbn [In]. rewrite IH. intuition. }
  unfold Py.sorted_set. induction l as [|x l IH]; cbn [fold_right].
  - reflexivity.
  - rewrite Hins, IH. cbn. intuition.
Qed.

(** ** C1: two runs of one analyzer *)

(** C1 (code at the failing input): the one-page document analysed twice by
    the same analyzer with the same settings. Both runs succeed; the first
    reports one [insufficient_bleed] finding, the second reports it twice,
    because the checker's lists still hold the finding of the first run. *)
Theorem C1_second_run_repeats_first_run_findings :
  exists r1 s1 r2 s2,
    PDFAnalyzer.analyze Sample.cfg Sample.col PrintQualityChecker.__init__
                        Sample.one_page None "offset" = (PDFAnalyzer.Analysis r1, s1) /\
    PDFAnalyzer.analyze Sample.cfg Sample.col s1
                        Sample.one_page None "offset" = (PDFAnalyzer.Analysis r2, s2) /\
    PDFAnalyzer.issues r1
    = [{| itype := "insufficient_bleed"; severity := info;
          affected_pages := Some [1%nat]; extra := NoExtra |}] /\
    PDFAnalyzer.issues r2
    = [{| itype := "insufficient_bleed"; severity := info;
          affected_pages := Some [1%nat]; extra := NoExtra |};
       {| itype := "insufficient_bleed"; severity := info;
          affected_pages := Some [1%nat]; extra := NoExtra |}] /\
    PDFAnalyzer.issues r2 <> PDFAnalyzer.issues r1.
Proof.
  do 4 eexists. split; [vm_compute; reflexivity|].
  split; [vm_compute; reflexivity|].
  split; [reflexivity|]. split; [reflexivity|]. discriminate.
Qed.

(** The same on the worker's own path: after an automatic fix the worker
    analyses the fixed file with the analyzer that has just analysed the
    original; the findings of the first analysis come back in the second,
    which also reports its own. *)
Example rescan_after_fix_repeats_findings :
  exists res reports n,
    BatchProcessor.result_queue
      (BatchProcessor.worker_loop Sample.env_fix 0
         [("a", Sample.job Sample.unembedded)] Sample.idle)
    = [BatchProcessor.Complete "a" "plain.pdf" res reports 0 n] /\
    exists cmp,
      BatchProcessor.fix_comparison res = Some cmp /\
      map itype (BatchProcessor.snap_issues (BatchProcessor.before cmp))
      = ["insufficient_bleed"; "font_not_embedded"] /\
      map itype (BatchProcessor.snap_issues (BatchProcessor.after cmp))
      = ["insufficient_bleed"; "insufficient_bleed"; "font_not_embedded"].
Proof.
  do 3 eexists. split; [vm_compute; reflexivity|].
  eexists. split; [reflexivity|]. split; reflexivity.
Qed.

(** ** C2: merging the profile result *)

(** What the merge does keep out: a rule of the failed or of the info bucket
    whose name mentions bleed. *)
Lemma preflight_failed_and_info_exclude_bleed (pf : PreflightResult) (i : Issue) :
  In i (PDFAnalyzer.preflight_issues pf) ->
  severity i <> warning ->
  exists r, extra i = Rule (rule_name r) (rr_expected r) (rr_found r) /\
            PDFAnalyzer.names_bleed r = false.
Proof.
  unfold PDFAnalyzer.preflight_issues. intros Hin Hs.
  apply in_app_or in Hin. destruct Hin as [Hin | Hin]; [|apply in_app_or in Hin;
    destruct Hin as [Hin | Hin]].
  - apply in_map_iff in Hin. destruct Hin as (r & <- & Hr).
    apply filter_In in Hr. destruct Hr as [_ Hr]. apply negb_true_iff in Hr.
    exists r. split; [reflexivity | exact Hr].
  - apply in_map_iff in Hin. destruct Hin as (r & <- & _). now contradiction Hs.
  - apply in_map_iff in Hin. destruct Hin as (r & <- & Hr).
    apply filter_In in Hr. destruct Hr as [_ Hr]. apply negb_true_iff in Hr.
    exists r. split; [reflexivity | exact Hr].
Qed.

(** What the merge lets through: every rule of the warnings bucket, whatever
    its name. *)
Lemma warnings_bucket_is_merged_unfiltered (pf : PreflightResult) (r : RuleResult) :
  In r (pf_warnings pf) ->
  In {| itype := "preflight_warning"; severity := warning; affected_pages := None;
        extra := Rule (rule_name r) (rr_expected r) (rr_found r) |}
     (PDFAnalyzer.preflight_issues pf).
Proof.
  intro H. unfold PDFAnalyzer.preflight_issues.
  apply in_or_app. right. apply in_or_app. left.
  exact (in_map (PDFAnalyzer.rule_issue "preflight_warning" warning) _ _ H).
Qed.

(** C2 (code at the failing input): a profile result that lists the rule
    "Bleed margin" in its failed, warnings and info buckets; the merge drops
    it from the failed and the info bucket and appends the one of the
    warnings bucket as a [preflight_warning] finding. *)
Theorem C2_warning_bucket_keeps_bleed_rule (r : PDFAnalyzer.AnalysisResult) :
  PDFAnalyzer.names_bleed (Sample.rule "Bleed margin") = true /\
  PDFAnalyzer.issues
    (PDFAnalyzer._add_preflight_issues r
       (Sample.verdict [Sample.rule "Bleed margin"] [Sample.rule "Bleed margin"]
                       [Sample.rule "Bleed margin"]))
  = PDFAnalyzer.issues r
    ++ [{| itype := "preflight_warning"; severity := warning;
           affected_pages := None;
           extra := Rule "Bleed margin" "3mm" "0mm" |}].
Proof. split; reflexivity. Qed.

(** ** C3: pages without MediaBox *)

Lemma index_ok {A} (l : list A) (i : nat) :
  (i < List.length l)%nat -> exists a, Py.index l i = Py.Ok a.
Proof.
  intro H. unfold Py.index. destruct (nth_error l i) eqn:E; [eauto|].
  apply nth_error_None in E. lia.
Qed.

Lemma bleed_margins_ok (t b : list Q) :
  (4 <= List.length t)%nat -> (4 <= List.length b)%nat ->
  exists m, PDFAnalyzer.bleed_margins t b = Py.Ok m.
Proof.
  intros Ht Hb. unfold PDFAnalyzer.bleed_margins.
  destruct (index_ok t 0) as [t0 ->]; [lia|].
  destruct (index_ok b 0) as [b0 ->]; [lia|].
  destruct (index_ok t 1) as [t1 ->]; [lia|].
  destruct (index_ok b 1) as [b1 ->]; [lia|].
  destruct (index_ok b 2) as [b2 ->]; [lia|].
  destruct (index_ok t 2) as [t2 ->]; [lia|].
  destruct (index_ok b 3) as [b3 ->]; [lia|].
  destruct (index_ok t 3) as [t3 ->]; [lia|].
  cbn [Py.bind]. eauto.
Qed.

Lemma or_else_ok (a b : option Pdf.Box) :
  box_ok a = true -> box_ok b = true -> box_ok (PDFAnalyzer.or_else a b) = true.
Proof. destruct a; cbn; auto. Qed.

(** One page with rectangles for boxes: a record numbered as the page when it
    has a MediaBox, nothing otherwise, and no exception. *)
Lemma page_info_of_ok (cfg : Config) (page_num : nat) (page : Pdf.Page) :
  page_boxes_ok page = true ->
  (Pdf.MediaBox page = None /\ PDFAnalyzer.page_info_of cfg page_num page = Py.Ok None) \/
  (Pdf.MediaBox page <> None /\
   exists i, PDFAnalyzer.page_info_of cfg page_num page = Py.Ok (Some i) /\
             page_number i = page_num).
Proof.
  unfold page_boxes_ok. intro H.
  apply andb_true_iff in H. destruct H as [H Ht].
  apply andb_true_iff in H. destruct H as [H Hb].
  apply andb_true_iff in H. destruct H as [Hm Hc].
  unfold PDFAnalyzer.page_info_of.
  destruct (Pdf.MediaBox page) as [mb|] eqn:Em; [|left; split; reflexivity].
  right. split; [discriminate|].
  assert (Hc' : box_ok (PDFAnalyzer.or_else (Pdf.CropBox page) (Some mb)) = true)
    by (apply or_else_ok; assumption).
  set (cropbox := PDFAnalyzer.or_else (Pdf.CropBox page) (Some mb)) in *.
  assert (Hb' : box_ok (PDFAnalyzer.or_else (Pdf.BleedBox page) cropbox) = true)
    by (apply or_else_ok; assumption).
  assert (Ht' : box_ok (PDFAnalyzer.or_else (Pdf.TrimBox page) cropbox) = true)
    by (apply or_else_ok; assumption).
  set (bleedbox := PDFAnalyzer.or_else (Pdf.BleedBox page) cropbox) in *.
  set (trimbox := PDFAnalyzer.or_else (Pdf.TrimBox page) cropbox) in *.
  cbn [box_ok] in Hm. apply Nat.leb_le in Hm.
  destruct mb as [|x0 mb']; [cbn in Hm; lia|].
  destruct (index_ok (x0 :: mb') 0) as [l0 ->]; [lia|].
  destruct (index_ok (x0 :: mb') 1) as [l1 ->]; [lia|].
  destruct (index_ok (x0 :: mb') 2) as [l2 ->]; [lia|].
  destruct (index_ok (x0 :: mb') 3) as [l3 ->]; [lia|].
  cbn [Py.bind].
  destruct (andb (andb (PDFAnalyzer.truthy trimbox) (PDFAnalyzer.truthy bleedbox)) _).
  - destruct trimbox as [t|], bleedbox as [b|]; cbn [Py.bind]; try (eexists; split; reflexivity).
    cbn [box_ok] in Hb', Ht'. apply Nat.leb_le in Hb', Ht'.
    destruct (bleed_margins_ok t b Ht' Hb') as [m ->]. cbn [Py.bind].
    eexists; split; reflexivity.
  - cbn [Py.bind]. eexists; split; reflexivity.
Qed.

Lemma analyze_pages_loop_ok (cfg : Config) (l : list (nat * Pdf.Page)) :
  forallb (fun np => page_boxes_ok (snd np)) l = true ->
  exists infos,
    PDFAnalyzer.analyze_pages_loop cfg l = Py.Ok infos /\
    map page_number infos = map fst (filter has_mediabox l).
Proof.
  induction l as [|[n page] l IH]; intro H.
  - exists []. split; reflexivity.
  - cbn [forallb snd] in H. apply andb_true_iff in H. destruct H as [Hp Hl].
    destruct (IH Hl) as (infos & E & M).
    cbn [PDFAnalyzer.analyze_pages_loop filter]. unfold has_mediabox at 1. cbn [snd].
    destruct (page_info_of_ok cfg n page Hp) as [[Hm ->] | [Hm (i & -> & Hi)]];
      cbn [Py.bind]; rewrite E; cbn [Py.bind].
    + rewrite Hm. exists infos. split; [reflexivity | exact M].
    + destruct (Pdf.MediaBox page); [|congruence].
      exists (i :: infos). split; [reflexivity|]. cbn [map fst]. now rewrite Hi, M.
Qed.

Lemma boxes_ok_enumerate (ps : list Pdf.Page) :
  forallb page_boxes_ok ps = true ->
  forallb (fun np => page_boxes_ok (snd np)) (enumerate1 ps) = true.
Proof.
  intro H. apply forallb_forall. intros [n p] Hin. cbn [snd].
  apply in_enumerate1 in Hin. rewrite forallb_forall in H. now apply H.
Qed.

(** C3 (as amended): in a readable document whose boxes are rectangles, a
    page without MediaBox is skipped: page analysis returns normally and lists
    exactly the pages that have a MediaBox, under their own page numbers; and
    when the ink calculator and the profile check return normally, [analyze]
    returns a measurement record with these pages, not an error. *)
Theorem C3_pages_without_mediabox_are_skipped
        (cfg : Config) (col : PDFAnalyzer.Collaborators)
        (s : PrintQualityChecker.self) (f : Pdf.File) (doc : Pdf.Document)
        (include_ink : option bool) (profile_id : string) :
  Pdf.readable f = Some doc ->
  forallb page_boxes_ok (Pdf.doc_pages doc) = true ->
  (forall r, exists pf,
      PDFAnalyzer.check (PDFAnalyzer.current_profile col profile_id) r = Py.Ok pf) ->
  (exists ink, PDFAnalyzer.ink_calculate col f = Py.Ok ink) ->
  (exists infos,
      PDFAnalyzer._analyze_pages cfg doc = Py.Ok infos /\
      map page_number infos
      = map fst (filter has_mediabox (enumerate1 (Pdf.doc_pages doc)))) /\
  (exists r,
      fst (PDFAnalyzer.analyze cfg col s f include_ink profile_id) = PDFAnalyzer.Analysis r /\
      map page_number (PDFAnalyzer.pages r)
      = map fst (filter has_mediabox (enumerate1 (Pdf.doc_pages doc))) /\
      PDFAnalyzer.page_count (PDFAnalyzer.basic_info r) = List.length (Pdf.doc_pages doc)).
Proof.
  intros Hr Hb Hcheck [ink Hink].
  destruct (analyze_pages_loop_ok cfg (enumerate1 (Pdf.doc_pages doc))
              (boxes_ok_enumerate _ Hb)) as (infos & E & M).
  split; [exists infos; split; assumption|].
  unfold PDFAnalyzer.analyze, PDFAnalyzer.analyze_body, Pdf.open.
  rewrite Hr. unfold PDFAnalyzer._analyze_pages. rewrite E.
  set (ink_on := match include_ink with Some b => b | None => is_ink_analysis_enabled cfg end).
  destruct (PDFAnalyzer.any_check cfg).
  - destruct (PrintQualityChecker.check_all cfg s f (Some infos)) as [pq s1].
    destruct ink_on; [rewrite Hink|]; cbn [Py.bind];
      match goal with
      | |- context [PDFAnalyzer.check _ ?r] => destruct (Hcheck r) as [pf ->]
      end;
      (eexists; split; [reflexivity|]; split; [exact M | reflexivity]).
  - destruct ink_on; [rewrite Hink|]; cbn [Py.bind];
      match goal with
      | |- context [PDFAnalyzer.check _ ?r] => destruct (Hcheck r) as [pf ->]
      end;
      (eexists; split; [reflexivity|]; split; [exact M | reflexivity]).
Qed.

Lemma C3_witness :
  exists r,
    fst (PDFAnalyzer.analyze Sample.cfg Sample.col PrintQualityChecker.__init__
                             Sample.no_mediabox None "offset") = PDFAnalyzer.Analysis r /\
    map page_number (PDFAnalyzer.pages r) = [1%nat] /\
    PDFAnalyzer.page_count (PDFAnalyzer.basic_info r) = 2%nat.
Proof.
  refine (proj2 (C3_pages_without_mediabox_are_skipped
                   Sample.cfg Sample.col PrintQualityChecker.__init__
                   Sample.no_mediabox Sample.no_mediabox_doc None "offset"
                   eq_refl eq_refl _ _)).
  - intro r. eexists. reflexivity.
  - eexists. reflexivity.
Defined.

(** C3 (counterexample to the specification as written): the second page of the
    two-page document has no MediaBox, and [analyze] returns a measurement
    record, not an error: its page sequence holds page 1 only while the page
    count is 2. *)
Lemma C3_counterexample :
  map Pdf.MediaBox (Pdf.doc_pages Sample.no_mediabox_doc) = [Some Sample.a4_box; None] /\
  exists r s,
    PDFAnalyzer.analyze Sample.cfg Sample.col PrintQualityChecker.__init__
                        Sample.no_mediabox None "offset" = (PDFAnalyzer.Analysis r, s) /\
    map page_number (PDFAnalyzer.pages r) = [1%nat] /\
    PDFAnalyzer.page_count (PDFAnalyzer.basic_info r) = 2%nat.
Proof.
  split; [reflexivity|]. do 2 eexists.
  split; [vm_compute; reflexivity|]. split; reflexivity.
Qed.

(** ** C4: embedding flag of standard and subset fonts *)

Lemma dict_set_values {K V} (eqb : K -> K -> bool) (d : list (K * V)) (k : K) (v : V)
      (kv : K * V) :
  In kv (dict_set eqb d k v) -> In kv d \/ snd kv = v.
Proof.
  induction d as [|[k0 v0] d IH]; cbn [dict_set]; intro H.
  - destruct H as [<- | []]. now right.
  - destruct (eqb k0 k).
    + destruct H as [<- | H]; [now right | left; now right].
    + destruct H as [<- | H]; [left; now left|].
      destruct (IH H) as [H' | H']; [left; now right | now right].
Qed.

Lemma supplement_keeps_embedded (basename : string) (fs : list (string * Pdf.ResFont)) :
  forall subtype, snd (fold_left (PDFAnalyzer.supplement basename) fs (subtype, true)) = true.
Proof.
  induction fs as [|entry fs IH]; intro subtype; [reflexivity|].
  cbn [fold_left]. unfold PDFAnalyzer.supplement at 2.
  destruct (Pdf.rf_BaseFont (snd entry)) as [b|]; [|apply IH].
  destruct (orb (String.eqb b basename) (Py.contains basename b)); [|apply IH].
  destruct (Pdf.rf_descriptor (snd entry)); cbn [negb]; apply IH.
Qed.

Lemma font_info_of_embedded (page_num : nat) (page : Pdf.Page) (fd : Pdf.FontData) :
  (if Py.mem_str (Pdf.fd_basename fd) PDFAnalyzer.standard_fonts then true
   else if PDFAnalyzer.marked_embedded (Pdf.fd_name fd) then true
        else if PDFAnalyzer.marked_not_embedded (Pdf.fd_name fd) then false
             else if Py.contains "+" (Pdf.fd_basename fd) then true
                  else negb (String.eqb (Pdf.fd_ext fd) "")) = true ->
  embedded (PDFAnalyzer.font_info_of page_num page fd) = true.
Proof.
  intro H. unfold PDFAnalyzer.font_info_of.
  set (e3 := if Py.mem_str _ _ then true else _) in *.
  assert (E : e3 = true).
  { subst e3. destruct (Py.mem_str _ _); [reflexivity|].
    destruct (PDFAnalyzer.marked_embedded _); [reflexivity|].
    destruct (PDFAnalyzer.marked_not_embedded _); [discriminate|]. exact H. }
  rewrite E. destruct (Pdf.res_fonts page) as [fs|]; [|reflexivity].
  pose proof (supplement_keeps_embedded (Pdf.fd_basename fd) fs "") as S.
  destruct (fold_left _ fs ("", true)) as [st emb]. exact S.
Qed.

Lemma font_info_of_fields (page_num : nat) (page : Pdf.Page) (fd : Pdf.FontData) :
  base_font (PDFAnalyzer.font_info_of page_num page fd) = Pdf.fd_basename fd /\
  font_name (PDFAnalyzer.font_info_of page_num page fd) = Pdf.fd_name fd /\
  subset (PDFAnalyzer.font_info_of page_num page fd)
  = Py.contains "+" (Pdf.fd_basename fd) /\
  is_standard (PDFAnalyzer.font_info_of page_num page fd)
  = Py.mem_str (Pdf.fd_basename fd) PDFAnalyzer.standard_fonts.
Proof.
  unfold PDFAnalyzer.font_info_of.
  destruct (match Pdf.res_fonts page with Some _ => _ | None => _ end).
  repeat split.
Qed.

(** Every record that the font extractor stores was built by [font_info_of]. *)
Lemma analyze_fonts_records (pdf_obj : Pdf.Document) (pdf_path : Pdf.File)
      (key : string * nat) (fi : FontInfo) :
  In (key, fi) (PDFAnalyzer._analyze_fonts pdf_obj pdf_path) ->
  exists page_num page fd, fi = PDFAnalyzer.font_info_of page_num page fd.
Proof.
  unfold PDFAnalyzer._analyze_fonts.
  destruct (Pdf.open pdf_path); [|intros []].
  set (P := fun acc : list ((string * nat) * FontInfo) =>
              forall kv, In kv acc ->
                         exists page_num page fd,
                           snd kv = PDFAnalyzer.font_info_of page_num page fd).
  assert (Hpage : forall np acc, P acc -> P (PDFAnalyzer.fonts_page acc np)).
  { intros [n page] acc. unfold PDFAnalyzer.fonts_page.
    generalize (Pdf.fitz_fonts page) as fds.
    intro fds. revert acc. induction fds as [|fd fds IH]; intros acc Hacc; [exact Hacc|].
    cbn [fold_left]. apply IH. intros kv Hkv.
    apply dict_set_values in Hkv. destruct Hkv as [Hkv | Hkv]; [now apply Hacc|].
    now exists n, page, fd. }
  assert (Hall : forall pgs acc, P acc -> P (fold_left PDFAnalyzer.fonts_page pgs acc)).
  { induction pgs as [|np pgs IH]; intros acc Hacc; [exact Hacc|].
    cbn [fold_left]. apply IH. now apply Hpage. }
  intro Hin.
  apply (Hall (enumerate1 (Pdf.doc_pages pdf_obj)) [] (fun kv (F : In kv []) => match F with end)
              (key, fi) Hin).
Qed.

(** C4 (as amended): in every record that the font extractor stores, a base
    font among the 14 standard names has [embedded = true] whatever the
    detector reported; a base font with a subset mark ('+') has
    [subset = true], and has [embedded = true] unless the font name carries
    a not-embedded mark without an embedded mark. *)
Theorem C4_font_embedding_invariant (pdf_obj : Pdf.Document) (pdf_path : Pdf.File)
        (key : string * nat) (fi : FontInfo) :
  In (key, fi) (PDFAnalyzer._analyze_fonts pdf_obj pdf_path) ->
  (Py.mem_str (base_font fi) PDFAnalyzer.standard_fonts = true ->
   embedded fi = true /\ is_standard fi = true) /\
  (Py.contains "+" (base_font fi) = true ->
   subset fi = true /\
   (PDFAnalyzer.marked_embedded (font_name fi) = true \/
    PDFAnalyzer.marked_not_embedded (font_name fi) = false ->
    embedded fi = true)).
Proof.
  intro Hin. apply analyze_fonts_records in Hin.
  destruct Hin as (page_num & page & fd & ->).
  destruct (font_info_of_fields page_num page fd) as (Hb & Hn & Hs & Hstd).
  rewrite Hb, Hn, Hs, Hstd. split.
  - intro H. split; [|exact H]. apply font_info_of_embedded. now rewrite H.
  - intro H. split; [exact H|]. intro M. apply font_info_of_embedded.
    destruct (Py.mem_str _ _); [reflexivity|].
    destruct (PDFAnalyzer.marked_embedded _); [reflexivity|].
    destruct M as [M | M]; [discriminate|]. now rewrite M, H.
Qed.

Lemma C4_witness :
  embedded (PDFAnalyzer.font_info_of 1 (Sample.with_fonts [Sample.marked_subset;
                                                           Sample.marked_standard])
                                     Sample.marked_standard) = true.
Proof.
  refine (proj1 (proj1 (C4_font_embedding_invariant
                          Sample.marked_fonts_doc Sample.marked_fonts
                          ("F2 (not embedded)", 1%nat) _ _) _)).
  - right. left. reflexivity.
  - reflexivity.
Defined.

(** C4 (counterexample to the specification as written): the font extractor stores a
    record for the subset font "ABCDEF+Minion", named "F1 (not embedded)",
    with [subset = true] and [embedded = false]. *)
Lemma C4_counterexample :
  exists key fi,
    In (key, fi) (PDFAnalyzer._analyze_fonts Sample.marked_fonts_doc Sample.marked_fonts) /\
    base_font fi = "ABCDEF+Minion" /\
    Py.contains "+" (base_font fi) = true /\
    subset fi = true /\
    embedded fi = false.
Proof.
  exists ("F1 (not embedded)", 1%nat).
  exists (PDFAnalyzer.font_info_of 1 (Sample.with_fonts [Sample.marked_subset;
                                                         Sample.marked_standard])
                                   Sample.marked_subset).
  split; [left; reflexivity|]. repeat split.
Qed.

(** ** C5: page size consistency *)



Section SizeDict.
Context {V : Type}.


End SizeDict.


















(** The grouping example of the specification: two A4 pages, an A4 sheet on
    its side turned by 90 degrees, and an A3 page. Only page 4 is listed. *)
Example mixed_sizes_flag_only_the_fourth_page :
  exists r s,
    PDFAnalyzer.analyze Sample.cfg Sample.col PrintQualityChecker.__init__
                        Sample.mixed_sizes None "offset"
    = (PDFAnalyzer.Analysis r, s) /\
    map PDFAnalyzer.size_key (PDFAnalyzer.pages r)
    = [(210, 297); (210, 297); (210, 297); (420, 297)]%Z /\
    map (fun i => (severity i, affected_pages i))
        (filter is_page_size_finding (PDFAnalyzer.issues r))
    = [(warning, Some [4%nat])].
Proof.
  do 2 eexists. split; [vm_compute; reflexivity|]. split; vm_compute; reflexivity.
Qed.

(** ** C6: image resolution *)

Lemma categorize_spec (cfg : Config) (d : Q) :
  (d < MIN_IMAGE_DPI cfg -> PDFAnalyzer.categorize cfg d = critical) /\
  (MIN_IMAGE_DPI cfg <= d -> d < WARNING_IMAGE_DPI cfg ->
   PDFAnalyzer.categorize cfg d = cat_warning) /\
  (MIN_IMAGE_DPI cfg <= d -> WARNING_IMAGE_DPI cfg <= d -> d < OPTIMAL_IMAGE_DPI cfg ->
   PDFAnalyzer.categorize cfg d = acceptable) /\
  (MIN_IMAGE_DPI cfg <= d -> WARNING_IMAGE_DPI cfg <= d -> OPTIMAL_IMAGE_DPI cfg <= d ->
   PDFAnalyzer.categorize cfg d = optimal) /\
  (d == MIN_IMAGE_DPI cfg -> PDFAnalyzer.categorize cfg d <> critical).
Proof.
  unfold PDFAnalyzer.categorize.
  repeat split; intros;
    repeat match goal with
    | H : _ < _ |- _ => apply Qltb_lt in H; rewrite H
    | H : _ <= _ |- _ => apply Qltb_ge in H; rewrite H
    end; try reflexivity.
  assert (E : Py.Qltb d (MIN_IMAGE_DPI cfg) = false).
  { apply Qltb_ge. rewrite H. apply Qle_refl. }
  rewrite E. destruct (Py.Qltb d (WARNING_IMAGE_DPI cfg)); [discriminate|].
  destruct (Py.Qltb d (OPTIMAL_IMAGE_DPI cfg)); discriminate.
Qed.

Lemma placed_true (img : Pdf.Img) :
  (0 < Pdf.im_w img)%Z -> (0 < Pdf.im_h img)%Z ->
  andb (0 <? Pdf.im_w img)%Z (0 <? Pdf.im_h img)%Z = true.
Proof.
  intros H1 H2. apply andb_true_iff. split; apply Z.ltb_lt; assumption.
Qed.

(** C6: for an image with positive placed dimensions the DPI is the smaller
    of [pixel_width / (placed_width / 72)] and
    [pixel_height / (placed_height / 72)], and the category follows from
    strict comparisons with the three thresholds: below [MIN_IMAGE_DPI] it is
    critical, and at exactly [MIN_IMAGE_DPI] it is not. *)
Theorem C6_dpi_categorization (cfg : Config) (page_num : nat) (img : Pdf.Img) :
  (0 < Pdf.im_w img)%Z -> (0 < Pdf.im_h img)%Z ->
  let d := PDFAnalyzer.img_data_of cfg page_num img in
  let dpi_x := inject_Z (Pdf.pix_width img) / (inject_Z (Pdf.im_w img) / 72) in
  let dpi_y := inject_Z (Pdf.pix_height img) / (inject_Z (Pdf.im_h img) / 72) in
  (dpi d <= dpi_x /\ dpi d <= dpi_y /\ (dpi d = dpi_x \/ dpi d = dpi_y)) /\
  (dpi d < MIN_IMAGE_DPI cfg -> resolution_category d = critical) /\
  (MIN_IMAGE_DPI cfg <= dpi d -> dpi d < WARNING_IMAGE_DPI cfg ->
   resolution_category d = cat_warning) /\
  (MIN_IMAGE_DPI cfg <= dpi d -> WARNING_IMAGE_DPI cfg <= dpi d ->
   dpi d < OPTIMAL_IMAGE_DPI cfg -> resolution_category d = acceptable) /\
  (MIN_IMAGE_DPI cfg <= dpi d -> WARNING_IMAGE_DPI cfg <= dpi d ->
   OPTIMAL_IMAGE_DPI cfg <= dpi d -> resolution_category d = optimal) /\
  (dpi d == MIN_IMAGE_DPI cfg -> resolution_category d <> critical).
Proof.
  intros Hw Hh. cbv zeta.
  unfold PDFAnalyzer.img_data_of. cbn [dpi resolution_category].
  rewrite (placed_true img Hw Hh).
  split.
  - unfold PDFAnalyzer.image_dpi. apply min2_spec.
  - apply categorize_spec.
Qed.

Lemma C6_witness :
  resolution_category
    (PDFAnalyzer.img_data_of Sample.cfg 1 (Sample.image 100 100 100 100)) <> critical.
Proof.
  pose proof (C6_dpi_categorization Sample.cfg 1 (Sample.image 100 100 100 100)
                eq_refl eq_refl) as H.
  cbv zeta in H. destruct H as (_ & _ & _ & _ & _ & H).
  apply H. reflexivity.
Defined.

(** With the default thresholds 72/150/300. *)
Example dpi_exactly_72_is_not_critical :
  let d := PDFAnalyzer.img_data_of Sample.cfg 1 (Sample.image 100 100 100 100) in
  dpi d == 72 /\ resolution_category d = cat_warning.
Proof. split; reflexivity. Qed.

Example dpi_just_below_72_is_critical :
  let d := PDFAnalyzer.img_data_of Sample.cfg 1 (Sample.image 7200 7200 7199 7200) in
  dpi d == 7199 # 100 /\ resolution_category d = critical.
Proof. split; vm_compute; reflexivity. Qed.

(** ** C7: bleed is informational *)

Lemma pqf_append_issue (s : PrintQualityChecker.self) (i : Issue) :
  holds_print_quality_findings s ->
  of_kind print_quality_kinds i = true ->
  holds_print_quality_findings (PrintQualityChecker.append_issue s i).
Proof.
  intros [Hi Hw] Hk. split; cbn; [|exact Hw].
  apply Forall_app. split; [exact Hi | constructor; [exact Hk | constructor]].
Qed.

Lemma pqf_append_warning (s : PrintQualityChecker.self) (i : Issue) :
  holds_print_quality_findings s ->
  of_kind print_quality_kinds i = true ->
  holds_print_quality_findings (PrintQualityChecker.append_warning s i).
Proof.
  intros [Hi Hw] Hk. split; cbn; [exact Hi|].
  apply Forall_app. split; [exact Hw | constructor; [exact Hk | constructor]].
Qed.

Ltac pq_step :=
  repeat first
    [ assumption
    | apply pqf_append_issue; [|reflexivity]
    | apply pqf_append_warning; [|reflexivity] ].

Lemma pqf_transparency (s : PrintQualityChecker.self) (f : Pdf.File) :
  holds_print_quality_findings s ->
  holds_print_quality_findings
    (snd (PrintQualityChecker.check_transparency s f)).
Proof.
  intro H. unfold PrintQualityChecker.check_transparency. destruct (Pdf.open f); cbn [snd].
  - destruct (PrintQualityChecker.has_transparency _); cbn [snd]; pq_step.
  - pq_step.
Qed.

Lemma pqf_overprint (s : PrintQualityChecker.self) (f : Pdf.File) :
  holds_print_quality_findings s ->
  holds_print_quality_findings
    (snd (PrintQualityChecker.check_overprint s f)).
Proof.
  intro H. unfold PrintQualityChecker.check_overprint. destruct (Pdf.open f); cbn [snd];
    [|exact H].
  unfold PrintQualityChecker.overprint_report.
  destruct (PrintQualityChecker.is_nil (PrintQualityChecker.white_overprint_pages _));
    destruct (PrintQualityChecker.is_nil (PrintQualityChecker.k_only_overprint_pages _));
    destruct (PrintQualityChecker.is_nil (PrintQualityChecker.other_overprint_pages _)); pq_step.
Qed.

Lemma pqf_bleed (cfg : Config) (s : PrintQualityChecker.self)
      (pages_info : option (list PageInfo)) :
  holds_print_quality_findings s ->
  holds_print_quality_findings
    (snd (PrintQualityChecker.process_bleed_info cfg s pages_info)).
Proof.
  intro H. unfold PrintQualityChecker.process_bleed_info.
  destruct pages_info as [[|p ps]|]; cbn [snd]; try exact H.
  destruct (negb _); cbn [snd]; pq_step.
Qed.

Lemma pqf_spot (s : PrintQualityChecker.self) (f : Pdf.File) :
  holds_print_quality_findings s ->
  holds_print_quality_findings
    (snd (PrintQualityChecker.check_spot_color_usage s f)).
Proof.
  intro H. unfold PrintQualityChecker.check_spot_color_usage. destruct (Pdf.open f); cbn [snd];
    [|exact H].
  destruct (PrintQualityChecker.pq_has_spot_colors _); cbn [snd]; pq_step.
Qed.

Lemma pqf_compression (s : PrintQualityChecker.self) (f : Pdf.File) :
  holds_print_quality_findings s ->
  holds_print_quality_findings
    (snd (PrintQualityChecker.check_image_compression s f)).
Proof.
  intro H. unfold PrintQualityChecker.check_image_compression. destruct (Pdf.open f); cbn [snd];
    [|exact H].
  destruct (PrintQualityChecker.compression_pages _ _) as [[u|e] c]; cbn [snd]; [|exact H].
  destruct (PrintQualityChecker.is_nil _); cbn [snd]; pq_step.
Qed.

Lemma pqf_text (s : PrintQualityChecker.self) (f : Pdf.File) :
  holds_print_quality_findings s ->
  holds_print_quality_findings
    (snd (PrintQualityChecker.check_minimum_text_size s f)).
Proof.
  intro H. unfold PrintQualityChecker.check_minimum_text_size. destruct (Pdf.open f); cbn [snd];
    [|exact H].
  destruct (PrintQualityChecker.has_small_text _); cbn [snd]; pq_step.
Qed.

Lemma pqf_guarded {A} (enabled : bool)
      (check : PrintQualityChecker.self -> A * PrintQualityChecker.self)
      (s : PrintQualityChecker.self) :
  (forall s0, holds_print_quality_findings s0 -> holds_print_quality_findings (snd (check s0))) ->
  holds_print_quality_findings s ->
  holds_print_quality_findings
    (snd (PrintQualityChecker.guarded enabled check s)).
Proof.
  intros Hc H. unfold PrintQualityChecker.guarded. destruct enabled; [|exact H].
  specialize (Hc s H). destruct (check s). exact Hc.
Qed.

Lemma pqf_check_all (cfg : Config) (s : PrintQualityChecker.self) (f : Pdf.File)
      (pages_info : option (list PageInfo)) :
  holds_print_quality_findings s ->
  holds_print_quality_findings
    (snd (PrintQualityChecker.check_all cfg s f pages_info)).
Proof.
  intro H0. unfold PrintQualityChecker.check_all.
  pose proof (pqf_guarded (Py.get (CHECK_OPTIONS cfg) "transparency" false)
                (fun s => PrintQualityChecker.check_transparency s f) s
                (fun s0 => pqf_transparency s0 f) H0) as H1.
  destruct (PrintQualityChecker.guarded _ _ s) as [r1 s1]. cbn [snd] in H1.
  pose proof (pqf_guarded (Py.get (CHECK_OPTIONS cfg) "overprint" true)
                (fun s => PrintQualityChecker.check_overprint s f) s1
                (fun s0 => pqf_overprint s0 f) H1) as H2.
  destruct (PrintQualityChecker.guarded _ _ s1) as [r2 s2]. cbn [snd] in H2.
  pose proof (pqf_guarded (Py.get (CHECK_OPTIONS cfg) "bleed" true)
                (fun s => PrintQualityChecker.process_bleed_info cfg s pages_info) s2
                (fun s0 => pqf_bleed cfg s0 pages_info) H2) as H3.
  destruct (PrintQualityChecker.guarded _ _ s2) as [r3 s3]. cbn [snd] in H3.
  pose proof (pqf_guarded (Py.get (CHECK_OPTIONS cfg) "spot_colors" true)
                (fun s => PrintQualityChecker.check_spot_color_usage s f) s3
                (fun s0 => pqf_spot s0 f) H3) as H4.
  destruct (PrintQualityChecker.guarded _ _ s3) as [r4 s4]. cbn [snd] in H4.
  pose proof (pqf_guarded (Py.get (CHECK_OPTIONS cfg) "image_compression" true)
                (fun s => PrintQualityChecker.check_image_compression s f) s4
                (fun s0 => pqf_compression s0 f) H4) as H5.
  destruct (PrintQualityChecker.guarded _ _ s4) as [r5 s5]. cbn [snd] in H5.
  pose proof (pqf_guarded (Py.get (CHECK_OPTIONS cfg) "minimum_text" true)
                (fun s => PrintQualityChecker.check_minimum_text_size s f) s5
                (fun s0 => pqf_text s0 f) H5) as H6.
  destruct (PrintQualityChecker.guarded _ _ s5) as [r6 s6]. cbn [snd] in H6.
  exact H6.
Qed.

(** What one call of [analyze] returns, spelled out: the state of the checker
    after [check_all] (or the old state when no check is switched on), and
    the findings as print-quality findings, engine findings and merged
    preflight findings, in this order. *)
Lemma analyze_anatomy (cfg : Config) (col : PDFAnalyzer.Collaborators)
      (s : PrintQualityChecker.self) (f : Pdf.File) (include_ink : option bool)
      (profile_id : string) :
  (snd (PDFAnalyzer.analyze cfg col s f include_ink profile_id) = s \/
   exists pages_info,
     snd (PDFAnalyzer.analyze cfg col s f include_ink profile_id)
     = snd (PrintQualityChecker.check_all cfg s f (Some pages_info))) /\
  forall r,
    fst (PDFAnalyzer.analyze cfg col s f include_ink profile_id) = PDFAnalyzer.Analysis r ->
    exists quality r0 pf,
      PDFAnalyzer.issues r
      = quality ++ PDFAnalyzer.new_issues cfg r0 ++ PDFAnalyzer.preflight_issues pf /\
      PDFAnalyzer.pages r0 = PDFAnalyzer.pages r /\
      PDFAnalyzer.fonts r0 = PDFAnalyzer.fonts r /\
      PDFAnalyzer.colors r0 = PDFAnalyzer.colors r /\
      PDFAnalyzer.images r0 = PDFAnalyzer.images r /\
      PDFAnalyzer.ink_coverage r0 = PDFAnalyzer.ink_coverage r /\
      (quality = [] \/
       quality
       = PrintQualityChecker.issues
           (snd (PDFAnalyzer.analyze cfg col s f include_ink profile_id))
         ++ PrintQualityChecker.warnings
              (snd (PDFAnalyzer.analyze cfg col s f include_ink profile_id))).
Proof.
  unfold PDFAnalyzer.analyze, PDFAnalyzer.analyze_body.
  set (ink_on := match include_ink with Some b => b | None => is_ink_analysis_enabled cfg end).
  destruct (Pdf.open f) as [doc|e]; [|split; [now left | discriminate]].
  destruct (PDFAnalyzer._analyze_pages cfg doc) as [pages_info|e];
    [|split; [now left | discriminate]].
  destruct (PDFAnalyzer.any_check cfg).
  - destruct (PrintQualityChecker.check_all cfg s f (Some pages_info)) as [pq s1] eqn:Eall.
    assert (Es : s1 = snd (PrintQualityChecker.check_all cfg s f (Some pages_info))) by now
      rewrite Eall.
    destruct ink_on;
      [destruct (PDFAnalyzer.ink_calculate col f) as [ink|e]; cbn [Py.bind];
       [|split; [right; exists pages_info; now cbn [snd] | discriminate]]|];
      match goal with
      | |- context [PDFAnalyzer.check ?p ?r] => destruct (PDFAnalyzer.check p r) as [pf|e]
      end;
      (split; [right; exists pages_info; now cbn [snd]|]);
      try discriminate;
      (intros r Hr; cbn [fst] in Hr; inversion Hr; subst r; clear Hr;
       cbn [PDFAnalyzer._add_preflight_issues PDFAnalyzer.set_issues PDFAnalyzer.issues
            PDFAnalyzer._check_issues PDFAnalyzer.pages PDFAnalyzer.fonts PDFAnalyzer.colors
            PDFAnalyzer.images PDFAnalyzer.ink_coverage snd app];
       eexists; eexists; exists pf;
       split; [rewrite <- app_assoc; reflexivity|];
       repeat (split; [reflexivity|]); right; reflexivity).
  - destruct ink_on;
      [destruct (PDFAnalyzer.ink_calculate col f) as [ink|e]; cbn [Py.bind];
       [|split; [now left | discriminate]]|];
      match goal with
      | |- context [PDFAnalyzer.check ?p ?r] => destruct (PDFAnalyzer.check p r) as [pf|e]
      end;
      (split; [now left|]);
      try discriminate;
      (intros r Hr; cbn [fst] in Hr; inversion Hr; subst r; clear Hr;
       cbn [PDFAnalyzer._add_preflight_issues PDFAnalyzer.set_issues PDFAnalyzer.issues
            PDFAnalyzer._check_issues PDFAnalyzer.pages PDFAnalyzer.fonts PDFAnalyzer.colors
            PDFAnalyzer.images PDFAnalyzer.ink_coverage snd app];
       exists []; eexists; exists pf;
       split; [reflexivity|];
       repeat (split; [reflexivity|]); left; reflexivity).
Qed.

Ltac split_kinds H :=
  unfold of_kind in H; apply andb_true_iff in H; destruct H as [H ?];
  cbn [existsb print_quality_kinds engine_kinds fst snd itype severity extra] in *;
  repeat (apply orb_true_iff in H; destruct H as [H | H]);
  try discriminate H;
  apply andb_true_iff in H; destruct H as [?Ht ?Hs];
  apply String.eqb_eq in Ht.

Lemma print_quality_bleed_is_info (i : Issue) :
  of_kind print_quality_kinds i = true -> bleed_related i = true -> severity i = info.
Proof.
  intros H B. destruct i as [t sev pgs ex]. cbn [itype severity extra] in *.
  split_kinds H; subst t; unfold bleed_related in B; cbn [itype extra] in B;
    destruct ex; try discriminate; destruct sev; try discriminate; try reflexivity;
    vm_compute in B; discriminate.
Qed.

Lemma engine_finding_not_bleed (i : Issue) :
  of_kind engine_kinds i = true -> bleed_related i = false.
Proof.
  intro H. destruct i as [t sev pgs ex]. cbn [itype severity extra] in *.
  split_kinds H; subst t; unfold bleed_related; cbn [itype extra];
    destruct ex; try discriminate; reflexivity.
Qed.

Lemma new_issues_kinds (cfg : Config) (r : PDFAnalyzer.AnalysisResult) (i : Issue) :
  In i (PDFAnalyzer.new_issues cfg r) -> of_kind engine_kinds i = true.
Proof.
  unfold PDFAnalyzer.new_issues. intro H.
  apply in_app_or in H. destruct H as [H | H].
  { unfold PDFAnalyzer.check_page_sizes in H.
    destruct (PDFAnalyzer.group_by_size _); [contradiction|].
    destruct (PDFAnalyzer.inconsistent_pages_detail _ _); [contradiction|].
    destruct H as [<- | []]. reflexivity. }
  apply in_app_or in H. destruct H as [H | H].
  { unfold PDFAnalyzer.check_fonts in H.
    destruct (fold_left _ _ _); [contradiction|]. destruct H as [<- | []]. reflexivity. }
  apply in_app_or in H. destruct H as [H | H].
  { unfold PDFAnalyzer.check_colors in H. apply in_app_or in H. destruct H as [H | H].
    - destruct (andb _ _); [|contradiction]. destruct H as [<- | []]. reflexivity.
    - destruct (andb _ _); [|contradiction]. destruct H as [<- | []].
      unfold of_kind. cbn [itype severity extra].
      destruct (2 <? _)%nat; reflexivity. }
  apply in_app_or in H. destruct H as [H | H].
  { unfold PDFAnalyzer.check_images in H. apply in_app_or in H. destruct H as [H | H].
    - destruct (0 <? _)%nat; [|contradiction]. destruct H as [<- | []]. reflexivity.
    - destruct (0 <? _)%nat; [|contradiction]. destruct H as [<- | []]. reflexivity. }
  unfold PDFAnalyzer.check_ink in H.
  destruct (PDFAnalyzer.ink_coverage r) as [[[[|p ps]|]]|]; try contradiction.
  destruct H as [<- | []]. reflexivity.
Qed.

Lemma preflight_bleed_is_not_error (pf : PreflightResult) (i : Issue) :
  In i (PDFAnalyzer.preflight_issues pf) -> bleed_related i = true -> severity i <> error.
Proof.
  intros Hin B E.
  destruct (preflight_failed_and_info_exclude_bleed pf i Hin) as (r & Hx & Hn).
  - rewrite E. discriminate.
  - unfold PDFAnalyzer.preflight_issues in Hin.
    assert (T : itype i = "preflight_failed" \/ itype i = "preflight_warning"
                \/ itype i = "preflight_info").
    { repeat (apply in_app_or in Hin; destruct Hin as [Hin | Hin]);
        apply in_map_iff in Hin; destruct Hin as (r' & <- & _); cbn; auto. }
    unfold bleed_related in B. rewrite Hx in B. unfold PDFAnalyzer.names_bleed in Hn.
    rewrite Hn in B. rewrite orb_false_r in B.
    destruct T as [T | [T | T]]; rewrite T in B; vm_compute in B; discriminate.
Qed.

Lemma reachable_holds_findings (cfg : Config) (col : PDFAnalyzer.Collaborators)
      (s : PrintQualityChecker.self) :
  reachable cfg col s -> holds_print_quality_findings s.
Proof.
  induction 1 as [|s f ink prof _ IH].
  - split; constructor.
  - destruct (analyze_anatomy cfg col s f ink prof) as [[-> | [pages_info ->]] _].
    + exact IH.
    + now apply pqf_check_all.
Qed.

Lemma bleed_fold (cfg : Config) (pages_info : list PageInfo) :
  forall acc,
    PrintQualityChecker.has_proper_bleed
      (fold_left (PrintQualityChecker.bleed_page cfg) pages_info acc)
    = PrintQualityChecker.has_proper_bleed acc
      && forallb (fun p => negb (bleed_insufficient cfg p)) pages_info /\
    map PrintQualityChecker.mb_page
        (PrintQualityChecker.pages_without_bleed
           (fold_left (PrintQualityChecker.bleed_page cfg) pages_info acc))
    = map PrintQualityChecker.mb_page (PrintQualityChecker.pages_without_bleed acc)
      ++ map page_number (filter (bleed_insufficient cfg) pages_info).
Proof.
  induction pages_info as [|p ps IH]; intro acc; cbn [fold_left forallb filter map].
  - now rewrite andb_true_r, app_nil_r.
  - destruct (IH (PrintQualityChecker.bleed_page cfg acc p)) as [-> ->].
    unfold PrintQualityChecker.bleed_page, bleed_insufficient.
    destruct (has_bleed p); cbn [negb orb].
    + destruct (Py.Qltb (min_bleed p) (STANDARD_BLEED_SIZE cfg));
        cbn [PrintQualityChecker.has_proper_bleed PrintQualityChecker.pages_without_bleed negb
          andb map].
      * split; [now rewrite andb_false_r|].
        rewrite map_app, <- app_assoc. reflexivity.
      * split; reflexivity.
    + cbn [PrintQualityChecker.has_proper_bleed PrintQualityChecker.pages_without_bleed negb andb
      map].
      split; [now rewrite andb_false_r|].
      rewrite map_app, <- app_assoc. reflexivity.
Qed.

(** C7: the bleed test of a page is [min_bleed >= STANDARD_BLEED_SIZE] (a
    page without bleed fails it); when some page fails it, the bleed step
    appends exactly one finding, of type [insufficient_bleed] and severity
    [info], that lists the failing pages, and otherwise appends nothing; and
    no finding of an analysis that is about bleed has severity [error]. *)
Theorem C7_insufficient_bleed_is_informational
        (cfg : Config) (col : PDFAnalyzer.Collaborators) (s : PrintQualityChecker.self) :
  reachable cfg col s ->
  (forall page_info,
      bleed_insufficient cfg page_info = false <->
      has_bleed page_info = true /\ STANDARD_BLEED_SIZE cfg <= min_bleed page_info) /\
  (forall pages_info,
      let after := snd (PrintQualityChecker.process_bleed_info cfg s (Some pages_info)) in
      PrintQualityChecker.issues after = PrintQualityChecker.issues s /\
      PrintQualityChecker.warnings after
      = PrintQualityChecker.warnings s
        ++ (if existsb (bleed_insufficient cfg) pages_info
            then [{| itype := "insufficient_bleed"; severity := info;
                     affected_pages :=
                       Some (map page_number
                                 (filter (bleed_insufficient cfg) pages_info));
                     extra := NoExtra |}]
            else [])) /\
  (forall f include_ink profile_id r i,
      fst (PDFAnalyzer.analyze cfg col s f include_ink profile_id) = PDFAnalyzer.Analysis r ->
      In i (PDFAnalyzer.issues r) ->
      bleed_related i = true ->
      severity i <> error).
Proof.
  intro Hreach. split; [|split].
  - intro p. unfold bleed_insufficient. rewrite orb_false_iff, negb_false_iff.
    now rewrite Qltb_ge.
  - intro pages_info. cbv zeta. unfold PrintQualityChecker.process_bleed_info.
    destruct pages_info as [|p ps]; [cbn; now rewrite app_nil_r|].
    destruct (bleed_fold cfg (p :: ps) (PrintQualityChecker.bleed_init cfg)) as [Hb Hp].
    cbn [PrintQualityChecker.bleed_init PrintQualityChecker.has_proper_bleed
      PrintQualityChecker.pages_without_bleed map andb app] in Hb, Hp.
    rewrite Hb.
    assert (E : forallb (fun p0 => negb (bleed_insufficient cfg p0)) (p :: ps)
                = negb (existsb (bleed_insufficient cfg) (p :: ps))).
    { generalize (p :: ps). intro l. induction l as [|x l IH]; [reflexivity|].
      cbn [forallb existsb]. rewrite IH. now rewrite negb_orb. }
    rewrite E, negb_involutive.
    destruct (existsb (bleed_insufficient cfg) (p :: ps)); cbn [snd].
    + cbn [PrintQualityChecker.append_warning PrintQualityChecker.issues
      PrintQualityChecker.warnings]. rewrite Hp. split; reflexivity.
    + split; [reflexivity | now rewrite app_nil_r].
  - intros f include_ink profile_id r i Hr Hin B.
    destruct (analyze_anatomy cfg col s f include_ink profile_id) as [_ Han].
    destruct (Han r Hr) as (quality & r0 & pf & Hiss & _ & _ & _ & _ & _ & Hq).
    rewrite Hiss in Hin. apply in_app_or in Hin. destruct Hin as [Hin | Hin].
    + destruct Hq as [-> | ->]; [contradiction|].
      pose proof (reachable_holds_findings cfg col _
                    (reach_analyze cfg col s f include_ink profile_id Hreach)) as [Gi Gw].
      rewrite Forall_forall in Gi, Gw.
      apply in_app_or in Hin.
      rewrite (print_quality_bleed_is_info i); [discriminate | | exact B].
      destruct Hin as [Hin | Hin]; [now apply Gi | now apply Gw].
    + apply in_app_or in Hin. destruct Hin as [Hin | Hin].
      * apply new_issues_kinds in Hin. apply engine_finding_not_bleed in Hin. congruence.
      * now apply (preflight_bleed_is_not_error pf i).
Qed.

(** At the records of three pages: 5 mm of bleed all around, 3 mm on one
    side only, and no bleed box. The second and the third page fail the
    test and are listed in the one finding, which is informational. *)
Lemma C7_witness :
  PrintQualityChecker.issues
    (snd (PrintQualityChecker.process_bleed_info Sample.cfg PrintQualityChecker.__init__
                                                 (Some Sample.bleed_records)))
  = [] /\
  PrintQualityChecker.warnings
    (snd (PrintQualityChecker.process_bleed_info Sample.cfg PrintQualityChecker.__init__
                                                 (Some Sample.bleed_records)))
  = [{| itype := "insufficient_bleed"; severity := info;
        affected_pages := Some [2%nat; 3%nat]; extra := NoExtra |}].
Proof.
  destruct (proj1 (proj2 (C7_insufficient_bleed_is_informational
                            Sample.cfg Sample.col PrintQualityChecker.__init__
                            (reach_init Sample.cfg Sample.col))) Sample.bleed_records)
    as [Hi Hw].
  split; [exact Hi|].
  refine (eq_trans Hw _). vm_compute. reflexivity.
Defined.

(** ** C8: overprint classes *)

Lemma overprint_page_fold (l : list (nat * Pdf.Page)) :
  forall acc,
    PrintQualityChecker.white_overprint_pages
      (fold_left PrintQualityChecker.overprint_page l acc)
    = PrintQualityChecker.white_overprint_pages acc
      ++ map fst (filter (fun np => page_white_overprint (snd np)) l) /\
    PrintQualityChecker.k_only_overprint_pages
      (fold_left PrintQualityChecker.overprint_page l acc)
    = PrintQualityChecker.k_only_overprint_pages acc
      ++ map fst (filter (fun np => page_k_only_overprint (snd np)) l).
Proof.
  induction l as [|[n page] l IH]; intro acc; cbn [fold_left filter map].
  - now rewrite !app_nil_r.
  - destruct (IH (PrintQualityChecker.overprint_page acc (n, page))) as [-> ->].
    unfold PrintQualityChecker.overprint_page, page_white_overprint, page_k_only_overprint.
      cbn [snd].
    destruct (nonempty (Pdf.contents page)); cbn [andb];
      [|split; reflexivity].
    destruct (PrintQualityChecker.content_has_overprint (Pdf.contents page)); cbn [andb];
      [|split; reflexivity].
    destruct (PrintQualityChecker.content_white (Pdf.contents page)); cbn [andb negb].
    + cbn [PrintQualityChecker.white_overprint_pages PrintQualityChecker.k_only_overprint_pages
      map fst].
      split; [now rewrite <- app_assoc | reflexivity].
    + destruct (PrintQualityChecker.content_k_only (Pdf.contents page));
        cbn [PrintQualityChecker.white_overprint_pages PrintQualityChecker.k_only_overprint_pages
          map fst].
      * split; [reflexivity | now rewrite <- app_assoc].
      * split; reflexivity.
Qed.

Lemma overprint_gs_fold (page_num : nat) (gss : list (string * Pdf.ExtGState)) :
  forall acc,
    PrintQualityChecker.white_overprint_pages
      (fold_left (PrintQualityChecker.overprint_gs page_num) gss acc)
    = PrintQualityChecker.white_overprint_pages acc /\
    PrintQualityChecker.k_only_overprint_pages
      (fold_left (PrintQualityChecker.overprint_gs page_num) gss acc)
    = PrintQualityChecker.k_only_overprint_pages acc.
Proof.
  induction gss as [|gs gss IH]; intro acc; cbn [fold_left]; [split; reflexivity|].
  destruct (IH (PrintQualityChecker.overprint_gs page_num acc gs)) as [-> ->].
  unfold PrintQualityChecker.overprint_gs. destruct (PrintQualityChecker.gs_active (snd gs));
    split; reflexivity.
Qed.

Lemma overprint_extgstate_fold (l : list (nat * Pdf.Page)) :
  forall acc,
    PrintQualityChecker.white_overprint_pages
      (fold_left PrintQualityChecker.overprint_extgstate l acc)
    = PrintQualityChecker.white_overprint_pages acc /\
    PrintQualityChecker.k_only_overprint_pages
      (fold_left PrintQualityChecker.overprint_extgstate l acc)
    = PrintQualityChecker.k_only_overprint_pages acc.
Proof.
  induction l as [|[n page] l IH]; intro acc; cbn [fold_left]; [split; reflexivity|].
  destruct (IH (PrintQualityChecker.overprint_extgstate acc (n, page))) as [-> ->].
  unfold PrintQualityChecker.overprint_extgstate. destruct (Pdf.res_extgstate page); [|split;
    reflexivity].
  apply overprint_gs_fold.
Qed.

(** The page lists of the scan, by the branch conditions. *)
Lemma overprint_scan_pages (doc : Pdf.Document) (p : nat) :
  (In p (PrintQualityChecker.white_overprint_pages (PrintQualityChecker.overprint_scan doc)) <->
   exists page, In (p, page) (enumerate1 (Pdf.doc_pages doc)) /\
                page_white_overprint page = true) /\
  (In p (PrintQualityChecker.k_only_overprint_pages (PrintQualityChecker.overprint_scan doc)) <->
   exists page, In (p, page) (enumerate1 (Pdf.doc_pages doc)) /\
                page_k_only_overprint page = true).
Proof.
  unfold PrintQualityChecker.overprint_scan.
  cbn [PrintQualityChecker.white_overprint_pages PrintQualityChecker.k_only_overprint_pages].
  rewrite !in_sorted_set.
  destruct (overprint_extgstate_fold (enumerate1 (Pdf.doc_pages doc))
              (fold_left PrintQualityChecker.overprint_page (enumerate1 (Pdf.doc_pages doc))
                         PrintQualityChecker.overprint_init)) as [-> ->].
  destruct (overprint_page_fold (enumerate1 (Pdf.doc_pages doc))
    PrintQualityChecker.overprint_init)
    as [-> ->].
  cbn [PrintQualityChecker.overprint_init PrintQualityChecker.white_overprint_pages
    PrintQualityChecker.k_only_overprint_pages app].
  split; rewrite in_map_iff; split.
  - intros ([n page] & <- & H). apply filter_In in H. cbn [fst snd] in *. eauto.
  - intros (page & H1 & H2). exists (p, page). split; [reflexivity|].
    apply filter_In. auto.
  - intros ([n page] & <- & H). apply filter_In in H. cbn [fst snd] in *. eauto.
  - intros (page & H1 & H2). exists (p, page). split; [reflexivity|].
    apply filter_In. auto.
Qed.

Lemma enumerate1_functional {A} (l : list A) (n : nat) (a b : A) :
  In (n, a) (enumerate1 l) -> In (n, b) (enumerate1 l) -> a = b.
Proof.
  unfold enumerate1. generalize 1%nat as start. induction l as [|x l IH]; intros start Ha Hb.
  - contradiction.
  - cbn [List.length seq combine] in Ha, Hb.
    destruct Ha as [Ha | Ha], Hb as [Hb | Hb].
    + congruence.
    + inversion Ha; subst. apply in_combine_l in Hb. apply in_seq in Hb. lia.
    + inversion Hb; subst. apply in_combine_l in Ha. apply in_seq in Ha. lia.
    + exact (IH (S start) Ha Hb).
Qed.

Lemma white_and_k_only_disjoint (doc : Pdf.Document) (p : nat) :
  In p (PrintQualityChecker.white_overprint_pages (PrintQualityChecker.overprint_scan doc)) ->
  In p (PrintQualityChecker.k_only_overprint_pages (PrintQualityChecker.overprint_scan doc)) ->
  False.
Proof.
  intros Hw Hk.
  apply (proj1 (overprint_scan_pages doc p)) in Hw.
  apply (proj2 (overprint_scan_pages doc p)) in Hk.
  destruct Hw as (pg1 & I1 & W), Hk as (pg2 & I2 & K).
  rewrite (enumerate1_functional _ _ _ _ I1 I2) in W.
  unfold page_white_overprint in W. unfold page_k_only_overprint in K.
  destruct (nonempty _), (PrintQualityChecker.content_has_overprint _),
    (PrintQualityChecker.content_white _);
    cbn in W, K; discriminate.
Qed.

Lemma mem_nat_In (n : nat) (l : list nat) : Py.mem_nat n l = true <-> In n l.
Proof.
  unfold Py.mem_nat. rewrite existsb_exists. split.
  - intros (x & Hx & E). apply Nat.eqb_eq in E. now subst.
  - intro H. exists n. split; [exact H | apply Nat.eqb_refl].
Qed.

Lemma is_nil_false_of_In {A} (l : list A) (a : A) :
  In a l -> PrintQualityChecker.is_nil l = false.
Proof. destruct l; [contradiction | reflexivity]. Qed.

(** The classes as the scan recognises them. For a readable file the
    overprint check appends its findings to the checker's lists such that
    every page with overprint is reported by the class that the patterns of
    the scan give it: a page that matches the pattern of a white fill is
    listed in a finding of severity [error]; a page that matches the pattern
    of a black-only fill, and not the one of a white fill, is listed in a
    finding of severity [info] and in no finding of another severity; any
    other page with overprint is listed in a finding of severity
    [warning]. *)
Lemma overprint_classes_as_scanned
        (s : PrintQualityChecker.self) (f : Pdf.File) (doc : Pdf.Document) :
  Pdf.readable f = Some doc ->
  let scan := fst (PrintQualityChecker.check_overprint s f) in
  let after := snd (PrintQualityChecker.check_overprint s f) in
  let white := PrintQualityChecker.white_overprint_pages scan in
  let k_only := PrintQualityChecker.k_only_overprint_pages scan in
  exists new_issues new_warnings,
    PrintQualityChecker.issues after = PrintQualityChecker.issues s ++ new_issues /\
    PrintQualityChecker.warnings after = PrintQualityChecker.warnings s ++ new_warnings /\
    forall p,
      (In p white <->
       exists page, In (p, page) (enumerate1 (Pdf.doc_pages doc)) /\
                    page_white_overprint page = true) /\
      (In p k_only <->
       exists page, In (p, page) (enumerate1 (Pdf.doc_pages doc)) /\
                    page_k_only_overprint page = true) /\
      (In p white ->
       exists i, In i new_issues /\ itype i = "white_overprint_detected" /\
                 severity i = error /\ lists_page i p) /\
      (In p k_only ->
       (exists i, In i new_warnings /\ itype i = "k_overprint_detected" /\
                  severity i = info /\ lists_page i p) /\
       (forall j, In j (new_issues ++ new_warnings) -> lists_page j p ->
                  severity j = info)) /\
      (In p (PrintQualityChecker.pages_with_overprint scan) ->
       ~ In p white -> ~ In p k_only ->
       exists i, In i new_warnings /\ itype i = "overprint_detected" /\
                 severity i = warning /\ lists_page i p).
Proof.
  intro Hr. cbv zeta.
  unfold PrintQualityChecker.check_overprint, Pdf.open. rewrite Hr. cbn [fst snd].
  set (o := PrintQualityChecker.overprint_scan doc).
  set (W := {| itype := "white_overprint_detected"; severity := error;
               affected_pages := Some (PrintQualityChecker.white_overprint_pages o);
                 extra := NoExtra |}).
  set (K := {| itype := "k_overprint_detected"; severity := info;
               affected_pages := Some (PrintQualityChecker.k_only_overprint_pages o);
                 extra := NoExtra |}).
  set (O := {| itype := "overprint_detected"; severity := warning;
               affected_pages := Some (PrintQualityChecker.other_overprint_pages o);
                 extra := NoExtra |}).
  exists (if PrintQualityChecker.is_nil (PrintQualityChecker.white_overprint_pages o) then [] else
    [W]).
  exists ((if PrintQualityChecker.is_nil (PrintQualityChecker.k_only_overprint_pages o) then []
    else [K])
          ++ (if PrintQualityChecker.is_nil (PrintQualityChecker.other_overprint_pages o) then []
            else [O])).
  split; [|split].
  - unfold PrintQualityChecker.overprint_report. fold W K O.
    destruct (PrintQualityChecker.is_nil (PrintQualityChecker.white_overprint_pages o)),
             (PrintQualityChecker.is_nil (PrintQualityChecker.k_only_overprint_pages o)),
             (PrintQualityChecker.is_nil (PrintQualityChecker.other_overprint_pages o));
      cbn [PrintQualityChecker.append_issue PrintQualityChecker.append_warning
        PrintQualityChecker.issues PrintQualityChecker.warnings app];
      rewrite ?app_nil_r; reflexivity.
  - unfold PrintQualityChecker.overprint_report. fold W K O.
    destruct (PrintQualityChecker.is_nil (PrintQualityChecker.white_overprint_pages o)),
             (PrintQualityChecker.is_nil (PrintQualityChecker.k_only_overprint_pages o)),
             (PrintQualityChecker.is_nil (PrintQualityChecker.other_overprint_pages o));
      cbn [PrintQualityChecker.append_issue PrintQualityChecker.append_warning
        PrintQualityChecker.issues PrintQualityChecker.warnings app];
      rewrite ?app_nil_r, <- ?app_assoc; reflexivity.
  - intro p. split; [exact (proj1 (overprint_scan_pages doc p))|].
    split; [exact (proj2 (overprint_scan_pages doc p))|].
    split; [|split].
    + intro Hw. rewrite (is_nil_false_of_In _ _ Hw). exists W.
      split; [now left|]. repeat split. exists (PrintQualityChecker.white_overprint_pages o).
        auto.
    + intro Hk. split.
      * rewrite (is_nil_false_of_In _ _ Hk). exists K.
        split; [now left|]. repeat split. exists (PrintQualityChecker.k_only_overprint_pages o).
          auto.
      * intros j Hj (ps & Hps & Hin).
        apply in_app_or in Hj. destruct Hj as [Hj | Hj]; [|apply in_app_or in Hj;
          destruct Hj as [Hj | Hj]].
        -- destruct (PrintQualityChecker.is_nil (PrintQualityChecker.white_overprint_pages o));
          [contradiction|].
           destruct Hj as [<- | []]. cbn in Hps. inversion Hps; subst ps.
           exfalso. exact (white_and_k_only_disjoint doc p Hin Hk).
        -- destruct (PrintQualityChecker.is_nil (PrintQualityChecker.k_only_overprint_pages o));
          [contradiction|].
           destruct Hj as [<- | []]. reflexivity.
        -- destruct (PrintQualityChecker.is_nil (PrintQualityChecker.other_overprint_pages o));
          [contradiction|].
           destruct Hj as [<- | []]. cbn in Hps. inversion Hps; subst ps.
           unfold PrintQualityChecker.other_overprint_pages in Hin. apply filter_In in Hin.
           destruct Hin as [_ Hc]. apply andb_true_iff in Hc. destruct Hc as [_ Hc].
           apply negb_true_iff in Hc.
           pose proof (proj2 (mem_nat_In p _) Hk) as Hk'.
           change (Py.mem_nat p (PrintQualityChecker.k_only_overprint_pages o) = false) in Hc.
           rewrite Hk' in Hc. discriminate Hc.
    + intros Hp Hnw Hnk.
      assert (Ho : In p (PrintQualityChecker.other_overprint_pages o)).
      { unfold PrintQualityChecker.other_overprint_pages. apply filter_In. split; [exact Hp|].
        apply andb_true_iff. split; apply negb_true_iff;
          (destruct (Py.mem_nat p _) eqn:E; [|reflexivity]);
          apply mem_nat_In in E; contradiction. }
      rewrite (is_nil_false_of_In _ _ Ho). exists O.
      split; [apply in_or_app; right; now left|]. repeat split.
      exists (PrintQualityChecker.other_overprint_pages o). auto.
Qed.

(** White fill, black fill and another fill, each followed by [1 OP] on the
    same line. *)
Example overprint_classes_of_three_pages :
  snd (PrintQualityChecker.check_overprint PrintQualityChecker.__init__ Sample.overprints)
  = {| PrintQualityChecker.issues :=
         [{| itype := "white_overprint_detected"; severity := error;
             affected_pages := Some [1%nat]; extra := NoExtra |}];
       PrintQualityChecker.warnings :=
         [{| itype := "k_overprint_detected"; severity := info;
             affected_pages := Some [2%nat]; extra := NoExtra |};
          {| itype := "overprint_detected"; severity := warning;
             affected_pages := Some [3%nat]; extra := NoExtra |}] |}.
Proof. vm_compute. reflexivity. Qed.

(** The reach of the patterns: the fill operator and [1 OP] are looked for on
    one line, and the class patterns end in the upper-case operator; a page
    outside their reach is in the class of the other overprints. *)
Example overprint_patterns_reach :
  map page_white_overprint
      (match Pdf.readable Sample.overprints_apart with
       | Some d => Pdf.doc_pages d
       | None => []
       end) = [false; false] /\
  snd (PrintQualityChecker.check_overprint PrintQualityChecker.__init__
                                           Sample.overprints_apart)
  = {| PrintQualityChecker.issues := [];
       PrintQualityChecker.warnings :=
         [{| itype := "overprint_detected"; severity := warning;
             affected_pages := Some [1%nat; 2%nat]; extra := NoExtra |}] |}.
Proof. split; vm_compute; reflexivity. Qed.

(** C8 (code at the failing input): three pages with overprint. On the
    first a black-only fill [0 0 0 1 k] precedes the lower-case operator
    [1 op]; on the second it precedes [1 OP] on the next line; on the third
    a fill of 10 percent cyan, [0.10 0 0 0 k], precedes [1 OP]. The two
    pages with black-only overprint are reported in the warning
    [overprint_detected], and not as [k_overprint_detected]; the page with
    the light colour is reported in the error [white_overprint_detected]. *)
Theorem C8_black_overprint_is_reported_as_warning :
  PrintQualityChecker.k_only_overprint_pages
    (fst (PrintQualityChecker.check_overprint PrintQualityChecker.__init__
                                              Sample.overprints_misread)) = [] /\
  snd (PrintQualityChecker.check_overprint PrintQualityChecker.__init__
                                           Sample.overprints_misread)
  = {| PrintQualityChecker.issues :=
         [{| itype := "white_overprint_detected"; severity := error;
             affected_pages := Some [3%nat]; extra := NoExtra |}];
       PrintQualityChecker.warnings :=
         [{| itype := "overprint_detected"; severity := warning;
             affected_pages := Some [1%nat; 2%nat]; extra := NoExtra |}] |}.
Proof. split; vm_compute; reflexivity. Qed.

(** ** C9: failures of one file *)

Lemma quiet_ret {A} (a : A) : quiet (Stmt.ret (S := BatchProcessor.self) a).
Proof. intros s r s' H. inversion H. reflexivity. Qed.

Lemma quiet_lift {A} (x : Py.result A) : quiet (Stmt.lift (S := BatchProcessor.self) x).
Proof. intros s r s' H. inversion H. reflexivity. Qed.

Lemma quiet_raise {A} (e : Py.exn) : quiet (Stmt.raise (S := BatchProcessor.self) (A := A) e).
Proof. intros s r s' H. inversion H. reflexivity. Qed.

Lemma quiet_bind {A B} (m : Stmt.M BatchProcessor.self A)
      (k : A -> Stmt.M BatchProcessor.self B) :
  quiet m -> (forall a, quiet (k a)) -> quiet (Stmt.bindM m k).
Proof.
  intros Hm Hk s r s' H. unfold Stmt.bindM in H.
  destruct (m s) as [[a|e] s1] eqn:E; pose proof (Hm _ _ _ E) as ->.
  - exact (Hk a _ _ _ H).
  - now inversion H.
Qed.

Lemma quiet_try {A} (m : Stmt.M BatchProcessor.self A)
      (h : Py.exn -> Stmt.M BatchProcessor.self A) :
  quiet m -> (forall e, quiet (h e)) -> quiet (Stmt.try_except m h).
Proof.
  intros Hm Hh s r s' H. unfold Stmt.try_except in H.
  destruct (m s) as [[a|e] s1] eqn:E; pose proof (Hm _ _ _ E) as ->.
  - now inversion H.
  - exact (Hh e _ _ _ H).
Qed.

Lemma quiet_call_progress (env : BatchProcessor.Env) (p : BatchProcessor.Progress) :
  quiet (BatchProcessor.call_progress env p).
Proof.
  unfold BatchProcessor.call_progress. destruct (BatchProcessor.progress_callback env);
    [apply quiet_lift | apply quiet_ret].
Qed.

Lemma quiet_update_progress (env : BatchProcessor.Env) (file_id step : string) (percent : nat) :
  quiet (BatchProcessor.update_progress env file_id step percent).
Proof. apply quiet_call_progress. Qed.

Lemma quiet_save_block (env : BatchProcessor.Env) (file_id : string)
      (p : BatchProcessor.Processed) :
  quiet (BatchProcessor.save_block env file_id p).
Proof.
  unfold BatchProcessor.save_block. destruct (BatchProcessor.data_manager env);
    [|apply quiet_ret].
  apply quiet_try.
  - apply quiet_bind; [apply quiet_update_progress | intro; apply quiet_lift].
  - intro. apply quiet_ret.
Qed.

Lemma quiet_auto_fix_block (env : BatchProcessor.Env) (file_id : string) (file_path : Pdf.File)
      (fix_pdf : Pdf.File -> PDFAnalyzer.AnalysisResult -> Py.result BatchProcessor.FixResult)
      (l : BatchProcessor.Locals) :
  quiet (BatchProcessor.auto_fix_block env file_id file_path fix_pdf l).
Proof.
  intros s r s' H. unfold BatchProcessor.auto_fix_block in H.
  destruct (BatchProcessor.update_progress env file_id _ 50 s) as [[u|e] s1] eqn:E1;
    pose proof (quiet_update_progress _ _ _ _ _ _ _ E1) as ->;
    [|now inversion H].
  destruct (fix_pdf file_path _) as [fix_result|e]; [|now inversion H].
  destruct (BatchProcessor.fixed fix_result) as [fx|]; [|now inversion H].
  destruct (BatchProcessor.create_comparison_report _); [|now inversion H].
  destruct (BatchProcessor.update_progress env file_id _ 55 s) as [[u2|e] s2] eqn:E2;
    pose proof (quiet_update_progress _ _ _ _ _ _ _ E2) as ->;
    [|now inversion H].
  destruct (PDFAnalyzer.analyze _ _ _ _ _ _). now inversion H.
Qed.

Lemma body_effect_after_quiet {A B} (file_id : string)
      (m : Stmt.M BatchProcessor.self A) (k : A -> Stmt.M BatchProcessor.self B) :
  quiet m -> (forall a, body_effect file_id (k a)) -> body_effect file_id (Stmt.bindM m k).
Proof.
  intros Hm Hk s r s' H. unfold Stmt.bindM in H.
  destruct (m s) as [[a|e] s1] eqn:E; pose proof (Hm _ _ _ E) as ->.
  - exact (Hk a _ _ _ H).
  - inversion H; subst. left. split; [reflexivity | eauto].
Qed.

Lemma body_effect_raise {A} (file_id : string) (e : Py.exn) :
  body_effect file_id (Stmt.raise (S := BatchProcessor.self) (A := A) e).
Proof. intros s r s' H. inversion H; subst. left. split; [reflexivity | eauto]. Qed.

Lemma body_effect_put (env : BatchProcessor.Env) (file_id file : string)
      (res : BatchProcessor.Processed)
      (reports : list (string * string)) (worker_id n_pages : nat) (p : BatchProcessor.Progress) :
  body_effect file_id
    (BatchProcessor.put (BatchProcessor.Complete file_id file res reports worker_id n_pages) ;;;
     BatchProcessor.count_processed ;;;
     BatchProcessor.call_progress env p).
Proof.
  intros s r s' H. unfold Stmt.bindM, BatchProcessor.put, BatchProcessor.count_processed in H.
  match type of H with
  | BatchProcessor.call_progress env p ?s2 = _ =>
      pose proof (quiet_call_progress env p _ _ _ H) as ->
  end.
  right. exists file, res, reports, worker_id, n_pages. cbn. repeat split.
Qed.

(** The body of the per-file [try] block. *)
Lemma process_body_effect (env : BatchProcessor.Env) (file_id : string)
      (file_info : BatchProcessor.FileInfo)
      (worker_id : nat) :
  body_effect file_id (BatchProcessor.process_body env file_id file_info worker_id).
Proof.
  unfold BatchProcessor.process_body.
  apply body_effect_after_quiet; [apply quiet_call_progress | intros _].
  apply body_effect_after_quiet; [apply quiet_update_progress | intros _].
  destruct (PDFAnalyzer.analyze _ _ _ _ _ _) as [[r|err] analyzer1];
    [|apply body_effect_raise].
  apply body_effect_after_quiet; [apply quiet_update_progress | intros _].
  apply body_effect_after_quiet.
  { destruct (BatchProcessor._needs_auto_fix env r); [|apply quiet_ret].
    apply quiet_bind; [apply quiet_update_progress | intros _].
    destruct (BatchProcessor.fixer env); [apply quiet_auto_fix_block | apply quiet_ret]. }
  intro l.
  apply body_effect_after_quiet; [apply quiet_update_progress | intros _].
  apply body_effect_after_quiet; [apply quiet_save_block | intros _].
  apply body_effect_after_quiet; [apply quiet_update_progress | intros _].
  apply body_effect_after_quiet; [apply quiet_lift | intro report_paths].
  apply body_effect_after_quiet; [apply quiet_update_progress | intros _].
  apply body_effect_after_quiet; [apply quiet_update_progress | intros _].
  apply body_effect_after_quiet.
  { destruct (BatchProcessor.notifier_on env); [|apply quiet_ret].
    apply quiet_bind; [apply quiet_lift | intros _].
    destruct (BatchProcessor.applied l); [apply quiet_ret | apply quiet_lift]. }
  intros _. apply body_effect_put.
Qed.

(** The [except] clause when the error report returns. *)
Lemma process_handler_reports (env : BatchProcessor.Env) (file_id : string)
      (file_info : BatchProcessor.FileInfo) (worker_id : nat) (e : Py.exn)
      (s : BatchProcessor.self) :
  error_report_returns env ->
  exists s',
    BatchProcessor.process_handler env file_id file_info worker_id e s = (Py.Ok tt, s') /\
    BatchProcessor.result_queue s'
    = BatchProcessor.result_queue s
      ++ [BatchProcessor.error_record env file_id file_info worker_id e] /\
    BatchProcessor.error_count s' = S (BatchProcessor.error_count s) /\
    BatchProcessor.processed_count s' = BatchProcessor.processed_count s /\
    BatchProcessor.is_running s' = BatchProcessor.is_running s /\
    BatchProcessor.is_paused s' = BatchProcessor.is_paused s.
Proof.
  intros [Hn Hc]. unfold BatchProcessor.process_handler, Stmt.bindM, BatchProcessor.count_error,
    BatchProcessor.put.
  assert (N : forall s0 : BatchProcessor.self,
             match BatchProcessor.notifier_on env with
             | Some nm =>
                 Stmt.lift (BatchProcessor.notify_error nm (Pdf.file_name (BatchProcessor.path
                   file_info))
                              (BatchProcessor.get_user_message env
                                 (BatchProcessor.handle_error env e (BatchProcessor.error_context
                                   file_info))))
             | None => Stmt.ret tt
             end s0 = (Py.Ok tt, s0)).
  { intro s0. destruct (BatchProcessor.notifier_on env) as [nm|] eqn:En; [|reflexivity].
    unfold Stmt.lift. now rewrite (Hn nm _ _ eq_refl). }
  rewrite N. unfold BatchProcessor.call_progress.
  destruct (BatchProcessor.progress_callback env) as [cb|] eqn:Ecb.
  - unfold Stmt.lift.
    match goal with
    | |- context [cb ?p] => rewrite (Hc cb p eq_refl eq_refl)
    end.
    eexists. split; [reflexivity|]. cbn. repeat split.
  - eexists. split; [reflexivity|]. cbn. repeat split.
Qed.

(** One call of [_process_single_file] when the error report returns. *)
Lemma process_single_file_returns (env : BatchProcessor.Env) (file_id : string)
      (file_info : BatchProcessor.FileInfo) (worker_id : nat) (s : BatchProcessor.self) :
  error_report_returns env ->
  exists s',
    BatchProcessor._process_single_file env file_id file_info worker_id s = (Py.Ok tt, s') /\
    (forall e s1,
        BatchProcessor.process_body env file_id file_info worker_id s = (Py.Raise e, s1) ->
        BatchProcessor.result_queue s'
        = BatchProcessor.result_queue s1
          ++ [BatchProcessor.error_record env file_id file_info worker_id e] /\
        BatchProcessor.error_count s' = S (BatchProcessor.error_count s1) /\
        BatchProcessor.processed_count s' = BatchProcessor.processed_count s1) /\
    (exists recs,
        recs <> [] /\ Forall (record_of file_id) recs /\
        BatchProcessor.result_queue s' = BatchProcessor.result_queue s ++ recs).
Proof.
  intro Hsafe. unfold BatchProcessor._process_single_file, Stmt.try_except.
  destruct (BatchProcessor.process_body env file_id file_info worker_id s) as [[[]|e] s1] eqn:E;
    pose proof (process_body_effect env file_id file_info worker_id _ _ _ E) as Eff.
  - exists s1. split; [reflexivity|]. split; [intros e s2 H; discriminate H|].
    destruct Eff as [[_ [e He]] | (file & res & reports & w & n & Hq & _)];
      [discriminate He|].
    eexists. split; [|split; [|exact Hq]]; [discriminate|].
    constructor; [reflexivity | constructor].
  - destruct (process_handler_reports env file_id file_info worker_id e s1 Hsafe)
      as (s' & Hh & Hq & Hec & Hpc & _).
    exists s'. split; [exact Hh|]. split.
    + intros e' s2 H. inversion H; subst e' s2. auto.
    + destruct Eff as [[-> _] | (file & res & reports & w & n & Hq1 & _)].
      * eexists. split; [|split; [|exact Hq]]; [discriminate|].
        constructor; [reflexivity | constructor].
      * rewrite Hq1, <- app_assoc in Hq. cbn [app] in Hq.
        eexists. split; [|split; [|exact Hq]]; [discriminate|].
        constructor; [reflexivity|]. constructor; [reflexivity | constructor].
Qed.

(** Without any assumption on the reporting: one call of
    [_process_single_file] puts records of its own file only, whatever it
    returns or raises. *)
Lemma process_single_file_effect (env : BatchProcessor.Env) (file_id : string)
      (file_info : BatchProcessor.FileInfo) (worker_id : nat)
      (s : BatchProcessor.self) (r : Py.result unit) (s' : BatchProcessor.self) :
  BatchProcessor._process_single_file env file_id file_info worker_id s = (r, s') ->
  exists recs,
    Forall (record_of file_id) recs /\
    BatchProcessor.result_queue s' = BatchProcessor.result_queue s ++ recs.
Proof.
  unfold BatchProcessor._process_single_file, Stmt.try_except.
  destruct (BatchProcessor.process_body env file_id file_info worker_id s)
    as [[u|e] s1] eqn:E;
    pose proof (process_body_effect env file_id file_info worker_id _ _ _ E) as Eff.
  - intro H. inversion H; subst.
    destruct Eff as [[-> _] | (file & res & reports & w & n & Hq & _)].
    + exists []. split; [constructor | now rewrite app_nil_r].
    + eexists. split; [|exact Hq]. constructor; [reflexivity | constructor].
  - assert (Hh : forall r0 s0,
               BatchProcessor.process_handler env file_id file_info worker_id e s1 = (r0, s0) ->
               exists recs, Forall (record_of file_id) recs /\
                            BatchProcessor.result_queue s0
                            = BatchProcessor.result_queue s1 ++ recs).
    { intros r0 s0. unfold BatchProcessor.process_handler, Stmt.bindM.
      unfold BatchProcessor.count_error at 1.
      match goal with
      | |- context [match ?m ?st with _ => _ end] =>
          destruct (m st) as [[u|e1] s2] eqn:En;
          assert (Q : quiet m)
            by (destruct (BatchProcessor.notifier_on env);
                [apply quiet_lift | apply quiet_ret]);
          pose proof (Q _ _ _ En) as ->
      end.
      - unfold BatchProcessor.put at 1. intro H.
        apply quiet_call_progress in H. subst s0. cbn [BatchProcessor.result_queue].
        eexists. split; [|reflexivity]. constructor; [reflexivity | constructor].
      - intro H. inversion H; subst. cbn [BatchProcessor.result_queue].
        exists []. split; [constructor | now rewrite app_nil_r]. }
    intro H. destruct (Hh _ _ H) as (recs & Hall & Hq).
    destruct Eff as [[-> _] | (file & res & reports & w & n & Hq1 & _)].
    + exists recs. split; assumption.
    + rewrite Hq1, <- app_assoc in Hq. eexists. split; [|exact Hq].
      constructor; [reflexivity | exact Hall].
Qed.

(** Without any assumption on the reporting: the loop takes every queued
    file in turn, and the records on the result queue are those of the
    queued files, file by file in the order of the queue. *)
Lemma worker_loop_visits_every_file (env : BatchProcessor.Env) (worker_id : nat)
      (file_queue : list (string * BatchProcessor.FileInfo)) :
  forall s,
  exists groups,
    BatchProcessor.result_queue (BatchProcessor.worker_loop env worker_id file_queue s)
    = BatchProcessor.result_queue s ++ List.concat groups /\
    Forall2 (fun job recs => Forall (record_of (fst job)) recs) file_queue groups.
Proof.
  induction file_queue as [|[file_id file_info] q IH]; intro s.
  - exists []. split; [cbn; now rewrite app_nil_r | constructor].
  - cbn [BatchProcessor.worker_loop].
    destruct (BatchProcessor._process_single_file env file_id file_info worker_id s)
      as [r s'] eqn:E.
    destruct (process_single_file_effect _ _ _ _ _ _ _ E) as (recs & Hall & Hq).
    destruct (IH s') as (groups & Hl & Hg).
    exists (recs :: groups). split.
    + rewrite Hl, Hq. cbn [List.concat]. now rewrite app_assoc.
    + constructor; [exact Hall | exact Hg].
Qed.

(** When reporting an error does not itself fail, every exception raised
    in the body of the per-file [try] block is caught there: the call
    returns normally, the exception has become a record tagged ['error'] for
    that file with the message derived from its classification, put on the
    result queue and counted; and the worker loop goes on, so that every
    queued file gets its own records, in the order of the queue. *)
Lemma reported_failures_stay_in_the_file (env : BatchProcessor.Env) :
  error_report_returns env ->
  (forall file_id file_info worker_id s,
      exists s',
        BatchProcessor._process_single_file env file_id file_info worker_id s = (Py.Ok tt, s') /\
        (forall e s1,
            BatchProcessor.process_body env file_id file_info worker_id s = (Py.Raise e, s1) ->
            BatchProcessor.result_queue s'
            = BatchProcessor.result_queue s1
              ++ [BatchProcessor.error_record env file_id file_info worker_id e] /\
            BatchProcessor.error_count s' = S (BatchProcessor.error_count s1) /\
            BatchProcessor.processed_count s' = BatchProcessor.processed_count s1) /\
        (exists recs,
            recs <> [] /\ Forall (record_of file_id) recs /\
            BatchProcessor.result_queue s' = BatchProcessor.result_queue s ++ recs)) /\
  (forall worker_id file_queue s,
      (BatchProcessor.is_running s = true -> BatchProcessor.is_paused s = false ->
       BatchProcessor._worker_thread env worker_id file_queue s
       = Some (BatchProcessor.worker_loop env worker_id file_queue s)) /\
      exists groups,
        BatchProcessor.result_queue (BatchProcessor.worker_loop env worker_id file_queue s)
        = BatchProcessor.result_queue s ++ List.concat groups /\
        Forall2 (fun job recs => recs <> [] /\ Forall (record_of (fst job)) recs)
                file_queue groups).
Proof.
  intro Hsafe. split.
  - intros file_id file_info worker_id s.
    exact (process_single_file_returns env file_id file_info worker_id s Hsafe).
  - intros worker_id file_queue s. split.
    + intros Hr Hp. unfold BatchProcessor._worker_thread. now rewrite Hr, Hp.
    + revert s. induction file_queue as [|[file_id file_info] q IH]; intro s.
      * exists []. split; [cbn; now rewrite app_nil_r | constructor].
      * cbn [BatchProcessor.worker_loop].
        destruct (process_single_file_returns env file_id file_info worker_id s Hsafe)
          as (s' & -> & _ & recs & Hne & Hall & Hq).
        destruct (IH s') as (groups & Hl & Hg).
        exists (recs :: groups). split.
        -- rewrite Hl, Hq. cbn [List.concat]. now rewrite app_assoc.
        -- constructor; [split; assumption | exact Hg].
Qed.

(** A file that cannot be opened, on a processor without notifications. *)
Example unreadable_file_becomes_an_error_record :
  exists s',
    BatchProcessor._process_single_file Sample.env "a" (Sample.job Sample.unreadable) 0
                                        Sample.idle
    = (Py.Ok tt, s') /\
    map BatchProcessor.record_file_id (BatchProcessor.result_queue s') = [Some "a"] /\
    BatchProcessor.error_count s' = 1%nat.
Proof. eexists. split; [vm_compute; reflexivity|]. split; reflexivity. Qed.

(** A queue of a broken file followed by a sound one: the first becomes an
    ['error'] record, the second is still processed. *)
Example broken_file_does_not_stop_the_worker :
  map BatchProcessor.record_file_id
      (BatchProcessor.result_queue
         (BatchProcessor.worker_loop Sample.env 0
            [("a", Sample.job Sample.unreadable); ("b", Sample.job Sample.one_page)]
            Sample.idle))
  = [Some "a"; Some "b"] /\
  BatchProcessor.error_count
    (BatchProcessor.worker_loop Sample.env 0
       [("a", Sample.job Sample.unreadable); ("b", Sample.job Sample.one_page)]
       Sample.idle) = 1%nat /\
  BatchProcessor.processed_count
    (BatchProcessor.worker_loop Sample.env 0
       [("a", Sample.job Sample.unreadable); ("b", Sample.job Sample.one_page)]
       Sample.idle) = 1%nat.
Proof. repeat split; vm_compute; reflexivity. Qed.

(** C9 (code at the failing input): notifications are switched on and the
    notification manager fails to show the error notification. The file
    cannot be opened, so the [except] clause of [_process_single_file]
    runs; it counts the error and calls [notify_error] before it puts the
    record. The exception of the notification leaves the call, the result
    queue has no record for the file, and the worker, which goes on with
    the next file, ends with a record for the second file only. *)
Theorem C9_failing_notification_loses_the_error_record :
  BatchProcessor._process_single_file Sample.env_notifier_fails "a"
                                      (Sample.job Sample.unreadable) 0 Sample.idle
  = (Py.Raise {| Py.exn_type := "RuntimeError"; Py.exn_msg := "notification failed" |},
     {| BatchProcessor.result_queue := []; BatchProcessor.processed_count := 0;
        BatchProcessor.error_count := 1; BatchProcessor.is_running := true;
        BatchProcessor.is_paused := false |}) /\
  map BatchProcessor.record_file_id
      (BatchProcessor.result_queue
         (BatchProcessor.worker_loop Sample.env_notifier_fails 0
            [("a", Sample.job Sample.unreadable); ("b", Sample.job Sample.one_page)]
            Sample.idle))
  = [Some "b"].
Proof. split; vm_compute; reflexivity. Qed.

(** ** C10: images without placement *)

Lemma unplaced_data (cfg : Config) (page_num : nat) (img : Pdf.Img) :
  ~ ((0 < Pdf.im_w img)%Z /\ (0 < Pdf.im_h img)%Z) ->
  dpi (PDFAnalyzer.img_data_of cfg page_num img) = 0 /\
  resolution_category (PDFAnalyzer.img_data_of cfg page_num img) = NoCategory.
Proof.
  intro H. unfold PDFAnalyzer.img_data_of. cbn [dpi resolution_category].
  destruct (andb (0 <? Pdf.im_w img)%Z (0 <? Pdf.im_h img)%Z) eqn:E.
  - exfalso. apply H. apply andb_true_iff in E. destruct E as [E1 E2].
    split; apply Z.ltb_lt; assumption.
  - split; reflexivity.
Qed.

Lemma unplaced_image_counts (cfg : Config) (page_num : nat) (img : Pdf.Img)
      (acc : ImageInfo) :
  ~ ((0 < Pdf.im_w img)%Z /\ (0 < Pdf.im_h img)%Z) ->
  low_resolution_count (PDFAnalyzer.images_image cfg page_num acc img)
  = low_resolution_count acc /\
  n_warning (PDFAnalyzer.images_image cfg page_num acc img) = n_warning acc.
Proof.
  intro H. unfold PDFAnalyzer.images_image. cbn [low_resolution_count n_warning].
  destruct (unplaced_data cfg page_num img H) as [_ ->]. split; reflexivity.
Qed.

Lemma unplaced_page_counts (cfg : Config) (page_num : nat) (imgs : list Pdf.Img) :
  (forall img, In img imgs -> ~ ((0 < Pdf.im_w img)%Z /\ (0 < Pdf.im_h img)%Z)) ->
  forall acc,
    low_resolution_count (fold_left (PDFAnalyzer.images_image cfg page_num) imgs acc)
    = low_resolution_count acc /\
    n_warning (fold_left (PDFAnalyzer.images_image cfg page_num) imgs acc)
    = n_warning acc.
Proof.
  induction imgs as [|img imgs IH]; intros H acc; [split; reflexivity|].
  cbn [fold_left].
  destruct (IH (fun i Hi => H i (or_intror Hi))
               (PDFAnalyzer.images_image cfg page_num acc img)) as [-> ->].
  apply unplaced_image_counts. apply H. now left.
Qed.

Lemma unplaced_document_counts (cfg : Config) (pgs : list (nat * Pdf.Page)) :
  (forall n page img, In (n, page) pgs -> In img (Pdf.fitz_images page) ->
                      ~ ((0 < Pdf.im_w img)%Z /\ (0 < Pdf.im_h img)%Z)) ->
  forall acc,
    low_resolution_count (fold_left (PDFAnalyzer.images_page cfg) pgs acc)
    = low_resolution_count acc /\
    n_warning (fold_left (PDFAnalyzer.images_page cfg) pgs acc) = n_warning acc.
Proof.
  induction pgs as [|[n page] pgs IH]; intros H acc; [split; reflexivity|].
  cbn [fold_left].
  destruct (IH (fun n' p' i Hp Hi => H n' p' i (or_intror Hp) Hi)
               (PDFAnalyzer.images_page cfg acc (n, page))) as [-> ->].
  unfold PDFAnalyzer.images_page. apply unplaced_page_counts.
  intros img Hi. apply (H n page img); [now left | exact Hi].
Qed.

Lemma min_dpi_fold (l : list ImgData) :
  forall acc m,
    fold_left PDFAnalyzer.min_dpi_step l acc = Some m ->
    acc = Some m \/ exists d, In d l /\ dpi d = m.
Proof.
  induction l as [|d l IH]; intros acc m H; cbn [fold_left] in H.
  - now left.
  - apply IH in H. destruct H as [H | (d' & Hin & Hd)].
    + unfold PDFAnalyzer.min_dpi_step in H. destruct acc as [a|].
      * destruct (Py.Qltb (dpi d) a); inversion H; subst.
        -- right. exists d. split; [now left | reflexivity].
        -- now left.
      * inversion H; subst. right. exists d. split; [now left | reflexivity].
    + right. exists d'. split; [now right | exact Hd].
Qed.

(** C10: an image whose placed dimensions ([img[2]], [img[3]]) are not both
    positive keeps [dpi = 0] and gets no resolution category; it does not
    raise the low-resolution count; the pages and the [min_dpi] of a
    [low_resolution_image] finding come only from images with
    [0 < dpi < MIN_IMAGE_DPI]; and a document all of whose images lack
    placement data yields no [low_resolution_image] finding. *)
Theorem C10_unplaced_images_are_not_low_resolution (cfg : Config) :
  (forall page_num img acc,
      ~ ((0 < Pdf.im_w img)%Z /\ (0 < Pdf.im_h img)%Z) ->
      dpi (PDFAnalyzer.img_data_of cfg page_num img) = 0 /\
      resolution_category (PDFAnalyzer.img_data_of cfg page_num img) = NoCategory /\
      low_resolution_count (PDFAnalyzer.images_image cfg page_num acc img)
      = low_resolution_count acc) /\
  (forall images i,
      In i (PDFAnalyzer.check_images cfg images) ->
      itype i = "low_resolution_image" ->
      exists ps,
        affected_pages i = Some ps /\
        (forall p, In p ps ->
                   exists d, In d (image_records images) /\ img_page d = p /\
                             0 < dpi d /\ dpi d < MIN_IMAGE_DPI cfg) /\
        (forall m, extra i = MinDpi (Some m) ->
                   exists d, In d (image_records images) /\ dpi d = m /\
                             0 < dpi d /\ dpi d < MIN_IMAGE_DPI cfg)) /\
  (forall pdf_obj pdf_path,
      (forall doc page img,
          Pdf.readable pdf_path = Some doc ->
          In page (Pdf.doc_pages doc) -> In img (Pdf.fitz_images page) ->
          ~ ((0 < Pdf.im_w img)%Z /\ (0 < Pdf.im_h img)%Z)) ->
      low_resolution_count (PDFAnalyzer._analyze_images cfg pdf_obj pdf_path) = 0%nat /\
      forall i, In i (PDFAnalyzer.check_images cfg
                        (PDFAnalyzer._analyze_images cfg pdf_obj pdf_path)) ->
                itype i <> "low_resolution_image").
Proof.
  split; [|split].
  - intros page_num img acc H.
    destruct (unplaced_data cfg page_num img H) as [H1 H2].
    destruct (unplaced_image_counts cfg page_num img acc H) as [H3 _].
    auto.
  - intros images i Hin Ht. unfold PDFAnalyzer.check_images in Hin.
    apply in_app_or in Hin. destruct Hin as [Hin | Hin].
    + destruct (0 <? low_resolution_count images)%nat; [|contradiction].
      destruct Hin as [<- | []]. cbn [affected_pages extra].
      eexists. split; [reflexivity|]. split.
      * intros p Hp. apply (proj1 (in_sorted_set _ _)) in Hp.
        apply (proj1 (in_map_iff _ _ _)) in Hp.
        destruct Hp as (d & Hd & Hf). apply filter_In in Hf.
        destruct Hf as [Hf Hc]. apply andb_true_iff in Hc. destruct Hc as [C1 C2].
        exists d. repeat split; try assumption; apply Qltb_lt; assumption.
      * intros m Hm. inversion Hm as [Hm']. apply min_dpi_fold in Hm'.
        destruct Hm' as [Hm' | (d & Hf & Hd)]; [discriminate|].
        apply filter_In in Hf. destruct Hf as [Hf Hc].
        apply andb_true_iff in Hc. destruct Hc as [C1 C2].
        exists d. repeat split; try assumption; apply Qltb_lt; assumption.
    + destruct (0 <? n_warning images)%nat; [|contradiction].
      destruct Hin as [<- | []]. discriminate Ht.
  - intros pdf_obj pdf_path H.
    assert (Hc : low_resolution_count (PDFAnalyzer._analyze_images cfg pdf_obj pdf_path) = 0%nat
                 /\ n_warning (PDFAnalyzer._analyze_images cfg pdf_obj pdf_path) = 0%nat).
    { unfold PDFAnalyzer._analyze_images, Pdf.open.
      destruct (Pdf.readable pdf_path) as [doc|] eqn:E; [|split; reflexivity].
      apply (unplaced_document_counts cfg (enumerate1 (Pdf.doc_pages doc))).
      intros n page img Hp Hi. apply (H doc page img eq_refl); [|exact Hi].
      exact (in_enumerate1 _ _ _ Hp). }
    destruct Hc as [Hl Hw]. split; [exact Hl|].
    intros i Hin. unfold PDFAnalyzer.check_images in Hin. rewrite Hl, Hw in Hin.
    cbn in Hin. contradiction.
Qed.

Lemma C10_witness :
  dpi (PDFAnalyzer.img_data_of Sample.cfg 1 (Sample.image 0 0 640 480)) = 0.
Proof.
  destruct (C10_unplaced_images_are_not_low_resolution Sample.cfg) as [H _].
  refine (proj1 (H 1%nat (Sample.image 0 0 640 480) PDFAnalyzer.images_init _)).
  intros [H1 _]. discriminate H1.
Defined.

(** ** The end-to-end scenario *)

(** The end-to-end scenario of the specification: the unembedded font, the
    RGB-only colours and the image of 50 DPI are reported, a page size
    inconsistency is not; the bleed step adds its informational finding. *)
Example end_to_end_scenario :
  exists r s,
    PDFAnalyzer.analyze Sample.cfg Sample.col PrintQualityChecker.__init__
                        Sample.scenario None "offset" = (PDFAnalyzer.Analysis r, s) /\
    map (fun i => (itype i, severity i, affected_pages i)) (PDFAnalyzer.issues r)
    = [("insufficient_bleed", info, Some [1; 2; 3; 4; 5]%nat);
       ("font_not_embedded", error, Some [2%nat]);
       ("rgb_only", warning, None);
       ("low_resolution_image", error, Some [4%nat])] /\
    map (fun i => match extra i with MinDpi (Some m) => Some (Qred m) | _ => None end)
        (filter (fun i => String.eqb (itype i) "low_resolution_image")
                (PDFAnalyzer.issues r))
    = [Some 50].
Proof.
  do 2 eexists. split; [vm_compute; reflexivity|]. split; vm_compute; reflexivity.
Qed.

(** * Further properties *)

(** ** The print-quality checks *)

(** Dicts in insertion order: what [d[key] = v] and [key in d] do to the
    keys and to the entries. *)
Section Dict.

Context {K V : Type} (eqb : K -> K -> bool).
Hypothesis eqb_eq : forall a b, eqb a b = true <-> a = b.

Lemma dict_get_none (d : list (K * V)) (k : K) :
  dict_get eqb d k = None <-> ~ In k (map fst d).
Proof.
  induction d as [|[k0 v0] d IH]; cbn [dict_get map fst In].
  - tauto.
  - destruct (eqb k0 k) eqn:E.
    + apply eqb_eq in E. split; [discriminate | intros H; exfalso; apply H; now left].
    + assert (k0 <> k) by (intros H; apply eqb_eq in H; congruence). tauto.
Qed.

Lemma dict_get_in (d : list (K * V)) (k : K) (v : V) :
  dict_get eqb d k = Some v -> In (k, v) d.
Proof.
  induction d as [|[k0 v0] d IH]; cbn [dict_get In]; [discriminate|].
  destruct (eqb k0 k) eqn:E.
  - apply eqb_eq in E. intros [= <-]. left. now subst.
  - auto.
Qed.

Lemma dict_get_unique (d : list (K * V)) (k : K) (v : V) :
  NoDup (map fst d) -> In (k, v) d -> dict_get eqb d k = Some v.
Proof.
  induction d as [|[k0 v0] d IH]; cbn [dict_get In map fst]; [contradiction|].
  intros Hnd Hin. inversion Hnd as [|? ? Hn Hd]; subst.
  destruct Hin as [[= -> ->] | Hin].
  - now rewrite (proj2 (eqb_eq k k) eq_refl).
  - destruct (eqb k0 k) eqn:E; [|auto].
    apply eqb_eq in E. subst. exfalso. apply Hn.
    apply in_map_iff. now exists (k, v).
Qed.

Lemma dict_set_new (d : list (K * V)) (k : K) (v : V) :
  dict_get eqb d k = None -> dict_set eqb d k v = d ++ [(k, v)].
Proof.
  induction d as [|[k0 v0] d IH]; cbn [dict_get dict_set app]; [reflexivity|].
  destruct (eqb k0 k); [discriminate|]. intros H. now rewrite IH.
Qed.

Lemma dict_set_old_keys (d : list (K * V)) (k : K) (v v0 : V) :
  dict_get eqb d k = Some v0 -> map fst (dict_set eqb d k v) = map fst d.
Proof.
  induction d as [|[k1 v1] d IH]; cbn [dict_get dict_set map fst]; [discriminate|].
  destruct (eqb k1 k); [reflexivity|]. intros H. cbn [map fst]. now rewrite IH.
Qed.

Lemma dict_set_keys_nodup (d : list (K * V)) (k : K) (v : V) :
  NoDup (map fst d) -> NoDup (map fst (dict_set eqb d k v)).
Proof.
  intros Hnd. destruct (dict_get eqb d k) as [v0|] eqn:E.
  - now rewrite (dict_set_old_keys _ _ _ _ E).
  - rewrite (dict_set_new _ _ _ E), map_app. cbn [map fst].
    apply NoDup_app_remove_l with (l := []). cbn [app].
    apply dict_get_none in E.
    apply Permutation_NoDup with (l := k :: map fst d).
    + apply Permutation_cons_append.
    + now constructor.
Qed.

Lemma dict_set_entries (d : list (K * V)) (k : K) (v : V) (k' : K) (v' : V) :
  NoDup (map fst d) ->
  (In (k', v') (dict_set eqb d k v) <-> (k' = k /\ v' = v) \/ (k' <> k /\ In (k', v') d)).
Proof.
  induction d as [|[k0 v0] d IH]; cbn [dict_set In map fst]; intros Hnd.
  - split; [intros [[= <- <-] | []]; now left | intros [[-> ->] | [_ []]]; now left].
  - inversion Hnd as [|? ? Hn Hd]; subst. specialize (IH Hd).
    destruct (eqb k0 k) eqn:E.
    + apply eqb_eq in E. subst k0. cbn [In]. split.
      * intros [[= <- <-] | H]; [now left|]. right. split; [|now right].
        intros ->. apply Hn. apply in_map_iff. now exists (k, v').
      * intros [[-> ->] | [Hne [[= ? ?] | H]]]; [now left | congruence | now right].
    + assert (Hne0 : k0 <> k) by (intros H; apply eqb_eq in H; congruence).
      cbn [In]. rewrite IH. split.
      * intros [[= <- <-] | [H | H]]; [right; split; [exact Hne0 | now left] | now left |].
        right. split; [tauto | right; tauto].
      * intros [H | [Hne [[= <- <-] | H]]]; [right; now left | now left |].
        right. right. now split.
Qed.

End Dict.

Lemma string_eqb_eq (a b : string) : String.eqb a b = true <-> a = b.
Proof. apply String.eqb_eq. Qed.

Lemma nat_eqb_eq (a b : nat) : Nat.eqb a b = true <-> a = b.
Proof. apply Nat.eqb_eq. Qed.

Lemma map_snd_enumerate1 {A} (l : list A) : map snd (enumerate1 l) = l.
Proof.
  unfold enumerate1. generalize 1%nat. induction l as [|a l IH]; intros n;
    cbn [List.length seq combine map snd]; [reflexivity | now rewrite IH].
Qed.

Lemma checker_eta (s : PrintQualityChecker.self) :
  {| PrintQualityChecker.issues := PrintQualityChecker.issues s ++ [];
     PrintQualityChecker.warnings := PrintQualityChecker.warnings s ++ [] |} = s.
Proof. destruct s. cbn. now rewrite !app_nil_r. Qed.

(** Each of the six checks only appends, and appends the same findings
    whatever the checker already holds. *)
Lemma appends_only_same {A} (a : A) :
  appends_only (fun s => (a, s)).
Proof. exists a, [], []. intros s. now rewrite checker_eta. Qed.

Lemma appends_only_warning {A} (a : A) (i : Issue) :
  appends_only (fun s => (a, PrintQualityChecker.append_warning s i)).
Proof.
  exists a, [], [i]. intros s. unfold PrintQualityChecker.append_warning.
  now rewrite app_nil_r.
Qed.

Lemma appends_only_transparency (f : Pdf.File) :
  appends_only (fun s => PrintQualityChecker.check_transparency s f).
Proof.
  unfold PrintQualityChecker.check_transparency.
  destruct (Pdf.open f) as [doc|e]; [|apply appends_only_warning].
  destruct (PrintQualityChecker.has_transparency _);
    [apply appends_only_warning | apply appends_only_same].
Qed.

Lemma appends_only_overprint (f : Pdf.File) :
  appends_only (fun s => PrintQualityChecker.check_overprint s f).
Proof.
  unfold PrintQualityChecker.check_overprint.
  destruct (Pdf.open f) as [doc|e]; [|apply appends_only_same].
  set (o := PrintQualityChecker.overprint_scan doc).
  unfold PrintQualityChecker.overprint_report.
  exists o,
    (if PrintQualityChecker.is_nil (PrintQualityChecker.white_overprint_pages o) then []
     else [{| itype := "white_overprint_detected"; severity := error;
              affected_pages := Some (PrintQualityChecker.white_overprint_pages o);
              extra := NoExtra |}]),
    ((if PrintQualityChecker.is_nil (PrintQualityChecker.k_only_overprint_pages o) then []
      else [{| itype := "k_overprint_detected"; severity := info;
               affected_pages := Some (PrintQualityChecker.k_only_overprint_pages o);
               extra := NoExtra |}])
     ++ (if PrintQualityChecker.is_nil (PrintQualityChecker.other_overprint_pages o) then []
         else [{| itype := "overprint_detected"; severity := warning;
                  affected_pages := Some (PrintQualityChecker.other_overprint_pages o);
                  extra := NoExtra |}])).
  clearbody o. intros s. destruct s as [li lw].
  destruct (PrintQualityChecker.is_nil (PrintQualityChecker.white_overprint_pages o));
    destruct (PrintQualityChecker.is_nil (PrintQualityChecker.k_only_overprint_pages o));
    destruct (PrintQualityChecker.is_nil (PrintQualityChecker.other_overprint_pages o));
    unfold PrintQualityChecker.append_issue, PrintQualityChecker.append_warning;
    cbn [PrintQualityChecker.issues PrintQualityChecker.warnings app];
    rewrite ?app_nil_r, <- ?app_assoc; reflexivity.
Qed.

Lemma appends_only_bleed (cfg : Config) (pages_info : option (list PageInfo)) :
  appends_only (fun s => PrintQualityChecker.process_bleed_info cfg s pages_info).
Proof.
  unfold PrintQualityChecker.process_bleed_info.
  destruct pages_info as [[|p l]|]; try apply appends_only_same.
  destruct (negb _); [apply appends_only_warning | apply appends_only_same].
Qed.

Lemma appends_only_spot (f : Pdf.File) :
  appends_only (fun s => PrintQualityChecker.check_spot_color_usage s f).
Proof.
  unfold PrintQualityChecker.check_spot_color_usage.
  destruct (Pdf.open f) as [doc|e]; [|apply appends_only_same].
  destruct (PrintQualityChecker.pq_has_spot_colors _);
    [apply appends_only_warning | apply appends_only_same].
Qed.

Lemma appends_only_compression (f : Pdf.File) :
  appends_only (fun s => PrintQualityChecker.check_image_compression s f).
Proof.
  unfold PrintQualityChecker.check_image_compression.
  destruct (Pdf.open f) as [doc|e]; [|apply appends_only_same].
  destruct (PrintQualityChecker.compression_pages _ _) as [[u|e] c];
    [|apply appends_only_same].
  destruct (PrintQualityChecker.is_nil _);
    [apply appends_only_same | apply appends_only_warning].
Qed.

Lemma appends_only_text (f : Pdf.File) :
  appends_only (fun s => PrintQualityChecker.check_minimum_text_size s f).
Proof.
  unfold PrintQualityChecker.check_minimum_text_size.
  destruct (Pdf.open f) as [doc|e]; [|apply appends_only_same].
  destruct (PrintQualityChecker.has_small_text _);
    [apply appends_only_warning | apply appends_only_same].
Qed.

Lemma appends_only_guarded {A} (enabled : bool)
      (check : PrintQualityChecker.self -> A * PrintQualityChecker.self) :
  appends_only check -> appends_only (PrintQualityChecker.guarded enabled check).
Proof.
  intros (a & li & lw & H). unfold PrintQualityChecker.guarded. destruct enabled.
  - exists (Some a), li, lw. intros s. now rewrite H.
  - apply appends_only_same.
Qed.

Lemma check_all_appends (cfg : Config) (f : Pdf.File) (pages_info : option (list PageInfo)) :
  appends_only (fun s => PrintQualityChecker.check_all cfg s f pages_info).
Proof.
  unfold PrintQualityChecker.check_all.
  destruct (appends_only_guarded (Py.get (CHECK_OPTIONS cfg) "transparency" false) _
              (appends_only_transparency f)) as (a1 & i1 & w1 & H1).
  destruct (appends_only_guarded (Py.get (CHECK_OPTIONS cfg) "overprint" true) _
              (appends_only_overprint f)) as (a2 & i2 & w2 & H2).
  destruct (appends_only_guarded (Py.get (CHECK_OPTIONS cfg) "bleed" true) _
              (appends_only_bleed cfg pages_info)) as (a3 & i3 & w3 & H3).
  destruct (appends_only_guarded (Py.get (CHECK_OPTIONS cfg) "spot_colors" true) _
              (appends_only_spot f)) as (a4 & i4 & w4 & H4).
  destruct (appends_only_guarded (Py.get (CHECK_OPTIONS cfg) "image_compression" true) _
              (appends_only_compression f)) as (a5 & i5 & w5 & H5).
  destruct (appends_only_guarded (Py.get (CHECK_OPTIONS cfg) "minimum_text" true) _
              (appends_only_text f)) as (a6 & i6 & w6 & H6).
  eexists _, (i1 ++ i2 ++ i3 ++ i4 ++ i5 ++ i6), (w1 ++ w2 ++ w3 ++ w4 ++ w5 ++ w6).
  intros s. rewrite H1, H2, H3, H4, H5, H6.
  cbn [PrintQualityChecker.issues PrintQualityChecker.warnings].
  rewrite <- !app_assoc. reflexivity.
Qed.

(** X1 (print_quality_checker.py, [check_all] and the six checks): a run of
    [check_all] on a checker that already holds findings gives the result of
    a run on a new checker, and leaves the old findings in place, followed
    by the findings that the new checker would hold. Nothing is removed and
    nothing depends on what was there. *)
Theorem check_all_keeps_and_appends
        (cfg : Config) (s : PrintQualityChecker.self) (f : Pdf.File)
        (pages_info : option (list PageInfo)) :
  let fresh := PrintQualityChecker.check_all cfg PrintQualityChecker.__init__ f pages_info in
  let run := PrintQualityChecker.check_all cfg s f pages_info in
  fst run = fst fresh /\
  PrintQualityChecker.issues (snd run)
  = PrintQualityChecker.issues s ++ PrintQualityChecker.issues (snd fresh) /\
  PrintQualityChecker.warnings (snd run)
  = PrintQualityChecker.warnings s ++ PrintQualityChecker.warnings (snd fresh).
Proof.
  destruct (check_all_appends cfg f pages_info) as (a & li & lw & H).
  cbv zeta. rewrite (H s), (H PrintQualityChecker.__init__).
  cbn [fst snd PrintQualityChecker.issues PrintQualityChecker.warnings
       PrintQualityChecker.__init__ app]. auto.
Qed.

(** X2 (print_quality_checker.py, [check_all] down to the five checks that
    open the file): when the file cannot be opened, [check_all] appends no
    issue; the only warnings it can append are the informational
    [transparency_check_error] and the bleed finding, which is computed from
    the page records and not from the file; the other four checks hand back
    their empty results without a finding. *)
Theorem check_all_on_unreadable_file
        (cfg : Config) (s : PrintQualityChecker.self) (f : Pdf.File)
        (pages_info : option (list PageInfo)) :
  Pdf.readable f = None ->
  let run := PrintQualityChecker.check_all cfg s f pages_info in
  PrintQualityChecker.issues (snd run) = PrintQualityChecker.issues s /\
  (exists new_warnings,
      PrintQualityChecker.warnings (snd run)
      = PrintQualityChecker.warnings s ++ new_warnings /\
      Forall (fun i => (itype i = "transparency_check_error" /\ severity i = info) \/
                       itype i = "insufficient_bleed") new_warnings) /\
  (forall o, PrintQualityChecker.overprint (fst run) = Some o ->
             o = PrintQualityChecker.overprint_init) /\
  (forall c, PrintQualityChecker.pq_spot_colors (fst run) = Some c ->
             c = PrintQualityChecker.spot_init) /\
  (forall c, PrintQualityChecker.image_compression (fst run) = Some c ->
             c = PrintQualityChecker.compression_init) /\
  (forall t, PrintQualityChecker.text_size (fst run) = Some t ->
             t = PrintQualityChecker.text_init).
Proof.
  intros Hr. cbv zeta. unfold PrintQualityChecker.check_all.
  unfold PrintQualityChecker.guarded, PrintQualityChecker.check_transparency,
    PrintQualityChecker.check_overprint, PrintQualityChecker.check_spot_color_usage,
    PrintQualityChecker.check_image_compression,
    PrintQualityChecker.check_minimum_text_size, Pdf.open.
  rewrite Hr.
  assert (Hb : forall s0,
             PrintQualityChecker.issues
               (snd (PrintQualityChecker.process_bleed_info cfg s0 pages_info))
             = PrintQualityChecker.issues s0 /\
             exists lw,
               PrintQualityChecker.warnings
                 (snd (PrintQualityChecker.process_bleed_info cfg s0 pages_info))
               = PrintQualityChecker.warnings s0 ++ lw /\
               Forall (fun i => (itype i = "transparency_check_error" /\ severity i = info) \/
                                itype i = "insufficient_bleed") lw).
  { intros s0. unfold PrintQualityChecker.process_bleed_info.
    destruct pages_info as [[|p l]|]; cbn [snd];
      try (split; [reflexivity | exists []; rewrite app_nil_r; split; [reflexivity|constructor]]).
    destruct (negb _); cbn [snd].
    - split; [reflexivity|]. eexists. split; [reflexivity|].
      constructor; [right; reflexivity | constructor].
    - split; [reflexivity | exists []; rewrite app_nil_r; split; [reflexivity|constructor]]. }
  destruct (Py.get (CHECK_OPTIONS cfg) "transparency" false);
    destruct (Py.get (CHECK_OPTIONS cfg) "overprint" true);
    destruct (Py.get (CHECK_OPTIONS cfg) "bleed" true);
    destruct (Py.get (CHECK_OPTIONS cfg) "spot_colors" true);
    destruct (Py.get (CHECK_OPTIONS cfg) "image_compression" true);
    destruct (Py.get (CHECK_OPTIONS cfg) "minimum_text" true);
    repeat match goal with
           | |- context [PrintQualityChecker.process_bleed_info cfg ?s0 pages_info] =>
               let b := fresh "b" in
               let sb := fresh "sb" in
               let E := fresh "E" in
               destruct (Hb s0) as (Hi & lw & Hw & Hf);
               destruct (PrintQualityChecker.process_bleed_info cfg s0 pages_info)
                 as [b sb] eqn:E;
               cbn [snd] in Hi, Hw
           end;
    cbn [fst snd PrintQualityChecker.overprint PrintQualityChecker.pq_spot_colors
         PrintQualityChecker.image_compression PrintQualityChecker.text_size
         PrintQualityChecker.append_warning PrintQualityChecker.issues
         PrintQualityChecker.warnings] in *;
    (split; [try assumption; try reflexivity|]);
    (split;
     [ first
         [ exists ([{| itype := "transparency_check_error"; severity := info;
                       affected_pages := None; extra := NoExtra |}] ++ lw);
           rewrite Hw; cbn [PrintQualityChecker.warnings];
           rewrite <- app_assoc; split; [reflexivity|];
           constructor; [left; split; reflexivity | exact Hf]
         | exists lw; split; assumption
         | exists [{| itype := "transparency_check_error"; severity := info;
                      affected_pages := None; extra := NoExtra |}];
           split; [reflexivity|]; constructor; [left; split; reflexivity | constructor]
         | exists []; rewrite app_nil_r; split; [reflexivity | constructor] ]
     | repeat split; intros ? [= <-]; reflexivity ]).
Qed.

(** At the unreadable sample file with the default options. *)
Lemma check_all_on_unreadable_file_witness :
  PrintQualityChecker.issues
    (snd (PrintQualityChecker.check_all Sample.cfg PrintQualityChecker.__init__
                                        Sample.unreadable None))
  = [].
Proof.
  exact (proj1 (check_all_on_unreadable_file Sample.cfg PrintQualityChecker.__init__
                                             Sample.unreadable None eq_refl)).
Defined.

Lemma filter_nil_existsb {A} (f : A -> bool) (l : list A) :
  match filter f l with [] => false | _ => true end = existsb f l.
Proof.
  induction l as [|a l IH]; cbn [filter existsb]; [reflexivity|].
  destruct (f a); [reflexivity | exact IH].
Qed.

Lemma find_existsb {A} (f : A -> bool) (l : list A) :
  match find f l with Some _ => true | None => false end = existsb f l.
Proof.
  induction l as [|a l IH]; cbn [find existsb]; [reflexivity|].
  destruct (f a); [reflexivity | exact IH].
Qed.

(** One page of the transparency scan. *)
Lemma transparency_page_fields (acc : PrintQualityChecker.TransparencyInfo)
      (page_num : nat) (page : Pdf.Page) :
  let t := PrintQualityChecker.transparency_page acc (page_num, page) in
  PrintQualityChecker.has_transparency t
  = PrintQualityChecker.has_transparency acc || page_transparent page /\
  PrintQualityChecker.pages_with_transparency t
  = PrintQualityChecker.pages_with_transparency acc
    ++ (if page_transparent page then [page_num] else []) /\
  PrintQualityChecker.requires_flattening t = PrintQualityChecker.requires_flattening acc.
Proof.
  cbv zeta. unfold PrintQualityChecker.transparency_page, page_transparent.
  cbn [PrintQualityChecker.has_transparency PrintQualityChecker.pages_with_transparency
       PrintQualityChecker.requires_flattening].
  rewrite filter_nil_existsb.
  destruct (nonempty (Pdf.contents page)); cbn [andb].
  - rewrite find_existsb.
    destruct (existsb Pdf.pix_alpha (Pdf.fitz_images page) || existsb _ _);
      rewrite ?app_nil_r; auto.
  - rewrite orb_false_r.
    destruct (existsb Pdf.pix_alpha (Pdf.fitz_images page)); rewrite ?app_nil_r; auto.
Qed.

Lemma transparency_fold (l : list (nat * Pdf.Page)) :
  forall acc,
    let t := fold_left PrintQualityChecker.transparency_page l acc in
    PrintQualityChecker.has_transparency t
    = PrintQualityChecker.has_transparency acc
      || existsb page_transparent (map snd l) /\
    PrintQualityChecker.pages_with_transparency t
    = PrintQualityChecker.pages_with_transparency acc
      ++ map fst (filter (fun np => page_transparent (snd np)) l) /\
    PrintQualityChecker.requires_flattening t
    = PrintQualityChecker.requires_flattening acc.
Proof.
  induction l as [|[n page] l IH]; intros acc; cbn [fold_left map existsb filter snd].
  - rewrite orb_false_r, app_nil_r. auto.
  - destruct (IH (PrintQualityChecker.transparency_page acc (n, page))) as (H1 & H2 & H3).
    destruct (transparency_page_fields acc n page) as (F1 & F2 & F3).
    cbv zeta in *. rewrite H1, H2, H3, F1, F2, F3.
    rewrite orb_assoc, <- app_assoc.
    destruct (page_transparent page); cbn [map fst app]; auto.
Qed.

(** X3 (print_quality_checker.py, [check_transparency]): on a file that
    opens, the pages listed are, in page order, the pages that hold an image
    with alpha channel or one of the five operators in a non-empty content
    stream; transparency is reported exactly when there is such a page, and
    flattening is required exactly then; no issue is added, and the one
    warning that is added lists those pages. *)
Theorem check_transparency_lists_transparent_pages
        (s : PrintQualityChecker.self) (f : Pdf.File) (doc : Pdf.Document) :
  Pdf.readable f = Some doc ->
  let t := fst (PrintQualityChecker.check_transparency s f) in
  let after := snd (PrintQualityChecker.check_transparency s f) in
  PrintQualityChecker.pages_with_transparency t
  = map fst (filter (fun np => page_transparent (snd np)) (enumerate1 (Pdf.doc_pages doc))) /\
  PrintQualityChecker.has_transparency t = existsb page_transparent (Pdf.doc_pages doc) /\
  PrintQualityChecker.requires_flattening t = PrintQualityChecker.has_transparency t /\
  PrintQualityChecker.issues after = PrintQualityChecker.issues s /\
  PrintQualityChecker.warnings after
  = PrintQualityChecker.warnings s
    ++ (if PrintQualityChecker.has_transparency t
        then [{| itype := "transparency_detected"; severity := warning;
                 affected_pages := Some (PrintQualityChecker.pages_with_transparency t);
                 extra := NoExtra |}]
        else []).
Proof.
  intros Hr. cbv zeta. unfold PrintQualityChecker.check_transparency, Pdf.open.
  rewrite Hr.
  match goal with
  | |- context [fold_left PrintQualityChecker.transparency_page ?l ?a] =>
      destruct (transparency_fold l a) as (H1 & H2 & H3);
      set (t := fold_left PrintQualityChecker.transparency_page l a) in *
  end.
  cbv zeta in *.
  cbn [PrintQualityChecker.has_transparency PrintQualityChecker.pages_with_transparency
       PrintQualityChecker.requires_flattening orb app] in H1, H2, H3.
  rewrite map_snd_enumerate1 in H1.
  destruct (PrintQualityChecker.has_transparency t) eqn:Eh;
    cbn [fst snd PrintQualityChecker.has_transparency
         PrintQualityChecker.pages_with_transparency
         PrintQualityChecker.requires_flattening PrintQualityChecker.append_warning
         PrintQualityChecker.issues PrintQualityChecker.warnings].
  - repeat split; auto.
  - rewrite Eh, app_nil_r. repeat split; auto.
Qed.

(** At the sample print job: the first page holds a photograph with alpha
    channel and a [gs] operator. *)
Lemma check_transparency_lists_transparent_pages_witness :
  PrintQualityChecker.pages_with_transparency
    (fst (PrintQualityChecker.check_transparency PrintQualityChecker.__init__
                                                 Sample.print_job))
  = [1%nat].
Proof.
  exact (proj1 (check_transparency_lists_transparent_pages
                  PrintQualityChecker.__init__ Sample.print_job Sample.print_job_doc
                  eq_refl)).
Defined.

(** One span of the text-size scan. *)
Lemma text_span_fields (page_num : nat) (t : PrintQualityChecker.TextSizeInfo) (m x : Q) :
  let r := PrintQualityChecker.text_span page_num (t, m) x in
  PrintQualityChecker.min_size_found (fst r) <= PrintQualityChecker.min_size_found t /\
  (0 < x -> PrintQualityChecker.min_size_found (fst r) <= x) /\
  PrintQualityChecker.has_small_text (fst r)
  = PrintQualityChecker.has_small_text t || small_size x /\
  (NoDup (map fst (PrintQualityChecker.small_text_pages t)) ->
   NoDup (map fst (PrintQualityChecker.small_text_pages (fst r)))) /\
  PrintQualityChecker.text_sizes (fst r) = PrintQualityChecker.text_sizes t.
Proof.
  cbv zeta. unfold PrintQualityChecker.text_span, small_size.
  destruct (Py.Qltb 0 x) eqn:E0; cbn [andb].
  - set (mf := if Py.Qltb x (PrintQualityChecker.min_size_found t) then x
               else PrintQualityChecker.min_size_found t).
    assert (Hmf : mf <= PrintQualityChecker.min_size_found t /\ mf <= x).
    { unfold mf. destruct (Py.Qltb x (PrintQualityChecker.min_size_found t)) eqn:E.
      - apply Qltb_lt in E. split; [now apply Qlt_le_weak | apply Qle_refl].
      - apply Qltb_ge in E. split; [apply Qle_refl | exact E]. }
    destruct Hmf as [Hm1 Hm2].
    destruct (Py.Qltb x PrintQualityChecker.MIN_TEXT_SIZE) eqn:E4;
      cbn [fst PrintQualityChecker.min_size_found PrintQualityChecker.has_small_text
           PrintQualityChecker.small_text_pages PrintQualityChecker.text_sizes].
    + rewrite orb_true_r. repeat split; auto.
      intros Hnd.
      destruct (Py.mem_nat page_num (map fst (PrintQualityChecker.small_text_pages t)))
        eqn:Em; [exact Hnd|].
      rewrite map_app. cbn [map fst].
      apply Permutation_NoDup
        with (l := page_num :: map fst (PrintQualityChecker.small_text_pages t)).
      * apply Permutation_cons_append.
      * constructor; [|exact Hnd]. intros Hin. apply mem_nat_In in Hin. congruence.
    + rewrite orb_false_r. repeat split; auto.
  - rewrite orb_false_r. cbn [fst]. repeat split; auto.
    + apply Qle_refl.
    + intros H. apply Qltb_lt in H. congruence.
Qed.

Lemma text_span_fold (page_num : nat) (sizes : list Q) :
  forall t m,
    let r := fold_left (PrintQualityChecker.text_span page_num) sizes (t, m) in
    PrintQualityChecker.min_size_found (fst r) <= PrintQualityChecker.min_size_found t /\
    (forall x, In x sizes -> 0 < x -> PrintQualityChecker.min_size_found (fst r) <= x) /\
    PrintQualityChecker.has_small_text (fst r)
    = PrintQualityChecker.has_small_text t || existsb small_size sizes /\
    (NoDup (map fst (PrintQualityChecker.small_text_pages t)) ->
     NoDup (map fst (PrintQualityChecker.small_text_pages (fst r)))) /\
    PrintQualityChecker.text_sizes (fst r) = PrintQualityChecker.text_sizes t.
Proof.
  induction sizes as [|x sizes IH]; intros t m; cbn [fold_left existsb].
  - rewrite orb_false_r. cbn [fst]. repeat split; auto; [apply Qle_refl | intros ? []].
  - destruct (text_span_fields page_num t m x) as (F1 & F2 & F3 & F4 & F5).
    cbv zeta in *.
    destruct (PrintQualityChecker.text_span page_num (t, m) x) as [t1 m1].
    cbn [fst] in *.
    destruct (IH t1 m1) as (H1 & H2 & H3 & H4 & H5).
    repeat split.
    + eapply Qle_trans; eauto.
    + intros y [<- | Hy] Hpos; [|now apply H2].
      eapply Qle_trans; [exact H1 | now apply F2].
    + rewrite H3, F3. now rewrite orb_assoc.
    + auto.
    + congruence.
Qed.

Lemma text_page_fold (l : list (nat * Pdf.Page)) :
  forall acc,
    let t := fold_left PrintQualityChecker.text_page l acc in
    PrintQualityChecker.min_size_found t <= PrintQualityChecker.min_size_found acc /\
    (forall n page x, In (n, page) l -> In x (Pdf.span_sizes page) -> 0 < x ->
                      PrintQualityChecker.min_size_found t <= x) /\
    PrintQualityChecker.has_small_text t
    = PrintQualityChecker.has_small_text acc
      || existsb (fun np => existsb small_size (Pdf.span_sizes (snd np))) l /\
    (NoDup (map fst (PrintQualityChecker.small_text_pages acc)) ->
     NoDup (map fst (PrintQualityChecker.small_text_pages t))).
Proof.
  induction l as [|[n page] l IH]; intros acc; cbn [fold_left existsb snd].
  - rewrite orb_false_r. repeat split; auto; [apply Qle_refl | intros ? ? ? []].
  - assert (F : exists t1,
               PrintQualityChecker.text_page acc (n, page) = t1 /\
               PrintQualityChecker.min_size_found t1
               <= PrintQualityChecker.min_size_found acc /\
               (forall x, In x (Pdf.span_sizes page) -> 0 < x ->
                          PrintQualityChecker.min_size_found t1 <= x) /\
               PrintQualityChecker.has_small_text t1
               = PrintQualityChecker.has_small_text acc
                 || existsb small_size (Pdf.span_sizes page) /\
               (NoDup (map fst (PrintQualityChecker.small_text_pages acc)) ->
                NoDup (map fst (PrintQualityChecker.small_text_pages t1)))).
    { eexists. split; [reflexivity|]. unfold PrintQualityChecker.text_page.
      destruct (text_span_fold n (Pdf.span_sizes page) acc 999) as (S1 & S2 & S3 & S4 & _).
      cbv zeta in *.
      destruct (fold_left (PrintQualityChecker.text_span n) (Pdf.span_sizes page) (acc, 999))
        as [t0 m0].
      cbn [fst] in *.
      destruct (Py.Qltb m0 999);
        cbn [PrintQualityChecker.min_size_found PrintQualityChecker.has_small_text
             PrintQualityChecker.small_text_pages]; auto. }
    destruct F as (t1 & -> & F1 & F2 & F3 & F4).
    destruct (IH t1) as (H1 & H2 & H3 & H4). cbv zeta in *.
    repeat split.
    + eapply Qle_trans; eauto.
    + intros n0 page0 x [[= <- <-] | Hin] Hx Hpos; [|now apply (H2 n0 page0)].
      eapply Qle_trans; [exact H1 | now apply F2].
    + rewrite H3, F3. now rewrite orb_assoc.
    + auto.
Qed.

Lemma in_enumerate1_rev {A} (l : list A) (a : A) :
  In a l -> exists n, In (n, a) (enumerate1 l).
Proof.
  intros H. rewrite <- (map_snd_enumerate1 l) in H.
  apply in_map_iff in H. destruct H as ([n b] & Hb & Hin). cbn in Hb. subst.
  now exists n.
Qed.

(** X4 (print_quality_checker.py, [check_minimum_text_size]): on a file
    that opens, the smallest size reported is at most 999 and at most every
    positive span size of the document; small text is reported exactly when
    some span is larger than 0 and smaller than 4 points, and then the
    smallest size reported is below 4; no page is listed twice among the
    pages with small text. *)
Theorem minimum_text_size_bounds
        (s : PrintQualityChecker.self) (f : Pdf.File) (doc : Pdf.Document) :
  Pdf.readable f = Some doc ->
  let t := fst (PrintQualityChecker.check_minimum_text_size s f) in
  PrintQualityChecker.min_size_found t <= 999 /\
  (forall page x, In page (Pdf.doc_pages doc) -> In x (Pdf.span_sizes page) -> 0 < x ->
                  PrintQualityChecker.min_size_found t <= x) /\
  (PrintQualityChecker.has_small_text t = true <->
   exists page x, In page (Pdf.doc_pages doc) /\ In x (Pdf.span_sizes page) /\
                  0 < x /\ x < 4) /\
  (PrintQualityChecker.has_small_text t = true ->
   PrintQualityChecker.min_size_found t < 4) /\
  NoDup (map fst (PrintQualityChecker.small_text_pages t)).
Proof.
  intros Hr. cbv zeta. unfold PrintQualityChecker.check_minimum_text_size, Pdf.open.
  rewrite Hr.
  destruct (text_page_fold (enumerate1 (Pdf.doc_pages doc)) PrintQualityChecker.text_init)
    as (H1 & H2 & H3 & H4).
  cbv zeta in *.
  set (t := fold_left PrintQualityChecker.text_page (enumerate1 (Pdf.doc_pages doc))
                      PrintQualityChecker.text_init) in *.
  cbn [PrintQualityChecker.text_init PrintQualityChecker.min_size_found
       PrintQualityChecker.has_small_text PrintQualityChecker.small_text_pages
       orb map] in H1, H3, H4.
  assert (Hsmall : PrintQualityChecker.has_small_text t = true <->
                   exists page x, In page (Pdf.doc_pages doc) /\
                                  In x (Pdf.span_sizes page) /\ 0 < x /\ x < 4).
  { rewrite H3, existsb_exists. split.
    - intros ([n page] & Hin & Hex). cbn [snd] in Hex.
      apply existsb_exists in Hex. destruct Hex as (x & Hx & Hs).
      unfold small_size in Hs. apply andb_true_iff in Hs. destruct Hs as [Ha Hb].
      apply Qltb_lt in Ha. apply Qltb_lt in Hb.
      exists page, x. repeat split; auto. now apply in_enumerate1 in Hin.
    - intros (page & x & Hp & Hx & Ha & Hb).
      destruct (in_enumerate1_rev _ _ Hp) as (n & Hn).
      exists (n, page). split; [exact Hn|]. cbn [snd]. apply existsb_exists.
      exists x. split; [exact Hx|]. unfold small_size.
      apply andb_true_iff. split; now apply Qltb_lt. }
  assert (Hlow : PrintQualityChecker.has_small_text t = true ->
                 PrintQualityChecker.min_size_found t < 4).
  { intros Ht. apply Hsmall in Ht. destruct Ht as (page & x & Hp & Hx & Ha & Hb).
    destruct (in_enumerate1_rev _ _ Hp) as (n & Hn).
    eapply Qle_lt_trans; [apply (H2 n page x Hn Hx Ha) | exact Hb]. }
  assert (Hall : forall page x, In page (Pdf.doc_pages doc) -> In x (Pdf.span_sizes page) ->
                                0 < x -> PrintQualityChecker.min_size_found t <= x).
  { intros page x Hp Hx Ha. destruct (in_enumerate1_rev _ _ Hp) as (n & Hn).
    exact (H2 n page x Hn Hx Ha). }
  destruct (PrintQualityChecker.has_small_text t) eqn:Eh; cbn [fst];
    rewrite ?Eh; repeat split; auto using NoDup_nil; try apply Hsmall.
Qed.

(** At the sample print job, whose first page has text of 3 points. *)
Lemma minimum_text_size_bounds_witness :
  PrintQualityChecker.min_size_found
    (fst (PrintQualityChecker.check_minimum_text_size PrintQualityChecker.__init__
                                                      Sample.print_job)) <= 999.
Proof.
  exact (proj1 (minimum_text_size_bounds PrintQualityChecker.__init__ Sample.print_job
                                         Sample.print_job_doc eq_refl)).
Defined.

(** One image either ends the scan with a [TypeError], when its object
    names a filter, or raises the counter and nothing else. *)
Lemma compression_image_cases (page_num : nat) (acc : PrintQualityChecker.CompressionInfo)
      (ii : nat * Pdf.Img) :
  let counted :=
    {| PrintQualityChecker.total_images := S (PrintQualityChecker.total_images acc);
       PrintQualityChecker.jpeg_compressed := PrintQualityChecker.jpeg_compressed acc;
       PrintQualityChecker.low_quality_images := PrintQualityChecker.low_quality_images acc;
       PrintQualityChecker.compression_types := PrintQualityChecker.compression_types acc |} in
  PrintQualityChecker.compression_image page_num acc ii
  = if has_filter (snd ii)
    then (Py.Raise {| Py.exn_type := "TypeError";
                      Py.exn_msg := "string indices must be integers" |}, counted)
    else (Py.Ok tt, counted).
Proof.
  destruct ii as [img_index img]. cbv zeta.
  unfold PrintQualityChecker.compression_image, has_filter, Py.str_getitem. cbn [snd].
  destruct (Py.contains "/Filter" (Pdf.im_object img)); reflexivity.
Qed.

Lemma compression_images_scan (page_num : nat) (iis : list (nat * Pdf.Img)) :
  forall acc,
    let run := PrintQualityChecker.compression_images page_num iis acc in
    filters_untouched acc (snd run) /\
    PrintQualityChecker.total_images (snd run)
    = (PrintQualityChecker.total_images acc
       + List.length (up_to_first has_filter (map snd iis)))%nat /\
    (fst run = Py.Ok tt <-> existsb has_filter (map snd iis) = false).
Proof.
  induction iis as [|ii iis IH]; intros acc; cbv zeta.
  - cbn. repeat split; auto.
  - cbn [PrintQualityChecker.compression_images map up_to_first existsb].
    rewrite compression_image_cases. cbv zeta.
    destruct (has_filter (snd ii)) eqn:E.
    + cbn [fst snd List.length orb PrintQualityChecker.total_images]. unfold filters_untouched.
      cbn [PrintQualityChecker.jpeg_compressed PrintQualityChecker.low_quality_images
           PrintQualityChecker.compression_types].
      repeat split; try lia; discriminate.
    + specialize (IH {| PrintQualityChecker.total_images :=
                          S (PrintQualityChecker.total_images acc);
                        PrintQualityChecker.jpeg_compressed :=
                          PrintQualityChecker.jpeg_compressed acc;
                        PrintQualityChecker.low_quality_images :=
                          PrintQualityChecker.low_quality_images acc;
                        PrintQualityChecker.compression_types :=
                          PrintQualityChecker.compression_types acc |}).
      cbv zeta in IH. destruct IH as (H1 & H2 & H3).
      cbn [orb List.length]. split; [exact H1|]. split; [|exact H3].
      rewrite H2. cbn [PrintQualityChecker.total_images]. lia.
Qed.

Lemma map_snd_combine_seq {A} (l : list A) (start : nat) :
  map snd (combine (seq start (List.length l)) l) = l.
Proof.
  revert start. induction l as [|a l IH]; intros start; cbn; [reflexivity|].
  now rewrite IH.
Qed.

Lemma up_to_first_app {A} (test : A -> bool) (l1 l2 : list A) :
  up_to_first test (l1 ++ l2)
  = if existsb test l1 then up_to_first test l1 else l1 ++ up_to_first test l2.
Proof.
  induction l1 as [|a l1 IH]; cbn [app up_to_first existsb]; [reflexivity|].
  destruct (test a); cbn [orb]; [reflexivity|].
  rewrite IH. now destruct (existsb test l1).
Qed.

Lemma compression_pages_scan (nps : list (nat * Pdf.Page)) :
  forall acc,
    let run := PrintQualityChecker.compression_pages nps acc in
    filters_untouched acc (snd run) /\
    PrintQualityChecker.total_images (snd run)
    = (PrintQualityChecker.total_images acc
       + List.length (up_to_first has_filter
                                  (flat_map (fun np => Pdf.fitz_images (snd np)) nps)))%nat.
Proof.
  induction nps as [|[n page] nps IH]; intros acc; cbv zeta.
  - cbn. unfold filters_untouched. repeat split; lia.
  - cbn [PrintQualityChecker.compression_pages flat_map snd].
    unfold PrintQualityChecker.compression_page.
    destruct (compression_images_scan n
                (combine (seq 0 (List.length (Pdf.fitz_images page))) (Pdf.fitz_images page))
                acc) as (H1 & H2 & H3).
    cbv zeta in H1, H2, H3. rewrite map_snd_combine_seq in H2, H3.
    rewrite up_to_first_app.
    destruct (PrintQualityChecker.compression_images n _ acc) as [[[]|e] acc'];
      cbn [fst snd] in *.
    + rewrite (proj1 H3 eq_refl).
      destruct (IH acc') as (I1 & I2). cbv zeta in I1, I2.
      destruct H1 as (A1 & A2 & A3), I1 as (B1 & B2 & B3).
      split; [unfold filters_untouched; repeat split; congruence|].
      rewrite I2, H2, length_app.
      assert (E : up_to_first has_filter (Pdf.fitz_images page) = Pdf.fitz_images page).
      { pose proof (proj1 H3 eq_refl) as Hn. clear - Hn.
        induction (Pdf.fitz_images page) as [|a l IHl]; [reflexivity|].
        cbn [existsb up_to_first] in *. apply orb_false_iff in Hn. destruct Hn as [Ha Hl].
        rewrite Ha. now rewrite IHl. }
      rewrite E. lia.
    + destruct (existsb has_filter (Pdf.fitz_images page)) eqn:Ex.
      * split; [exact H1 | exact H2].
      * exfalso. destruct H3 as [_ H3]. specialize (H3 eq_refl). discriminate H3.
Qed.

Lemma flat_map_snd_enumerate1 {A B} (f : A -> list B) (l : list A) :
  flat_map (fun np => f (snd np)) (enumerate1 l) = flat_map f l.
Proof.
  rewrite !flat_map_concat_map. f_equal.
  rewrite <- (map_snd_enumerate1 l) at 2. now rewrite map_map.
Qed.

(** X5 (print_quality_checker.py, [check_image_compression]): the check
    never counts a filter or a JPEG image and never reports high
    compression. The object of an image arrives as text, so the lookup of
    its [/Filter] raises [TypeError] at the first image whose object names a
    filter, and the [except] clause ends the scan: [total_images] counts the
    images up to this one, the other three fields stay empty, and the lists
    of the checker are left as they were. *)
Theorem image_compression_stops_at_the_first_filter
        (s : PrintQualityChecker.self) (f : Pdf.File) :
  let c := fst (PrintQualityChecker.check_image_compression s f) in
  snd (PrintQualityChecker.check_image_compression s f) = s /\
  PrintQualityChecker.jpeg_compressed c = 0%nat /\
  PrintQualityChecker.compression_types c = [] /\
  PrintQualityChecker.low_quality_images c = [] /\
  (forall doc, Pdf.readable f = Some doc ->
               PrintQualityChecker.total_images c
               = List.length (up_to_first has_filter (doc_images doc))) /\
  (Pdf.readable f = None -> PrintQualityChecker.total_images c = 0%nat).
Proof.
  cbv zeta. unfold PrintQualityChecker.check_image_compression, Pdf.open.
  destruct (Pdf.readable f) as [doc|]; cbn [fst snd].
  - destruct (compression_pages_scan (enumerate1 (Pdf.doc_pages doc))
                                     PrintQualityChecker.compression_init)
      as ((H1 & H2 & H3) & H4).
    cbv zeta in H1, H2, H3, H4. rewrite flat_map_snd_enumerate1 in H4.
    cbn [PrintQualityChecker.compression_init PrintQualityChecker.jpeg_compressed
         PrintQualityChecker.low_quality_images PrintQualityChecker.compression_types
         PrintQualityChecker.total_images Nat.add] in H1, H2, H3, H4.
    destruct (PrintQualityChecker.compression_pages _ _) as [[u|e] c]; cbn [fst snd] in *.
    + rewrite H2. cbn [PrintQualityChecker.is_nil fst snd].
      repeat split; auto; [intros doc0 [= <-]; exact H4 | discriminate].
    + repeat split; auto; [intros doc0 [= <-]; exact H4 | discriminate].
  - repeat split; auto; discriminate.
Qed.

(** The sample page with the JPEG photograph: the image is counted, its
    filter is not. *)
Example photo_is_counted_but_not_its_filter :
  fst (PrintQualityChecker.check_image_compression PrintQualityChecker.__init__
                                                   Sample.print_job)
  = {| PrintQualityChecker.total_images := 1; PrintQualityChecker.jpeg_compressed := 0;
       PrintQualityChecker.low_quality_images := [];
       PrintQualityChecker.compression_types := [] |}.
Proof. vm_compute. reflexivity. Qed.

Lemma nodup_snoc {A} (l : list A) (a : A) : NoDup l -> ~ In a l -> NoDup (l ++ [a]).
Proof.
  intros Hnd Hn. apply Permutation_NoDup with (l := a :: l).
  - apply Permutation_cons_append.
  - now constructor.
Qed.

Lemma dict_set_not_nil {K V} (eqb : K -> K -> bool) (d : list (K * V)) (k : K) (v : V) :
  dict_set eqb d k v <> [].
Proof. destruct d as [|[k0 v0] d]; cbn [dict_set]; [|destruct (eqb k0 k)]; discriminate. Qed.

(** One colour-space entry of the spot-colour scan. *)
Lemma spot_entry_consistent (page_num : nat) (acc : PrintQualityChecker.SpotColorInfo)
      (entry : string * Pdf.CsObj) :
  spot_usage_consistent acc ->
  spot_usage_consistent (PrintQualityChecker.spot_entry page_num acc entry).
Proof.
  intros Hacc. pose proof Hacc as (Hk & Hp & Hf & He).
  unfold PrintQualityChecker.spot_entry.
  destruct (snd entry) as [[|first more]|]; try exact Hacc.
  - destruct (String.eqb first "/Separation"); [|exact Hacc].
    set (spot_name := match more with n :: _ => n | [] => "Unknown" end).
    set (pages' := if Py.mem_nat page_num (PrintQualityChecker.pages_with_spots acc)
                   then PrintQualityChecker.pages_with_spots acc
                   else PrintQualityChecker.pages_with_spots acc ++ [page_num]).
    assert (Hsub : forall p, In p (PrintQualityChecker.pages_with_spots acc) -> In p pages').
    { intros p Hin. unfold pages'. destruct (Py.mem_nat _ _); [exact Hin|].
      apply in_or_app. now left. }
    assert (Hnew : In page_num pages').
    { unfold pages'. destruct (Py.mem_nat _ _) eqn:E; [now apply mem_nat_In in E|].
      apply in_or_app. right. now left. }
    unfold spot_usage_consistent.
    cbn [PrintQualityChecker.spot_colors PrintQualityChecker.pages_with_spots
         PrintQualityChecker.pq_has_spot_colors].
    split; [now apply (dict_set_keys_nodup String.eqb string_eqb_eq)|].
    split.
    { fold pages'. unfold pages'. destruct (Py.mem_nat _ _) eqn:E; [exact Hp|].
      apply nodup_snoc; [exact Hp|]. intros Hin. apply mem_nat_In in Hin. congruence. }
    split; [split; [intros _; apply dict_set_not_nil | reflexivity]|].
    intros name u Hin. fold pages'.
    apply (dict_set_entries String.eqb string_eqb_eq) in Hin; [|exact Hk].
    destruct Hin as [[-> ->] | [Hne Hin]].
    + destruct (dict_get String.eqb (PrintQualityChecker.spot_colors acc) spot_name)
        as [u0|] eqn:Eg;
        cbn [PrintQualityChecker.su_name PrintQualityChecker.su_pages
             PrintQualityChecker.su_is_pantone].
      * apply (dict_get_in String.eqb string_eqb_eq) in Eg.
        destruct (He _ _ Eg) as (E1 & E2 & E3 & E4).
        repeat split; auto.
        -- intros H. now apply app_eq_nil in H as [_ [=]].
        -- intros p Hp0. apply in_app_or in Hp0.
           destruct Hp0 as [Hp0 | [<- | []]]; auto.
      * repeat split; auto.
        -- discriminate.
        -- intros p [<- | []]. exact Hnew.
    + destruct (He _ _ Hin) as (E1 & E2 & E3 & E4). repeat split; auto.
Qed.

Lemma spot_page_consistent (l : list (nat * Pdf.Page)) :
  forall acc, spot_usage_consistent acc ->
              spot_usage_consistent (fold_left PrintQualityChecker.spot_page l acc).
Proof.
  induction l as [|[n page] l IH]; intros acc Hacc; cbn [fold_left]; [exact Hacc|].
  apply IH. unfold PrintQualityChecker.spot_page.
  destruct (Pdf.res_colorspaces page) as [css|]; [|exact Hacc].
  revert acc Hacc. induction css as [|e css IHc]; intros acc Hacc; cbn [fold_left];
    [exact Hacc|].
  apply IHc. now apply spot_entry_consistent.
Qed.

(** X6 (print_quality_checker.py, [check_spot_color_usage]): the record
    returned is consistent: [total_spot_colors] is the number of colours
    stored; every colour is stored once, under its own name, with the pages
    that use it, all of them among [pages_with_spots]; the PANTONE mark is
    the test on the upper-cased name; no page is listed twice; the flag is
    set exactly when a colour is stored. The one warning that is appended
    names the colours stored. *)
Theorem spot_color_usage_is_consistent (s : PrintQualityChecker.self) (f : Pdf.File) :
  let c := fst (PrintQualityChecker.check_spot_color_usage s f) in
  let after := snd (PrintQualityChecker.check_spot_color_usage s f) in
  spot_usage_consistent c /\
  PrintQualityChecker.total_spot_colors c
  = List.length (PrintQualityChecker.spot_colors c) /\
  PrintQualityChecker.issues after = PrintQualityChecker.issues s /\
  PrintQualityChecker.warnings after
  = PrintQualityChecker.warnings s
    ++ (if PrintQualityChecker.pq_has_spot_colors c
        then [{| itype := "spot_colors_used"; severity := info; affected_pages := None;
                 extra := SpotNames (map fst (PrintQualityChecker.spot_colors c)) |}]
        else []).
Proof.
  cbv zeta. unfold PrintQualityChecker.check_spot_color_usage.
  assert (Hinit : spot_usage_consistent PrintQualityChecker.spot_init).
  { repeat split; cbn; try constructor; try discriminate; try contradiction. }
  destruct (Pdf.open f) as [doc|e].
  - pose proof (spot_page_consistent (enumerate1 (Pdf.doc_pages doc)) _ Hinit) as Hc.
    set (c := fold_left PrintQualityChecker.spot_page (enumerate1 (Pdf.doc_pages doc))
                        PrintQualityChecker.spot_init) in *.
    set (c' := {| PrintQualityChecker.pq_has_spot_colors :=
                    PrintQualityChecker.pq_has_spot_colors c;
                  PrintQualityChecker.spot_colors := PrintQualityChecker.spot_colors c;
                  PrintQualityChecker.total_spot_colors :=
                    List.length (PrintQualityChecker.spot_colors c);
                  PrintQualityChecker.pages_with_spots :=
                    PrintQualityChecker.pages_with_spots c |}).
    assert (Hc' : spot_usage_consistent c') by exact Hc.
    assert (Ht : PrintQualityChecker.total_spot_colors c'
                 = List.length (PrintQualityChecker.spot_colors c')) by reflexivity.
    assert (Hh : PrintQualityChecker.pq_has_spot_colors c'
                 = PrintQualityChecker.pq_has_spot_colors c) by reflexivity.
    assert (Hs : PrintQualityChecker.spot_colors c' = PrintQualityChecker.spot_colors c)
      by reflexivity.
    clearbody c'.
    destruct (PrintQualityChecker.pq_has_spot_colors c) eqn:Eh; cbn [fst snd];
      rewrite Hh, Hs;
      cbn [PrintQualityChecker.append_warning PrintQualityChecker.issues
           PrintQualityChecker.warnings];
      rewrite ?app_nil_r; rewrite Hs in Ht; auto.
  - cbn [fst snd PrintQualityChecker.spot_init PrintQualityChecker.pq_has_spot_colors
         PrintQualityChecker.spot_colors PrintQualityChecker.total_spot_colors
         List.length].
    rewrite app_nil_r. auto.
Qed.

(** ** The page, colour, image and font scans *)

Lemma bind_ok {A B} (r : Py.result A) (k : A -> Py.result B) (b : B) :
  Py.bind r k = Py.Ok b -> exists a, r = Py.Ok a /\ k a = Py.Ok b.
Proof. destruct r as [a|e]; cbn [Py.bind]; [intros H; now exists a | discriminate]. Qed.

Lemma bind_raise {A B} (r : Py.result A) (k : A -> Py.result B) (e : Py.exn) :
  Py.bind r k = Py.Raise e -> r = Py.Raise e \/ exists a, r = Py.Ok a /\ k a = Py.Raise e.
Proof.
  destruct r as [a|e0]; cbn [Py.bind]; [intros H; right; now exists a | intros [= ->]; now left].
Qed.

Lemma index_raise {A} (l : list A) (i : nat) (e : Py.exn) :
  Py.index l i = Py.Raise e -> e = index_error.
Proof. unfold Py.index. destruct (nth_error l i); [discriminate | now intros [= <-]]. Qed.

Ltac index_raises H :=
  repeat (apply bind_raise in H;
          destruct H as [H | (? & _ & H)]; [exact (index_raise _ _ _ H)|]).

(** Page analysis can only fail with an index past the end of a box. *)
Lemma bleed_margins_raise (t b : list Q) (e : Py.exn) :
  PDFAnalyzer.bleed_margins t b = Py.Raise e -> e = index_error.
Proof.
  unfold PDFAnalyzer.bleed_margins. intros H. index_raises H. discriminate H.
Qed.

Lemma page_info_of_raise (cfg : Config) (page_num : nat) (page : Pdf.Page) (e : Py.exn) :
  PDFAnalyzer.page_info_of cfg page_num page = Py.Raise e -> e = index_error.
Proof.
  unfold PDFAnalyzer.page_info_of. intros H.
  destruct (Pdf.MediaBox page) as [[|x mb]|]; try discriminate H.
  index_raises H.
  apply bind_raise in H. destruct H as [H | (? & _ & H)]; [|discriminate H].
  destruct (_ && _); [|discriminate H].
  destruct (PDFAnalyzer.or_else (Pdf.TrimBox page) _) as [t|]; [|discriminate H].
  destruct (PDFAnalyzer.or_else (Pdf.BleedBox page) _) as [b|]; [|discriminate H].
  apply bind_raise in H. destruct H as [H | (? & _ & H)]; [|discriminate H].
  exact (bleed_margins_raise _ _ _ H).
Qed.

Lemma page_info_of_short (cfg : Config) (page_num : nat) (page : Pdf.Page) (mb : Pdf.Box) :
  Pdf.MediaBox page = Some mb -> (0 < List.length mb < 4)%nat ->
  PDFAnalyzer.page_info_of cfg page_num page = Py.Raise index_error.
Proof.
  intros Hmb Hlen. unfold PDFAnalyzer.page_info_of. rewrite Hmb.
  destruct mb as [|a [|b [|c [|d mb]]]]; cbn [List.length] in Hlen; try lia; reflexivity.
Qed.

Lemma analyze_pages_loop_raise (cfg : Config) (l : list (nat * Pdf.Page)) :
  (exists n page, In (n, page) l /\
                  PDFAnalyzer.page_info_of cfg n page = Py.Raise index_error) ->
  PDFAnalyzer.analyze_pages_loop cfg l = Py.Raise index_error.
Proof.
  induction l as [|[n0 page0] l IH]; intros (n & page & Hin & Hr); [contradiction|].
  cbn [PDFAnalyzer.analyze_pages_loop].
  destruct (PDFAnalyzer.page_info_of cfg n0 page0) as [o|e] eqn:E0; cbn [Py.bind].
  - destruct Hin as [[= <- <-] | Hin]; [congruence|].
    rewrite IH; [reflexivity | now exists n, page].
  - now rewrite (page_info_of_raise _ _ _ _ E0).
Qed.

(** X7 (pdf_analyzer.py, [_analyze_pages] and the [except] clause of
    [analyze]): a page whose MediaBox is present but has fewer than four
    numbers makes the page scan raise IndexError, and [analyze] then returns
    the error dict for the whole file, whatever the other pages hold; the
    checker is left as it was. *)
Theorem short_mediabox_fails_the_analysis
        (cfg : Config) (col : PDFAnalyzer.Collaborators) (s : PrintQualityChecker.self)
        (f : Pdf.File) (doc : Pdf.Document) (include_ink : option bool)
        (profile_id : string) (page : Pdf.Page) (mb : Pdf.Box) :
  Pdf.readable f = Some doc ->
  In page (Pdf.doc_pages doc) ->
  Pdf.MediaBox page = Some mb ->
  (0 < List.length mb < 4)%nat ->
  PDFAnalyzer._analyze_pages cfg doc = Py.Raise index_error /\
  PDFAnalyzer.analyze cfg col s f include_ink profile_id
  = (PDFAnalyzer.ErrorDict "index out of range", s).
Proof.
  intros Hr Hin Hmb Hlen.
  assert (E : PDFAnalyzer._analyze_pages cfg doc = Py.Raise index_error).
  { unfold PDFAnalyzer._analyze_pages. apply analyze_pages_loop_raise.
    destruct (in_enumerate1_rev _ _ Hin) as (n & Hn).
    exists n, page. split; [exact Hn|]. now apply page_info_of_short with (mb := mb). }
  split; [exact E|].
  unfold PDFAnalyzer.analyze, PDFAnalyzer.analyze_body, Pdf.open.
  rewrite Hr, E. reflexivity.
Qed.

(** At the sample file whose second page has a MediaBox of three numbers. *)
Lemma short_mediabox_fails_the_analysis_witness :
  PDFAnalyzer.analyze Sample.cfg Sample.col PrintQualityChecker.__init__
                      Sample.short_box None "offset"
  = (PDFAnalyzer.ErrorDict "index out of range", PrintQualityChecker.__init__).
Proof.
  refine (proj2 (short_mediabox_fails_the_analysis
                   Sample.cfg Sample.col PrintQualityChecker.__init__
                   Sample.short_box Sample.short_box_doc None "offset"
                   (Sample.blank (Some [0; 0; 595276 # 1000]) None) [0; 0; 595276 # 1000]
                   eq_refl _ eq_refl _)).
  - right. left. reflexivity.
  - cbn [List.length]. lia.
Defined.

Lemma box_eqb_refl (b : Pdf.Box) : PDFAnalyzer.box_eqb b b = true.
Proof.
  induction b as [|x b IH]; cbn [PDFAnalyzer.box_eqb]; [reflexivity|].
  rewrite IH, andb_true_r. apply Qeq_bool_iff. apply Qeq_refl.
Qed.

Lemma min_of_four (a b c d : Q) :
  let m := Py.min_of a [b; c; d] in
  m <= a /\ m <= b /\ m <= c /\ m <= d /\ (m = a \/ m = b \/ m = c \/ m = d).
Proof.
  cbv zeta. unfold Py.min_of. cbn [fold_left].
  destruct (min2_spec a b) as (A1 & A2 & A3).
  destruct (min2_spec (Py.min2 a b) c) as (B1 & B2 & B3).
  destruct (min2_spec (Py.min2 (Py.min2 a b) c) d) as (C1 & C2 & C3).
  repeat split.
  - eapply Qle_trans; [exact C1|]. eapply Qle_trans; [exact B1 | exact A1].
  - eapply Qle_trans; [exact C1|]. eapply Qle_trans; [exact B1 | exact A2].
  - eapply Qle_trans; [exact C1 | exact B2].
  - exact C2.
  - destruct C3 as [-> | ->]; [|tauto].
    destruct B3 as [-> | ->]; [|tauto].
    destruct A3 as [-> | ->]; tauto.
Qed.

(** X8 (pdf_analyzer.py, [_analyze_pages], the bleed part): in a page
    record, [has_bleed] is set exactly when the four margins are recorded;
    [min_bleed] is then the smallest of the four, and is 0 when no margins
    are recorded; a page that has neither TrimBox nor BleedBox never has
    bleed, since both boxes then fall back to the same crop box. *)
Theorem page_bleed_facts (cfg : Config) (page_num : nat) (page : Pdf.Page) (i : PageInfo) :
  PDFAnalyzer.page_info_of cfg page_num page = Py.Ok (Some i) ->
  (has_bleed i = true <-> bleed_info i <> None) /\
  (has_bleed i = false -> min_bleed i = 0) /\
  (forall m, bleed_info i = Some m ->
             min_bleed i <= bleed_left m /\ min_bleed i <= bleed_bottom m /\
             min_bleed i <= bleed_right m /\ min_bleed i <= bleed_top m /\
             (min_bleed i = bleed_left m \/ min_bleed i = bleed_bottom m \/
              min_bleed i = bleed_right m \/ min_bleed i = bleed_top m)) /\
  (Pdf.TrimBox page = None -> Pdf.BleedBox page = None -> has_bleed i = false).
Proof.
  unfold PDFAnalyzer.page_info_of. intros H.
  destruct (Pdf.MediaBox page) as [[|x mb]|] eqn:Emb; try discriminate H.
  apply bind_ok in H. destruct H as (left & _ & H).
  apply bind_ok in H. destruct H as (bottom & _ & H).
  apply bind_ok in H. destruct H as (right & _ & H).
  apply bind_ok in H. destruct H as (top & _ & H).
  apply bind_ok in H. destruct H as (bl & Hbl & H).
  injection H as <-. cbn [has_bleed bleed_info min_bleed].
  split; [destruct bl; split; congruence|].
  split; [destruct bl; [discriminate | reflexivity]|].
  split.
  - intros m ->. apply min_of_four.
  - intros Ht Hb. rewrite Ht, Hb in Hbl. cbn [PDFAnalyzer.or_else] in Hbl.
    revert Hbl.
    match goal with
    | |- context [PDFAnalyzer.truthy ?cb] => destruct cb as [c|]
    end;
      intros Hbl; cbv beta iota in Hbl; rewrite ?box_eqb_refl in Hbl;
      cbn [negb PDFAnalyzer.truthy andb] in Hbl; rewrite ?andb_false_r in Hbl;
      injection Hbl as <-; reflexivity.
Qed.

(** At the first page of the sample print job, which has 3 mm of bleed on
    the left only. *)
Lemma page_bleed_facts_witness :
  exists i,
    PDFAnalyzer.page_info_of Sample.cfg 1 Sample.artwork = Py.Ok (Some i) /\
    (has_bleed i = true <-> bleed_info i <> None).
Proof.
  eexists. split; [reflexivity|].
  exact (proj1 (page_bleed_facts Sample.cfg 1 Sample.artwork _ eq_refl)).
Defined.

Lemma mem_str_In (s : string) (l : list string) : Py.mem_str s l = true <-> In s l.
Proof.
  unfold Py.mem_str. rewrite existsb_exists. split.
  - intros (x & Hx & E). apply String.eqb_eq in E. now subst.
  - intros H. exists s. split; [exact H | apply String.eqb_refl].
Qed.

Lemma mem_str_not_In (s : string) (l : list string) : Py.mem_str s l = false <-> ~ In s l.
Proof.
  rewrite <- mem_str_In. destruct (Py.mem_str s l); split; congruence.
Qed.

(** The scan of the colour spaces as one loop over the entries of the
    document. *)
Lemma analyze_colors_flat (l : list (nat * Pdf.Page)) :
  forall acc,
    fold_left PDFAnalyzer.colors_page l acc
    = fold_left (fun a e => PDFAnalyzer.colors_entry (fst e) a (snd e))
                (flat_map (fun np => match Pdf.res_colorspaces (snd np) with
                                     | Some css => map (fun e => (fst np, e)) css
                                     | None => []
                                     end) l)
                acc.
Proof.
  induction l as [|[n page] l IH]; intros acc; cbn [fold_left flat_map fst snd];
    [reflexivity|].
  rewrite fold_left_app, IH. f_equal.
  unfold PDFAnalyzer.colors_page.
  destruct (Pdf.res_colorspaces page) as [css|]; [|reflexivity].
  clear IH. revert acc. induction css as [|e css IHc]; intros acc; cbn [fold_left map];
    [reflexivity|].
  now rewrite IHc.
Qed.

Lemma colors_entry_in_step (page_num : nat) (acc : ColorInfo) (entry : string * Pdf.CsObj) :
  spot_records_in_step acc ->
  spot_records_in_step (PDFAnalyzer.colors_entry page_num acc entry).
Proof.
  intros Hacc. pose proof Hacc as (Hk & Hn & Hd & Hf & Hc).
  assert (Hcs : NoDup (PDFAnalyzer.add_to_set (color_spaces acc) (fst entry))).
  { unfold PDFAnalyzer.add_to_set. destruct (Py.mem_str _ _) eqn:E; [exact Hc|].
    apply nodup_snoc; [exact Hc | now apply mem_str_not_In]. }
  unfold PDFAnalyzer.colors_entry.
  set (is_sep := match snd entry with
                 | Pdf.CsList (first :: _) => String.eqb first "/Separation"
                 | _ => false
                 end).
  set (second := match snd entry with
                 | Pdf.CsList (_ :: n :: _) => Some n
                 | _ => None
                 end).
  destruct is_sep eqn:Es.
  - destruct second as [sname|] eqn:E2.
    + destruct (negb (Py.mem_str sname (spot_color_names acc))) eqn:Em.
      * apply negb_true_iff in Em. apply mem_str_not_In in Em.
        assert (Eg : dict_get String.eqb (spot_color_details acc) sname = None).
        { apply (dict_get_none String.eqb string_eqb_eq). now rewrite Hk. }
        unfold spot_records_in_step.
        cbn [spot_color_details spot_color_names has_spot_colors color_spaces].
        rewrite (dict_set_new String.eqb _ _ _ Eg), map_app, Hk. cbn [map fst].
        repeat split; auto.
        -- now apply nodup_snoc.
        -- apply in_app_or in H. destruct H as [H | [[= <- <-] | []]];
             [now apply (Hd _ _ H) | reflexivity].
        -- apply in_app_or in H. destruct H as [H | [[= <- <-] | []]];
             [now apply (Hd _ _ H) | discriminate].
        -- apply in_app_or in H. destruct H as [H | [[= <- <-] | []]];
             [now apply (Hd _ _ H) | reflexivity].
        -- intros _. apply orb_true_r.
      * apply negb_false_iff in Em. apply mem_str_In in Em.
        destruct (dict_get String.eqb (spot_color_details acc) sname) as [d0|] eqn:Eg.
        -- unfold spot_records_in_step.
           cbn [spot_color_details spot_color_names has_spot_colors color_spaces].
           rewrite (dict_set_old_keys String.eqb _ _ _ _ Eg).
           assert (Hnd : NoDup (map fst (spot_color_details acc))) by now rewrite Hk.
           apply (dict_get_in String.eqb string_eqb_eq) in Eg.
           destruct (Hd _ _ Eg) as (D1 & D2 & D3).
           split; [exact Hk|]. split; [exact Hn|]. split.
           ++ intros name d Hin.
              apply (dict_set_entries String.eqb string_eqb_eq) in Hin; [|exact Hnd].
              destruct Hin as [[-> ->] | [_ Hin]]; [|now apply Hd].
              cbn [spot_name spot_pages is_pantone]. repeat split; auto.
              intros H. now apply app_eq_nil in H as [_ [=]].
           ++ split; [intros _; apply orb_true_r | exact Hcs].
        -- exfalso. apply (dict_get_none String.eqb string_eqb_eq) in Eg.
           apply Eg. now rewrite Hk.
    + unfold spot_records_in_step.
      cbn [spot_color_details spot_color_names has_spot_colors color_spaces].
      repeat split; auto; try (now apply (Hd _ _ H)). intros _. apply orb_true_r.
  - unfold spot_records_in_step.
    destruct second; cbn [spot_color_details spot_color_names has_spot_colors color_spaces];
      (repeat split; auto; try (now apply (Hd _ _ H)));
      intros Hne; rewrite (Hf Hne); reflexivity.
Qed.

Lemma colors_entry_flags (page_num : nat) (acc : ColorInfo) (entry : string * Pdf.CsObj) :
  let c := PDFAnalyzer.colors_entry page_num acc entry in
  has_rgb c = has_rgb acc || name_has "RGB" (page_num, entry) /\
  has_cmyk c = has_cmyk acc || name_has "CMYK" (page_num, entry) /\
  has_gray c = has_gray acc || name_has "GRAY" (page_num, entry) /\
  has_spot_colors c = has_spot_colors acc || is_separation (snd entry).
Proof.
  cbv zeta. unfold PDFAnalyzer.colors_entry, name_has, is_separation. cbn [fst snd].
  destruct (snd entry) as [[|first [|n more]]|];
    try destruct (String.eqb first "/Separation");
    try destruct (negb (Py.mem_str n (spot_color_names acc)));
    cbn [has_rgb has_cmyk has_gray has_spot_colors]; auto.
Qed.

Lemma colors_flat_fold (l : list (nat * (string * Pdf.CsObj))) :
  forall acc,
    let c := fold_left (fun a e => PDFAnalyzer.colors_entry (fst e) a (snd e)) l acc in
    (spot_records_in_step acc -> spot_records_in_step c) /\
    has_rgb c = has_rgb acc || existsb (name_has "RGB") l /\
    has_cmyk c = has_cmyk acc || existsb (name_has "CMYK") l /\
    has_gray c = has_gray acc || existsb (name_has "GRAY") l /\
    has_spot_colors c
    = has_spot_colors acc || existsb (fun e => is_separation (snd (snd e))) l.
Proof.
  induction l as [|[n e] l IH]; intros acc; cbn [fold_left existsb fst snd].
  - rewrite !orb_false_r. auto.
  - destruct (IH (PDFAnalyzer.colors_entry n acc e)) as (H0 & H1 & H2 & H3 & H4).
    destruct (colors_entry_flags n acc e) as (F1 & F2 & F3 & F4).
    cbv zeta in *. rewrite H1, H2, H3, H4, F1, F2, F3, F4, !orb_assoc.
    split; [intros Hacc; apply H0; now apply colors_entry_in_step | auto].
Qed.

Lemma colors_scan_in_step (pdf_obj : Pdf.Document) :
  spot_records_in_step (PDFAnalyzer._analyze_colors pdf_obj).
Proof.
  unfold PDFAnalyzer._analyze_colors. rewrite analyze_colors_flat.
  apply colors_flat_fold.
  repeat split; cbn; try constructor; try contradiction; try discriminate.
  all: intros H; now contradiction H.
Qed.

(** X9 (pdf_analyzer.py, [_analyze_colors]): the spot colours recorded are
    in step: [spot_color_details] holds one entry for each name of
    [spot_color_names], in the same order, and no name twice; each entry
    carries its own name, at least one page, and the PANTONE mark of the
    upper-cased name; a recorded name sets [has_spot_colors]; and no colour
    space is listed twice. *)
Theorem analyze_colors_keeps_spot_records_in_step (pdf_obj : Pdf.Document) :
  spot_records_in_step (PDFAnalyzer._analyze_colors pdf_obj).
Proof. exact (colors_scan_in_step pdf_obj). Qed.


Lemma count_category_snoc (c : Category) (records : list ImgData) (d : ImgData) :
  count_category c (records ++ [d])
  = (count_category c records
     + (if Category_eqb (resolution_category d) c then 1 else 0))%nat.
Proof.
  unfold count_category. rewrite filter_app, length_app. cbn [filter].
  destruct (Category_eqb _ _); reflexivity.
Qed.

Lemma images_image_agree (cfg : Config) (page_num : nat) (acc : ImageInfo) (img : Pdf.Img) :
  image_counters_agree acc ->
  image_counters_agree (PDFAnalyzer.images_image cfg page_num acc img).
Proof.
  intros (H1 & H2 & H3 & H4 & H5 & H6).
  unfold image_counters_agree, PDFAnalyzer.images_image.
  cbn [total_count low_resolution_count image_records n_critical n_warning n_acceptable
       n_optimal].
  rewrite !count_category_snoc, length_app, <- H1, <- H3, <- H4, <- H5, <- H6, H2.
  cbn [List.length].
  destruct (resolution_category (PDFAnalyzer.img_data_of cfg page_num img));
    cbn [PDFAnalyzer.bump Category_eqb]; repeat split; lia.
Qed.

Lemma images_page_fold (cfg : Config) (l : list (nat * Pdf.Page)) :
  forall acc,
    (image_counters_agree acc ->
     image_counters_agree (fold_left (PDFAnalyzer.images_page cfg) l acc)) /\
    total_count (fold_left (PDFAnalyzer.images_page cfg) l acc)
    = (total_count acc + List.length (flat_map Pdf.fitz_images (map snd l)))%nat.
Proof.
  induction l as [|[n page] l IH]; intros acc; cbn [fold_left map flat_map snd].
  - split; [auto | cbn [List.length]; lia].
  - destruct (IH (PDFAnalyzer.images_page cfg acc (n, page))) as [I1 I2].
    assert (F : forall imgs a,
               (image_counters_agree a ->
                image_counters_agree (fold_left (PDFAnalyzer.images_image cfg n) imgs a)) /\
               total_count (fold_left (PDFAnalyzer.images_image cfg n) imgs a)
               = (total_count a + List.length imgs)%nat).
    { induction imgs as [|img imgs IHi]; intros a; cbn [fold_left List.length].
      - split; [auto | lia].
      - destruct (IHi (PDFAnalyzer.images_image cfg n a img)) as [J1 J2].
        split; [intros Ha; apply J1; now apply images_image_agree|].
        rewrite J2. cbn [PDFAnalyzer.images_image total_count]. lia. }
    destruct (F (Pdf.fitz_images page) acc) as [F1 F2].
    split.
    + intros Hacc. apply I1. unfold PDFAnalyzer.images_page. now apply F1.
    + rewrite I2. unfold PDFAnalyzer.images_page at 1. rewrite F2, length_app. lia.
Qed.

Lemma count_category_total (records : list ImgData) :
  (count_category critical records + count_category cat_warning records
   + count_category acceptable records + count_category optimal records
   + count_category NoCategory records)%nat = List.length records.
Proof.
  unfold count_category. induction records as [|d records IH]; [reflexivity|].
  cbn [filter List.length].
  destruct (resolution_category d); cbn [Category_eqb List.length]; lia.
Qed.

(** X11 (pdf_analyzer.py, [_analyze_images]): the counters agree with the
    list of image records: [total_count] is its length, each of the four
    category counters is the number of records of that category,
    [low_resolution_count] equals the counter of critical images, and the
    images in none of the four categories are the rest; when the file opens,
    every image of the document has a record. *)
Theorem image_counters_agree_with_records
        (cfg : Config) (pdf_obj : Pdf.Document) (pdf_path : Pdf.File) :
  let im := PDFAnalyzer._analyze_images cfg pdf_obj pdf_path in
  image_counters_agree im /\
  (n_critical im + n_warning im + n_acceptable im + n_optimal im
   + count_category NoCategory (image_records im))%nat = total_count im /\
  (forall doc, Pdf.readable pdf_path = Some doc ->
               total_count im = List.length (doc_images doc)).
Proof.
  cbv zeta.
  assert (Hinit : image_counters_agree PDFAnalyzer.images_init)
    by (repeat split; reflexivity).
  assert (Hag : image_counters_agree (PDFAnalyzer._analyze_images cfg pdf_obj pdf_path)).
  { unfold PDFAnalyzer._analyze_images. destruct (Pdf.open pdf_path) as [doc|e];
      [|exact Hinit].
    now apply images_page_fold. }
  split; [exact Hag|]. split.
  - destruct Hag as (H1 & H2 & H3 & H4 & H5 & H6).
    rewrite H3, H4, H5, H6, H1. apply count_category_total.
  - intros doc Hr. unfold PDFAnalyzer._analyze_images, Pdf.open. rewrite Hr.
    destruct (images_page_fold cfg (enumerate1 (Pdf.doc_pages doc)) PDFAnalyzer.images_init)
      as [_ H].
    rewrite H, map_snd_enumerate1. reflexivity.
Qed.

(** The dict of the font check: its keys and its pages. *)
Lemma font_issues_step (d : list (string * list nat)) (k : string) (p : nat) :
  NoDup (map fst d) ->
  let old := match dict_get String.eqb d k with Some l => l | None => [] end in
  let d' := dict_set String.eqb d k (old ++ [p]) in
  NoDup (map fst d') /\
  (forall n, In n (map fst d') <-> In n (map fst d) \/ n = k) /\
  (forall q, In q (flat_map snd d') <-> In q (flat_map snd d) \/ q = p).
Proof.
  intros Hnd. cbv zeta.
  set (old := match dict_get String.eqb d k with Some l => l | None => [] end).
  split; [now apply (dict_set_keys_nodup String.eqb string_eqb_eq)|].
  assert (Hold : forall q, In q old -> In q (flat_map snd d)).
  { intros q Hq. unfold old in Hq.
    destruct (dict_get String.eqb d k) as [l|] eqn:Eg; [|contradiction].
    apply (dict_get_in String.eqb string_eqb_eq) in Eg.
    apply in_flat_map. now exists (k, l). }
  split.
  - intros n. rewrite !in_map_iff. split.
    + intros ([k' v'] & <- & Hin). cbn [fst].
      apply (dict_set_entries String.eqb string_eqb_eq) in Hin; [|exact Hnd].
      destruct Hin as [[-> _] | [_ Hin]]; [now right|].
      left. now exists (k', v').
    + intros [([k' v'] & <- & Hin) | ->].
      * cbn [fst]. destruct (string_dec k' k) as [-> | Hne].
        -- exists (k, old ++ [p]). split; [reflexivity|].
           apply (dict_set_entries String.eqb string_eqb_eq); [exact Hnd | now left].
        -- exists (k', v'). split; [reflexivity|].
           apply (dict_set_entries String.eqb string_eqb_eq); [exact Hnd | now right].
      * exists (k, old ++ [p]). split; [reflexivity|].
        apply (dict_set_entries String.eqb string_eqb_eq); [exact Hnd | now left].
  - intros q. rewrite !in_flat_map. split.
    + intros ([k' v'] & Hin & Hq). cbn [snd] in Hq.
      apply (dict_set_entries String.eqb string_eqb_eq) in Hin; [|exact Hnd].
      destruct Hin as [[-> ->] | [_ Hin]].
      * apply in_app_or in Hq. destruct Hq as [Hq | [<- | []]]; [|now right].
        left. apply in_flat_map. now apply Hold.
      * left. now exists (k', v').
    + intros [([k' v'] & Hin & Hq) | ->].
      * cbn [snd] in Hq. destruct (string_dec k' k) as [-> | Hne].
        -- exists (k, old ++ [p]). split.
           ++ apply (dict_set_entries String.eqb string_eqb_eq); [exact Hnd | now left].
           ++ cbn [snd]. apply in_or_app. left. unfold old.
              now rewrite (dict_get_unique String.eqb string_eqb_eq _ _ _ Hnd Hin).
        -- exists (k', v'). split; [|exact Hq].
           apply (dict_set_entries String.eqb string_eqb_eq); [exact Hnd | now right].
      * exists (k, old ++ [p]). split.
        -- apply (dict_set_entries String.eqb string_eqb_eq); [exact Hnd | now left].
        -- cbn [snd]. apply in_or_app. right. now left.
Qed.

Lemma font_issues_fold (fonts : list ((string * nat) * FontInfo)) :
  forall acc,
    NoDup (map fst acc) ->
    let d := fold_left PDFAnalyzer.font_issues_add fonts acc in
    NoDup (map fst d) /\
    (forall n, In n (map fst d) <->
               In n (map fst acc) \/
               exists e, In e fonts /\ font_missing e = true /\ base_font (snd e) = n) /\
    (forall q, In q (flat_map snd d) <->
               In q (flat_map snd acc) \/
               exists e, In e fonts /\ font_missing e = true /\ font_page (snd e) = q).
Proof.
  induction fonts as [|e fonts IH]; intros acc Hnd; cbn [fold_left].
  - repeat split; auto; intros [H | (e & [] & _)]; exact H.
  - unfold PDFAnalyzer.font_issues_add at 2 4 6. fold (font_missing e).
    destruct (font_missing e) eqn:Em.
    + destruct (font_issues_step acc (base_font (snd e)) (font_page (snd e)) Hnd)
        as (S1 & S2 & S3).
      cbv zeta in S1, S2, S3.
      match goal with
      | |- context [fold_left PDFAnalyzer.font_issues_add fonts ?a] =>
          destruct (IH a S1) as (I1 & I2 & I3)
      end.
      cbv zeta in *. split; [exact I1|]. split.
      * intros n. rewrite I2, S2. split.
        -- intros [[H | ->] | (e0 & H0 & H1 & H2)]; [now left | |].
           ++ right. exists e. repeat split; auto. now left.
           ++ right. exists e0. repeat split; auto. now right.
        -- intros [H | (e0 & [<- | H0] & H1 & H2)]; [left; now left | |].
           ++ left. right. now symmetry.
           ++ right. now exists e0.
      * intros q. rewrite I3, S3. split.
        -- intros [[H | ->] | (e0 & H0 & H1 & H2)]; [now left | |].
           ++ right. exists e. repeat split; auto. now left.
           ++ right. exists e0. repeat split; auto. now right.
        -- intros [H | (e0 & [<- | H0] & H1 & H2)]; [left; now left | |].
           ++ left. right. now symmetry.
           ++ right. now exists e0.
    + destruct (IH acc Hnd) as (I1 & I2 & I3). cbv zeta in *.
      split; [exact I1|]. split.
      * intros n. rewrite I2. split.
        -- intros [H | (e0 & H0 & H1 & H2)]; [now left|].
           right. exists e0. repeat split; auto. now right.
        -- intros [H | (e0 & [<- | H0] & H1 & H2)]; [now left | congruence |].
           right. now exists e0.
      * intros q. rewrite I3. split.
        -- intros [H | (e0 & H0 & H1 & H2)]; [now left|].
           right. exists e0. repeat split; auto. now right.
        -- intros [H | (e0 & [<- | H0] & H1 & H2)]; [now left | congruence |].
           right. now exists e0.
Qed.

(** The finding of the font check, read off the dict that the check builds. *)
Lemma check_fonts_spec (fonts : list ((string * nat) * FontInfo)) :
  (PDFAnalyzer.check_fonts fonts = [] <->
   forall e, In e fonts -> font_missing e = false) /\
  (forall i, In i (PDFAnalyzer.check_fonts fonts) ->
             PDFAnalyzer.check_fonts fonts = [i] /\
             itype i = "font_not_embedded" /\ severity i = error /\
             exists ps names,
               affected_pages i = Some ps /\ extra i = Fonts names /\
               StronglySorted Nat.lt ps /\
               (forall p, In p ps <->
                          exists e, In e fonts /\ font_missing e = true /\
                                    font_page (snd e) = p) /\
               NoDup names /\
               (forall n, In n names <->
                          exists e, In e fonts /\ font_missing e = true /\
                                    base_font (snd e) = n)).
Proof.
  destruct (font_issues_fold fonts [] (NoDup_nil _)) as (H1 & H2 & H3). cbv zeta in *.
  unfold PDFAnalyzer.check_fonts.
  set (d := fold_left PDFAnalyzer.font_issues_add fonts []) in *.
  split.
  - split.
    + intros Hnil e He. destruct (font_missing e) eqn:Em; [|reflexivity].
      exfalso. assert (Hin : In (base_font (snd e)) (map fst d)).
      { apply H2. right. now exists e. }
      destruct d; [contradiction | discriminate].
    + intros Hall. destruct d as [|[k v] d']; [reflexivity|]. exfalso.
      assert (Hin : In k (map fst ((k, v) :: d'))) by now left.
      apply H2 in Hin. destruct Hin as [[] | (e & He & Hm & _)].
      rewrite (Hall e He) in Hm. discriminate.
  - intros i Hin. destruct d as [|kv d'] eqn:Ed; [contradiction|].
    destruct Hin as [<- | []]. split; [reflexivity|].
    split; [reflexivity|]. split; [reflexivity|].
    cbn [affected_pages extra]. do 2 eexists. split; [reflexivity|].
    split; [reflexivity|]. split; [apply sorted_set_increasing|]. split.
    + intros p. rewrite in_sorted_set, H3. cbn [flat_map In]. tauto.
    + split; [exact H1|]. intros n. rewrite H2. cbn [map In]. tauto.
Qed.

(** X12 (pdf_analyzer.py, [_check_issues], check 2): the font check reports
    nothing exactly when every font is embedded or standard; otherwise it
    reports one finding [font_not_embedded] of severity error for all fonts
    together: its pages are, in increasing order and once each, the pages of
    the fonts that are neither embedded nor standard, and its font list
    names their base fonts, once each. *)
Theorem font_not_embedded_finding (fonts : list ((string * nat) * FontInfo)) :
  (PDFAnalyzer.check_fonts fonts = [] <->
   forall e, In e fonts -> font_missing e = false) /\
  (forall i, In i (PDFAnalyzer.check_fonts fonts) ->
             PDFAnalyzer.check_fonts fonts = [i] /\
             itype i = "font_not_embedded" /\ severity i = error /\
             exists ps names,
               affected_pages i = Some ps /\ extra i = Fonts names /\
               StronglySorted Nat.lt ps /\
               (forall p, In p ps <->
                          exists e, In e fonts /\ font_missing e = true /\
                                    font_page (snd e) = p) /\
               NoDup names /\
               (forall n, In n names <->
                          exists e, In e fonts /\ font_missing e = true /\
                                    base_font (snd e) = n)).
Proof. exact (check_fonts_spec fonts). Qed.

Ltac no_dup_types :=
  repeat constructor; cbn [In map itype app];
  intuition discriminate.

(** X13 (pdf_analyzer.py, [_check_issues]): the checks of the issue engine
    report each kind of problem at most once in a run: among the findings
    that one call appends, no type occurs twice, and there are at most seven
    of them. *)
Theorem engine_reports_each_kind_once (cfg : Config) (r : PDFAnalyzer.AnalysisResult) :
  NoDup (map itype (PDFAnalyzer.new_issues cfg r)) /\
  (List.length (PDFAnalyzer.new_issues cfg r) <= 7)%nat /\
  PDFAnalyzer.issues (PDFAnalyzer._check_issues cfg r)
  = PDFAnalyzer.issues r ++ PDFAnalyzer.new_issues cfg r.
Proof.
  split; [|split; [|reflexivity]].
  - unfold PDFAnalyzer.new_issues, PDFAnalyzer.check_page_sizes, PDFAnalyzer.check_fonts,
      PDFAnalyzer.check_colors, PDFAnalyzer.check_images, PDFAnalyzer.check_ink.
    destruct (PDFAnalyzer.group_by_size _) as [|first rest];
      [|destruct (PDFAnalyzer.inconsistent_pages_detail _ _)];
      destruct (fold_left PDFAnalyzer.font_issues_add _ _);
      destruct (has_rgb _ && negb _);
      destruct (has_spot_colors _ && negb _);
      destruct (0 <? low_resolution_count _)%nat;
      destruct (0 <? n_warning _)%nat;
      destruct (PDFAnalyzer.ink_coverage r) as [[[[|? ?]|]]|];
      cbn [app map itype]; no_dup_types.
  - unfold PDFAnalyzer.new_issues, PDFAnalyzer.check_page_sizes, PDFAnalyzer.check_fonts,
      PDFAnalyzer.check_colors, PDFAnalyzer.check_images, PDFAnalyzer.check_ink.
    destruct (PDFAnalyzer.group_by_size _) as [|first rest];
      [|destruct (PDFAnalyzer.inconsistent_pages_detail _ _)];
      destruct (fold_left PDFAnalyzer.font_issues_add _ _);
      destruct (has_rgb _ && negb _);
      destruct (has_spot_colors _ && negb _);
      destruct (0 <? low_resolution_count _)%nat;
      destruct (0 <? n_warning _)%nat;
      destruct (PDFAnalyzer.ink_coverage r) as [[[[|? ?]|]]|];
      cbn [app List.length]; lia.
Qed.

(** ** The analysis as a whole *)

(** What a measurement record returned by [analyze] is made of. *)
Lemma analyze_record (cfg : Config) (col : PDFAnalyzer.Collaborators)
      (s : PrintQualityChecker.self) (f : Pdf.File) (include_ink : option bool)
      (profile_id : string) (r : PDFAnalyzer.AnalysisResult) :
  fst (PDFAnalyzer.analyze cfg col s f include_ink profile_id) = PDFAnalyzer.Analysis r ->
  exists doc pages_info quality r0 pf,
    Pdf.readable f = Some doc /\
    PDFAnalyzer._analyze_pages cfg doc = Py.Ok pages_info /\
    PDFAnalyzer.pages r = pages_info /\
    PDFAnalyzer.fonts r = PDFAnalyzer._analyze_fonts doc f /\
    PDFAnalyzer.colors r = PDFAnalyzer._analyze_colors doc /\
    PDFAnalyzer.images r = PDFAnalyzer._analyze_images cfg doc f /\
    (PDFAnalyzer.ink_coverage r = None \/
     (include_ink <> Some false /\
      exists ink, PDFAnalyzer.ink_calculate col f = Py.Ok ink /\
                  PDFAnalyzer.ink_coverage r = Some ink)) /\
    PDFAnalyzer.issues r
    = quality ++ PDFAnalyzer.new_issues cfg r0 ++ PDFAnalyzer.preflight_issues pf /\
    PDFAnalyzer.fonts r0 = PDFAnalyzer.fonts r /\
    PDFAnalyzer.colors r0 = PDFAnalyzer.colors r /\
    PDFAnalyzer.ink_coverage r0 = PDFAnalyzer.ink_coverage r /\
    (quality = [] \/
     quality
     = PrintQualityChecker.issues
         (snd (PrintQualityChecker.check_all cfg s f (Some pages_info)))
       ++ PrintQualityChecker.warnings
            (snd (PrintQualityChecker.check_all cfg s f (Some pages_info)))).
Proof.
  unfold PDFAnalyzer.analyze, PDFAnalyzer.analyze_body, Pdf.open.
  destruct (Pdf.readable f) as [doc|]; [|discriminate].
  destruct (PDFAnalyzer._analyze_pages cfg doc) as [pages_info|e] eqn:Ep; [|discriminate].
  intros H. exists doc, pages_info.
  destruct (PDFAnalyzer.any_check cfg).
  - destruct (PrintQualityChecker.check_all cfg s f (Some pages_info)) as [pq s1] eqn:Eall.
    destruct include_ink as [[|]|]; [| |destruct (is_ink_analysis_enabled cfg)];
      try (destruct (PDFAnalyzer.ink_calculate col f) as [ink|e] eqn:Ei; cbn [Py.bind] in H;
           [|discriminate H]);
      match type of H with
      | context [PDFAnalyzer.check ?p ?r] => destruct (PDFAnalyzer.check p r) as [pf|e]
      end;
      try discriminate H;
      cbn [fst] in H; inversion H; subst r; clear H;
      cbn [PDFAnalyzer._add_preflight_issues PDFAnalyzer.set_issues PDFAnalyzer.issues
           PDFAnalyzer._check_issues PDFAnalyzer.pages PDFAnalyzer.fonts PDFAnalyzer.colors
           PDFAnalyzer.images PDFAnalyzer.ink_coverage snd app];
      eexists; eexists; exists pf;
      (split; [reflexivity|]); (split; [exact Ep|]); (split; [reflexivity|]);
      (split; [reflexivity|]); (split; [reflexivity|]); (split; [reflexivity|]);
      (split; [first [left; reflexivity
                     | right; split; [discriminate | eexists; split; reflexivity]]|]);
      (split; [rewrite <- app_assoc; reflexivity|]);
      repeat (split; [reflexivity|]); right; reflexivity.
  - destruct include_ink as [[|]|]; [| |destruct (is_ink_analysis_enabled cfg)];
      try (destruct (PDFAnalyzer.ink_calculate col f) as [ink|e] eqn:Ei; cbn [Py.bind] in H;
           [|discriminate H]);
      match type of H with
      | context [PDFAnalyzer.check ?p ?r] => destruct (PDFAnalyzer.check p r) as [pf|e]
      end;
      try discriminate H;
      cbn [fst] in H; inversion H; subst r; clear H;
      cbn [PDFAnalyzer._add_preflight_issues PDFAnalyzer.set_issues PDFAnalyzer.issues
           PDFAnalyzer._check_issues PDFAnalyzer.pages PDFAnalyzer.fonts PDFAnalyzer.colors
           PDFAnalyzer.images PDFAnalyzer.ink_coverage snd app];
      exists []; eexists; exists pf;
      (split; [reflexivity|]); (split; [exact Ep|]); (split; [reflexivity|]);
      (split; [reflexivity|]); (split; [reflexivity|]); (split; [reflexivity|]);
      (split; [first [left; reflexivity
                     | right; split; [discriminate | eexists; split; reflexivity]]|]);
      (split; [reflexivity|]);
      repeat (split; [reflexivity|]); left; reflexivity.
Qed.

(** The types of the findings by origin. *)
Lemma quality_type (i : Issue) :
  of_kind print_quality_kinds i = true ->
  In (itype i) (map fst print_quality_kinds).
Proof.
  intros H. split_kinds H; rewrite Ht; cbn; tauto.
Qed.

Lemma preflight_type (pf : PreflightResult) (i : Issue) :
  In i (PDFAnalyzer.preflight_issues pf) ->
  itype i = "preflight_failed" \/ itype i = "preflight_warning" \/ itype i = "preflight_info".
Proof.
  unfold PDFAnalyzer.preflight_issues. intros Hin.
  repeat (apply in_app_or in Hin; destruct Hin as [Hin | Hin]);
    apply in_map_iff in Hin; destruct Hin as (r' & <- & _); cbn; auto.
Qed.

Lemma new_issues_cases (cfg : Config) (r : PDFAnalyzer.AnalysisResult) (i : Issue) :
  In i (PDFAnalyzer.new_issues cfg r) ->
  itype i = "page_size_inconsistent" \/
  (itype i = "font_not_embedded" /\ In i (PDFAnalyzer.check_fonts (PDFAnalyzer.fonts r))) \/
  (itype i = "rgb_only" /\
   has_rgb (PDFAnalyzer.colors r) && negb (has_cmyk (PDFAnalyzer.colors r)) = true) \/
  itype i = "spot_colors" \/
  itype i = "low_resolution_image" \/
  itype i = "medium_resolution_image" \/
  (itype i = "high_ink_coverage" /\ PDFAnalyzer.ink_coverage r <> None).
Proof.
  unfold PDFAnalyzer.new_issues. intro H.
  apply in_app_or in H. destruct H as [H | H].
  { unfold PDFAnalyzer.check_page_sizes in H.
    destruct (PDFAnalyzer.group_by_size _); [contradiction|].
    destruct (PDFAnalyzer.inconsistent_pages_detail _ _); [contradiction|].
    destruct H as [<- | []]. now left. }
  apply in_app_or in H. destruct H as [H | H].
  { right. left. split; [|exact H]. unfold PDFAnalyzer.check_fonts in H.
    destruct (fold_left _ _ _); [contradiction|]. destruct H as [<- | []]. reflexivity. }
  apply in_app_or in H. destruct H as [H | H].
  { unfold PDFAnalyzer.check_colors in H. apply in_app_or in H. destruct H as [H | H].
    - destruct (andb _ _) eqn:E; [|contradiction]. destruct H as [<- | []].
      right. right. left. split; reflexivity.
    - destruct (andb _ _); [|contradiction]. destruct H as [<- | []].
      right. right. right. now left. }
  apply in_app_or in H. destruct H as [H | H].
  { unfold PDFAnalyzer.check_images in H. apply in_app_or in H. destruct H as [H | H].
    - destruct (0 <? _)%nat; [|contradiction]. destruct H as [<- | []].
      do 4 right. now left.
    - destruct (0 <? _)%nat; [|contradiction]. destruct H as [<- | []].
      do 5 right. now left. }
  unfold PDFAnalyzer.check_ink in H.
  destruct (PDFAnalyzer.ink_coverage r) as [[[[|p ps]|]]|]; try contradiction.
  destruct H as [<- | []]. do 6 right. split; [reflexivity | discriminate].
Qed.

Lemma new_issues_fonts (cfg : Config) (r : PDFAnalyzer.AnalysisResult) (i : Issue) :
  In i (PDFAnalyzer.check_fonts (PDFAnalyzer.fonts r)) ->
  In i (PDFAnalyzer.new_issues cfg r).
Proof.
  intros H. unfold PDFAnalyzer.new_issues.
  apply in_or_app. right. apply in_or_app. now left.
Qed.

Lemma new_issues_rgb (cfg : Config) (r : PDFAnalyzer.AnalysisResult) :
  has_rgb (PDFAnalyzer.colors r) && negb (has_cmyk (PDFAnalyzer.colors r)) = true ->
  In {| itype := "rgb_only"; severity := warning; affected_pages := None; extra := NoExtra |}
     (PDFAnalyzer.new_issues cfg r).
Proof.
  intros H. unfold PDFAnalyzer.new_issues.
  apply in_or_app. right. apply in_or_app. right. apply in_or_app. left.
  unfold PDFAnalyzer.check_colors. apply in_or_app. left.
  unfold andb in H |- *. rewrite H. now left.
Qed.

(** The checker of an analyzer holds print-quality findings only, also
    after the checks of one more run. *)
Lemma quality_findings_of_run (cfg : Config) (col : PDFAnalyzer.Collaborators)
      (s : PrintQualityChecker.self) (f : Pdf.File) (pages_info : option (list PageInfo))
      (i : Issue) :
  reachable cfg col s ->
  In i (PrintQualityChecker.issues (snd (PrintQualityChecker.check_all cfg s f pages_info))
        ++ PrintQualityChecker.warnings
             (snd (PrintQualityChecker.check_all cfg s f pages_info))) ->
  In (itype i) (map fst print_quality_kinds).
Proof.
  intros Hs Hin. apply quality_type.
  destruct (pqf_check_all cfg s f pages_info (reachable_holds_findings cfg col s Hs))
    as [Hi Hw].
  rewrite Forall_forall in Hi, Hw.
  apply in_app_or in Hin. destruct Hin; auto.
Qed.

(** X14 (pdf_analyzer.py, [analyze] with [_check_issues]): with ink
    analysis switched off in the call, the record has no ink coverage and no
    finding of type [high_ink_coverage], whatever the analyzer has analysed
    before; and the ink calculator plays no part: the call gives the same
    answer with any other calculator. *)
Theorem no_ink_finding_without_ink_analysis
        (cfg : Config) (col : PDFAnalyzer.Collaborators) (s : PrintQualityChecker.self)
        (f : Pdf.File) (profile_id : string) :
  reachable cfg col s ->
  (forall r,
      fst (PDFAnalyzer.analyze cfg col s f (Some false) profile_id)
      = PDFAnalyzer.Analysis r ->
      PDFAnalyzer.ink_coverage r = None /\
      forall i, In i (PDFAnalyzer.issues r) -> itype i <> "high_ink_coverage") /\
  (forall calculator,
      PDFAnalyzer.analyze cfg
        {| PDFAnalyzer.get_profile_by_name := PDFAnalyzer.get_profile_by_name col;
           PDFAnalyzer.get_offset_printing := PDFAnalyzer.get_offset_printing col;
           PDFAnalyzer.ink_calculate := calculator |}
        s f (Some false) profile_id
      = PDFAnalyzer.analyze cfg col s f (Some false) profile_id).
Proof.
  intros Hs. split; [|reflexivity].
  intros r Hr.
  destruct (analyze_record _ _ _ _ _ _ _ Hr)
    as (doc & pages_info & quality & r0 & pf & _ & _ & _ & _ & _ & _ & Hink & Hiss & _ & _
        & Hink0 & Hq).
  assert (Hnone : PDFAnalyzer.ink_coverage r = None).
  { destruct Hink as [H | [H _]]; [exact H | now contradiction H]. }
  split; [exact Hnone|].
  intros i Hin Ht. rewrite Hiss in Hin.
  apply in_app_or in Hin. destruct Hin as [Hin | Hin].
  - destruct Hq as [-> | ->]; [contradiction|].
    apply (quality_findings_of_run cfg col s f _ i Hs) in Hin.
    rewrite Ht in Hin. cbn in Hin. intuition discriminate.
  - apply in_app_or in Hin. destruct Hin as [Hin | Hin].
    + apply new_issues_cases in Hin. rewrite Ht in Hin.
      destruct Hin as [H | [[H _] | [[H _] | [H | [H | [H | [_ H]]]]]]];
        try discriminate H.
      apply H. now rewrite Hink0.
    + apply preflight_type in Hin. rewrite Ht in Hin.
      destruct Hin as [H | [H | H]]; discriminate H.
Qed.

(** At a new analyzer and the sample file of the scenario. *)
Lemma no_ink_finding_without_ink_analysis_witness :
  exists r,
    fst (PDFAnalyzer.analyze Sample.cfg Sample.col PrintQualityChecker.__init__
                             Sample.scenario (Some false) "offset")
    = PDFAnalyzer.Analysis r /\
    PDFAnalyzer.ink_coverage r = None.
Proof.
  eexists.
  assert (Hr : fst (PDFAnalyzer.analyze Sample.cfg Sample.col PrintQualityChecker.__init__
                                        Sample.scenario (Some false) "offset")
               = PDFAnalyzer.Analysis _) by (vm_compute; reflexivity).
  split; [exact Hr|].
  exact (proj1 (proj1 (no_ink_finding_without_ink_analysis
                         Sample.cfg Sample.col PrintQualityChecker.__init__ Sample.scenario
                         "offset" (reach_init Sample.cfg Sample.col)) _ Hr)).
Defined.

(** In the records of the font scan a font that is not embedded is not a
    standard font. *)
Lemma analyzed_font_missing (pdf_obj : Pdf.Document) (pdf_path : Pdf.File)
      (e : (string * nat) * FontInfo) :
  In e (PDFAnalyzer._analyze_fonts pdf_obj pdf_path) ->
  font_missing e = negb (embedded (snd e)).
Proof.
  destruct e as [key fi]. intros Hin. unfold font_missing. cbn [snd].
  destruct (analyze_fonts_records _ _ _ _ Hin) as (n & page & fd & ->).
  destruct (font_info_of_fields n page fd) as (_ & _ & _ & Hstd).
  rewrite Hstd.
  destruct (Py.mem_str (Pdf.fd_basename fd) PDFAnalyzer.standard_fonts) eqn:E;
    [|now rewrite andb_true_r].
  rewrite (font_info_of_embedded n page fd); [reflexivity | now rewrite E].
Qed.

(** X15 ([batch_processor.py], [_needs_auto_fix] on the record that
    [analyze] returns): with a fixer at hand, an automatic fix is asked for
    exactly when the record holds a finding that a switched-on fix
    addresses: [rgb_only] with the RGB conversion on, or
    [font_not_embedded] with font outlining on. *)
Theorem auto_fix_is_asked_for_reported_problems
        (env : BatchProcessor.Env) (s : PrintQualityChecker.self) (f : Pdf.File)
        (include_ink : option bool) (profile_id : string)
        (r : PDFAnalyzer.AnalysisResult)
        (fix_pdf : Pdf.File -> PDFAnalyzer.AnalysisResult
                   -> Py.result BatchProcessor.FixResult) :
  reachable (BatchProcessor.cfg env) (BatchProcessor.col env) s ->
  BatchProcessor.fixer env = Some fix_pdf ->
  fst (PDFAnalyzer.analyze (BatchProcessor.cfg env) (BatchProcessor.col env) s f
                           include_ink profile_id) = PDFAnalyzer.Analysis r ->
  (BatchProcessor._needs_auto_fix env r = true <->
   (BatchProcessor.auto_convert_rgb (BatchProcessor.auto_fix_settings env) = true /\
    exists i, In i (PDFAnalyzer.issues r) /\ itype i = "rgb_only") \/
   (BatchProcessor.auto_outline_fonts (BatchProcessor.auto_fix_settings env) = true /\
    exists i, In i (PDFAnalyzer.issues r) /\ itype i = "font_not_embedded")).
Proof.
  intros Hs Hfix Hr.
  destruct (analyze_record _ _ _ _ _ _ _ Hr)
    as (doc & pages_info & quality & r0 & pf & _ & _ & _ & Hfonts & _ & _ & _ & Hiss & Hf0
        & Hc0 & _ & Hq).
  assert (Hfrom : forall i t,
             In i (PDFAnalyzer.issues r) -> itype i = t ->
             t = "rgb_only" \/ t = "font_not_embedded" ->
             In i (PDFAnalyzer.new_issues (BatchProcessor.cfg env) r0)).
  { intros i t Hin Ht Hcase. rewrite Hiss in Hin.
    apply in_app_or in Hin. destruct Hin as [Hin | Hin].
    - destruct Hq as [-> | ->]; [contradiction|].
      apply (quality_findings_of_run _ _ s f _ i Hs) in Hin.
      rewrite Ht in Hin. cbn in Hin. destruct Hcase as [-> | ->]; intuition discriminate.
    - apply in_app_or in Hin. destruct Hin as [Hin | Hin]; [exact Hin|].
      apply preflight_type in Hin. rewrite Ht in Hin.
      destruct Hcase as [-> | ->]; destruct Hin as [H | [H | H]]; discriminate H. }
  assert (Hto : forall i, In i (PDFAnalyzer.new_issues (BatchProcessor.cfg env) r0) ->
                          In i (PDFAnalyzer.issues r)).
  { intros i Hin. rewrite Hiss. apply in_or_app. right. apply in_or_app. now left. }
  assert (Hrgb : (exists i, In i (PDFAnalyzer.issues r) /\ itype i = "rgb_only") <->
                 has_rgb (PDFAnalyzer.colors r) && negb (has_cmyk (PDFAnalyzer.colors r))
                 = true).
  { split.
    - intros (i & Hin0 & Ht). pose proof (Hfrom i _ Hin0 Ht (or_introl eq_refl)) as Hin.
      apply new_issues_cases in Hin. rewrite Ht, Hc0 in Hin.
      destruct Hin as [H | [[H _] | [[_ H] | [H | [H | [H | [H _]]]]]]];
        try discriminate H. exact H.
    - intros H. eexists. split; [apply Hto, new_issues_rgb; now rewrite Hc0 | reflexivity]. }
  assert (Hfont : (exists i, In i (PDFAnalyzer.issues r) /\ itype i = "font_not_embedded")
                  <-> existsb (fun e => negb (embedded (snd e))) (PDFAnalyzer.fonts r)
                      = true).
  { destruct (check_fonts_spec (PDFAnalyzer.fonts r)) as [Hnil Hone].
    rewrite existsb_exists. split.
    - intros (i & Hin0 & Ht). pose proof (Hfrom i _ Hin0 Ht (or_intror eq_refl)) as Hin.
      apply new_issues_cases in Hin. rewrite Ht, Hf0 in Hin.
      destruct Hin as [H | [[_ H] | [[H _] | [H | [H | [H | [H _]]]]]]];
        try discriminate H.
      destruct (Hone i H) as (_ & _ & _ & ps & names & _ & _ & _ & _ & _ & Hn).
      destruct (PDFAnalyzer.check_fonts (PDFAnalyzer.fonts r)) eqn:Ec; [contradiction|].
      assert (Hex : exists e, In e (PDFAnalyzer.fonts r) /\ font_missing e = true).
      { destruct (existsb font_missing (PDFAnalyzer.fonts r)) eqn:Ex.
        - apply existsb_exists in Ex. exact Ex.
        - exfalso. assert (Hall : forall e, In e (PDFAnalyzer.fonts r) ->
                                             font_missing e = false).
          { intros e He. destruct (font_missing e) eqn:Em; [|reflexivity].
            assert (existsb font_missing (PDFAnalyzer.fonts r) = true)
              by (apply existsb_exists; now exists e).
            congruence. }
          apply Hnil in Hall. discriminate Hall. }
      destruct Hex as (e & He & Hm). exists e. split; [exact He|].
      rewrite <- (analyzed_font_missing doc f e); [exact Hm | now rewrite <- Hfonts].
    - intros (e & He & Hm).
      assert (Hmiss : font_missing e = true).
      { rewrite (analyzed_font_missing doc f e); [exact Hm | now rewrite <- Hfonts]. }
      destruct (PDFAnalyzer.check_fonts (PDFAnalyzer.fonts r)) as [|i l] eqn:Ec.
      + rewrite (proj1 Hnil eq_refl e He) in Hmiss. discriminate.
      + exists i. destruct (Hone i (or_introl eq_refl)) as (_ & Ht & _).
        split; [|exact Ht]. apply Hto. apply new_issues_fonts. rewrite Hf0, Ec. now left. }
  unfold BatchProcessor._needs_auto_fix. rewrite Hfix, Hrgb, Hfont.
  destruct (BatchProcessor.auto_convert_rgb _);
    destruct (BatchProcessor.auto_outline_fonts _);
    destruct (has_rgb (PDFAnalyzer.colors r) && negb (has_cmyk (PDFAnalyzer.colors r)));
    destruct (existsb _ (PDFAnalyzer.fonts r));
    cbn [andb]; intuition discriminate.
Qed.

(** At the sample processor with a fixer and the sample file with a font
    that is not embedded. *)
Lemma auto_fix_is_asked_for_reported_problems_witness :
  exists r,
    fst (PDFAnalyzer.analyze Sample.cfg Sample.col PrintQualityChecker.__init__
                             Sample.unembedded None "offset") = PDFAnalyzer.Analysis r /\
    BatchProcessor._needs_auto_fix Sample.env_fix r = true.
Proof.
  eexists. split; [vm_compute; reflexivity|].
  refine (proj2 (auto_fix_is_asked_for_reported_problems
                   Sample.env_fix PrintQualityChecker.__init__ Sample.unembedded None
                   "offset" _ _ (reach_init _ _) eq_refl _) _).
  - vm_compute. reflexivity.
  - right. split; [reflexivity|].
    eexists. split; [right; left; reflexivity | reflexivity].
Defined.

(** ** The batch processor *)

(** The [except] clause of [_process_single_file], whatever the error
    report does: the error is counted first; the record is put unless the
    notification raises. *)
Lemma process_handler_counts (env : BatchProcessor.Env) (file_id : string)
      (file_info : BatchProcessor.FileInfo) (worker_id : nat) (e : Py.exn)
      (s : BatchProcessor.self) (r : Py.result unit) (s' : BatchProcessor.self) :
  BatchProcessor.process_handler env file_id file_info worker_id e s = (r, s') ->
  BatchProcessor.error_count s' = S (BatchProcessor.error_count s) /\
  BatchProcessor.processed_count s' = BatchProcessor.processed_count s /\
  BatchProcessor.is_running s' = BatchProcessor.is_running s /\
  BatchProcessor.is_paused s' = BatchProcessor.is_paused s /\
  (BatchProcessor.result_queue s' = BatchProcessor.result_queue s \/
   BatchProcessor.result_queue s'
   = BatchProcessor.result_queue s
     ++ [BatchProcessor.error_record env file_id file_info worker_id e]).
Proof.
  unfold BatchProcessor.process_handler, Stmt.bindM.
  unfold BatchProcessor.count_error at 1.
  match goal with
  | |- context [match ?m ?st with _ => _ end] =>
      destruct (m st) as [[u|e1] s2] eqn:En;
      assert (Q : quiet m)
        by (destruct (BatchProcessor.notifier_on env);
            [apply quiet_lift | apply quiet_ret]);
      pose proof (Q _ _ _ En) as ->
  end.
  - unfold BatchProcessor.put at 1. intro H.
    apply quiet_call_progress in H. subst s'. cbn. repeat split. now right.
  - intro H. inversion H; subst. cbn. repeat split. now left.
Qed.

Lemma counted_refl (exact : Prop) (s : BatchProcessor.self) : counted exact 0 s s.
Proof.
  exists []. rewrite app_nil_r. cbn [filter List.length].
  repeat split; try lia. constructor.
Qed.

Lemma counted_trans (exact : Prop) (n m : nat) (s s1 s2 : BatchProcessor.self) :
  counted exact n s s1 -> counted exact m s1 s2 -> counted exact (n + m) s s2.
Proof.
  intros (r1 & A1 & A2 & A3 & A4 & A5 & A6 & A7 & A8 & A9)
         (r2 & B1 & B2 & B3 & B4 & B5 & B6 & B7 & B8 & B9).
  exists (r1 ++ r2). rewrite !filter_app, !length_app.
  split; [now rewrite B1, A1, app_assoc|].
  split; [now apply Forall_app|].
  repeat split; try lia; try congruence.
  intros Hex. specialize (A5 Hex). specialize (B5 Hex). lia.
Qed.

(** One file. *)
Lemma process_single_file_counted (env : BatchProcessor.Env) (file_id : string)
      (file_info : BatchProcessor.FileInfo) (worker_id : nat)
      (s : BatchProcessor.self) (r : Py.result unit) (s' : BatchProcessor.self) :
  BatchProcessor._process_single_file env file_id file_info worker_id s = (r, s') ->
  counted (error_report_returns env) 1 s s'.
Proof.
  unfold BatchProcessor._process_single_file, Stmt.try_except.
  destruct (BatchProcessor.process_body env file_id file_info worker_id s)
    as [[u|e] s1] eqn:E;
    pose proof (process_body_effect env file_id file_info worker_id _ _ _ E) as Eff.
  - intro H. inversion H; subst.
    destruct Eff as [[_ [e He]] | (file & res & reports & w & n & Hq & Hp & He & Hr & Hpa)];
      [discriminate He|].
    eexists. split; [exact Hq|]. cbn [filter is_complete_record is_error_record List.length].
    split; [constructor; [reflexivity | constructor]|].
    repeat split; try lia; congruence.
  - intro H.
    destruct (process_handler_counts _ _ _ _ _ _ _ _ H) as (He & Hp & Hr & Hpa & Hq).
    assert (Hexact : error_report_returns env ->
                     BatchProcessor.result_queue s'
                     = BatchProcessor.result_queue s1
                       ++ [BatchProcessor.error_record env file_id file_info worker_id e]).
    { intros Hsafe.
      destruct (process_handler_reports env file_id file_info worker_id e s1 Hsafe)
        as (s0 & Hh & Hq0 & _).
      rewrite Hh in H. inversion H; subst. exact Hq0. }
    destruct Eff as [[-> _] | (file & res & reports & w & n & Hq1 & Hp1 & He1 & Hr1 & Hpa1)].
    + destruct Hq as [Hq | Hq].
      * exists []. rewrite app_nil_r. cbn [filter List.length].
        split; [exact Hq|]. split; [constructor|].
        repeat split; try lia; try congruence.
        intros Hsafe. specialize (Hexact Hsafe). rewrite Hq in Hexact.
        exfalso. apply (f_equal (@List.length _)) in Hexact.
        rewrite length_app in Hexact. cbn [List.length] in Hexact. lia.
      * eexists. split; [exact Hq|].
        cbn [filter is_complete_record is_error_record BatchProcessor.error_record
             List.length].
        split; [constructor; [reflexivity | constructor]|].
        repeat split; try lia; congruence.
    + destruct Hq as [Hq | Hq].
      * eexists. split; [rewrite Hq; exact Hq1|].
        cbn [filter is_complete_record is_error_record List.length].
        split; [constructor; [reflexivity | constructor]|].
        repeat split; try lia; try congruence.
        intros Hsafe. specialize (Hexact Hsafe). rewrite Hq in Hexact.
        exfalso. apply (f_equal (@List.length _)) in Hexact.
        rewrite length_app in Hexact. cbn [List.length] in Hexact. lia.
      * eexists. split; [rewrite Hq, Hq1, <- app_assoc; reflexivity|].
        cbn [app filter is_complete_record is_error_record BatchProcessor.error_record
             List.length].
        split; [constructor; [reflexivity | constructor; [reflexivity | constructor]]|].
        repeat split; try lia; congruence.
Qed.

Lemma worker_loop_counted (env : BatchProcessor.Env) (worker_id : nat)
      (file_queue : list (string * BatchProcessor.FileInfo)) :
  forall s,
    counted (error_report_returns env) (List.length file_queue) s
            (BatchProcessor.worker_loop env worker_id file_queue s).
Proof.
  induction file_queue as [|[file_id file_info] q IH]; intro s;
    cbn [BatchProcessor.worker_loop List.length]; [apply counted_refl|].
  destruct (BatchProcessor._process_single_file env file_id file_info worker_id s)
    as [r s1] eqn:E.
  change (S (List.length q)) with (1 + List.length q)%nat.
  eapply counted_trans; [exact (process_single_file_counted _ _ _ _ _ _ _ E) | apply IH].
Qed.

(** X16 (batch_processor.py, [_process_single_file] and the loop of
    [_worker_thread]): after a worker has gone through a queue, the records
    it has put are ['complete'] and ['error'] records only; the processed
    count has grown by the number of ['complete'] records, the error count
    by at least the number of ['error'] records, and by exactly that number
    when reporting an error does not itself fail; every file of the queue
    has been counted at least once and at most twice; the two flags are as
    before. *)
Theorem worker_counts_agree_with_records
        (env : BatchProcessor.Env) (worker_id : nat)
        (file_queue : list (string * BatchProcessor.FileInfo)) (s : BatchProcessor.self) :
  let s' := BatchProcessor.worker_loop env worker_id file_queue s in
  exists recs,
    BatchProcessor.result_queue s' = BatchProcessor.result_queue s ++ recs /\
    Forall (fun r => is_complete_record r || is_error_record r = true) recs /\
    BatchProcessor.processed_count s'
    = (BatchProcessor.processed_count s + List.length (filter is_complete_record recs))%nat /\
    (BatchProcessor.error_count s + List.length (filter is_error_record recs)
     <= BatchProcessor.error_count s')%nat /\
    (error_report_returns env ->
     BatchProcessor.error_count s'
     = (BatchProcessor.error_count s + List.length (filter is_error_record recs))%nat) /\
    (BatchProcessor.processed_count s + BatchProcessor.error_count s
     + List.length file_queue
     <= BatchProcessor.processed_count s' + BatchProcessor.error_count s')%nat /\
    (BatchProcessor.processed_count s' + BatchProcessor.error_count s'
     <= BatchProcessor.processed_count s + BatchProcessor.error_count s
        + 2 * List.length file_queue)%nat /\
    BatchProcessor.is_running s' = BatchProcessor.is_running s /\
    BatchProcessor.is_paused s' = BatchProcessor.is_paused s.
Proof. exact (worker_loop_counted env worker_id file_queue s). Qed.

Lemma bindM_ok {A B} (m : Stmt.M BatchProcessor.self A)
      (k : A -> Stmt.M BatchProcessor.self B) (s s1 : BatchProcessor.self) (a : A) :
  m s = (Py.Ok a, s1) -> Stmt.bindM m k s = k a s1.
Proof. intros H. unfold Stmt.bindM. now rewrite H. Qed.

Lemma call_progress_returns (env : BatchProcessor.Env) (p : BatchProcessor.Progress)
      (s : BatchProcessor.self) :
  progress_returns env -> BatchProcessor.call_progress env p s = (Py.Ok tt, s).
Proof.
  intros H. unfold BatchProcessor.call_progress.
  destruct (BatchProcessor.progress_callback env) as [cb|] eqn:E; [|reflexivity].
  unfold Stmt.lift. now rewrite (H cb p E).
Qed.

(** The auto-fix step never raises and never replaces the analysis of the
    original file. *)
Lemma auto_fix_block_returns (env : BatchProcessor.Env) (file_id : string)
      (file_path : Pdf.File)
      (fix_pdf : Pdf.File -> PDFAnalyzer.AnalysisResult -> Py.result BatchProcessor.FixResult)
      (l : BatchProcessor.Locals) (s : BatchProcessor.self) :
  exists l',
    BatchProcessor.auto_fix_block env file_id file_path fix_pdf l s = (Py.Ok l', s) /\
    BatchProcessor.result (BatchProcessor.res l')
    = BatchProcessor.result (BatchProcessor.res l).
Proof.
  destruct (BatchProcessor.auto_fix_block env file_id file_path fix_pdf l s) as [r s'] eqn:E.
  pose proof (quiet_auto_fix_block _ _ _ _ _ _ _ _ E) as ->.
  unfold BatchProcessor.auto_fix_block in E.
  destruct (BatchProcessor.update_progress env file_id _ 50 s) as [[u|e] s1];
    [|inversion E; eauto].
  destruct (fix_pdf file_path _) as [fix_result|e]; [|inversion E; eauto].
  destruct (BatchProcessor.fixed fix_result) as [fx|]; [|inversion E; eauto].
  destruct (BatchProcessor.create_comparison_report _); [|inversion E; eauto].
  destruct (BatchProcessor.update_progress env file_id _ 55 s1) as [[u2|e] s2];
    [|inversion E; eauto].
  destruct (PDFAnalyzer.analyze _ _ _ _ _ _). inversion E; eauto.
Qed.

(** The save to the data manager never raises. *)
Lemma save_block_returns (env : BatchProcessor.Env) (file_id : string)
      (p : BatchProcessor.Processed) (s : BatchProcessor.self) :
  BatchProcessor.save_block env file_id p s = (Py.Ok tt, s).
Proof.
  destruct (BatchProcessor.save_block env file_id p s) as [r s'] eqn:E.
  pose proof (quiet_save_block _ _ _ _ _ _ E) as ->.
  unfold BatchProcessor.save_block in E.
  destruct (BatchProcessor.data_manager env) as [save|]; [|inversion E; reflexivity].
  unfold Stmt.try_except, Stmt.bindM, Stmt.lift, Stmt.ret in E.
  destruct (BatchProcessor.update_progress env file_id _ 65 s) as [[[]|e] s1];
    [destruct (save p) as [[]|e]|]; inversion E; reflexivity.
Qed.

(** X17 (batch_processor.py, [_process_single_file] with the auto-fix and
    the data-manager steps): with notifications switched off, when the
    analysis of a file succeeds, the reports are written and the progress
    callback returns, the file is reported as complete with the analysis of
    the original file, and counted as processed and not as an error,
    whatever the fixer and the data manager do, including raising. *)
Theorem fixer_and_store_failures_do_not_fail_the_file
        (env : BatchProcessor.Env) (file_id : string) (file_info : BatchProcessor.FileInfo)
        (worker_id : nat) (s : BatchProcessor.self) (r : PDFAnalyzer.AnalysisResult) :
  progress_returns env ->
  BatchProcessor.notifier_on env = None ->
  (forall p fmt, exists paths, BatchProcessor.generate_reports env p fmt = Py.Ok paths) ->
  fst (PDFAnalyzer.analyze (BatchProcessor.cfg env) (BatchProcessor.col env)
                           PrintQualityChecker.__init__ (BatchProcessor.path file_info)
                           (Some (DEFAULT_INK_ANALYSIS (BatchProcessor.cfg env)))
                           (DEFAULT_PREFLIGHT_PROFILE (BatchProcessor.cfg env)))
  = PDFAnalyzer.Analysis r ->
  exists s' res reports,
    BatchProcessor._process_single_file env file_id file_info worker_id s = (Py.Ok tt, s') /\
    BatchProcessor.result_queue s'
    = BatchProcessor.result_queue s
      ++ [BatchProcessor.Complete file_id (Pdf.file_name (BatchProcessor.path file_info))
            res reports worker_id
            (PDFAnalyzer.page_count (PDFAnalyzer.basic_info r))] /\
    BatchProcessor.result res = r /\
    BatchProcessor.processed_count s' = S (BatchProcessor.processed_count s) /\
    BatchProcessor.error_count s' = BatchProcessor.error_count s.
Proof.
  intros Hcb Hn Hrep Hr.
  unfold BatchProcessor._process_single_file, Stmt.try_except, BatchProcessor.process_body.
  rewrite (bindM_ok _ _ _ _ _ (call_progress_returns env _ s Hcb)).
  unfold BatchProcessor.update_progress.
  rewrite (bindM_ok _ _ _ _ _ (call_progress_returns env _ s Hcb)).
  destruct (PDFAnalyzer.analyze _ _ _ _ _ _) as [o analyzer1]. cbn [fst] in Hr. subst o.
  rewrite (bindM_ok _ _ _ _ _ (call_progress_returns env _ s Hcb)).
  match goal with
  | |- context [Stmt.bindM ?m ?k s] =>
      assert (Hfix : exists l, m s = (Py.Ok l, s) /\
                               BatchProcessor.result (BatchProcessor.res l) = r)
  end.
  { destruct (BatchProcessor._needs_auto_fix env r); [|eexists; split; reflexivity].
    rewrite (bindM_ok _ _ _ _ _ (call_progress_returns env _ s Hcb)).
    destruct (BatchProcessor.fixer env) as [fix_pdf|]; [|eexists; split; reflexivity].
    apply auto_fix_block_returns. }
  destruct Hfix as (l & Hfix & Hres).
  rewrite (bindM_ok _ _ _ _ _ Hfix).
  rewrite (bindM_ok _ _ _ _ _ (call_progress_returns env _ s Hcb)).
  rewrite (bindM_ok _ _ _ _ _ (save_block_returns env _ _ s)).
  rewrite (bindM_ok _ _ _ _ _ (call_progress_returns env _ s Hcb)).
  destruct (Hrep (BatchProcessor.res l) (DEFAULT_REPORT_FORMAT (BatchProcessor.cfg env)))
    as [paths Hpaths].
  rewrite Hpaths. unfold Stmt.lift at 1.
  rewrite (bindM_ok _ _ s s paths eq_refl).
  rewrite (bindM_ok _ _ _ _ _ (call_progress_returns env _ s Hcb)).
  rewrite (bindM_ok _ _ _ _ _ (call_progress_returns env _ s Hcb)).
  rewrite Hn.
  rewrite (bindM_ok _ _ s s tt eq_refl).
  unfold Stmt.bindM at 1. unfold BatchProcessor.put at 1.
  unfold Stmt.bindM at 1. unfold BatchProcessor.count_processed at 1.
  rewrite (call_progress_returns env _ _ Hcb).
  do 3 eexists. split; [reflexivity|].
  cbn [BatchProcessor.result_queue BatchProcessor.processed_count BatchProcessor.error_count].
  split; [now rewrite Hres|]. split; [exact Hres | split; reflexivity].
Qed.

(** At the sample processor whose fixer and data manager raise, on the
    sample file with a font that is not embedded. *)
Lemma fixer_and_store_failures_do_not_fail_the_file_witness :
  exists s' res reports,
    BatchProcessor._process_single_file Sample.env_broken "a"
                                        (Sample.job Sample.unembedded) 0 Sample.idle
    = (Py.Ok tt, s') /\
    exists n,
      BatchProcessor.result_queue s'
      = BatchProcessor.result_queue Sample.idle
        ++ [BatchProcessor.Complete "a" "plain.pdf" res reports 0 n].
Proof.
  assert (Hr : exists r,
             fst (PDFAnalyzer.analyze Sample.cfg Sample.col PrintQualityChecker.__init__
                                      Sample.unembedded (Some false) "offset")
             = PDFAnalyzer.Analysis r) by (eexists; vm_compute; reflexivity).
  destruct Hr as [r Hr].
  destruct (fixer_and_store_failures_do_not_fail_the_file
              Sample.env_broken "a" (Sample.job Sample.unembedded) 0 Sample.idle r)
    as (s' & res & reports & H1 & H2 & _).
  - intros cb p [= <-]. reflexivity.
  - reflexivity.
  - intros p fmt. eexists. reflexivity.
  - exact Hr.
  - exists s', res, reports. split; [exact H1|]. eexists. exact H2.
Defined.

(** X18 (batch_processor.py, [_complete_processing] after the loop of
    [_worker_thread]): on a processor that starts with an empty result queue
    and both counters at zero, after one worker has gone through a queue and
    the notification, if any, has returned, the last record of the result
    queue is the ['batch_complete'] record; its total is the size of
    [file_dict], its processed count the number of ['complete'] records
    before it, and its error count at least the number of ['error'] records
    before it (exactly that number when reporting an error does not fail). *)
Theorem batch_summary_counts_the_records
        (env : BatchProcessor.Env)
        (notify_batch_complete : nat -> nat -> nat -> nat -> Py.result unit)
        (file_dict : list (string * BatchProcessor.FileEntry)) (worker_id : nat)
        (file_queue : list (string * BatchProcessor.FileInfo)) (s : BatchProcessor.self) :
  BatchProcessor.result_queue s = [] ->
  BatchProcessor.processed_count s = 0%nat ->
  BatchProcessor.error_count s = 0%nat ->
  (forall nm a b c d, BatchProcessor.notifier_on env = Some nm ->
                      notify_batch_complete a b c d = Py.Ok tt) ->
  exists recs processed errors s',
    BatchProcessor._complete_processing env notify_batch_complete file_dict
      (BatchProcessor.worker_loop env worker_id file_queue s) = (Py.Ok tt, s') /\
    BatchProcessor.result_queue s'
    = recs ++ [BatchProcessor.BatchComplete (List.length file_dict) processed errors
                 (BatchProcessor.count_auto_fixed file_dict)] /\
    Forall (fun r => is_complete_record r || is_error_record r = true) recs /\
    processed = List.length (filter is_complete_record recs) /\
    (List.length (filter is_error_record recs) <= errors)%nat /\
    (error_report_returns env -> errors = List.length (filter is_error_record recs)) /\
    (List.length file_queue <= processed + errors)%nat.
Proof.
  intros Hq Hp He Hn.
  destruct (worker_loop_counted env worker_id file_queue s)
    as (recs & C1 & C2 & C3 & C4 & C5 & C6 & _).
  set (s1 := BatchProcessor.worker_loop env worker_id file_queue s) in *.
  rewrite Hq in C1. rewrite Hp in C3, C6. rewrite He in C4, C5, C6. cbn [app Nat.add] in *.
  exists recs, (BatchProcessor.processed_count s1), (BatchProcessor.error_count s1).
  unfold BatchProcessor._complete_processing.
  assert (N : forall s0 : BatchProcessor.self,
             match BatchProcessor.notifier_on env with
             | Some _ =>
                 Stmt.lift (notify_batch_complete (List.length file_dict)
                              (BatchProcessor.processed_count s1)
                              (BatchProcessor.error_count s1)
                              (BatchProcessor.count_auto_fixed file_dict))
             | None => Stmt.ret tt
             end s0 = (Py.Ok tt, s0)).
  { intro s0. destruct (BatchProcessor.notifier_on env) as [nm|] eqn:En; [|reflexivity].
    unfold Stmt.lift. now rewrite (Hn nm _ _ _ _ eq_refl). }
  unfold Stmt.bindM. rewrite N. unfold BatchProcessor.put.
  eexists. split; [reflexivity|]. cbn [BatchProcessor.result_queue]. rewrite C1.
  repeat split; auto; lia.
Qed.

(** At the sample processor, with one unreadable and one readable file. *)
Lemma batch_summary_counts_the_records_witness :
  exists recs processed errors s',
    BatchProcessor._complete_processing Sample.env (fun _ _ _ _ => Py.Ok tt)
      [("a", Sample.entry Sample.unreadable "waiting" false);
       ("b", Sample.entry Sample.one_page "waiting" false)]
      (BatchProcessor.worker_loop Sample.env 0
         [("a", Sample.job Sample.unreadable); ("b", Sample.job Sample.one_page)]
         Sample.idle) = (Py.Ok tt, s') /\
    BatchProcessor.result_queue s'
    = recs ++ [BatchProcessor.BatchComplete 2 processed errors 0] /\
    processed = List.length (filter is_complete_record recs).
Proof.
  destruct (batch_summary_counts_the_records
              Sample.env (fun _ _ _ _ => Py.Ok tt)
              [("a", Sample.entry Sample.unreadable "waiting" false);
               ("b", Sample.entry Sample.one_page "waiting" false)]
              0
              [("a", Sample.job Sample.unreadable); ("b", Sample.job Sample.one_page)]
              Sample.idle eq_refl eq_refl eq_refl (fun _ _ _ _ _ _ => eq_refl))
    as (recs & processed & errors & s' & H1 & H2 & _ & H4 & _).
  exists recs, processed, errors, s'. auto.
Defined.

Lemma count_status_cons (k : string) (e : BatchProcessor.FileEntry)
      (d : list (string * BatchProcessor.FileEntry)) (st : string) :
  BatchProcessor.count_status ((k, e) :: d) st
  = ((if String.eqb (BatchProcessor.status (BatchProcessor.entry_info e)) st then 1 else 0)
     + BatchProcessor.count_status d st)%nat.
Proof.
  unfold BatchProcessor.count_status. cbn [filter snd].
  destruct (String.eqb _ st); reflexivity.
Qed.

Lemma status_counts (d : list (string * BatchProcessor.FileEntry)) :
  (BatchProcessor.count_status d "complete" + BatchProcessor.count_status d "error"
   + BatchProcessor.count_status d "processing" + BatchProcessor.count_status d "waiting"
   + List.length (filter (fun f => negb (known_status
                                           (BatchProcessor.status
                                              (BatchProcessor.entry_info (snd f))))) d))%nat
  = List.length d.
Proof.
  induction d as [|[k e] d IH]; [reflexivity|].
  rewrite !count_status_cons. cbn [filter snd].
  generalize (BatchProcessor.status (BatchProcessor.entry_info e)). intros st.
  assert (Hk : known_status st
               = String.eqb st "complete" || String.eqb st "error"
                 || String.eqb st "processing" || String.eqb st "waiting").
  { unfold known_status, Py.mem_str. cbn [existsb]. now rewrite orb_false_r, !orb_assoc. }
  rewrite Hk.
  destruct (String.eqb st "complete") eqn:E1; destruct (String.eqb st "error") eqn:E2;
    destruct (String.eqb st "processing") eqn:E3; destruct (String.eqb st "waiting") eqn:E4;
    cbn [orb negb List.length];
    try lia;
    exfalso;
    repeat match goal with
           | H : String.eqb st _ = true |- _ => apply String.eqb_eq in H
           end;
    congruence.
Qed.

(** X19 (batch_processor.py, [get_statistics]): the four status counts
    never add up to more than the total, and add up to it exactly when every
    file has one of the four statuses; the number of fixed files is at most
    the total; the progress is between 0 and 100, and is 0, not a division
    error, when there is no file. *)
Theorem statistics_partition_the_files (file_dict : list (string * BatchProcessor.FileEntry)) :
  let st := BatchProcessor.get_statistics file_dict in
  (BatchProcessor.st_completed st + BatchProcessor.st_errors st
   + BatchProcessor.st_processing st + BatchProcessor.st_waiting st
   <= BatchProcessor.st_total st)%nat /\
  ((BatchProcessor.st_completed st + BatchProcessor.st_errors st
    + BatchProcessor.st_processing st + BatchProcessor.st_waiting st)%nat
   = BatchProcessor.st_total st <->
   forall f, In f file_dict ->
             known_status (BatchProcessor.status (BatchProcessor.entry_info (snd f))) = true) /\
  (BatchProcessor.st_auto_fixed st <= BatchProcessor.st_total st)%nat /\
  0 <= BatchProcessor.progress_percent st /\
  BatchProcessor.progress_percent st <= 100 /\
  (file_dict = [] -> BatchProcessor.progress_percent st = 0).
Proof.
  cbv zeta. unfold BatchProcessor.get_statistics.
  cbn [BatchProcessor.st_completed BatchProcessor.st_errors BatchProcessor.st_processing
       BatchProcessor.st_waiting BatchProcessor.st_total BatchProcessor.st_auto_fixed
       BatchProcessor.progress_percent].
  pose proof (status_counts file_dict) as Hsum.
  set (other := filter (fun f => negb (known_status
                                         (BatchProcessor.status
                                            (BatchProcessor.entry_info (snd f)))))
                       file_dict) in *.
  split; [lia|]. split.
  - split.
    + intros Heq f Hf.
      destruct (known_status _) eqn:Ek; [reflexivity|]. exfalso.
      assert (Hin : In f other) by (apply filter_In; split; [exact Hf | now rewrite Ek]).
      destruct other; [contradiction | cbn [List.length] in Hsum; lia].
    + intros Hall. assert (Ho : other = []).
      { destruct other as [|f o] eqn:Eo; [reflexivity|]. exfalso.
        assert (Hin : In f other) by (rewrite Eo; now left).
        unfold other in Hin. apply filter_In in Hin. destruct Hin as [Hf Hk].
        rewrite (Hall f Hf) in Hk. discriminate. }
      rewrite Ho in Hsum. cbn [List.length] in Hsum. lia.
  - split; [unfold BatchProcessor.count_auto_fixed; apply filter_length_le|].
    assert (Hc : (BatchProcessor.count_status file_dict "complete"
                  <= List.length file_dict)%nat) by lia.
    destruct (0 <? List.length file_dict)%nat eqn:Epos.
    + apply Nat.ltb_lt in Epos.
      set (c := BatchProcessor.count_status file_dict "complete") in *.
      set (t := List.length file_dict) in *.
      assert (Ht : 0 < inject_Z (Z.of_nat t)).
      { rewrite <- (Zlt_Qlt 0). lia. }
      assert (Hc0 : 0 <= inject_Z (Z.of_nat c)).
      { rewrite <- (Zle_Qle 0). lia. }
      assert (Hct : inject_Z (Z.of_nat c) <= inject_Z (Z.of_nat t)).
      { rewrite <- Zle_Qle. lia. }
      split; [|split].
      * apply Qmult_le_0_compat; [|discriminate].
        apply Qle_shift_div_l; [exact Ht|]. now rewrite Qmult_0_l.
      * setoid_replace 100 with (1 * 100) at 2 by reflexivity.
        apply Qmult_le_compat_r; [|discriminate].
        apply Qle_shift_div_r; [exact Ht|]. now rewrite Qmult_1_l.
      * intros Hnil. exfalso. unfold t in Epos. rewrite Hnil in Epos.
        cbn [List.length] in Epos. lia.
    + split; [apply Qle_refl|]. split; [discriminate | reflexivity].
Qed.

(** ** The report generator *)

(** [sorted] with a key: a rearrangement in the order of the key. *)
Lemma insert_by_perm {A} (key : A -> nat) (x : A) (l : list A) :
  Permutation (Py.insert_by key x l) (x :: l).
Proof.
  induction l as [|y l IH]; cbn [Py.insert_by]; [reflexivity|].
  destruct (key x <=? key y)%nat; [reflexivity|].
  rewrite IH. apply perm_swap.
Qed.

Lemma sorted_by_perm {A} (key : A -> nat) (l : list A) :
  Permutation (Py.sorted_by key l) l.
Proof.
  unfold Py.sorted_by. induction l as [|x l IH]; cbn [fold_right]; [reflexivity|].
  rewrite insert_by_perm. now constructor.
Qed.

Lemma insert_by_sorted {A} (key : A -> nat) (x : A) (l : list A) :
  StronglySorted (fun a b => (key a <= key b)%nat) l ->
  StronglySorted (fun a b => (key a <= key b)%nat) (Py.insert_by key x l).
Proof.
  induction 1 as [|y l Hl IH Hy]; cbn [Py.insert_by]; [repeat constructor|].
  destruct (key x <=? key y)%nat eqn:E.
  - apply Nat.leb_le in E. constructor; [now constructor|].
    constructor; [exact E|]. rewrite Forall_forall in *. intros z Hz.
    specialize (Hy z Hz). lia.
  - apply Nat.leb_gt in E. constructor; [exact IH|].
    rewrite Forall_forall in *. intros z Hz.
    apply (Permutation_in _ (insert_by_perm key x l)) in Hz.
    destruct Hz as [<- | Hz]; [lia | now apply Hy].
Qed.

Lemma sorted_by_sorted {A} (key : A -> nat) (l : list A) :
  StronglySorted (fun a b => (key a <= key b)%nat) (Py.sorted_by key l).
Proof.
  unfold Py.sorted_by. induction l as [|x l IH]; cbn [fold_right];
    [constructor | now apply insert_by_sorted].
Qed.

Lemma insert_by_desc_perm {A} (key : A -> nat) (x : A) (l : list A) :
  Permutation (Py.insert_by_desc key x l) (x :: l).
Proof.
  induction l as [|y l IH]; cbn [Py.insert_by_desc]; [reflexivity|].
  destruct (key y <=? key x)%nat; [reflexivity|].
  rewrite IH. apply perm_swap.
Qed.

Lemma sorted_by_desc_perm {A} (key : A -> nat) (l : list A) :
  Permutation (Py.sorted_by_desc key l) l.
Proof.
  unfold Py.sorted_by_desc. induction l as [|x l IH]; cbn [fold_right]; [reflexivity|].
  rewrite insert_by_desc_perm. now constructor.
Qed.

Lemma insert_by_desc_sorted {A} (key : A -> nat) (x : A) (l : list A) :
  StronglySorted (fun a b => (key b <= key a)%nat) l ->
  StronglySorted (fun a b => (key b <= key a)%nat) (Py.insert_by_desc key x l).
Proof.
  induction 1 as [|y l Hl IH Hy]; cbn [Py.insert_by_desc]; [repeat constructor|].
  destruct (key y <=? key x)%nat eqn:E.
  - apply Nat.leb_le in E. constructor; [now constructor|].
    constructor; [exact E|]. rewrite Forall_forall in *. intros z Hz.
    specialize (Hy z Hz). lia.
  - apply Nat.leb_gt in E. constructor; [exact IH|].
    rewrite Forall_forall in *. intros z Hz.
    apply (Permutation_in _ (insert_by_desc_perm key x l)) in Hz.
    destruct Hz as [<- | Hz]; [lia | now apply Hy].
Qed.

Lemma sorted_by_desc_sorted {A} (key : A -> nat) (l : list A) :
  StronglySorted (fun a b => (key b <= key a)%nat) (Py.sorted_by_desc key l).
Proof.
  unfold Py.sorted_by_desc. induction l as [|x l IH]; cbn [fold_right];
    [constructor | now apply insert_by_desc_sorted].
Qed.

Lemma filter_none {A} (f : A -> bool) (l : list A) :
  (forall x, In x l -> f x = false) -> filter f l = [].
Proof.
  induction l as [|a l IH]; intros H; cbn [filter]; [reflexivity|].
  rewrite (H a (or_introl eq_refl)). apply IH. intros x Hx. apply H. now right.
Qed.

(** Grouping by type: the dict after the loop over [done]. *)
Lemma of_type_snoc (t : string) (done : list Issue) (i : Issue) :
  of_type t (done ++ [i])
  = of_type t done ++ (if String.eqb (itype i) t then [i] else []).
Proof. unfold of_type. rewrite filter_app. reflexivity. Qed.

Lemma group_add_grouped (d : list (string * list Issue)) (done : list Issue) (i : Issue) :
  NoDup (map fst d) ->
  (forall t g, In (t, g) d -> g = of_type t done /\ g <> []) ->
  (forall j, In j done -> In (itype j) (map fst d)) ->
  let d' := ReportGenerator.group_add d i in
  NoDup (map fst d') /\
  (forall t g, In (t, g) d' -> g = of_type t (done ++ [i]) /\ g <> []) /\
  (forall j, In j (done ++ [i]) -> In (itype j) (map fst d')).
Proof.
  intros Hnd Hg Hc. cbv zeta. unfold ReportGenerator.group_add.
  set (old := match dict_get String.eqb d (itype i) with Some l => l | None => [] end).
  assert (Hold : old = of_type (itype i) done).
  { unfold old. destruct (dict_get String.eqb d (itype i)) as [l|] eqn:Eg.
    - apply (dict_get_in String.eqb string_eqb_eq) in Eg. now apply Hg.
    - apply (dict_get_none String.eqb string_eqb_eq) in Eg.
      unfold of_type. symmetry. apply filter_none.
      intros j Hj. destruct (String.eqb (itype j) (itype i)) eqn:E; [|reflexivity].
      apply String.eqb_eq in E. exfalso. apply Eg. rewrite <- E. now apply Hc. }
  split; [now apply (dict_set_keys_nodup String.eqb string_eqb_eq)|]. split.
  - intros t g Hin.
    apply (dict_set_entries String.eqb string_eqb_eq) in Hin; [|exact Hnd].
    rewrite of_type_snoc. destruct Hin as [[-> ->] | [Hne Hin]].
    + rewrite String.eqb_refl, Hold. split; [reflexivity|].
      intros H. now apply app_eq_nil in H as [_ [=]].
    + destruct (String.eqb (itype i) t) eqn:E;
        [apply String.eqb_eq in E; congruence|].
      rewrite app_nil_r. now apply Hg.
  - intros j Hj. apply in_map_iff. apply in_app_or in Hj.
    destruct Hj as [Hj | [<- | []]].
    + specialize (Hc j Hj). apply in_map_iff in Hc. destruct Hc as ([t g] & Ht & Hin).
      cbn [fst] in Ht. subst t.
      destruct (string_dec (itype j) (itype i)) as [E | Hne].
      * exists (itype i, old ++ [i]). split; [now rewrite E|].
        apply (dict_set_entries String.eqb string_eqb_eq); [exact Hnd | now left].
      * exists (itype j, g). split; [reflexivity|].
        apply (dict_set_entries String.eqb string_eqb_eq); [exact Hnd | now right].
    + exists (itype i, old ++ [i]). split; [reflexivity|].
      apply (dict_set_entries String.eqb string_eqb_eq); [exact Hnd | now left].
Qed.

Lemma group_fold_grouped (issues : list Issue) :
  forall d done,
    NoDup (map fst d) ->
    (forall t g, In (t, g) d -> g = of_type t done /\ g <> []) ->
    (forall j, In j done -> In (itype j) (map fst d)) ->
    let d' := fold_left ReportGenerator.group_add issues d in
    NoDup (map fst d') /\
    (forall t g, In (t, g) d' -> g = of_type t (done ++ issues) /\ g <> []) /\
    (forall j, In j (done ++ issues) -> In (itype j) (map fst d')).
Proof.
  induction issues as [|i issues IH]; intros d done Hnd Hg Hc; cbn [fold_left].
  - rewrite app_nil_r. auto.
  - destruct (group_add_grouped d done i Hnd Hg Hc) as (H1 & H2 & H3).
    specialize (IH _ (done ++ [i]) H1 H2 H3). cbv zeta in IH.
    rewrite <- app_assoc in IH. exact IH.
Qed.

(** The findings are the groups of their types put together. *)
Lemma of_type_other (k : string) (l : list Issue) (t : string) :
  t <> k -> of_type t (filter (fun i => negb (String.eqb (itype i) k)) l) = of_type t l.
Proof.
  intros Hne. unfold of_type. induction l as [|i l IH]; [reflexivity|].
  cbn [filter]. destruct (String.eqb (itype i) k) eqn:Ek; cbn [negb filter].
  - apply String.eqb_eq in Ek.
    destruct (String.eqb (itype i) t) eqn:Et; [|exact IH].
    apply String.eqb_eq in Et. congruence.
  - destruct (String.eqb (itype i) t); [now rewrite IH | exact IH].
Qed.

Lemma split_by_type (k : string) (l : list Issue) :
  Permutation (of_type k l ++ filter (fun i => negb (String.eqb (itype i) k)) l) l.
Proof.
  unfold of_type. induction l as [|i l IH]; [reflexivity|].
  cbn [filter]. destruct (String.eqb (itype i) k); cbn [negb app].
  - now constructor.
  - rewrite <- Permutation_middle. now constructor.
Qed.

Lemma types_rearrange (ks : list string) :
  forall l, NoDup ks -> (forall i, In i l -> In (itype i) ks) ->
            Permutation (flat_map (fun k => of_type k l) ks) l.
Proof.
  induction ks as [|k ks IH]; intros l Hnd Hall.
  - destruct l as [|i l]; [reflexivity | destruct (Hall i (or_introl eq_refl))].
  - inversion Hnd as [|? ? Hk Hnd']; subst. cbn [flat_map].
    set (rest := filter (fun i => negb (String.eqb (itype i) k)) l).
    apply Permutation_trans with (l' := of_type k l ++ rest); [|apply split_by_type].
    apply Permutation_app_head.
    assert (E : flat_map (fun k0 => of_type k0 l) ks
                = flat_map (fun k0 => of_type k0 rest) ks).
    { rewrite !flat_map_concat_map. f_equal.
      apply map_ext_in. intros t Ht. symmetry. apply of_type_other.
      intros ->. contradiction. }
    rewrite E. apply IH; [exact Hnd'|].
    intros i Hi. unfold rest in Hi. apply filter_In in Hi. destruct Hi as [Hi Hne].
    destruct (Hall i Hi) as [E0 | H]; [|exact H].
    cbv beta in Hne. rewrite <- E0, String.eqb_refl in Hne. discriminate.
Qed.

(** X20 (report_generator.py, [group_issues_by_type]): grouping loses and
    invents nothing: every type is a key once; the group of a type holds all
    findings of that type, in their order, and is never empty; the groups
    put together are the findings rearranged; and the groups come in the
    order of the display priority of their types, unlisted types last. *)
Theorem grouping_loses_no_finding (issues : list Issue) :
  let groups := ReportGenerator.group_issues_by_type issues in
  NoDup (map fst groups) /\
  (forall t g, In (t, g) groups -> g = of_type t issues /\ g <> []) /\
  (forall i, In i issues -> In (itype i) (map fst groups)) /\
  Permutation (flat_map snd groups) issues /\
  StronglySorted (fun a b => (priority_of (fst a) <= priority_of (fst b))%nat) groups.
Proof.
  cbv zeta. unfold ReportGenerator.group_issues_by_type.
  destruct (group_fold_grouped issues [] [] (NoDup_nil _)) as (H1 & H2 & H3);
    [intros t g [] | intros j [] |].
  cbv zeta in *. cbn [app] in H2, H3.
  set (d := fold_left ReportGenerator.group_add issues []) in *.
  pose proof (sorted_by_perm (fun x => Py.get ReportGenerator.type_priority (fst x) 999%nat) d)
    as Hperm.
  set (groups := Py.sorted_by _ d) in *.
  assert (Hd : Permutation (flat_map snd d) issues).
  { assert (E : flat_map snd d = flat_map (fun k => of_type k issues) (map fst d)).
    { rewrite flat_map_concat_map, flat_map_concat_map, map_map. f_equal.
      apply map_ext_in. intros [t g] Hin. cbn [fst snd]. now apply H2. }
    rewrite E. now apply types_rearrange. }
  split; [apply (Permutation_NoDup (l := map fst d));
          [now apply Permutation_map, Permutation_sym | exact H1]|].
  split; [intros t g Hin; apply H2; now apply (Permutation_in _ Hperm)|].
  split; [intros i Hi; apply (Permutation_in (l := map fst d));
          [now apply Permutation_map, Permutation_sym | now apply H3]|].
  split; [rewrite (Permutation_flat_map snd Hperm); exact Hd|].
  apply sorted_by_sorted.
Qed.

Lemma sorted_snoc {A} (R : A -> A -> Prop) (l : list A) (a : A) :
  StronglySorted R l -> Forall (fun x => R x a) l -> StronglySorted R (l ++ [a]).
Proof.
  induction 1 as [|x l Hl IH Hx]; intros Ha; cbn [app]; [repeat constructor|].
  inversion Ha as [|? ? Hxa Hla]; subst.
  constructor; [now apply IH|]. apply Forall_app. split; [exact Hx | now constructor].
Qed.

(** The loop of [format_page_list] that turns pages into ranges. *)
Lemma ranges_fold (rest : list nat) :
  forall ranges start end_,
    (start <= end_)%nat ->
    StronglySorted Nat.lt (end_ :: rest) ->
    Forall (fun r => (fst r <= snd r)%nat /\ apart r (start, end_)) ranges ->
    StronglySorted apart ranges ->
    let st := fold_left ReportGenerator.ranges_step rest (ranges, start, end_) in
    let final := fst (fst st) ++ [(snd (fst st), snd st)] in
    flat_map expand final
    = flat_map expand ranges ++ seq start (end_ - start + 1) ++ rest /\
    Forall (fun r => (fst r <= snd r)%nat) final /\
    StronglySorted apart final.
Proof.
  induction rest as [|p rest IH]; intros ranges start end_ Hse Hsorted Hr Hs;
    cbn [fold_left].
  - cbn [fst snd]. rewrite flat_map_app. cbn [flat_map]. unfold expand at 2. cbn [fst snd].
    rewrite !app_nil_r. split; [reflexivity|]. split.
    + apply Forall_app. split; [|constructor; [exact Hse | constructor]].
      eapply Forall_impl; [|exact Hr]. now intros r [H _].
    + apply sorted_snoc; [exact Hs|]. eapply Forall_impl; [|exact Hr]. now intros r [_ H].
  - inversion Hsorted as [|? ? Hrest Hlt]; subst.
    inversion Hlt as [|? ? Hep Hlt']; subst.
    assert (Estep : ReportGenerator.ranges_step (ranges, start, end_) p
                    = if (p =? end_ + 1)%nat then (ranges, start, p)
                      else (ranges ++ [(start, end_)], p, p)) by reflexivity.
    rewrite Estep. clear Estep.
    destruct (p =? end_ + 1)%nat eqn:E.
    + apply Nat.eqb_eq in E.
      destruct (IH ranges start p) as (I1 & I2 & I3); try assumption; [lia|].
      cbv zeta in *. rewrite I1. split; [|split; assumption].
      f_equal. replace (p - start + 1)%nat with (S (end_ - start + 1)) by lia.
      rewrite seq_S, <- app_assoc. cbn [app]. do 2 f_equal. lia.
    + apply Nat.eqb_neq in E.
      destruct (IH (ranges ++ [(start, end_)]) p p) as (I1 & I2 & I3);
        try assumption; [lia | | |].
      { apply Forall_app. split.
        - eapply Forall_impl; [|exact Hr]. unfold apart. cbn [fst snd].
          intros r [H1 H2]. split; [exact H1 | lia].
        - constructor; [|constructor]. unfold apart. cbn [fst snd]. lia. }
      { apply sorted_snoc; [exact Hs|]. eapply Forall_impl; [|exact Hr].
        now intros r [_ H]. }
      cbv zeta in *. rewrite I1. split; [|split; assumption].
      rewrite flat_map_app, <- app_assoc. cbn [flat_map]. unfold expand at 2.
      cbn [fst snd]. rewrite app_nil_r. do 2 f_equal.
      replace (p - p + 1)%nat with 1%nat by lia. reflexivity.
Qed.

(** X21 (report_generator.py, [format_page_list], the loop over
    [sorted(set(pages))]): the ranges that are printed stand for exactly the
    pages, in order: expanding each range to its pages gives the sorted
    pages back; no range is empty; and between two ranges at least one page
    is missing, so that no range could have been longer. *)
Theorem page_ranges_cover_the_pages (pages : list nat) :
  let sorted := Py.sorted_set pages in
  let ranges := ReportGenerator.page_ranges sorted in
  flat_map expand ranges = sorted /\
  Forall (fun r => (fst r <= snd r)%nat) ranges /\
  StronglySorted apart ranges.
Proof.
  cbv zeta. pose proof (sorted_set_increasing pages) as Hs.
  destruct (Py.sorted_set pages) as [|first rest]; cbn [ReportGenerator.page_ranges].
  - repeat split; constructor.
  - destruct (ranges_fold rest [] first first (Nat.le_refl _) Hs (Forall_nil _)
                          (SSorted_nil _)) as (H1 & H2 & H3).
    cbv zeta in *.
    destruct (fold_left ReportGenerator.ranges_step rest ([], first, first))
      as [[ranges start] end_].
    cbn [fst snd flat_map app] in *. split; [|split; assumption].
    rewrite H1. replace (first - first + 1)%nat with 1%nat by lia. reflexivity.
Qed.

(** Counting by type is grouping by type and taking the sizes. *)
Lemma dict_get_map_length (d : list (string * list Issue)) (k : string) :
  dict_get String.eqb (map (fun tg => (fst tg, List.length (snd tg))) d) k
  = option_map (@List.length Issue) (dict_get String.eqb d k).
Proof.
  induction d as [|[t g] d IH]; cbn [map dict_get fst snd]; [reflexivity|].
  destruct (String.eqb t k); [reflexivity | exact IH].
Qed.

Lemma dict_set_map_length (d : list (string * list Issue)) (k : string) (g : list Issue) :
  dict_set String.eqb (map (fun tg => (fst tg, List.length (snd tg))) d) k (List.length g)
  = map (fun tg => (fst tg, List.length (snd tg))) (dict_set String.eqb d k g).
Proof.
  induction d as [|[t g0] d IH]; cbn [map dict_set fst snd]; [reflexivity|].
  destruct (String.eqb t k); cbn [map fst snd]; [reflexivity | now rewrite IH].
Qed.

Lemma count_fold_is_group_fold (l : list Issue) :
  forall d,
    fold_left ReportGenerator.count_type l
              (map (fun tg => (fst tg, List.length (snd tg))) d)
    = map (fun tg => (fst tg, List.length (snd tg)))
          (fold_left ReportGenerator.group_add l d).
Proof.
  induction l as [|e l IH]; intros d; cbn [fold_left]; [reflexivity|].
  rewrite <- IH. f_equal.
  unfold ReportGenerator.count_type, ReportGenerator.group_add.
  rewrite dict_get_map_length, <- dict_set_map_length. f_equal.
  destruct (dict_get String.eqb d (itype e)); cbn [option_map];
    rewrite length_app; cbn [List.length]; lia.
Qed.

Lemma firstn_incl {A} (n : nat) (l : list A) (a : A) : In a (firstn n l) -> In a l.
Proof.
  intros H. rewrite <- (firstn_skipn n l). apply in_or_app. now left.
Qed.

Lemma sorted_app {A} (R : A -> A -> Prop) (l1 l2 : list A) :
  StronglySorted R (l1 ++ l2) ->
  StronglySorted R l1 /\ forall a b, In a l1 -> In b l2 -> R a b.
Proof.
  induction l1 as [|x l1 IH]; cbn [app]; intros H.
  - split; [constructor | intros a b []].
  - inversion H as [|? ? Hs Hx]; subst. destruct (IH Hs) as [I1 I2].
    apply Forall_app in Hx. destruct Hx as [Hx1 Hx2]. split.
    + now constructor.
    + intros a b [<- | Ha] Hb; [|now apply I2].
      rewrite Forall_forall in Hx2. now apply Hx2.
Qed.

(** X22 (report_generator.py, [get_error_summary]): the summary has one
    line for each of at most three error types, each with the number of
    findings of severity error that have this type; findings of other
    severities do not count; the types are distinct and come with
    decreasing numbers; and a type that is left out occurs no more often
    than any type shown. *)
Theorem error_summary_names_the_most_frequent (issues : list Issue) :
  let top := ReportGenerator.top_error_types issues in
  let errors := filter ReportGenerator.is_error issues in
  List.length (ReportGenerator.get_error_summary issues) = List.length top /\
  (List.length top <= 3)%nat /\
  NoDup (map fst top) /\
  (forall t c, In (t, c) top -> c = List.length (of_type t errors) /\ (0 < c)%nat) /\
  StronglySorted (fun a b => (snd b <= snd a)%nat) top /\
  (forall i, In i errors ->
             In (itype i) (map fst top) \/
             (List.length top = 3%nat /\
              forall t c, In (t, c) top ->
                          (List.length (of_type (itype i) errors) <= c)%nat)).
Proof.
  cbv zeta. unfold ReportGenerator.get_error_summary. rewrite length_map.
  unfold ReportGenerator.top_error_types.
  set (errors := filter ReportGenerator.is_error issues).
  pose proof (count_fold_is_group_fold errors []) as Hc. cbn [map] in Hc. rewrite Hc.
  destruct (group_fold_grouped errors [] [] (NoDup_nil _)) as (G1 & G2 & G3);
    [intros t g [] | intros j [] |].
  cbv zeta in *. cbn [app] in G2, G3.
  set (d := fold_left ReportGenerator.group_add errors []) in *.
  set (counts := map (fun tg => (fst tg, List.length (snd tg))) d).
  pose proof (sorted_by_desc_perm snd counts) as Hperm.
  pose proof (sorted_by_desc_sorted snd counts) as Hsorted.
  set (sorted := Py.sorted_by_desc snd counts) in *.
  assert (Hkeys : map fst counts = map fst d).
  { unfold counts. rewrite map_map. reflexivity. }
  assert (Hcount : forall t c, In (t, c) sorted ->
                               c = List.length (of_type t errors) /\ (0 < c)%nat).
  { intros t c Hin. apply (Permutation_in _ Hperm) in Hin.
    unfold counts in Hin. apply in_map_iff in Hin.
    destruct Hin as ([t0 g] & [= <- <-] & Hin). cbn [fst snd].
    destruct (G2 _ _ Hin) as [-> Hne]. split; [reflexivity|].
    destruct (of_type t0 errors); [congruence | cbn [List.length]; lia]. }
  assert (Hnd : NoDup (map fst sorted)).
  { apply (Permutation_NoDup (l := map fst counts));
      [now apply Permutation_map, Permutation_sym | now rewrite Hkeys]. }
  rewrite <- (firstn_skipn 3 sorted) in Hsorted, Hnd.
  apply sorted_app in Hsorted. destruct Hsorted as [Hs1 Hs2].
  rewrite map_app in Hnd.
  split; [reflexivity|]. split; [apply firstn_le_length|].
  split; [exact (NoDup_app_remove_r _ _ Hnd)|].
  split; [intros t c Hin; apply Hcount; now apply firstn_incl in Hin|].
  split; [exact Hs1|].
  intros i Hi.
  assert (Hin : In (itype i, List.length (of_type (itype i) errors)) sorted).
  { apply (Permutation_in _ (Permutation_sym Hperm)).
    specialize (G3 i Hi). apply in_map_iff in G3. destruct G3 as ([t g] & Ht & Hin).
    cbn [fst] in Ht. subst t. unfold counts. apply in_map_iff.
    exists (itype i, g). split; [|exact Hin]. cbn [fst snd].
    now rewrite (proj1 (G2 _ _ Hin)). }
  rewrite <- (firstn_skipn 3 sorted) in Hin. apply in_app_or in Hin.
  destruct Hin as [Hin | Hin].
  - left. apply in_map_iff. now exists (itype i, List.length (of_type (itype i) errors)).
  - right. split.
    + apply firstn_length_le.
      destruct (Nat.le_gt_cases 3 (List.length sorted)) as [H | H]; [exact H|].
      rewrite skipn_all2 in Hin by lia. contradiction.
    + intros t c Ht. exact (Hs2 _ _ Ht Hin).
Qed.

(** X23 (report_generator.py, [generate_reports]): with a format other
    than text, html or both, no report is written and the empty dict is
    returned without an error; otherwise every path returned is the path
    that the writer of its key has returned, under the keys text and html
    only, each key at most once; and with both formats a failure of the
    text report leaves the html report unwritten. *)
Theorem reports_follow_the_format {A} (save_text_report save_html_report : A -> Py.result string)
        (analysis_result : A) (format_type : string) :
  let run := ReportGenerator.generate_reports save_text_report save_html_report
                                              analysis_result format_type in
  (format_type <> "text" -> format_type <> "html" -> format_type <> "both" ->
   run = Py.Ok []) /\
  (forall paths,
      run = Py.Ok paths ->
      NoDup (map fst paths) /\
      forall k p, In (k, p) paths ->
                  (k = "text" /\ (format_type = "text" \/ format_type = "both") /\
                   save_text_report analysis_result = Py.Ok p) \/
                  (k = "html" /\ (format_type = "html" \/ format_type = "both") /\
                   save_html_report analysis_result = Py.Ok p)) /\
  (forall e, format_type = "both" -> save_text_report analysis_result = Py.Raise e ->
             run = Py.Raise e).
Proof.
  cbv zeta. unfold ReportGenerator.generate_reports, Py.mem_str. cbn [existsb].
  rewrite !orb_false_r.
  destruct (String.eqb_spec format_type "text") as [Et|Et];
    destruct (String.eqb_spec format_type "html") as [Eh|Eh];
    destruct (String.eqb_spec format_type "both") as [Eb|Eb];
    try congruence; cbn [orb];
    destruct (save_text_report analysis_result) as [tp|te];
    destruct (save_html_report analysis_result) as [hp|he];
    cbn [Py.bind dict_set String.eqb Ascii.eqb Bool.eqb];
    (split; [intros; congruence|]);
    (split; [|intros; congruence]);
    intros paths [= <-]; cbn [map fst In];
    (split; [repeat constructor; cbn [In]; intuition discriminate|]);
    intros k p Hin; cbn [In] in Hin;
    repeat match goal with
           | H : _ \/ _ |- _ => destruct H
           | H : (_, _) = (_, _) |- _ => injection H as <- <-
           | H : False |- _ => contradiction
           end; auto.
Qed.

(** ** The logger *)

(** The log level that the table gives to an exception type. *)
Lemma error_level (error_type : string) :
  UserFriendlyErrorHandler.log_level
    (Py.get UserFriendlyErrorHandler.ERROR_MESSAGES error_type
            UserFriendlyErrorHandler.default_message)
  = if logged_as_warning error_type then "WARNING" else "ERROR".
Proof.
  unfold UserFriendlyErrorHandler.ERROR_MESSAGES. cbn [Py.get].
  repeat match goal with
         | |- context [String.eqb ?k error_type] =>
             destruct (String.eqb_spec k error_type) as [<- | ?]; [reflexivity|]
         end.
  unfold logged_as_warning.
  destruct (String.eqb_spec error_type "KeyError") as [-> | ?]; [congruence|].
  destruct (String.eqb_spec error_type "ValueError") as [-> | ?]; [congruence|].
  reflexivity.
Qed.

Lemma error_unlisted (error_type : string) :
  ~ In error_type (map fst UserFriendlyErrorHandler.ERROR_MESSAGES) ->
  Py.get UserFriendlyErrorHandler.ERROR_MESSAGES error_type
         UserFriendlyErrorHandler.default_message
  = UserFriendlyErrorHandler.default_message.
Proof.
  unfold UserFriendlyErrorHandler.ERROR_MESSAGES. cbn [Py.get map fst In]. intros H.
  repeat match goal with
         | |- context [String.eqb ?k error_type] =>
             destruct (String.eqb_spec k error_type) as [E | ?]; [exfalso; tauto|]
         end.
  reflexivity.
Qed.

(** X24 (simple_logger.py, [UserFriendlyErrorHandler.handle_error] with
    [SimpleLogger.error] and [SimpleLogger.warning]): handling an exception
    changes exactly one counter of the logger: KeyError and ValueError are
    logged as warnings and leave no error entry; every other exception,
    listed in the table or not, is counted as an error and leaves one entry
    with its type and text, under the path when one is given;
      an exception type that the table does not list
    gets the general message; the file counters stay. *)
Theorem handled_errors_are_logged_by_level
        (e : Py.exn) (logger : SimpleLogger.self) (file_path : option string) :
  let user_message := fst (UserFriendlyErrorHandler.handle_error e logger file_path) in
  let after := snd (UserFriendlyErrorHandler.handle_error e logger file_path) in
  SimpleLogger.total_files after = SimpleLogger.total_files logger /\
  SimpleLogger.success_files after = SimpleLogger.success_files logger /\
  (if logged_as_warning (Py.exn_type e)
   then SimpleLogger.warnings_count after = S (SimpleLogger.warnings_count logger) /\
        SimpleLogger.error_files after = SimpleLogger.error_files logger /\
        SimpleLogger.errors after = SimpleLogger.errors logger
   else SimpleLogger.warnings_count after = SimpleLogger.warnings_count logger /\
        SimpleLogger.error_files after = S (SimpleLogger.error_files logger) /\
        SimpleLogger.errors after
        = SimpleLogger.errors logger
          ++ [{| SimpleLogger.ed_file := SimpleLogger.file_str file_path;
                 SimpleLogger.ed_message := user_message;
                 SimpleLogger.ed_error_type := Py.exn_type e;
                 SimpleLogger.ed_error_message := Py.exn_msg e |}]) /\
  (~ In (Py.exn_type e) (map fst UserFriendlyErrorHandler.ERROR_MESSAGES) ->
   logged_as_warning (Py.exn_type e) = false /\
   user_message
   = (UserFriendlyErrorHandler.message UserFriendlyErrorHandler.default_message
      ++ UserFriendlyErrorHandler.lf ++ "해결 방법: "
      ++ UserFriendlyErrorHandler.solution UserFriendlyErrorHandler.default_message)%string).
Proof.
  cbv zeta. unfold UserFriendlyErrorHandler.handle_error.
  pose proof (error_level (Py.exn_type e)) as Hl.
  split; [|split; [|split]].
  - rewrite Hl. destruct (logged_as_warning (Py.exn_type e)); reflexivity.
  - rewrite Hl. destruct (logged_as_warning (Py.exn_type e)); reflexivity.
  - rewrite Hl. destruct (logged_as_warning (Py.exn_type e)); cbn; auto.
  - intros Hn. rewrite (error_unlisted _ Hn) in *. cbn [UserFriendlyErrorHandler.log_level
      UserFriendlyErrorHandler.default_message] in Hl.
    split.
    + destruct (logged_as_warning (Py.exn_type e)); [discriminate Hl | reflexivity].
    + reflexivity.
Qed.

Lemma skipn_suffix {A} (n : nat) (l : list A) : exists before, l = before ++ skipn n l.
Proof. exists (firstn n l). symmetry. apply firstn_skipn. Qed.

(** X25 (simple_logger.py, [get_recent_errors]): the entries returned are
    always the end of the list of recorded errors; for a positive count
    they are the last [count] of them, or all when there are fewer; a count
    of 0 returns the whole list and not the empty one, since the slice
    [-0:] starts at the beginning. *)
Theorem recent_errors_are_the_last_ones (s : SimpleLogger.self) (count : Z) :
  (exists before,
      SimpleLogger.errors s = before ++ SimpleLogger.get_recent_errors s count) /\
  ((0 < count)%Z ->
   List.length (SimpleLogger.get_recent_errors s count)
   = Nat.min (Z.to_nat count) (List.length (SimpleLogger.errors s))) /\
  (count = 0%Z -> SimpleLogger.get_recent_errors s count = SimpleLogger.errors s) /\
  ((count < 0)%Z ->
   SimpleLogger.get_recent_errors s count = skipn (Z.to_nat (- count)) (SimpleLogger.errors s)).
Proof.
  unfold SimpleLogger.get_recent_errors, Py.last_slice.
  split; [destruct (0 <? count)%Z; apply skipn_suffix|].
  split; [|split].
  - intros H. apply Z.ltb_lt in H. rewrite H, length_skipn. lia.
  - intros ->. reflexivity.
  - intros H. assert (E : (0 <? count)%Z = false) by (apply Z.ltb_ge; lia).
    now rewrite E.
Qed.

(** ** Fonts, spot colours and repeated runs *)

Lemma font_key_eqb_eq (a b : string * nat) : PDFAnalyzer.font_key_eqb a b = true <-> a = b.
Proof.
  destruct a as [a1 a2], b as [b1 b2]. unfold PDFAnalyzer.font_key_eqb. cbn [fst snd].
  rewrite andb_true_iff, String.eqb_eq, Nat.eqb_eq. split; [intros [-> ->] | intros [= ->
    ->]]; auto.
Qed.

Lemma in_enumerate1_range {A} (l : list A) (n : nat) (a : A) :
  In (n, a) (enumerate1 l) -> (1 <= n <= List.length l)%nat.
Proof.
  unfold enumerate1. intros H. apply in_combine_l in H. apply in_seq in H. lia.
Qed.

(** What the font scan keeps true of its dict. *)
Lemma fonts_page_keyed (pages : nat) (acc : list ((string * nat) * FontInfo))
      (page_num : nat) (page : Pdf.Page) :
  (1 <= page_num <= pages)%nat ->
  NoDup (map fst acc) ->
  (forall name n fi, In ((name, n), fi) acc ->
                     font_name fi = name /\ font_page fi = n /\ (1 <= n <= pages)%nat) ->
  NoDup (map fst (PDFAnalyzer.fonts_page acc (page_num, page))) /\
  (forall name n fi, In ((name, n), fi) (PDFAnalyzer.fonts_page acc (page_num, page)) ->
                     font_name fi = name /\ font_page fi = n /\ (1 <= n <= pages)%nat).
Proof.
  intros Hn. unfold PDFAnalyzer.fonts_page.
  generalize (Pdf.fitz_fonts page) as fds. intros fds. revert acc.
  induction fds as [|fd fds IH]; intros acc Hnd Hall; cbn [fold_left]; [auto|].
  apply IH.
  - now apply (dict_set_keys_nodup PDFAnalyzer.font_key_eqb font_key_eqb_eq).
  - intros name n fi Hin.
    apply (dict_set_entries PDFAnalyzer.font_key_eqb font_key_eqb_eq) in Hin; [|exact Hnd].
    destruct Hin as [[[= -> ->] ->] | [_ Hin]]; [|now apply Hall].
    destruct (font_info_of_fields page_num page fd) as (_ & Hname & _).
    split; [exact Hname|]. split; [|exact Hn].
    unfold PDFAnalyzer.font_info_of.
    destruct (match Pdf.res_fonts page with Some _ => _ | None => _ end). reflexivity.
Qed.

(** X26 (pdf_analyzer.py, [_analyze_fonts]): the font dict has one record
    for each pair of font name and page: no key occurs twice, and the record
    under a key carries the name and the page of the key, a page of the
    document; when the file cannot be opened a second time the dict is
    empty, without an error. *)
Theorem font_records_sit_under_their_own_key (pdf_obj : Pdf.Document) (pdf_path : Pdf.File) :
  let fonts := PDFAnalyzer._analyze_fonts pdf_obj pdf_path in
  NoDup (map fst fonts) /\
  (forall name n fi,
      In ((name, n), fi) fonts ->
      font_name fi = name /\ font_page fi = n /\
      (1 <= n <= List.length (Pdf.doc_pages pdf_obj))%nat) /\
  (Pdf.readable pdf_path = None -> fonts = []).
Proof.
  cbv zeta. unfold PDFAnalyzer._analyze_fonts, Pdf.open.
  destruct (Pdf.readable pdf_path) as [doc|];
    [|split; [constructor | split; [intros ? ? ? [] | reflexivity]]].
  assert (H : forall l acc,
             (forall n page, In (n, page) l ->
                             (1 <= n <= List.length (Pdf.doc_pages pdf_obj))%nat) ->
             NoDup (map fst acc) ->
             (forall name n fi,
                 In ((name, n), fi) acc ->
                 font_name fi = name /\ font_page fi = n /\
                 (1 <= n <= List.length (Pdf.doc_pages pdf_obj))%nat) ->
             NoDup (map fst (fold_left PDFAnalyzer.fonts_page l acc)) /\
             (forall name n fi,
                 In ((name, n), fi) (fold_left PDFAnalyzer.fonts_page l acc) ->
                 font_name fi = name /\ font_page fi = n /\
                 (1 <= n <= List.length (Pdf.doc_pages pdf_obj))%nat)).
  { induction l as [|[n page] l IH]; intros acc Hl Hnd Hall; cbn [fold_left]; [auto|].
    destruct (fonts_page_keyed _ acc n page (Hl n page (or_introl eq_refl)) Hnd Hall)
      as [K1 K2].
    apply IH; auto. intros n0 page0 Hin. apply (Hl n0 page0). now right. }
  destruct (H (enumerate1 (Pdf.doc_pages pdf_obj)) []) as [H1 H2].
  - intros n page. apply in_enumerate1_range.
  - constructor.
  - intros ? ? ? [].
  - split; [exact H1|]. split; [exact H2 | discriminate].
Qed.

Lemma filter_map_length {A B} (f : B -> bool) (g : A -> B) (l : list A) :
  List.length (filter f (map g l)) = List.length (filter (fun x => f (g x)) l).
Proof.
  induction l as [|a l IH]; cbn [map filter]; [reflexivity|].
  destruct (f (g a)); cbn [List.length]; now rewrite IH.
Qed.

Lemma filter_ext_in_length {A} (f g : A -> bool) (l : list A) :
  (forall x, In x l -> f x = g x) ->
  List.length (filter f l) = List.length (filter g l).
Proof.
  induction l as [|a l IH]; intros H; cbn [filter]; [reflexivity|].
  rewrite (H a (or_introl eq_refl)).
  destruct (g a); cbn [List.length]; rewrite IH; auto; intros x Hx; apply H; now right.
Qed.

(** X27 (pdf_analyzer.py, [_analyze_colors] with check 4 of
    [_check_issues]): on the colours of the scan, the spot-colour finding
    is reported exactly when a spot-colour name was recorded; it is a
    warning with more than two names and informational otherwise; its pages
    are the pages of the recorded details, in increasing order; and its
    PANTONE count, which is computed from the names, is the number of
    details that carry the PANTONE mark. *)
Theorem spot_colour_finding_of_the_scan (pdf_obj : Pdf.Document) :
  let colors := PDFAnalyzer._analyze_colors pdf_obj in
  let finding :=
    {| itype := "spot_colors";
       severity := if (2 <? List.length (spot_color_names colors))%nat
                   then warning else info;
       affected_pages :=
         Some (Py.sorted_set (flat_map (fun d => spot_pages (snd d))
                                       (spot_color_details colors)));
       extra := SpotColors (spot_color_names colors)
                           (List.length (filter (fun d => is_pantone (snd d))
                                                (spot_color_details colors))) |} in
  (spot_color_names colors <> [] -> In finding (PDFAnalyzer.check_colors colors)) /\
  (spot_color_names colors = [] ->
   forall i, In i (PDFAnalyzer.check_colors colors) -> itype i <> "spot_colors") /\
  (forall i, In i (PDFAnalyzer.check_colors colors) -> itype i = "spot_colors" ->
             i = finding).
Proof.
  cbv zeta.
  destruct (colors_scan_in_step pdf_obj)
    as (Hk & Hn & Hd & Hf & _).
  set (colors := PDFAnalyzer._analyze_colors pdf_obj) in *.
  assert (Hp : List.length (filter (fun name => Py.contains "PANTONE" (Py.upper name))
                                   (spot_color_names colors))
               = List.length (filter (fun d => is_pantone (snd d))
                                     (spot_color_details colors))).
  { rewrite <- Hk, filter_map_length. apply filter_ext_in_length.
    intros [name d] Hin. cbn [fst snd]. symmetry. now apply (Hd name d). }
  unfold PDFAnalyzer.check_colors. rewrite Hp.
  destruct (spot_color_names colors) as [|n0 names] eqn:En.
  - split; [congruence|]. rewrite andb_false_r.
    split.
    + intros _ i Hin Ht. apply in_app_or in Hin. destruct Hin as [Hin | []].
      destruct (has_rgb colors && negb (has_cmyk colors)); [|contradiction].
      destruct Hin as [<- | []]. discriminate Ht.
    + intros i Hin Ht. apply in_app_or in Hin. destruct Hin as [Hin | []].
      destruct (has_rgb colors && negb (has_cmyk colors)); [|contradiction].
      destruct Hin as [<- | []]. discriminate Ht.
  - rewrite Hf by discriminate. cbn [PrintQualityChecker.is_nil negb andb].
    split; [intros _; apply in_or_app; right; now left|].
    split; [discriminate|].
    intros i Hin Ht. apply in_app_or in Hin. destruct Hin as [Hin | [<- | []]];
      [|reflexivity].
    destruct (has_rgb colors && negb (has_cmyk colors)); [|contradiction].
    destruct Hin as [<- | []]. discriminate Ht.
Qed.

(** X28 (pdf_analyzer.py, [analyze] with [check_all]): when a
    print-quality check is switched on and the analysis succeeds, the
    findings of the record start with everything that the checker of the
    analyzer held before the call: first its issues, followed by the issues
    of this run, then its warnings, followed by the warnings of this run;
    the findings of the issue engine and of the profile come after them. *)
Theorem analysis_returns_what_the_checker_held
        (cfg : Config) (col : PDFAnalyzer.Collaborators) (s : PrintQualityChecker.self)
        (f : Pdf.File) (include_ink : option bool) (profile_id : string)
        (r : PDFAnalyzer.AnalysisResult) :
  PDFAnalyzer.any_check cfg = true ->
  fst (PDFAnalyzer.analyze cfg col s f include_ink profile_id) = PDFAnalyzer.Analysis r ->
  exists run_issues run_warnings rest,
    PDFAnalyzer.issues r
    = PrintQualityChecker.issues s ++ run_issues
      ++ PrintQualityChecker.warnings s ++ run_warnings ++ rest /\
    snd (PDFAnalyzer.analyze cfg col s f include_ink profile_id)
    = {| PrintQualityChecker.issues := PrintQualityChecker.issues s ++ run_issues;
         PrintQualityChecker.warnings := PrintQualityChecker.warnings s ++ run_warnings |}.
Proof.
  intros Hany. unfold PDFAnalyzer.analyze, PDFAnalyzer.analyze_body, Pdf.open.
  destruct (Pdf.readable f) as [doc|]; [|discriminate].
  destruct (PDFAnalyzer._analyze_pages cfg doc) as [pages_info|e]; [|discriminate].
  rewrite Hany.
  destruct (check_all_appends cfg f (Some pages_info)) as (a & li & lw & Hall).
  rewrite (Hall s).
  intros H. exists li, lw.
  destruct include_ink as [[|]|]; [| |destruct (is_ink_analysis_enabled cfg)];
    try (destruct (PDFAnalyzer.ink_calculate col f) as [ink|e]; cbn [Py.bind] in H |- *;
         [|discriminate H]);
    match type of H with
    | context [PDFAnalyzer.check ?p ?r0] => destruct (PDFAnalyzer.check p r0) as [pf|e]
    end;
    try discriminate H;
    cbn [fst] in H; inversion H; subst r; clear H;
    cbn [PDFAnalyzer._add_preflight_issues PDFAnalyzer.set_issues PDFAnalyzer.issues
         PDFAnalyzer._check_issues snd app PrintQualityChecker.issues
         PrintQualityChecker.warnings];
    eexists; (split; [rewrite <- !app_assoc; reflexivity | reflexivity]).
Qed.

(** At the one-page sample file, analysed a second time by the analyzer
    that has analysed it once. *)
Lemma analysis_returns_what_the_checker_held_witness :
  exists r run_issues run_warnings rest,
    fst (PDFAnalyzer.analyze Sample.cfg Sample.col
           (snd (PDFAnalyzer.analyze Sample.cfg Sample.col PrintQualityChecker.__init__
                                     Sample.one_page None "offset"))
           Sample.one_page None "offset") = PDFAnalyzer.Analysis r /\
    PDFAnalyzer.issues r
    = PrintQualityChecker.issues
        (snd (PDFAnalyzer.analyze Sample.cfg Sample.col PrintQualityChecker.__init__
                                  Sample.one_page None "offset"))
      ++ run_issues
      ++ PrintQualityChecker.warnings
           (snd (PDFAnalyzer.analyze Sample.cfg Sample.col PrintQualityChecker.__init__
                                     Sample.one_page None "offset"))
      ++ run_warnings ++ rest.
Proof.
  eexists.
  assert (Hr : fst (PDFAnalyzer.analyze Sample.cfg Sample.col
                      (snd (PDFAnalyzer.analyze Sample.cfg Sample.col
                              PrintQualityChecker.__init__ Sample.one_page None "offset"))
                      Sample.one_page None "offset") = PDFAnalyzer.Analysis _)
    by (vm_compute; reflexivity).
  destruct (analysis_returns_what_the_checker_held
              Sample.cfg Sample.col _ Sample.one_page None "offset" _ eq_refl Hr)
    as (li & lw & rest & H1 & _).
  exists li, lw, rest. split; [exact Hr | exact H1].
Defined.
